(** * pyulog.db: the DatabaseULog persistence layer

    A shallow embedding of [pyulog/db.py]: the content digest
    ([calc_sha256sum]), the schema gate of the constructor, and the
    [save] / [load] / [get_dataset] / [delete] methods over an explicit
    model of the sqlite3 store. *)

From Stdlib.Strings Require Import String Ascii Byte.
From Stdlib Require Import ZArith List Bool Lia Arith.
Import ListNotations.
Open Scope Z_scope.

(** [String] also exports a [length]; lists keep theirs. *)
Abbreviation length := List.length.

Set Implicit Arguments.

(** ** Python exceptions raised by the module *)

Inductive KeyErrorMsg :=
| NoULogWithId (pk : option Z)                  (* load *)
| DatasetNotFound (name : string) (multi : Z)   (* get_dataset *)
| AlreadyInDatabase                             (* save: handle has a primary key *)
| HashAlreadyInDatabase (sha : string) (pk : Z) (* save: digest is known *)
| NotInDatabase                                 (* delete: handle has no primary key *)
| MissingKey (k : string).                      (* plain dict subscript *)

Inductive ValueErrorMsg :=
| MigrationNeeded (db_version schema_version : Z)
| BothPrimaryKeyAndLogFile
| NeitherPrimaryKeyNorLogFile
| WriteAfterLazyLoad
| ChrOutOfRange (n : Z)
| BufferSizeNotMultiple
| OtherValueError.

Inductive Exn :=
| KeyError (m : KeyErrorMsg)
| ValueError (m : ValueErrorMsg)
| FileNotFoundError (path : string)
| TypeError                                     (* subscript of None *)
| OperationalError                              (* sqlite3 refuses a statement *)
| IntegrityError                                (* sqlite3 constraint violated *)
| OverflowError                                 (* an int too large for sqlite3 or for chr *)
| UnicodeEncodeError                            (* a str that UTF-8 cannot encode *)
| ParseError.                                   (* raised by the ULog decoder *)

(** ** hashlib.sha256

    SHA-256 (FIPS 180-4) on 32-bit words kept in [Z]; additions wrap
    modulo 2^32. *)

Module SHA256.

Definition w32 (x : Z) : Z := x mod 4294967296.
Definition add32 (x y : Z) : Z := w32 (x + y).
Definition rotr (n x : Z) : Z :=
  w32 (Z.lor (Z.shiftr x n) (Z.shiftl x (32 - n))).
Definition shr (n x : Z) : Z := Z.shiftr x n.
Definition not32 (x : Z) : Z := 4294967295 - x.

Definition Ch (x y z : Z) : Z := Z.lxor (Z.land x y) (Z.land (not32 x) z).
Definition Maj (x y z : Z) : Z :=
  Z.lxor (Z.lxor (Z.land x y) (Z.land x z)) (Z.land y z).
Definition Sigma0 (x : Z) : Z := Z.lxor (Z.lxor (rotr 2 x) (rotr 13 x)) (rotr 22 x).
Definition Sigma1 (x : Z) : Z := Z.lxor (Z.lxor (rotr 6 x) (rotr 11 x)) (rotr 25 x).
Definition sigma0 (x : Z) : Z := Z.lxor (Z.lxor (rotr 7 x) (rotr 18 x)) (shr 3 x).
Definition sigma1 (x : Z) : Z := Z.lxor (Z.lxor (rotr 17 x) (rotr 19 x)) (shr 10 x).

(** The round constants are the first 32 bits of the fractional parts of
    the cube roots of the first 64 primes, the initial hash value those of
    the square roots of the first 8. *)
Definition is_prime (n : nat) : bool :=
  forallb (fun d => negb (Nat.eqb (n mod d) 0)) (List.seq 2 (n - 2)).

Definition primes : list Z :=
  map Z.of_nat (firstn 64 (filter is_prime (List.seq 2 310))).

(** The integer cube root, one bit at a time from the top. *)
Fixpoint cube_root_bits (bits : nat) (n r : Z) : Z :=
  match bits with
  | O => r
  | S b =>
      let c := r + Z.shiftl 1 (Z.of_nat b) in
      cube_root_bits b n (if c * c * c <=? n then c else r)
  end.

Definition K : list Z :=
  Eval vm_compute in
    map (fun p => w32 (cube_root_bits 36 (Z.shiftl p 96) 0)) primes.

Definition H0 : list Z :=
  Eval vm_compute in
    map (fun p => w32 (Z.sqrt (Z.shiftl p 64))) (firstn 8 primes).

(** Padding: a 1 bit, zeros up to 56 mod 64, the bit length on 8 bytes. *)
Definition be_bytes (n : nat) (x : Z) : list Z :=
  map (fun i => (Z.shiftr x (8 * Z.of_nat i)) mod 256) (rev (seq 0 n)).

Definition pad (msg : list Z) : list Z :=
  let len := Z.of_nat (length msg) in
  let zeros := Z.to_nat ((55 - len) mod 64) in
  msg ++ [128] ++ repeat 0 zeros ++ be_bytes 8 (8 * len).

Fixpoint words (fuel : nat) (bs : list Z) : list Z :=
  match fuel, bs with
  | S f, a :: b :: c :: d :: rest =>
      (Z.shiftl a 24 + Z.shiftl b 16 + Z.shiftl c 8 + d) :: words f rest
  | _, _ => []
  end.

(** The message schedule, kept newest-first while it is extended. *)
Fixpoint schedule (n : nat) (rev_w : list Z) : list Z :=
  match n with
  | O => rev rev_w
  | S n' =>
      let w := add32 (add32 (sigma1 (nth 1 rev_w 0)) (nth 6 rev_w 0))
                     (add32 (sigma0 (nth 14 rev_w 0)) (nth 15 rev_w 0)) in
      schedule n' (w :: rev_w)
  end.

Record regs := { ra : Z; rb : Z; rc : Z; rd : Z; re : Z; rf : Z; rg : Z; rh : Z }.

Definition round (r : regs) (kw : Z * Z) : regs :=
  let t1 := add32 (add32 (add32 (rh r) (Sigma1 (re r))) (Ch (re r) (rf r) (rg r)))
                  (add32 (fst kw) (snd kw)) in
  let t2 := add32 (Sigma0 (ra r)) (Maj (ra r) (rb r) (rc r)) in
  {| ra := add32 t1 t2; rb := ra r; rc := rb r; rd := rc r;
     re := add32 (rd r) t1; rf := re r; rg := rf r; rh := rg r |}.

Definition compress (h : regs) (block : list Z) : regs :=
  let w := schedule 48 (rev (words 16 block)) in
  let r := fold_left round (combine K w) h in
  {| ra := add32 (ra h) (ra r); rb := add32 (rb h) (rb r);
     rc := add32 (rc h) (rc r); rd := add32 (rd h) (rd r);
     re := add32 (re h) (re r); rf := add32 (rf h) (rf r);
     rg := add32 (rg h) (rg r); rh := add32 (rh h) (rh r) |}.

Fixpoint blocks (fuel : nat) (h : regs) (bs : list Z) : regs :=
  match fuel with
  | O => h
  | S f =>
      match bs with
      | [] => h
      | _ => blocks f (compress h (firstn 64 bs)) (skipn 64 bs)
      end
  end.

Definition init : regs :=
  {| ra := nth 0 H0 0; rb := nth 1 H0 0; rc := nth 2 H0 0; rd := nth 3 H0 0;
     re := nth 4 H0 0; rf := nth 5 H0 0; rg := nth 6 H0 0; rh := nth 7 H0 0 |}.

Definition digest_words (msg : list byte) : list Z :=
  let bs := pad (map (fun b => Z.of_N (Byte.to_N b)) msg) in
  let r := blocks (length bs) init bs in
  [ra r; rb r; rc r; rd r; re r; rf r; rg r; rh r].

Definition hex_digit (n : Z) : ascii :=
  nth (Z.to_nat n)
      ["0"; "1"; "2"; "3"; "4"; "5"; "6"; "7"; "8"; "9";
       "a"; "b"; "c"; "d"; "e"; "f"]%char "0"%char.

Definition hex_word (x : Z) : list ascii :=
  map (fun i => hex_digit ((Z.shiftr x (4 * Z.of_nat i)) mod 16)) (rev (seq 0 8)).

Definition hexdigest_of (msg : list byte) : string :=
  string_of_list_ascii (flat_map hex_word (digest_words msg)).

End SHA256.

(** The hash object of [hashlib]: the bytes fed so far; [hexdigest] is the
    digest of their concatenation. *)
Definition sha256_obj := list byte.
Definition sha256_new : sha256_obj := [].
Definition sha256_update (h : sha256_obj) (block : list byte) : sha256_obj := h ++ block.
Definition sha256_hexdigest (h : sha256_obj) : string := SHA256.hexdigest_of h.

(** ** Files and binary streams

    A file system maps a path to the bytes stored there.  A stream opened
    with mode 'rb' carries the path it was opened from, whether it has been
    closed, the read position and the bytes its descriptor sees. *)

Definition FileSystem := string -> option (list byte).

Record BufferedReader := {
  name : string;
  closed : bool;
  pos : nat;
  content : list byte
}.

Inductive log_file_t :=
| PathStr (path : string)
| FileObject (f : BufferedReader).

Definition open_rb (fs : FileSystem) (path : string) : Exn + BufferedReader :=
  match fs path with
  | Some c => inr {| name := path; closed := false; pos := 0; content := c |}
  | None => inl (FileNotFoundError path)
  end.

(** [open_file.read(n)]: at most [n] bytes from the current position, which
    advances by what was read. *)
Definition read (n : nat) (f : BufferedReader) : list byte * BufferedReader :=
  let block := firstn n (skipn (pos f) (content f)) in
  (block, {| name := name f; closed := closed f;
             pos := (pos f + length block)%nat; content := content f |}).

Definition close (f : BufferedReader) : BufferedReader :=
  {| name := name f; closed := true; pos := pos f; content := content f |}.

(** The [while True] loop of [calc_sha256sum]; [None] when the fuel runs out
    before the empty block is read. *)
Fixpoint read_blocks (fuel : nat) (open_file : BufferedReader) (file_hash : sha256_obj)
  : option (sha256_obj * BufferedReader) :=
  match fuel with
  | O => None
  | S fuel' =>
      let (block, open_file') := read 4096 open_file in
      let file_hash' := sha256_update file_hash block in
      match block with
      | [] => Some (file_hash', open_file')
      | _ => read_blocks fuel' open_file' file_hash'
      end
  end.

(** What the file context is: a stream opened here (closed again when the
    [with] block ends) or the caller's own stream behind [nullcontext]. *)
Inductive file_context_t :=
| Opened (f : BufferedReader)
| NullContext (f : BufferedReader).

Definition context_stream (c : file_context_t) : BufferedReader :=
  match c with Opened f => f | NullContext f => f end.

Definition remaining (f : BufferedReader) : nat := (length (content f) - pos f)%nat.

(** [calc_sha256sum]: the digest (or [None] for no file), and the caller's
    stream as the call leaves it. *)
Definition calc_sha256sum (fs : FileSystem) (log_file : option log_file_t)
  : option (Exn + option string) * option log_file_t :=
  match log_file with
  | None => (Some (inr None), log_file)
  | Some lf =>
      let file_context :=
        match lf with
        | PathStr path =>
            match open_rb fs path with inr f => inr (Opened f) | inl e => inl e end
        | FileObject f =>
            if closed f
            then match open_rb fs (name f) with inr f' => inr (Opened f') | inl e => inl e end
            else inr (NullContext f)
        end in
      match file_context with
      | inl e => (Some (inl e), log_file)
      | inr ctx =>
          let open_file := context_stream ctx in
          match read_blocks (S (remaining open_file)) open_file sha256_new with
          | None => (None, log_file)
          | Some (file_hash, open_file') =>
              (Some (inr (Some (sha256_hexdigest file_hash))),
               match ctx with
               | Opened _ => log_file
               | NullContext _ => Some (FileObject open_file')
               end)
          end
      end
  end.

(** ** Python values and dictionaries *)

(** Values stored in untyped columns (info entries, parameters). A float is
    kept by the bit pattern of its IEEE 754 double. *)
Inductive pyvalue :=
| PyInt (z : Z)
| PyFloat (bits : Z)
| PyStr (s : string)
| PyBytes (b : list byte)
| PyNone.

(** Keys of the dictionaries: strings and ints. *)
Class Key (K : Type) := {
  key_eqb : K -> K -> bool;
  key_eqb_eq : forall a b, key_eqb a b = true <-> a = b
}.

#[export] Instance string_Key : Key string :=
  {| key_eqb := String.eqb; key_eqb_eq := String.eqb_eq |}.
#[export] Instance Z_Key : Key Z :=
  {| key_eqb := Z.eqb; key_eqb_eq := Z.eqb_eq |}.

(** A dict keeps its items in insertion order; [d[k] = v] replaces the value
    of a known key where it stands and appends a new key at the end. *)
Definition dict (K V : Type) := list (K * V).

Fixpoint dict_get {K V} `{Key K} (k : K) (d : dict K V) : option V :=
  match d with
  | [] => None
  | (k', v) :: d' => if key_eqb k k' then Some v else dict_get k d'
  end.

Fixpoint dict_set {K V} `{Key K} (k : K) (v : V) (d : dict K V) : dict K V :=
  match d with
  | [] => [(k, v)]
  | (k', v') :: d' =>
      if key_eqb k k' then (k', v) :: d' else (k', v') :: dict_set k v d'
  end.

Definition dict_contains {K V} `{Key K} (k : K) (d : dict K V) : bool :=
  match dict_get k d with Some _ => true | None => false end.

Definition keys {K V} (d : dict K V) : list K := map fst d.

(** ** numpy arrays

    One-dimensional arrays: an element type and the packed buffer. *)
Inductive dtype :=
| int8 | uint8 | int16 | uint16 | int32 | uint32 | int64 | uint64
| float32 | float64.

Definition itemsize (t : dtype) : nat :=
  match t with
  | int8 | uint8 => 1
  | int16 | uint16 => 2
  | int32 | uint32 | float32 => 4
  | int64 | uint64 | float64 => 8
  end%nat.

Record ndarray := { arr_dtype : dtype; arr_buffer : list byte }.

Definition tobytes (a : ndarray) : list byte := arr_buffer a.

(** [np.frombuffer]: the buffer size must be a multiple of the element size. *)
Definition frombuffer (value_bytes : list byte) (t : dtype) : Exn + ndarray :=
  if (length value_bytes mod itemsize t =? 0)%nat
  then inr {| arr_dtype := t; arr_buffer := value_bytes |}
  else inl (ValueError BufferSizeNotMultiple).

(** [chr] and [ord] on code points; a text made of them is their list.
    The argument of [chr] is converted to a C int first, which raises
    [OverflowError]. *)
Definition chr (n : Z) : Exn + Z :=
  if (n <? - 2 ^ 31) || (2 ^ 31 <=? n) then inl OverflowError
  else if (0 <=? n) && (n <? 0x110000) then inr n
  else inl (ValueError (ChrOutOfRange n)).
Definition ord (c : Z) : Z := c.

(** ** The parameters of a statement

    [sqlite3] binds the parameters of a statement when it executes it.  A
    Python int is bound as a signed 64-bit INTEGER, and one that does not
    fit raises [OverflowError]; a str is encoded to UTF-8, which raises
    [UnicodeEncodeError] on a surrogate code point; a float is bound as a
    REAL, and sqlite keeps NaN as NULL, which is read back as [None];
    [None] is NULL; bytes are a BLOB.  The rowids ([cur.lastrowid]) and the
    indices of [enumerate] always fit. *)
Definition sqlite_integer (z : Z) : bool := (- 2 ^ 63 <=? z) && (z <? 2 ^ 63).

Definition surrogate (c : Z) : bool := (0xD800 <=? c) && (c <=? 0xDFFF).

(** NaN by its bit pattern: the eleven bits of the exponent are set and
    the fraction is not zero. *)
Definition isnan (bits : Z) : bool :=
  (Z.land (Z.shiftr bits 52) 2047 =? 2047) && negb (Z.land bits (2 ^ 52 - 1) =? 0).

(** A value that can be bound, and what the column keeps of it. *)
Definition storable (v : pyvalue) : bool :=
  match v with
  | PyInt z => sqlite_integer z
  | _ => true
  end.

Definition kept (v : pyvalue) : pyvalue :=
  match v with
  | PyFloat bits => if isnan bits then PyNone else v
  | _ => v
  end.

(** ** The objects a log is made of *)

Record _FieldData := { field_name : string; type_str : string }.

Module DatabaseData.
Record t := {
  name : string;
  multi_id : Z;
  msg_id : Z;
  timestamp_idx : Z;
  field_data : list _FieldData;
  data : dict string ndarray
}.
End DatabaseData.

Module DatabaseMessageDropout.
Record t := { timestamp : Z; duration : Z }.
End DatabaseMessageDropout.

Module DatabaseMessageFormat.
Record t := { name : string; fields : list (string * Z * string) }.
End DatabaseMessageFormat.

Module DatabaseMessageLogging.
Record t := { log_level : Z; timestamp : Z; message : string }.
End DatabaseMessageLogging.

Module DatabaseMessageLoggingTagged.
Record t := { log_level : Z; tag : Z; timestamp : Z; message : string }.
End DatabaseMessageLoggingTagged.

(** ** The handle

    The attributes of a [DatabaseULog] object: its own ([_pk], [_sha256sum],
    [_lazy_loaded]) and those inherited from [ULog]. *)
Record DatabaseULog := {
  _pk : option Z;
  _sha256sum : string;
  _lazy_loaded : bool;
  _file_version : Z;
  _start_timestamp : Z;
  _last_timestamp : Z;
  _compat_flags : list Z;
  _incompat_flags : list Z;
  _sync_seq_cnt : Z;
  _has_sync : bool;
  _appended_offsets : list Z;
  _data_list : list DatabaseData.t;
  _dropouts : list DatabaseMessageDropout.t;
  _logged_messages : list DatabaseMessageLogging.t;
  _logged_messages_tagged : dict Z (list DatabaseMessageLoggingTagged.t);
  _message_formats : dict string DatabaseMessageFormat.t;
  _msg_info_dict : dict string pyvalue;
  _msg_info_dict_types : dict string string;
  _msg_info_multiple_dict : dict string (list (list pyvalue));
  _msg_info_multiple_dict_types : dict string string;
  _initial_parameters : dict string pyvalue;
  _default_parameters : dict Z (dict string pyvalue);
  _changed_parameters : list (Z * string * pyvalue)
}.

Definition set_pk (v : option Z) (r : DatabaseULog) : DatabaseULog :=
  {| _pk := v; _sha256sum := _sha256sum r; _lazy_loaded := _lazy_loaded r;
     _file_version := _file_version r; _start_timestamp := _start_timestamp r;
     _last_timestamp := _last_timestamp r; _compat_flags := _compat_flags r;
     _incompat_flags := _incompat_flags r; _sync_seq_cnt := _sync_seq_cnt r;
     _has_sync := _has_sync r; _appended_offsets := _appended_offsets r;
     _data_list := _data_list r; _dropouts := _dropouts r;
     _logged_messages := _logged_messages r;
     _logged_messages_tagged := _logged_messages_tagged r;
     _message_formats := _message_formats r; _msg_info_dict := _msg_info_dict r;
     _msg_info_dict_types := _msg_info_dict_types r;
     _msg_info_multiple_dict := _msg_info_multiple_dict r;
     _msg_info_multiple_dict_types := _msg_info_multiple_dict_types r;
     _initial_parameters := _initial_parameters r;
     _default_parameters := _default_parameters r;
     _changed_parameters := _changed_parameters r |}.
Definition set_sha256sum (v : string) (r : DatabaseULog) : DatabaseULog :=
  {| _pk := _pk r; _sha256sum := v; _lazy_loaded := _lazy_loaded r;
     _file_version := _file_version r; _start_timestamp := _start_timestamp r;
     _last_timestamp := _last_timestamp r; _compat_flags := _compat_flags r;
     _incompat_flags := _incompat_flags r; _sync_seq_cnt := _sync_seq_cnt r;
     _has_sync := _has_sync r; _appended_offsets := _appended_offsets r;
     _data_list := _data_list r; _dropouts := _dropouts r;
     _logged_messages := _logged_messages r;
     _logged_messages_tagged := _logged_messages_tagged r;
     _message_formats := _message_formats r; _msg_info_dict := _msg_info_dict r;
     _msg_info_dict_types := _msg_info_dict_types r;
     _msg_info_multiple_dict := _msg_info_multiple_dict r;
     _msg_info_multiple_dict_types := _msg_info_multiple_dict_types r;
     _initial_parameters := _initial_parameters r;
     _default_parameters := _default_parameters r;
     _changed_parameters := _changed_parameters r |}.
Definition set_lazy_loaded (v : bool) (r : DatabaseULog) : DatabaseULog :=
  {| _pk := _pk r; _sha256sum := _sha256sum r; _lazy_loaded := v;
     _file_version := _file_version r; _start_timestamp := _start_timestamp r;
     _last_timestamp := _last_timestamp r; _compat_flags := _compat_flags r;
     _incompat_flags := _incompat_flags r; _sync_seq_cnt := _sync_seq_cnt r;
     _has_sync := _has_sync r; _appended_offsets := _appended_offsets r;
     _data_list := _data_list r; _dropouts := _dropouts r;
     _logged_messages := _logged_messages r;
     _logged_messages_tagged := _logged_messages_tagged r;
     _message_formats := _message_formats r; _msg_info_dict := _msg_info_dict r;
     _msg_info_dict_types := _msg_info_dict_types r;
     _msg_info_multiple_dict := _msg_info_multiple_dict r;
     _msg_info_multiple_dict_types := _msg_info_multiple_dict_types r;
     _initial_parameters := _initial_parameters r;
     _default_parameters := _default_parameters r;
     _changed_parameters := _changed_parameters r |}.
Definition set_file_version (v : Z) (r : DatabaseULog) : DatabaseULog :=
  {| _pk := _pk r; _sha256sum := _sha256sum r; _lazy_loaded := _lazy_loaded r;
     _file_version := v; _start_timestamp := _start_timestamp r;
     _last_timestamp := _last_timestamp r; _compat_flags := _compat_flags r;
     _incompat_flags := _incompat_flags r; _sync_seq_cnt := _sync_seq_cnt r;
     _has_sync := _has_sync r; _appended_offsets := _appended_offsets r;
     _data_list := _data_list r; _dropouts := _dropouts r;
     _logged_messages := _logged_messages r;
     _logged_messages_tagged := _logged_messages_tagged r;
     _message_formats := _message_formats r; _msg_info_dict := _msg_info_dict r;
     _msg_info_dict_types := _msg_info_dict_types r;
     _msg_info_multiple_dict := _msg_info_multiple_dict r;
     _msg_info_multiple_dict_types := _msg_info_multiple_dict_types r;
     _initial_parameters := _initial_parameters r;
     _default_parameters := _default_parameters r;
     _changed_parameters := _changed_parameters r |}.
Definition set_start_timestamp (v : Z) (r : DatabaseULog) : DatabaseULog :=
  {| _pk := _pk r; _sha256sum := _sha256sum r; _lazy_loaded := _lazy_loaded r;
     _file_version := _file_version r; _start_timestamp := v;
     _last_timestamp := _last_timestamp r; _compat_flags := _compat_flags r;
     _incompat_flags := _incompat_flags r; _sync_seq_cnt := _sync_seq_cnt r;
     _has_sync := _has_sync r; _appended_offsets := _appended_offsets r;
     _data_list := _data_list r; _dropouts := _dropouts r;
     _logged_messages := _logged_messages r;
     _logged_messages_tagged := _logged_messages_tagged r;
     _message_formats := _message_formats r; _msg_info_dict := _msg_info_dict r;
     _msg_info_dict_types := _msg_info_dict_types r;
     _msg_info_multiple_dict := _msg_info_multiple_dict r;
     _msg_info_multiple_dict_types := _msg_info_multiple_dict_types r;
     _initial_parameters := _initial_parameters r;
     _default_parameters := _default_parameters r;
     _changed_parameters := _changed_parameters r |}.
Definition set_last_timestamp (v : Z) (r : DatabaseULog) : DatabaseULog :=
  {| _pk := _pk r; _sha256sum := _sha256sum r; _lazy_loaded := _lazy_loaded r;
     _file_version := _file_version r; _start_timestamp := _start_timestamp r;
     _last_timestamp := v; _compat_flags := _compat_flags r;
     _incompat_flags := _incompat_flags r; _sync_seq_cnt := _sync_seq_cnt r;
     _has_sync := _has_sync r; _appended_offsets := _appended_offsets r;
     _data_list := _data_list r; _dropouts := _dropouts r;
     _logged_messages := _logged_messages r;
     _logged_messages_tagged := _logged_messages_tagged r;
     _message_formats := _message_formats r; _msg_info_dict := _msg_info_dict r;
     _msg_info_dict_types := _msg_info_dict_types r;
     _msg_info_multiple_dict := _msg_info_multiple_dict r;
     _msg_info_multiple_dict_types := _msg_info_multiple_dict_types r;
     _initial_parameters := _initial_parameters r;
     _default_parameters := _default_parameters r;
     _changed_parameters := _changed_parameters r |}.
Definition set_compat_flags (v : list Z) (r : DatabaseULog) : DatabaseULog :=
  {| _pk := _pk r; _sha256sum := _sha256sum r; _lazy_loaded := _lazy_loaded r;
     _file_version := _file_version r; _start_timestamp := _start_timestamp r;
     _last_timestamp := _last_timestamp r; _compat_flags := v;
     _incompat_flags := _incompat_flags r; _sync_seq_cnt := _sync_seq_cnt r;
     _has_sync := _has_sync r; _appended_offsets := _appended_offsets r;
     _data_list := _data_list r; _dropouts := _dropouts r;
     _logged_messages := _logged_messages r;
     _logged_messages_tagged := _logged_messages_tagged r;
     _message_formats := _message_formats r; _msg_info_dict := _msg_info_dict r;
     _msg_info_dict_types := _msg_info_dict_types r;
     _msg_info_multiple_dict := _msg_info_multiple_dict r;
     _msg_info_multiple_dict_types := _msg_info_multiple_dict_types r;
     _initial_parameters := _initial_parameters r;
     _default_parameters := _default_parameters r;
     _changed_parameters := _changed_parameters r |}.
Definition set_incompat_flags (v : list Z) (r : DatabaseULog) : DatabaseULog :=
  {| _pk := _pk r; _sha256sum := _sha256sum r; _lazy_loaded := _lazy_loaded r;
     _file_version := _file_version r; _start_timestamp := _start_timestamp r;
     _last_timestamp := _last_timestamp r; _compat_flags := _compat_flags r;
     _incompat_flags := v; _sync_seq_cnt := _sync_seq_cnt r; _has_sync := _has_sync r;
     _appended_offsets := _appended_offsets r; _data_list := _data_list r;
     _dropouts := _dropouts r; _logged_messages := _logged_messages r;
     _logged_messages_tagged := _logged_messages_tagged r;
     _message_formats := _message_formats r; _msg_info_dict := _msg_info_dict r;
     _msg_info_dict_types := _msg_info_dict_types r;
     _msg_info_multiple_dict := _msg_info_multiple_dict r;
     _msg_info_multiple_dict_types := _msg_info_multiple_dict_types r;
     _initial_parameters := _initial_parameters r;
     _default_parameters := _default_parameters r;
     _changed_parameters := _changed_parameters r |}.
Definition set_sync_seq_cnt (v : Z) (r : DatabaseULog) : DatabaseULog :=
  {| _pk := _pk r; _sha256sum := _sha256sum r; _lazy_loaded := _lazy_loaded r;
     _file_version := _file_version r; _start_timestamp := _start_timestamp r;
     _last_timestamp := _last_timestamp r; _compat_flags := _compat_flags r;
     _incompat_flags := _incompat_flags r; _sync_seq_cnt := v; _has_sync := _has_sync r;
     _appended_offsets := _appended_offsets r; _data_list := _data_list r;
     _dropouts := _dropouts r; _logged_messages := _logged_messages r;
     _logged_messages_tagged := _logged_messages_tagged r;
     _message_formats := _message_formats r; _msg_info_dict := _msg_info_dict r;
     _msg_info_dict_types := _msg_info_dict_types r;
     _msg_info_multiple_dict := _msg_info_multiple_dict r;
     _msg_info_multiple_dict_types := _msg_info_multiple_dict_types r;
     _initial_parameters := _initial_parameters r;
     _default_parameters := _default_parameters r;
     _changed_parameters := _changed_parameters r |}.
Definition set_has_sync (v : bool) (r : DatabaseULog) : DatabaseULog :=
  {| _pk := _pk r; _sha256sum := _sha256sum r; _lazy_loaded := _lazy_loaded r;
     _file_version := _file_version r; _start_timestamp := _start_timestamp r;
     _last_timestamp := _last_timestamp r; _compat_flags := _compat_flags r;
     _incompat_flags := _incompat_flags r; _sync_seq_cnt := _sync_seq_cnt r; _has_sync := v;
     _appended_offsets := _appended_offsets r; _data_list := _data_list r;
     _dropouts := _dropouts r; _logged_messages := _logged_messages r;
     _logged_messages_tagged := _logged_messages_tagged r;
     _message_formats := _message_formats r; _msg_info_dict := _msg_info_dict r;
     _msg_info_dict_types := _msg_info_dict_types r;
     _msg_info_multiple_dict := _msg_info_multiple_dict r;
     _msg_info_multiple_dict_types := _msg_info_multiple_dict_types r;
     _initial_parameters := _initial_parameters r;
     _default_parameters := _default_parameters r;
     _changed_parameters := _changed_parameters r |}.
Definition set_appended_offsets (v : list Z) (r : DatabaseULog) : DatabaseULog :=
  {| _pk := _pk r; _sha256sum := _sha256sum r; _lazy_loaded := _lazy_loaded r;
     _file_version := _file_version r; _start_timestamp := _start_timestamp r;
     _last_timestamp := _last_timestamp r; _compat_flags := _compat_flags r;
     _incompat_flags := _incompat_flags r; _sync_seq_cnt := _sync_seq_cnt r;
     _has_sync := _has_sync r; _appended_offsets := v; _data_list := _data_list r;
     _dropouts := _dropouts r; _logged_messages := _logged_messages r;
     _logged_messages_tagged := _logged_messages_tagged r;
     _message_formats := _message_formats r; _msg_info_dict := _msg_info_dict r;
     _msg_info_dict_types := _msg_info_dict_types r;
     _msg_info_multiple_dict := _msg_info_multiple_dict r;
     _msg_info_multiple_dict_types := _msg_info_multiple_dict_types r;
     _initial_parameters := _initial_parameters r;
     _default_parameters := _default_parameters r;
     _changed_parameters := _changed_parameters r |}.
Definition set_data_list (v : list DatabaseData.t) (r : DatabaseULog) : DatabaseULog :=
  {| _pk := _pk r; _sha256sum := _sha256sum r; _lazy_loaded := _lazy_loaded r;
     _file_version := _file_version r; _start_timestamp := _start_timestamp r;
     _last_timestamp := _last_timestamp r; _compat_flags := _compat_flags r;
     _incompat_flags := _incompat_flags r; _sync_seq_cnt := _sync_seq_cnt r;
     _has_sync := _has_sync r; _appended_offsets := _appended_offsets r; _data_list := v;
     _dropouts := _dropouts r; _logged_messages := _logged_messages r;
     _logged_messages_tagged := _logged_messages_tagged r;
     _message_formats := _message_formats r; _msg_info_dict := _msg_info_dict r;
     _msg_info_dict_types := _msg_info_dict_types r;
     _msg_info_multiple_dict := _msg_info_multiple_dict r;
     _msg_info_multiple_dict_types := _msg_info_multiple_dict_types r;
     _initial_parameters := _initial_parameters r;
     _default_parameters := _default_parameters r;
     _changed_parameters := _changed_parameters r |}.
Definition set_dropouts (v : list DatabaseMessageDropout.t) (r : DatabaseULog) : DatabaseULog :=
  {| _pk := _pk r; _sha256sum := _sha256sum r; _lazy_loaded := _lazy_loaded r;
     _file_version := _file_version r; _start_timestamp := _start_timestamp r;
     _last_timestamp := _last_timestamp r; _compat_flags := _compat_flags r;
     _incompat_flags := _incompat_flags r; _sync_seq_cnt := _sync_seq_cnt r;
     _has_sync := _has_sync r; _appended_offsets := _appended_offsets r;
     _data_list := _data_list r; _dropouts := v; _logged_messages := _logged_messages r;
     _logged_messages_tagged := _logged_messages_tagged r;
     _message_formats := _message_formats r; _msg_info_dict := _msg_info_dict r;
     _msg_info_dict_types := _msg_info_dict_types r;
     _msg_info_multiple_dict := _msg_info_multiple_dict r;
     _msg_info_multiple_dict_types := _msg_info_multiple_dict_types r;
     _initial_parameters := _initial_parameters r;
     _default_parameters := _default_parameters r;
     _changed_parameters := _changed_parameters r |}.
Definition set_logged_messages (v : list DatabaseMessageLogging.t) (r : DatabaseULog) : DatabaseULog :=
  {| _pk := _pk r; _sha256sum := _sha256sum r; _lazy_loaded := _lazy_loaded r;
     _file_version := _file_version r; _start_timestamp := _start_timestamp r;
     _last_timestamp := _last_timestamp r; _compat_flags := _compat_flags r;
     _incompat_flags := _incompat_flags r; _sync_seq_cnt := _sync_seq_cnt r;
     _has_sync := _has_sync r; _appended_offsets := _appended_offsets r;
     _data_list := _data_list r; _dropouts := _dropouts r; _logged_messages := v;
     _logged_messages_tagged := _logged_messages_tagged r;
     _message_formats := _message_formats r; _msg_info_dict := _msg_info_dict r;
     _msg_info_dict_types := _msg_info_dict_types r;
     _msg_info_multiple_dict := _msg_info_multiple_dict r;
     _msg_info_multiple_dict_types := _msg_info_multiple_dict_types r;
     _initial_parameters := _initial_parameters r;
     _default_parameters := _default_parameters r;
     _changed_parameters := _changed_parameters r |}.
Definition set_logged_messages_tagged (v : dict Z (list DatabaseMessageLoggingTagged.t)) (r : DatabaseULog) : DatabaseULog :=
  {| _pk := _pk r; _sha256sum := _sha256sum r; _lazy_loaded := _lazy_loaded r;
     _file_version := _file_version r; _start_timestamp := _start_timestamp r;
     _last_timestamp := _last_timestamp r; _compat_flags := _compat_flags r;
     _incompat_flags := _incompat_flags r; _sync_seq_cnt := _sync_seq_cnt r;
     _has_sync := _has_sync r; _appended_offsets := _appended_offsets r;
     _data_list := _data_list r; _dropouts := _dropouts r;
     _logged_messages := _logged_messages r; _logged_messages_tagged := v;
     _message_formats := _message_formats r; _msg_info_dict := _msg_info_dict r;
     _msg_info_dict_types := _msg_info_dict_types r;
     _msg_info_multiple_dict := _msg_info_multiple_dict r;
     _msg_info_multiple_dict_types := _msg_info_multiple_dict_types r;
     _initial_parameters := _initial_parameters r;
     _default_parameters := _default_parameters r;
     _changed_parameters := _changed_parameters r |}.
Definition set_message_formats (v : dict string DatabaseMessageFormat.t) (r : DatabaseULog) : DatabaseULog :=
  {| _pk := _pk r; _sha256sum := _sha256sum r; _lazy_loaded := _lazy_loaded r;
     _file_version := _file_version r; _start_timestamp := _start_timestamp r;
     _last_timestamp := _last_timestamp r; _compat_flags := _compat_flags r;
     _incompat_flags := _incompat_flags r; _sync_seq_cnt := _sync_seq_cnt r;
     _has_sync := _has_sync r; _appended_offsets := _appended_offsets r;
     _data_list := _data_list r; _dropouts := _dropouts r;
     _logged_messages := _logged_messages r;
     _logged_messages_tagged := _logged_messages_tagged r; _message_formats := v;
     _msg_info_dict := _msg_info_dict r; _msg_info_dict_types := _msg_info_dict_types r;
     _msg_info_multiple_dict := _msg_info_multiple_dict r;
     _msg_info_multiple_dict_types := _msg_info_multiple_dict_types r;
     _initial_parameters := _initial_parameters r;
     _default_parameters := _default_parameters r;
     _changed_parameters := _changed_parameters r |}.
Definition set_msg_info_dict (v : dict string pyvalue) (r : DatabaseULog) : DatabaseULog :=
  {| _pk := _pk r; _sha256sum := _sha256sum r; _lazy_loaded := _lazy_loaded r;
     _file_version := _file_version r; _start_timestamp := _start_timestamp r;
     _last_timestamp := _last_timestamp r; _compat_flags := _compat_flags r;
     _incompat_flags := _incompat_flags r; _sync_seq_cnt := _sync_seq_cnt r;
     _has_sync := _has_sync r; _appended_offsets := _appended_offsets r;
     _data_list := _data_list r; _dropouts := _dropouts r;
     _logged_messages := _logged_messages r;
     _logged_messages_tagged := _logged_messages_tagged r;
     _message_formats := _message_formats r; _msg_info_dict := v;
     _msg_info_dict_types := _msg_info_dict_types r;
     _msg_info_multiple_dict := _msg_info_multiple_dict r;
     _msg_info_multiple_dict_types := _msg_info_multiple_dict_types r;
     _initial_parameters := _initial_parameters r;
     _default_parameters := _default_parameters r;
     _changed_parameters := _changed_parameters r |}.
Definition set_msg_info_dict_types (v : dict string string) (r : DatabaseULog) : DatabaseULog :=
  {| _pk := _pk r; _sha256sum := _sha256sum r; _lazy_loaded := _lazy_loaded r;
     _file_version := _file_version r; _start_timestamp := _start_timestamp r;
     _last_timestamp := _last_timestamp r; _compat_flags := _compat_flags r;
     _incompat_flags := _incompat_flags r; _sync_seq_cnt := _sync_seq_cnt r;
     _has_sync := _has_sync r; _appended_offsets := _appended_offsets r;
     _data_list := _data_list r; _dropouts := _dropouts r;
     _logged_messages := _logged_messages r;
     _logged_messages_tagged := _logged_messages_tagged r;
     _message_formats := _message_formats r; _msg_info_dict := _msg_info_dict r;
     _msg_info_dict_types := v; _msg_info_multiple_dict := _msg_info_multiple_dict r;
     _msg_info_multiple_dict_types := _msg_info_multiple_dict_types r;
     _initial_parameters := _initial_parameters r;
     _default_parameters := _default_parameters r;
     _changed_parameters := _changed_parameters r |}.
Definition set_msg_info_multiple_dict (v : dict string (list (list pyvalue))) (r : DatabaseULog) : DatabaseULog :=
  {| _pk := _pk r; _sha256sum := _sha256sum r; _lazy_loaded := _lazy_loaded r;
     _file_version := _file_version r; _start_timestamp := _start_timestamp r;
     _last_timestamp := _last_timestamp r; _compat_flags := _compat_flags r;
     _incompat_flags := _incompat_flags r; _sync_seq_cnt := _sync_seq_cnt r;
     _has_sync := _has_sync r; _appended_offsets := _appended_offsets r;
     _data_list := _data_list r; _dropouts := _dropouts r;
     _logged_messages := _logged_messages r;
     _logged_messages_tagged := _logged_messages_tagged r;
     _message_formats := _message_formats r; _msg_info_dict := _msg_info_dict r;
     _msg_info_dict_types := _msg_info_dict_types r; _msg_info_multiple_dict := v;
     _msg_info_multiple_dict_types := _msg_info_multiple_dict_types r;
     _initial_parameters := _initial_parameters r;
     _default_parameters := _default_parameters r;
     _changed_parameters := _changed_parameters r |}.
Definition set_msg_info_multiple_dict_types (v : dict string string) (r : DatabaseULog) : DatabaseULog :=
  {| _pk := _pk r; _sha256sum := _sha256sum r; _lazy_loaded := _lazy_loaded r;
     _file_version := _file_version r; _start_timestamp := _start_timestamp r;
     _last_timestamp := _last_timestamp r; _compat_flags := _compat_flags r;
     _incompat_flags := _incompat_flags r; _sync_seq_cnt := _sync_seq_cnt r;
     _has_sync := _has_sync r; _appended_offsets := _appended_offsets r;
     _data_list := _data_list r; _dropouts := _dropouts r;
     _logged_messages := _logged_messages r;
     _logged_messages_tagged := _logged_messages_tagged r;
     _message_formats := _message_formats r; _msg_info_dict := _msg_info_dict r;
     _msg_info_dict_types := _msg_info_dict_types r;
     _msg_info_multiple_dict := _msg_info_multiple_dict r; _msg_info_multiple_dict_types := v;
     _initial_parameters := _initial_parameters r;
     _default_parameters := _default_parameters r;
     _changed_parameters := _changed_parameters r |}.
Definition set_initial_parameters (v : dict string pyvalue) (r : DatabaseULog) : DatabaseULog :=
  {| _pk := _pk r; _sha256sum := _sha256sum r; _lazy_loaded := _lazy_loaded r;
     _file_version := _file_version r; _start_timestamp := _start_timestamp r;
     _last_timestamp := _last_timestamp r; _compat_flags := _compat_flags r;
     _incompat_flags := _incompat_flags r; _sync_seq_cnt := _sync_seq_cnt r;
     _has_sync := _has_sync r; _appended_offsets := _appended_offsets r;
     _data_list := _data_list r; _dropouts := _dropouts r;
     _logged_messages := _logged_messages r;
     _logged_messages_tagged := _logged_messages_tagged r;
     _message_formats := _message_formats r; _msg_info_dict := _msg_info_dict r;
     _msg_info_dict_types := _msg_info_dict_types r;
     _msg_info_multiple_dict := _msg_info_multiple_dict r;
     _msg_info_multiple_dict_types := _msg_info_multiple_dict_types r;
     _initial_parameters := v; _default_parameters := _default_parameters r;
     _changed_parameters := _changed_parameters r |}.
Definition set_default_parameters (v : dict Z (dict string pyvalue)) (r : DatabaseULog) : DatabaseULog :=
  {| _pk := _pk r; _sha256sum := _sha256sum r; _lazy_loaded := _lazy_loaded r;
     _file_version := _file_version r; _start_timestamp := _start_timestamp r;
     _last_timestamp := _last_timestamp r; _compat_flags := _compat_flags r;
     _incompat_flags := _incompat_flags r; _sync_seq_cnt := _sync_seq_cnt r;
     _has_sync := _has_sync r; _appended_offsets := _appended_offsets r;
     _data_list := _data_list r; _dropouts := _dropouts r;
     _logged_messages := _logged_messages r;
     _logged_messages_tagged := _logged_messages_tagged r;
     _message_formats := _message_formats r; _msg_info_dict := _msg_info_dict r;
     _msg_info_dict_types := _msg_info_dict_types r;
     _msg_info_multiple_dict := _msg_info_multiple_dict r;
     _msg_info_multiple_dict_types := _msg_info_multiple_dict_types r;
     _initial_parameters := _initial_parameters r; _default_parameters := v;
     _changed_parameters := _changed_parameters r |}.
Definition set_changed_parameters (v : list (Z * string * pyvalue)) (r : DatabaseULog) : DatabaseULog :=
  {| _pk := _pk r; _sha256sum := _sha256sum r; _lazy_loaded := _lazy_loaded r;
     _file_version := _file_version r; _start_timestamp := _start_timestamp r;
     _last_timestamp := _last_timestamp r; _compat_flags := _compat_flags r;
     _incompat_flags := _incompat_flags r; _sync_seq_cnt := _sync_seq_cnt r;
     _has_sync := _has_sync r; _appended_offsets := _appended_offsets r;
     _data_list := _data_list r; _dropouts := _dropouts r;
     _logged_messages := _logged_messages r;
     _logged_messages_tagged := _logged_messages_tagged r;
     _message_formats := _message_formats r; _msg_info_dict := _msg_info_dict r;
     _msg_info_dict_types := _msg_info_dict_types r;
     _msg_info_multiple_dict := _msg_info_multiple_dict r;
     _msg_info_multiple_dict_types := _msg_info_multiple_dict_types r;
     _initial_parameters := _initial_parameters r;
     _default_parameters := _default_parameters r; _changed_parameters := v |}.

(** ** The store

    One row type per table, with the columns the statements of the module
    name.  A table is the list of its rows in insertion order.  [bound]
    takes the parameters of an INSERT, as a row, to the row the table
    receives or to the exception that binding them raises. *)

Module ULog.
Record row := { Id : Z; FileVersion : Z; StartTimestamp : Z; LastTimestamp : Z; CompatFlags : list Z; IncompatFlags : list Z; SyncCount : Z; HasSync : bool; SHA256Sum : string }.

(** The parameters in the order of the statement: three ints, the two
    texts, one more int; the boolean and the digest always bind. *)
Definition bound (r : row) : Exn + row :=
  if negb (forallb sqlite_integer [FileVersion r; StartTimestamp r; LastTimestamp r])
  then inl OverflowError
  else if existsb surrogate (CompatFlags r ++ IncompatFlags r) then inl UnicodeEncodeError
  else if sqlite_integer (SyncCount r) then inr r
  else inl OverflowError.
End ULog.

Module ULogAppendedOffsets.
Record row := { SeriesIndex : Z; Offset : Z; ULogId : Z }.

Definition bindable (r : row) : bool := sqlite_integer (Offset r).
Definition bound (r : row) : Exn + row :=
  if bindable r then inr r else inl OverflowError.
End ULogAppendedOffsets.

Module ULogDataset.
Record row := { Id : Z; DatasetName : string; MultiId : Z; MessageId : Z; TimestampIndex : Z; ULogId : Z }.

Definition bindable (r : row) : bool :=
  forallb sqlite_integer [MultiId r; MessageId r; TimestampIndex r].
Definition bound (r : row) : Exn + row :=
  if bindable r then inr r else inl OverflowError.
End ULogDataset.

Module ULogField.
Record row := { TopicName : string; DataType : string; ValueArray : list byte; ValueJson : option string; DatasetId : Z }.

(** Two texts, the bytes, the JSON text or [None], and a rowid. *)
Definition bound (r : row) : Exn + row := inr r.
End ULogField.

Module ULogMessageDropout.
Record row := { Timestamp : Z; Duration : Z; ULogId : Z }.

Definition bindable (r : row) : bool := forallb sqlite_integer [Timestamp r; Duration r].
Definition bound (r : row) : Exn + row :=
  if bindable r then inr r else inl OverflowError.
End ULogMessageDropout.

Module ULogMessageLogging.
Record row := { LogLevel : Z; Timestamp : Z; Message : string; ULogId : Z }.

Definition bindable (r : row) : bool := forallb sqlite_integer [LogLevel r; Timestamp r].
Definition bound (r : row) : Exn + row :=
  if bindable r then inr r else inl OverflowError.
End ULogMessageLogging.

Module ULogMessageLoggingTagged.
Record row := { LogLevel : Z; Timestamp : Z; Tag : Z; Message : string; ULogId : Z }.

Definition bindable (r : row) : bool :=
  forallb sqlite_integer [LogLevel r; Timestamp r; Tag r].
Definition bound (r : row) : Exn + row :=
  if bindable r then inr r else inl OverflowError.
End ULogMessageLoggingTagged.

Module ULogMessageFormat.
Record row := { Id : Z; Name : string; ULogId : Z }.

Definition bound (r : row) : Exn + row := inr r.
End ULogMessageFormat.

Module ULogMessageFormatField.
Record row := { FieldType : string; ArraySize : Z; Name : string; MessageId : Z }.

Definition bindable (r : row) : bool := sqlite_integer (ArraySize r).
Definition bound (r : row) : Exn + row :=
  if bindable r then inr r else inl OverflowError.
End ULogMessageFormatField.

Module ULogMessageInfo.
Record row := { Key : string; Value : pyvalue; Typename : string; ULogId : Z }.

Definition bindable (r : row) : bool := storable (Value r).
Definition as_kept (r : row) : row :=
  {| Key := Key r; Value := kept (Value r); Typename := Typename r; ULogId := ULogId r |}.
Definition bound (r : row) : Exn + row :=
  if bindable r then inr (as_kept r) else inl OverflowError.
End ULogMessageInfo.

Module ULogMessageInfoMultiple.
Record row := { Id : Z; Key : string; Typename : string; ULogId : Z }.

Definition bound (r : row) : Exn + row := inr r.
End ULogMessageInfoMultiple.

Module ULogMessageInfoMultipleList.
Record row := { Id : Z; SeriesIndex : Z; MessageId : Z }.

Definition bound (r : row) : Exn + row := inr r.
End ULogMessageInfoMultipleList.

Module ULogMessageInfoMultipleListElement.
Record row := { SeriesIndex : Z; Value : pyvalue; ListId : Z }.

Definition bindable (r : row) : bool := storable (Value r).
Definition as_kept (r : row) : row :=
  {| SeriesIndex := SeriesIndex r; Value := kept (Value r); ListId := ListId r |}.
Definition bound (r : row) : Exn + row :=
  if bindable r then inr (as_kept r) else inl OverflowError.
End ULogMessageInfoMultipleListElement.

Module ULogInitialParameter.
Record row := { Key : string; Value : pyvalue; ULogId : Z }.

Definition bindable (r : row) : bool := storable (Value r).
Definition as_kept (r : row) : row :=
  {| Key := Key r; Value := kept (Value r); ULogId := ULogId r |}.
Definition bound (r : row) : Exn + row :=
  if bindable r then inr (as_kept r) else inl OverflowError.
End ULogInitialParameter.

Module ULogDefaultParameter.
Record row := { DefaultType : Z; Key : string; Value : pyvalue; ULogId : Z }.

Definition bindable (r : row) : bool := sqlite_integer (DefaultType r) && storable (Value r).
Definition as_kept (r : row) : row :=
  {| DefaultType := DefaultType r; Key := Key r; Value := kept (Value r);
     ULogId := ULogId r |}.
Definition bound (r : row) : Exn + row :=
  if bindable r then inr (as_kept r) else inl OverflowError.
End ULogDefaultParameter.

Module ULogChangedParameter.
Record row := { Timestamp : Z; Key : string; Value : pyvalue; ULogId : Z }.

Definition bindable (r : row) : bool := sqlite_integer (Timestamp r) && storable (Value r).
Definition as_kept (r : row) : row :=
  {| Timestamp := Timestamp r; Key := Key r; Value := kept (Value r); ULogId := ULogId r |}.
Definition bound (r : row) : Exn + row :=
  if bindable r then inr (as_kept r) else inl OverflowError.
End ULogChangedParameter.

Inductive Table :=
| T_ULog
| T_ULogAppendedOffsets
| T_ULogDataset
| T_ULogField
| T_ULogMessageDropout
| T_ULogMessageLogging
| T_ULogMessageLoggingTagged
| T_ULogMessageFormat
| T_ULogMessageFormatField
| T_ULogMessageInfo
| T_ULogMessageInfoMultiple
| T_ULogMessageInfoMultipleList
| T_ULogMessageInfoMultipleListElement
| T_ULogInitialParameter
| T_ULogDefaultParameter
| T_ULogChangedParameter.

(** The database file: [PRAGMA user_version] and the tables. *)
Record Store := {
  user_version : Z;
  ULog_rows : list ULog.row;
  ULogAppendedOffsets_rows : list ULogAppendedOffsets.row;
  ULogDataset_rows : list ULogDataset.row;
  ULogField_rows : list ULogField.row;
  ULogMessageDropout_rows : list ULogMessageDropout.row;
  ULogMessageLogging_rows : list ULogMessageLogging.row;
  ULogMessageLoggingTagged_rows : list ULogMessageLoggingTagged.row;
  ULogMessageFormat_rows : list ULogMessageFormat.row;
  ULogMessageFormatField_rows : list ULogMessageFormatField.row;
  ULogMessageInfo_rows : list ULogMessageInfo.row;
  ULogMessageInfoMultiple_rows : list ULogMessageInfoMultiple.row;
  ULogMessageInfoMultipleList_rows : list ULogMessageInfoMultipleList.row;
  ULogMessageInfoMultipleListElement_rows : list ULogMessageInfoMultipleListElement.row;
  ULogInitialParameter_rows : list ULogInitialParameter.row;
  ULogDefaultParameter_rows : list ULogDefaultParameter.row;
  ULogChangedParameter_rows : list ULogChangedParameter.row
}.

Definition with_user_version (v : Z) (r : Store) : Store :=
  {| user_version := v; ULog_rows := ULog_rows r;
     ULogAppendedOffsets_rows := ULogAppendedOffsets_rows r;
     ULogDataset_rows := ULogDataset_rows r; ULogField_rows := ULogField_rows r;
     ULogMessageDropout_rows := ULogMessageDropout_rows r;
     ULogMessageLogging_rows := ULogMessageLogging_rows r;
     ULogMessageLoggingTagged_rows := ULogMessageLoggingTagged_rows r;
     ULogMessageFormat_rows := ULogMessageFormat_rows r;
     ULogMessageFormatField_rows := ULogMessageFormatField_rows r;
     ULogMessageInfo_rows := ULogMessageInfo_rows r;
     ULogMessageInfoMultiple_rows := ULogMessageInfoMultiple_rows r;
     ULogMessageInfoMultipleList_rows := ULogMessageInfoMultipleList_rows r;
     ULogMessageInfoMultipleListElement_rows := ULogMessageInfoMultipleListElement_rows r;
     ULogInitialParameter_rows := ULogInitialParameter_rows r;
     ULogDefaultParameter_rows := ULogDefaultParameter_rows r;
     ULogChangedParameter_rows := ULogChangedParameter_rows r |}.
Definition with_ULog_rows (v : list ULog.row) (r : Store) : Store :=
  {| user_version := user_version r; ULog_rows := v;
     ULogAppendedOffsets_rows := ULogAppendedOffsets_rows r;
     ULogDataset_rows := ULogDataset_rows r; ULogField_rows := ULogField_rows r;
     ULogMessageDropout_rows := ULogMessageDropout_rows r;
     ULogMessageLogging_rows := ULogMessageLogging_rows r;
     ULogMessageLoggingTagged_rows := ULogMessageLoggingTagged_rows r;
     ULogMessageFormat_rows := ULogMessageFormat_rows r;
     ULogMessageFormatField_rows := ULogMessageFormatField_rows r;
     ULogMessageInfo_rows := ULogMessageInfo_rows r;
     ULogMessageInfoMultiple_rows := ULogMessageInfoMultiple_rows r;
     ULogMessageInfoMultipleList_rows := ULogMessageInfoMultipleList_rows r;
     ULogMessageInfoMultipleListElement_rows := ULogMessageInfoMultipleListElement_rows r;
     ULogInitialParameter_rows := ULogInitialParameter_rows r;
     ULogDefaultParameter_rows := ULogDefaultParameter_rows r;
     ULogChangedParameter_rows := ULogChangedParameter_rows r |}.
Definition with_ULogAppendedOffsets_rows (v : list ULogAppendedOffsets.row) (r : Store) : Store :=
  {| user_version := user_version r; ULog_rows := ULog_rows r; ULogAppendedOffsets_rows := v;
     ULogDataset_rows := ULogDataset_rows r; ULogField_rows := ULogField_rows r;
     ULogMessageDropout_rows := ULogMessageDropout_rows r;
     ULogMessageLogging_rows := ULogMessageLogging_rows r;
     ULogMessageLoggingTagged_rows := ULogMessageLoggingTagged_rows r;
     ULogMessageFormat_rows := ULogMessageFormat_rows r;
     ULogMessageFormatField_rows := ULogMessageFormatField_rows r;
     ULogMessageInfo_rows := ULogMessageInfo_rows r;
     ULogMessageInfoMultiple_rows := ULogMessageInfoMultiple_rows r;
     ULogMessageInfoMultipleList_rows := ULogMessageInfoMultipleList_rows r;
     ULogMessageInfoMultipleListElement_rows := ULogMessageInfoMultipleListElement_rows r;
     ULogInitialParameter_rows := ULogInitialParameter_rows r;
     ULogDefaultParameter_rows := ULogDefaultParameter_rows r;
     ULogChangedParameter_rows := ULogChangedParameter_rows r |}.
Definition with_ULogDataset_rows (v : list ULogDataset.row) (r : Store) : Store :=
  {| user_version := user_version r; ULog_rows := ULog_rows r;
     ULogAppendedOffsets_rows := ULogAppendedOffsets_rows r; ULogDataset_rows := v;
     ULogField_rows := ULogField_rows r; ULogMessageDropout_rows := ULogMessageDropout_rows r;
     ULogMessageLogging_rows := ULogMessageLogging_rows r;
     ULogMessageLoggingTagged_rows := ULogMessageLoggingTagged_rows r;
     ULogMessageFormat_rows := ULogMessageFormat_rows r;
     ULogMessageFormatField_rows := ULogMessageFormatField_rows r;
     ULogMessageInfo_rows := ULogMessageInfo_rows r;
     ULogMessageInfoMultiple_rows := ULogMessageInfoMultiple_rows r;
     ULogMessageInfoMultipleList_rows := ULogMessageInfoMultipleList_rows r;
     ULogMessageInfoMultipleListElement_rows := ULogMessageInfoMultipleListElement_rows r;
     ULogInitialParameter_rows := ULogInitialParameter_rows r;
     ULogDefaultParameter_rows := ULogDefaultParameter_rows r;
     ULogChangedParameter_rows := ULogChangedParameter_rows r |}.
Definition with_ULogField_rows (v : list ULogField.row) (r : Store) : Store :=
  {| user_version := user_version r; ULog_rows := ULog_rows r;
     ULogAppendedOffsets_rows := ULogAppendedOffsets_rows r;
     ULogDataset_rows := ULogDataset_rows r; ULogField_rows := v;
     ULogMessageDropout_rows := ULogMessageDropout_rows r;
     ULogMessageLogging_rows := ULogMessageLogging_rows r;
     ULogMessageLoggingTagged_rows := ULogMessageLoggingTagged_rows r;
     ULogMessageFormat_rows := ULogMessageFormat_rows r;
     ULogMessageFormatField_rows := ULogMessageFormatField_rows r;
     ULogMessageInfo_rows := ULogMessageInfo_rows r;
     ULogMessageInfoMultiple_rows := ULogMessageInfoMultiple_rows r;
     ULogMessageInfoMultipleList_rows := ULogMessageInfoMultipleList_rows r;
     ULogMessageInfoMultipleListElement_rows := ULogMessageInfoMultipleListElement_rows r;
     ULogInitialParameter_rows := ULogInitialParameter_rows r;
     ULogDefaultParameter_rows := ULogDefaultParameter_rows r;
     ULogChangedParameter_rows := ULogChangedParameter_rows r |}.
Definition with_ULogMessageDropout_rows (v : list ULogMessageDropout.row) (r : Store) : Store :=
  {| user_version := user_version r; ULog_rows := ULog_rows r;
     ULogAppendedOffsets_rows := ULogAppendedOffsets_rows r;
     ULogDataset_rows := ULogDataset_rows r; ULogField_rows := ULogField_rows r;
     ULogMessageDropout_rows := v; ULogMessageLogging_rows := ULogMessageLogging_rows r;
     ULogMessageLoggingTagged_rows := ULogMessageLoggingTagged_rows r;
     ULogMessageFormat_rows := ULogMessageFormat_rows r;
     ULogMessageFormatField_rows := ULogMessageFormatField_rows r;
     ULogMessageInfo_rows := ULogMessageInfo_rows r;
     ULogMessageInfoMultiple_rows := ULogMessageInfoMultiple_rows r;
     ULogMessageInfoMultipleList_rows := ULogMessageInfoMultipleList_rows r;
     ULogMessageInfoMultipleListElement_rows := ULogMessageInfoMultipleListElement_rows r;
     ULogInitialParameter_rows := ULogInitialParameter_rows r;
     ULogDefaultParameter_rows := ULogDefaultParameter_rows r;
     ULogChangedParameter_rows := ULogChangedParameter_rows r |}.
Definition with_ULogMessageLogging_rows (v : list ULogMessageLogging.row) (r : Store) : Store :=
  {| user_version := user_version r; ULog_rows := ULog_rows r;
     ULogAppendedOffsets_rows := ULogAppendedOffsets_rows r;
     ULogDataset_rows := ULogDataset_rows r; ULogField_rows := ULogField_rows r;
     ULogMessageDropout_rows := ULogMessageDropout_rows r; ULogMessageLogging_rows := v;
     ULogMessageLoggingTagged_rows := ULogMessageLoggingTagged_rows r;
     ULogMessageFormat_rows := ULogMessageFormat_rows r;
     ULogMessageFormatField_rows := ULogMessageFormatField_rows r;
     ULogMessageInfo_rows := ULogMessageInfo_rows r;
     ULogMessageInfoMultiple_rows := ULogMessageInfoMultiple_rows r;
     ULogMessageInfoMultipleList_rows := ULogMessageInfoMultipleList_rows r;
     ULogMessageInfoMultipleListElement_rows := ULogMessageInfoMultipleListElement_rows r;
     ULogInitialParameter_rows := ULogInitialParameter_rows r;
     ULogDefaultParameter_rows := ULogDefaultParameter_rows r;
     ULogChangedParameter_rows := ULogChangedParameter_rows r |}.
Definition with_ULogMessageLoggingTagged_rows (v : list ULogMessageLoggingTagged.row) (r : Store) : Store :=
  {| user_version := user_version r; ULog_rows := ULog_rows r;
     ULogAppendedOffsets_rows := ULogAppendedOffsets_rows r;
     ULogDataset_rows := ULogDataset_rows r; ULogField_rows := ULogField_rows r;
     ULogMessageDropout_rows := ULogMessageDropout_rows r;
     ULogMessageLogging_rows := ULogMessageLogging_rows r; ULogMessageLoggingTagged_rows := v;
     ULogMessageFormat_rows := ULogMessageFormat_rows r;
     ULogMessageFormatField_rows := ULogMessageFormatField_rows r;
     ULogMessageInfo_rows := ULogMessageInfo_rows r;
     ULogMessageInfoMultiple_rows := ULogMessageInfoMultiple_rows r;
     ULogMessageInfoMultipleList_rows := ULogMessageInfoMultipleList_rows r;
     ULogMessageInfoMultipleListElement_rows := ULogMessageInfoMultipleListElement_rows r;
     ULogInitialParameter_rows := ULogInitialParameter_rows r;
     ULogDefaultParameter_rows := ULogDefaultParameter_rows r;
     ULogChangedParameter_rows := ULogChangedParameter_rows r |}.
Definition with_ULogMessageFormat_rows (v : list ULogMessageFormat.row) (r : Store) : Store :=
  {| user_version := user_version r; ULog_rows := ULog_rows r;
     ULogAppendedOffsets_rows := ULogAppendedOffsets_rows r;
     ULogDataset_rows := ULogDataset_rows r; ULogField_rows := ULogField_rows r;
     ULogMessageDropout_rows := ULogMessageDropout_rows r;
     ULogMessageLogging_rows := ULogMessageLogging_rows r;
     ULogMessageLoggingTagged_rows := ULogMessageLoggingTagged_rows r;
     ULogMessageFormat_rows := v; ULogMessageFormatField_rows := ULogMessageFormatField_rows r;
     ULogMessageInfo_rows := ULogMessageInfo_rows r;
     ULogMessageInfoMultiple_rows := ULogMessageInfoMultiple_rows r;
     ULogMessageInfoMultipleList_rows := ULogMessageInfoMultipleList_rows r;
     ULogMessageInfoMultipleListElement_rows := ULogMessageInfoMultipleListElement_rows r;
     ULogInitialParameter_rows := ULogInitialParameter_rows r;
     ULogDefaultParameter_rows := ULogDefaultParameter_rows r;
     ULogChangedParameter_rows := ULogChangedParameter_rows r |}.
Definition with_ULogMessageFormatField_rows (v : list ULogMessageFormatField.row) (r : Store) : Store :=
  {| user_version := user_version r; ULog_rows := ULog_rows r;
     ULogAppendedOffsets_rows := ULogAppendedOffsets_rows r;
     ULogDataset_rows := ULogDataset_rows r; ULogField_rows := ULogField_rows r;
     ULogMessageDropout_rows := ULogMessageDropout_rows r;
     ULogMessageLogging_rows := ULogMessageLogging_rows r;
     ULogMessageLoggingTagged_rows := ULogMessageLoggingTagged_rows r;
     ULogMessageFormat_rows := ULogMessageFormat_rows r; ULogMessageFormatField_rows := v;
     ULogMessageInfo_rows := ULogMessageInfo_rows r;
     ULogMessageInfoMultiple_rows := ULogMessageInfoMultiple_rows r;
     ULogMessageInfoMultipleList_rows := ULogMessageInfoMultipleList_rows r;
     ULogMessageInfoMultipleListElement_rows := ULogMessageInfoMultipleListElement_rows r;
     ULogInitialParameter_rows := ULogInitialParameter_rows r;
     ULogDefaultParameter_rows := ULogDefaultParameter_rows r;
     ULogChangedParameter_rows := ULogChangedParameter_rows r |}.
Definition with_ULogMessageInfo_rows (v : list ULogMessageInfo.row) (r : Store) : Store :=
  {| user_version := user_version r; ULog_rows := ULog_rows r;
     ULogAppendedOffsets_rows := ULogAppendedOffsets_rows r;
     ULogDataset_rows := ULogDataset_rows r; ULogField_rows := ULogField_rows r;
     ULogMessageDropout_rows := ULogMessageDropout_rows r;
     ULogMessageLogging_rows := ULogMessageLogging_rows r;
     ULogMessageLoggingTagged_rows := ULogMessageLoggingTagged_rows r;
     ULogMessageFormat_rows := ULogMessageFormat_rows r;
     ULogMessageFormatField_rows := ULogMessageFormatField_rows r; ULogMessageInfo_rows := v;
     ULogMessageInfoMultiple_rows := ULogMessageInfoMultiple_rows r;
     ULogMessageInfoMultipleList_rows := ULogMessageInfoMultipleList_rows r;
     ULogMessageInfoMultipleListElement_rows := ULogMessageInfoMultipleListElement_rows r;
     ULogInitialParameter_rows := ULogInitialParameter_rows r;
     ULogDefaultParameter_rows := ULogDefaultParameter_rows r;
     ULogChangedParameter_rows := ULogChangedParameter_rows r |}.
Definition with_ULogMessageInfoMultiple_rows (v : list ULogMessageInfoMultiple.row) (r : Store) : Store :=
  {| user_version := user_version r; ULog_rows := ULog_rows r;
     ULogAppendedOffsets_rows := ULogAppendedOffsets_rows r;
     ULogDataset_rows := ULogDataset_rows r; ULogField_rows := ULogField_rows r;
     ULogMessageDropout_rows := ULogMessageDropout_rows r;
     ULogMessageLogging_rows := ULogMessageLogging_rows r;
     ULogMessageLoggingTagged_rows := ULogMessageLoggingTagged_rows r;
     ULogMessageFormat_rows := ULogMessageFormat_rows r;
     ULogMessageFormatField_rows := ULogMessageFormatField_rows r;
     ULogMessageInfo_rows := ULogMessageInfo_rows r; ULogMessageInfoMultiple_rows := v;
     ULogMessageInfoMultipleList_rows := ULogMessageInfoMultipleList_rows r;
     ULogMessageInfoMultipleListElement_rows := ULogMessageInfoMultipleListElement_rows r;
     ULogInitialParameter_rows := ULogInitialParameter_rows r;
     ULogDefaultParameter_rows := ULogDefaultParameter_rows r;
     ULogChangedParameter_rows := ULogChangedParameter_rows r |}.
Definition with_ULogMessageInfoMultipleList_rows (v : list ULogMessageInfoMultipleList.row) (r : Store) : Store :=
  {| user_version := user_version r; ULog_rows := ULog_rows r;
     ULogAppendedOffsets_rows := ULogAppendedOffsets_rows r;
     ULogDataset_rows := ULogDataset_rows r; ULogField_rows := ULogField_rows r;
     ULogMessageDropout_rows := ULogMessageDropout_rows r;
     ULogMessageLogging_rows := ULogMessageLogging_rows r;
     ULogMessageLoggingTagged_rows := ULogMessageLoggingTagged_rows r;
     ULogMessageFormat_rows := ULogMessageFormat_rows r;
     ULogMessageFormatField_rows := ULogMessageFormatField_rows r;
     ULogMessageInfo_rows := ULogMessageInfo_rows r;
     ULogMessageInfoMultiple_rows := ULogMessageInfoMultiple_rows r;
     ULogMessageInfoMultipleList_rows := v;
     ULogMessageInfoMultipleListElement_rows := ULogMessageInfoMultipleListElement_rows r;
     ULogInitialParameter_rows := ULogInitialParameter_rows r;
     ULogDefaultParameter_rows := ULogDefaultParameter_rows r;
     ULogChangedParameter_rows := ULogChangedParameter_rows r |}.
Definition with_ULogMessageInfoMultipleListElement_rows (v : list ULogMessageInfoMultipleListElement.row) (r : Store) : Store :=
  {| user_version := user_version r; ULog_rows := ULog_rows r;
     ULogAppendedOffsets_rows := ULogAppendedOffsets_rows r;
     ULogDataset_rows := ULogDataset_rows r; ULogField_rows := ULogField_rows r;
     ULogMessageDropout_rows := ULogMessageDropout_rows r;
     ULogMessageLogging_rows := ULogMessageLogging_rows r;
     ULogMessageLoggingTagged_rows := ULogMessageLoggingTagged_rows r;
     ULogMessageFormat_rows := ULogMessageFormat_rows r;
     ULogMessageFormatField_rows := ULogMessageFormatField_rows r;
     ULogMessageInfo_rows := ULogMessageInfo_rows r;
     ULogMessageInfoMultiple_rows := ULogMessageInfoMultiple_rows r;
     ULogMessageInfoMultipleList_rows := ULogMessageInfoMultipleList_rows r;
     ULogMessageInfoMultipleListElement_rows := v;
     ULogInitialParameter_rows := ULogInitialParameter_rows r;
     ULogDefaultParameter_rows := ULogDefaultParameter_rows r;
     ULogChangedParameter_rows := ULogChangedParameter_rows r |}.
Definition with_ULogInitialParameter_rows (v : list ULogInitialParameter.row) (r : Store) : Store :=
  {| user_version := user_version r; ULog_rows := ULog_rows r;
     ULogAppendedOffsets_rows := ULogAppendedOffsets_rows r;
     ULogDataset_rows := ULogDataset_rows r; ULogField_rows := ULogField_rows r;
     ULogMessageDropout_rows := ULogMessageDropout_rows r;
     ULogMessageLogging_rows := ULogMessageLogging_rows r;
     ULogMessageLoggingTagged_rows := ULogMessageLoggingTagged_rows r;
     ULogMessageFormat_rows := ULogMessageFormat_rows r;
     ULogMessageFormatField_rows := ULogMessageFormatField_rows r;
     ULogMessageInfo_rows := ULogMessageInfo_rows r;
     ULogMessageInfoMultiple_rows := ULogMessageInfoMultiple_rows r;
     ULogMessageInfoMultipleList_rows := ULogMessageInfoMultipleList_rows r;
     ULogMessageInfoMultipleListElement_rows := ULogMessageInfoMultipleListElement_rows r;
     ULogInitialParameter_rows := v; ULogDefaultParameter_rows := ULogDefaultParameter_rows r;
     ULogChangedParameter_rows := ULogChangedParameter_rows r |}.
Definition with_ULogDefaultParameter_rows (v : list ULogDefaultParameter.row) (r : Store) : Store :=
  {| user_version := user_version r; ULog_rows := ULog_rows r;
     ULogAppendedOffsets_rows := ULogAppendedOffsets_rows r;
     ULogDataset_rows := ULogDataset_rows r; ULogField_rows := ULogField_rows r;
     ULogMessageDropout_rows := ULogMessageDropout_rows r;
     ULogMessageLogging_rows := ULogMessageLogging_rows r;
     ULogMessageLoggingTagged_rows := ULogMessageLoggingTagged_rows r;
     ULogMessageFormat_rows := ULogMessageFormat_rows r;
     ULogMessageFormatField_rows := ULogMessageFormatField_rows r;
     ULogMessageInfo_rows := ULogMessageInfo_rows r;
     ULogMessageInfoMultiple_rows := ULogMessageInfoMultiple_rows r;
     ULogMessageInfoMultipleList_rows := ULogMessageInfoMultipleList_rows r;
     ULogMessageInfoMultipleListElement_rows := ULogMessageInfoMultipleListElement_rows r;
     ULogInitialParameter_rows := ULogInitialParameter_rows r; ULogDefaultParameter_rows := v;
     ULogChangedParameter_rows := ULogChangedParameter_rows r |}.
Definition with_ULogChangedParameter_rows (v : list ULogChangedParameter.row) (r : Store) : Store :=
  {| user_version := user_version r; ULog_rows := ULog_rows r;
     ULogAppendedOffsets_rows := ULogAppendedOffsets_rows r;
     ULogDataset_rows := ULogDataset_rows r; ULogField_rows := ULogField_rows r;
     ULogMessageDropout_rows := ULogMessageDropout_rows r;
     ULogMessageLogging_rows := ULogMessageLogging_rows r;
     ULogMessageLoggingTagged_rows := ULogMessageLoggingTagged_rows r;
     ULogMessageFormat_rows := ULogMessageFormat_rows r;
     ULogMessageFormatField_rows := ULogMessageFormatField_rows r;
     ULogMessageInfo_rows := ULogMessageInfo_rows r;
     ULogMessageInfoMultiple_rows := ULogMessageInfoMultiple_rows r;
     ULogMessageInfoMultipleList_rows := ULogMessageInfoMultipleList_rows r;
     ULogMessageInfoMultipleListElement_rows := ULogMessageInfoMultipleListElement_rows r;
     ULogInitialParameter_rows := ULogInitialParameter_rows r;
     ULogDefaultParameter_rows := ULogDefaultParameter_rows r; ULogChangedParameter_rows := v |}.

(** ** Connections and the state of a call

    A method runs on the handle it is called on and on the content of the
    database behind [self._db].  It ends with a value or an exception, the
    handle and the content as it leaves them, and the statements it
    executed. *)

Inductive Statement :=
| PRAGMA_user_version
| SELECT (tables : list Table)
| INSERT (table : Table)
| DELETE (table : Table).

Record Outcome (A : Type) := {
  result : Exn + A;
  handle : DatabaseULog;
  stored : Store;
  executed : list Statement
}.

Definition M (A : Type) : Type := DatabaseULog -> Store -> Outcome A.

Definition ret {A} (a : A) : M A :=
  fun h s => {| result := inr a; handle := h; stored := s; executed := [] |}.
Definition raise {A} (e : Exn) : M A :=
  fun h s => {| result := inl e; handle := h; stored := s; executed := [] |}.
Definition bind {A B} (m : M A) (k : A -> M B) : M B :=
  fun h s =>
    let o := m h s in
    match result o with
    | inr a =>
        let o' := k a (handle o) (stored o) in
        {| result := result o'; handle := handle o'; stored := stored o';
           executed := executed o ++ executed o' |}
    | inl e =>
        {| result := inl e; handle := handle o; stored := stored o;
           executed := executed o |}
    end.

Declare Scope monad_scope.
Delimit Scope monad_scope with monad.
Notation "x <- m ;; k" := (bind m (fun x => k))
  (at level 61, m at next level, right associativity) : monad_scope.
Notation "' pat <- m ;; k" := (bind m (fun x => match x with pat => k end))
  (at level 61, pat pattern, m at next level, right associativity) : monad_scope.
Notation "m ;; k" := (bind m (fun _ => k))
  (at level 61, right associativity) : monad_scope.
Open Scope monad_scope.

Definition lift {A} (r : Exn + A) : M A :=
  match r with inl e => raise e | inr a => ret a end.

Definition getattr {A} (f : DatabaseULog -> A) : M A :=
  fun h s => {| result := inr (f h); handle := h; stored := s; executed := [] |}.
Definition setattr (upd : DatabaseULog -> DatabaseULog) : M unit :=
  fun h s => {| result := inr tt; handle := upd h; stored := s; executed := [] |}.

(** A SELECT: its result on the current content. *)
Definition execute_select {A} (tables : list Table) (q : Store -> A) : M A :=
  fun h s => {| result := inr (q s); handle := h; stored := s;
                executed := [SELECT tables] |}.

(** An INSERT or DELETE. *)
Definition execute_update (stmt : Statement) (u : Store -> Store) : M unit :=
  fun h s => {| result := inr tt; handle := h; stored := u s; executed := [stmt] |}.

(** The rowid sqlite gives a new row: one more than the largest in use. *)
Definition next_rowid (ids : list Z) : Z := 1 + fold_right Z.max 0 ids.

(** Modelled from the spec: the uniqueness constraints of the schema (the
    migration files that declare the tables are not part of the source).  A
    statement that would break one raises [IntegrityError]. *)
Definition check_unique (ok : Store -> bool) : M unit :=
  fun h s => if ok s then ret tt h s else raise IntegrityError h s.

(** An INSERT into a table with an [Id] column followed by
    [cur.lastrowid]: the parameters are bound, the constraint [unique] of
    the table is checked, and the row goes in with the rowid it received. *)
Definition execute_insert_rowid {R} (table : Table) (rows : Store -> list R)
    (put : list R -> Store -> Store) (rowid : R -> Z) (bound : R -> Exn + R)
    (unique : Store -> bool) (parameters : Z -> R) : M Z :=
  fun h s =>
    let id := next_rowid (map rowid (rows s)) in
    (r <- lift (bound (parameters id)) ;;
     check_unique unique ;;
     execute_update (INSERT table) (fun s => put (rows s ++ [r]) s) ;;
     ret id) h s.

(** [with db_handle() as con: body]: the connection commits when the body
    returns and rolls back when it raises. *)
Definition transaction {A} (body : M A) : M A :=
  fun h s =>
    let o := body h s in
    match result o with
    | inr _ => o
    | inl e => {| result := inl e; handle := handle o; stored := s;
                  executed := executed o |}
    end.

Fixpoint for_each {A} (l : list A) (body : A -> M unit) : M unit :=
  match l with
  | [] => ret tt
  | x :: l' => body x ;; for_each l' body
  end.

(** A loop that threads local variables [acc]. *)
Fixpoint for_fold {A B} (l : list A) (acc : B) (body : B -> A -> M B) : M B :=
  match l with
  | [] => ret acc
  | x :: l' => acc' <- body acc x ;; for_fold l' acc' body
  end.

(** A list comprehension whose element expression may raise. *)
Fixpoint comprehension {A B} (f : A -> Exn + B) (l : list A) : Exn + list B :=
  match l with
  | [] => inr []
  | x :: l' =>
      match f x with
      | inl e => inl e
      | inr y => match comprehension f l' with inl e => inl e | inr ys => inr (y :: ys) end
      end
  end.

(** [d[k]] on a dict with string keys. *)
Definition subscript {V} (d : dict string V) (k : string) : Exn + V :=
  match dict_get k d with
  | Some v => inr v
  | None => inl (KeyError (MissingKey k))
  end.

(** [column = ?] with a parameter that may be [None]: NULL equals nothing. *)
Definition sql_eq (x : Z) (p : option Z) : bool :=
  match p with Some v => x =? v | None => false end.

(** ORDER BY: a stable insertion sort. *)
Fixpoint insert_sorted {A} (le : A -> A -> bool) (x : A) (l : list A) : list A :=
  match l with
  | [] => [x]
  | y :: l' => if le x y then x :: l else y :: insert_sorted le x l'
  end.
Definition order_by {A} (le : A -> A -> bool) (l : list A) : list A :=
  fold_right (insert_sorted le) [] l.

(** ORDER BY DatasetName, MultiId (binary collation on the name). *)
Definition name_multi_le (a b : string * Z) : bool :=
  match String.compare (fst a) (fst b) with
  | Lt => true
  | Eq => snd a <=? snd b
  | Gt => false
  end.

Fixpoint find_index {A} (p : A -> bool) (l : list A) : option (nat * A) :=
  match l with
  | [] => None
  | x :: l' =>
      if p x then Some (O, x)
      else match find_index p l' with
           | Some (i, y) => Some (S i, y)
           | None => None
           end
  end.

Fixpoint list_set {A} (i : nat) (x : A) (l : list A) : list A :=
  match l, i with
  | [], _ => []
  | _ :: l', O => x :: l'
  | y :: l', S i' => y :: list_set i' x l'
  end.

(** ** The class *)

Definition SCHEMA_VERSION : Z := 5.

Section DatabaseULog_methods.

(** Parts of the package outside this module, taken as given:
    - [_UNPACK_TYPES], the table of [ULog] from an element type name to its
      struct letter, size and numpy type;
    - the text written to the JSON column: [str(dict(zip(timestamps,
      values)))] after its replacements, as [json()] stores it, or [None]
      when sqlite rejects it as malformed;
    - the constructor of the parent class [ULog], which decodes the log file
      (and gives an empty log without one). *)
Variable _UNPACK_TYPES : dict string (string * nat * dtype).
Variable json_column : ndarray -> ndarray -> option string.
Variable ULog__init__ : FileSystem -> option log_file_t -> Exn + DatabaseULog.

(** *** Static methods *)

Definition exists_in_db (primary_key : option Z) : M bool :=
  transaction (
    count <- execute_select [T_ULog] (fun s =>
      length (filter (fun r => sql_eq (ULog.Id r) primary_key) (ULog_rows s))) ;;
    ret (count =? 1)%nat).

Definition primary_key_from_sha256sum (sha256sum : string) : M (option Z) :=
  transaction (
    row <- execute_select [T_ULog] (fun s =>
      find (fun r => String.eqb (ULog.SHA256Sum r) sha256sum) (ULog_rows s)) ;;
    ret (match row with Some r => Some (ULog.Id r) | None => None end)).

(** *** get_dataset *)

Definition same_dataset (name : string) (multi_instance : Z) (d : DatabaseData.t) : bool :=
  String.eqb (DatabaseData.name d) name && (DatabaseData.multi_id d =? multi_instance).

(** Truth value of a dict: it has an item. *)
Definition truthy {K V} (d : dict K V) : bool :=
  match d with [] => false | _ => true end.

Definition select_dataset (name : string) (multi_instance : Z) (pk : option Z) (s : Store)
  : option ULogDataset.row :=
  find (fun r => String.eqb (ULogDataset.DatasetName r) name
                 && (ULogDataset.MultiId r =? multi_instance)
                 && sql_eq (ULogDataset.ULogId r) pk)
       (ULogDataset_rows s).

Definition select_fields (dataset_id : Z) (s : Store) : list ULogField.row :=
  filter (fun r => ULogField.DatasetId r =? dataset_id) (ULogField_rows s).

(** The body of the loop over the field rows: one more field declaration and
    one more decoded column. *)
Definition read_field (acc : list _FieldData * dict string ndarray) (r : ULogField.row)
  : M (list _FieldData * dict string ndarray) :=
  let (fields, data) := acc in
  let fields := fields ++ [{| field_name := ULogField.TopicName r;
                              type_str := ULogField.DataType r |}] in
  unpack <- lift (subscript _UNPACK_TYPES (ULogField.DataType r)) ;;
  values <- lift (frombuffer (ULogField.ValueArray r) (snd unpack)) ;;
  ret (fields, dict_set (ULogField.TopicName r) values data).

(** [db_cursor] tells whether the caller passed its own cursor: then the
    statements run on it ([nullcontext]), else on a connection of their own. *)
Definition db_context {A} (db_cursor : bool) (body : M A) : M A :=
  if db_cursor then body else transaction body.

Definition get_dataset (name : string) (multi_instance : Z) (lazy : bool)
    (db_cursor : bool) (caching : bool) : M DatabaseData.t :=
  existing_dataset <- getattr (fun h => find_index (same_dataset name multi_instance) (_data_list h)) ;;
  let fetch : M DatabaseData.t :=
    '(msg_id, timestamp_idx, fields, data) <- db_context db_cursor (
      pk <- getattr _pk ;;
      dataset_result <- execute_select [T_ULogDataset] (select_dataset name multi_instance pk) ;;
      match dataset_result with
      | None => raise (KeyError (DatasetNotFound name multi_instance))
      | Some row =>
          '(fields, data) <-
            (if lazy then ret ([], [])
             else
               field_results <- execute_select [T_ULogField] (select_fields (ULogDataset.Id row)) ;;
               for_fold field_results ([], []) read_field) ;;
          ret (ULogDataset.MessageId row, ULogDataset.TimestampIndex row, fields, data)
      end) ;;
    match caching, existing_dataset with
    | true, Some (i, existing) =>
        let dataset :=
          {| DatabaseData.name := DatabaseData.name existing;
             DatabaseData.multi_id := DatabaseData.multi_id existing;
             DatabaseData.msg_id := msg_id;
             DatabaseData.timestamp_idx := timestamp_idx;
             DatabaseData.field_data := fields;
             DatabaseData.data := data |} in
        setattr (fun h => set_data_list (list_set i dataset (_data_list h)) h) ;;
        ret dataset
    | _, _ =>
        ret {| DatabaseData.name := name;
               DatabaseData.multi_id := multi_instance;
               DatabaseData.msg_id := msg_id;
               DatabaseData.timestamp_idx := timestamp_idx;
               DatabaseData.field_data := fields;
               DatabaseData.data := data |}
    end in
  match caching, existing_dataset with
  | true, Some (_, existing) =>
      if lazy || truthy (DatabaseData.data existing) then ret existing else fetch
  | _, _ => fetch
  end.

(** *** load *)

(** [l.append(x)]. *)
Definition append {A} (x : A) (l : list A) : list A := l ++ [x].

Definition load_metadata : M unit :=
  pk <- getattr _pk ;;
  ulog_result <- execute_select [T_ULog] (fun s =>
    find (fun r => sql_eq (ULog.Id r) pk) (ULog_rows s)) ;;
  match ulog_result with
  | None => raise TypeError
  | Some r =>
      setattr (set_file_version (ULog.FileVersion r)) ;;
      setattr (set_start_timestamp (ULog.StartTimestamp r)) ;;
      setattr (set_last_timestamp (ULog.LastTimestamp r)) ;;
      setattr (set_compat_flags (map ord (ULog.CompatFlags r))) ;;
      setattr (set_incompat_flags (map ord (ULog.IncompatFlags r))) ;;
      setattr (set_sync_seq_cnt (ULog.SyncCount r)) ;;
      setattr (set_has_sync (ULog.HasSync r)) ;;
      setattr (set_sha256sum (ULog.SHA256Sum r))
  end.

Definition load_appended_offsets : M unit :=
  pk <- getattr _pk ;;
  offsets_result <- execute_select [T_ULogAppendedOffsets] (fun s =>
    map ULogAppendedOffsets.Offset
      (order_by (fun a b => ULogAppendedOffsets.SeriesIndex a <=? ULogAppendedOffsets.SeriesIndex b)
         (filter (fun r => sql_eq (ULogAppendedOffsets.ULogId r) pk)
                 (ULogAppendedOffsets_rows s)))) ;;
  for_each offsets_result (fun offset =>
    setattr (fun h => set_appended_offsets (append offset (_appended_offsets h)) h)).

Definition load_data_list (lazy : bool) : M unit :=
  setattr (set_data_list []) ;;
  pk <- getattr _pk ;;
  dataset_results <- execute_select [T_ULogDataset] (fun s =>
    order_by name_multi_le
      (map (fun r => (ULogDataset.DatasetName r, ULogDataset.MultiId r))
           (filter (fun r => sql_eq (ULogDataset.ULogId r) pk) (ULogDataset_rows s)))) ;;
  for_each dataset_results (fun '(dataset_name, multi_id) =>
    dataset <- get_dataset dataset_name multi_id lazy true false ;;
    setattr (fun h => set_data_list (append dataset (_data_list h)) h)).

Definition load_dropouts : M unit :=
  pk <- getattr _pk ;;
  rows <- execute_select [T_ULogMessageDropout] (fun s =>
    filter (fun r => sql_eq (ULogMessageDropout.ULogId r) pk) (ULogMessageDropout_rows s)) ;;
  for_each rows (fun r =>
    setattr (fun h => set_dropouts
      (append {| DatabaseMessageDropout.timestamp := ULogMessageDropout.Timestamp r;
                 DatabaseMessageDropout.duration := ULogMessageDropout.Duration r |}
              (_dropouts h)) h)).

Definition load_logged_messages : M unit :=
  pk <- getattr _pk ;;
  rows <- execute_select [T_ULogMessageLogging] (fun s =>
    filter (fun r => sql_eq (ULogMessageLogging.ULogId r) pk) (ULogMessageLogging_rows s)) ;;
  for_each rows (fun r =>
    setattr (fun h => set_logged_messages
      (append {| DatabaseMessageLogging.log_level := ULogMessageLogging.LogLevel r;
                 DatabaseMessageLogging.timestamp := ULogMessageLogging.Timestamp r;
                 DatabaseMessageLogging.message := ULogMessageLogging.Message r |}
              (_logged_messages h)) h)).

(** [d[tag].append(m)], after [d[tag] = []] for a tag not yet in [d]. *)
Definition append_tagged (m : DatabaseMessageLoggingTagged.t)
    (d : dict Z (list DatabaseMessageLoggingTagged.t)) :=
  let tag := DatabaseMessageLoggingTagged.tag m in
  let d := if dict_contains tag d then d else dict_set tag [] d in
  match dict_get tag d with
  | Some l => dict_set tag (append m l) d
  | None => d
  end.

Definition load_logged_messages_tagged : M unit :=
  pk <- getattr _pk ;;
  rows <- execute_select [T_ULogMessageLoggingTagged] (fun s =>
    filter (fun r => sql_eq (ULogMessageLoggingTagged.ULogId r) pk)
           (ULogMessageLoggingTagged_rows s)) ;;
  for_each rows (fun r =>
    setattr (fun h => set_logged_messages_tagged
      (append_tagged
         {| DatabaseMessageLoggingTagged.log_level := ULogMessageLoggingTagged.LogLevel r;
            DatabaseMessageLoggingTagged.tag := ULogMessageLoggingTagged.Tag r;
            DatabaseMessageLoggingTagged.timestamp := ULogMessageLoggingTagged.Timestamp r;
            DatabaseMessageLoggingTagged.message := ULogMessageLoggingTagged.Message r |}
         (_logged_messages_tagged h)) h)).

(** The rows of the join of the formats of a log with their fields. *)
Definition select_format_fields (pk : option Z) (s : Store)
  : list (string * (string * Z * string)) :=
  flat_map (fun msg =>
      map (fun field => (ULogMessageFormat.Name msg,
                         (ULogMessageFormatField.FieldType field,
                          ULogMessageFormatField.ArraySize field,
                          ULogMessageFormatField.Name field)))
          (filter (fun field => ULogMessageFormatField.MessageId field =? ULogMessageFormat.Id msg)
                  (ULogMessageFormatField_rows s)))
    (filter (fun msg => sql_eq (ULogMessageFormat.ULogId msg) pk) (ULogMessageFormat_rows s)).

Definition add_format_field (row : string * (string * Z * string))
    (d : dict string DatabaseMessageFormat.t) :=
  let (msg_name, field_data) := row in
  match dict_get msg_name d with
  | Some f =>
      dict_set msg_name
        {| DatabaseMessageFormat.name := DatabaseMessageFormat.name f;
           DatabaseMessageFormat.fields := append field_data (DatabaseMessageFormat.fields f) |} d
  | None =>
      dict_set msg_name
        {| DatabaseMessageFormat.name := msg_name;
           DatabaseMessageFormat.fields := [field_data] |} d
  end.

Definition load_message_formats : M unit :=
  pk <- getattr _pk ;;
  rows <- execute_select [T_ULogMessageFormat; T_ULogMessageFormatField]
            (select_format_fields pk) ;;
  for_each rows (fun row =>
    setattr (fun h => set_message_formats (add_format_field row (_message_formats h)) h)).

Definition load_msg_info_dict : M unit :=
  pk <- getattr _pk ;;
  rows <- execute_select [T_ULogMessageInfo] (fun s =>
    filter (fun r => sql_eq (ULogMessageInfo.ULogId r) pk) (ULogMessageInfo_rows s)) ;;
  for_each rows (fun r =>
    setattr (fun h => set_msg_info_dict
      (dict_set (ULogMessageInfo.Key r) (ULogMessageInfo.Value r) (_msg_info_dict h)) h) ;;
    setattr (fun h => set_msg_info_dict_types
      (dict_set (ULogMessageInfo.Key r) (ULogMessageInfo.Typename r) (_msg_info_dict_types h)) h)).

Definition select_lists (message_id : Z) (s : Store) : list Z :=
  map ULogMessageInfoMultipleList.Id
    (order_by (fun a b => ULogMessageInfoMultipleList.SeriesIndex a
                          <=? ULogMessageInfoMultipleList.SeriesIndex b)
       (filter (fun r => ULogMessageInfoMultipleList.MessageId r =? message_id)
               (ULogMessageInfoMultipleList_rows s))).

Definition select_list_elements (list_id : Z) (s : Store) : list pyvalue :=
  map ULogMessageInfoMultipleListElement.Value
    (order_by (fun a b => ULogMessageInfoMultipleListElement.SeriesIndex a
                          <=? ULogMessageInfoMultipleListElement.SeriesIndex b)
       (filter (fun r => ULogMessageInfoMultipleListElement.ListId r =? list_id)
               (ULogMessageInfoMultipleListElement_rows s))).

(** [d[key].append(l)]; the subscript raises for an unknown key. *)
Definition append_at {V} (key : string) (x : V) (d : dict string (list V)) : Exn + dict string (list V) :=
  match subscript d key with
  | inl e => inl e
  | inr l => inr (dict_set key (append x l) d)
  end.

Definition load_msg_info_multiple_dict : M unit :=
  pk <- getattr _pk ;;
  rows <- execute_select [T_ULogMessageInfoMultiple] (fun s =>
    filter (fun r => sql_eq (ULogMessageInfoMultiple.ULogId r) pk)
           (ULogMessageInfoMultiple_rows s)) ;;
  for_each rows (fun r =>
    let key := ULogMessageInfoMultiple.Key r in
    setattr (fun h => set_msg_info_multiple_dict (dict_set key [] (_msg_info_multiple_dict h)) h) ;;
    setattr (fun h => set_msg_info_multiple_dict_types
      (dict_set key (ULogMessageInfoMultiple.Typename r) (_msg_info_multiple_dict_types h)) h) ;;
    list_ids <- execute_select [T_ULogMessageInfoMultipleList]
                  (select_lists (ULogMessageInfoMultiple.Id r)) ;;
    for_each list_ids (fun list_id =>
      values <- execute_select [T_ULogMessageInfoMultipleListElement]
                  (select_list_elements list_id) ;;
      d <- getattr _msg_info_multiple_dict ;;
      d' <- lift (append_at key values d) ;;
      setattr (set_msg_info_multiple_dict d'))).

Definition load_initial_parameters : M unit :=
  pk <- getattr _pk ;;
  rows <- execute_select [T_ULogInitialParameter] (fun s =>
    filter (fun r => sql_eq (ULogInitialParameter.ULogId r) pk) (ULogInitialParameter_rows s)) ;;
  for_each rows (fun r =>
    setattr (fun h => set_initial_parameters
      (dict_set (ULogInitialParameter.Key r) (ULogInitialParameter.Value r)
                (_initial_parameters h)) h)).

(** [d[default_type][key] = value], after [d[default_type] = {}] for a type
    not yet in [d]. *)
Definition set_default (default_type : Z) (key : string) (value : pyvalue)
    (d : dict Z (dict string pyvalue)) :=
  let d := if dict_contains default_type d then d else dict_set default_type [] d in
  match dict_get default_type d with
  | Some params => dict_set default_type (dict_set key value params) d
  | None => d
  end.

Definition load_default_parameters : M unit :=
  pk <- getattr _pk ;;
  rows <- execute_select [T_ULogDefaultParameter] (fun s =>
    filter (fun r => sql_eq (ULogDefaultParameter.ULogId r) pk) (ULogDefaultParameter_rows s)) ;;
  for_each rows (fun r =>
    setattr (fun h => set_default_parameters
      (set_default (ULogDefaultParameter.DefaultType r) (ULogDefaultParameter.Key r)
                   (ULogDefaultParameter.Value r) (_default_parameters h)) h)).

Definition load_changed_parameters : M unit :=
  pk <- getattr _pk ;;
  rows <- execute_select [T_ULogChangedParameter] (fun s =>
    filter (fun r => sql_eq (ULogChangedParameter.ULogId r) pk) (ULogChangedParameter_rows s)) ;;
  for_each rows (fun r =>
    setattr (fun h => set_changed_parameters
      (append (ULogChangedParameter.Timestamp r, ULogChangedParameter.Key r,
               ULogChangedParameter.Value r)
              (_changed_parameters h)) h)).

(** The body of the [with] block of [load]. *)
Definition load_rows (lazy : bool) : M unit :=
  load_metadata ;;
  load_appended_offsets ;;
  load_data_list lazy ;;
  load_dropouts ;;
  load_logged_messages ;;
  load_logged_messages_tagged ;;
  load_message_formats ;;
  load_msg_info_dict ;;
  load_msg_info_multiple_dict ;;
  load_initial_parameters ;;
  load_default_parameters ;;
  load_changed_parameters.

Definition load (lazy : bool) : M unit :=
  pk <- getattr _pk ;;
  found <- exists_in_db pk ;;
  if negb found then raise (KeyError (NoULogWithId pk))
  else
    transaction (load_rows lazy) ;;
    setattr (set_lazy_loaded lazy).

(** *** save *)

Definition enumerate {A} (l : list A) : list (Z * A) :=
  combine (map Z.of_nat (seq 0 (length l))) l.

(** [self._pk] bound to a column that takes no NULL. *)
Definition self_pk : M Z :=
  pk <- getattr _pk ;;
  match pk with
  | Some id => ret id
  | None => raise IntegrityError
  end.

(** One INSERT: its parameters are bound, then the row goes in. *)
Definition insert_into {R} (table : Table) (rows : Store -> list R)
    (put : list R -> Store -> Store) (bound : R -> Exn + R) (parameters : R) : M unit :=
  r <- lift (bound parameters) ;;
  execute_update (INSERT table) (fun s => put (rows s ++ [r]) s).

(** [cur.executemany]: one INSERT after the other. *)
Definition executemany {R} (table : Table) (rows : Store -> list R)
    (put : list R -> Store -> Store) (bound : R -> Exn + R) (l : list R) : M unit :=
  for_each l (insert_into table rows put bound).

Definition save_metadata : M unit :=
  h <- getattr (fun h => h) ;;
  compat <- lift (comprehension chr (_compat_flags h)) ;;
  incompat <- lift (comprehension chr (_incompat_flags h)) ;;
  id <- execute_insert_rowid T_ULog ULog_rows with_ULog_rows ULog.Id ULog.bound
    (fun s =>
       negb (existsb (fun r => String.eqb (ULog.SHA256Sum r) (_sha256sum h)) (ULog_rows s)))
    (fun id =>
    {| ULog.Id := id;
       ULog.FileVersion := _file_version h;
       ULog.StartTimestamp := _start_timestamp h;
       ULog.LastTimestamp := _last_timestamp h;
       ULog.CompatFlags := compat;
       ULog.IncompatFlags := incompat;
       ULog.SyncCount := _sync_seq_cnt h;
       ULog.HasSync := _has_sync h;
       ULog.SHA256Sum := _sha256sum h |}) ;;
  setattr (set_pk (Some id)).

Definition save_appended_offsets : M unit :=
  pk <- self_pk ;;
  offsets <- getattr _appended_offsets ;;
  executemany T_ULogAppendedOffsets ULogAppendedOffsets_rows with_ULogAppendedOffsets_rows
    ULogAppendedOffsets.bound
    (map (fun '(list_index, offset) =>
            {| ULogAppendedOffsets.SeriesIndex := list_index;
               ULogAppendedOffsets.Offset := offset;
               ULogAppendedOffsets.ULogId := pk |})
         (enumerate offsets)).

(** The row of one field: the packed values and, with [append_json], the
    JSON text of the values by timestamp. *)
Definition field_row (append_json : bool) (dataset : DatabaseData.t) (dataset_id : Z)
    (field : _FieldData) : Exn + ULogField.row :=
  match subscript (DatabaseData.data dataset) (field_name field) with
  | inl e => inl e
  | inr values =>
      let values_bytes := tobytes values in
      match (if append_json then
               match subscript (DatabaseData.data dataset) "timestamp"%string with
               | inl e => inl e
               | inr timestamps =>
                   match json_column timestamps values with
                   | Some text => inr (Some text)
                   | None => inl OperationalError
                   end
               end
             else inr None) with
      | inl e => inl e
      | inr values_json =>
          inr {| ULogField.TopicName := field_name field;
                 ULogField.DataType := type_str field;
                 ULogField.ValueArray := values_bytes;
                 ULogField.ValueJson := values_json;
                 ULogField.DatasetId := dataset_id |}
      end
  end.

Definition save_field (append_json : bool) (dataset : DatabaseData.t) (dataset_id : Z)
    (field : _FieldData) : M unit :=
  row <- lift (field_row append_json dataset dataset_id field) ;;
  insert_into T_ULogField ULogField_rows with_ULogField_rows ULogField.bound row.

Definition save_dataset (append_json : bool) (dataset : DatabaseData.t) : M unit :=
  pk <- self_pk ;;
  dataset_id <- execute_insert_rowid T_ULogDataset ULogDataset_rows with_ULogDataset_rows
    ULogDataset.Id ULogDataset.bound
    (fun s =>
       negb (existsb (fun r => (ULogDataset.ULogId r =? pk)
                               && String.eqb (ULogDataset.DatasetName r)
                                             (DatabaseData.name dataset)
                               && (ULogDataset.MultiId r =? DatabaseData.multi_id dataset))
                     (ULogDataset_rows s)))
    (fun id =>
       {| ULogDataset.Id := id;
          ULogDataset.DatasetName := DatabaseData.name dataset;
          ULogDataset.MultiId := DatabaseData.multi_id dataset;
          ULogDataset.MessageId := DatabaseData.msg_id dataset;
          ULogDataset.TimestampIndex := DatabaseData.timestamp_idx dataset;
          ULogDataset.ULogId := pk |}) ;;
  for_each (DatabaseData.field_data dataset) (save_field append_json dataset dataset_id).

Definition save_data_list (append_json : bool) : M unit :=
  data_list <- getattr _data_list ;;
  for_each data_list (save_dataset append_json).

Definition save_dropouts : M unit :=
  pk <- self_pk ;;
  dropouts <- getattr _dropouts ;;
  executemany T_ULogMessageDropout ULogMessageDropout_rows with_ULogMessageDropout_rows
    ULogMessageDropout.bound
    (map (fun dropout =>
            {| ULogMessageDropout.Timestamp := DatabaseMessageDropout.timestamp dropout;
               ULogMessageDropout.Duration := DatabaseMessageDropout.duration dropout;
               ULogMessageDropout.ULogId := pk |})
         dropouts).

Definition save_logged_messages : M unit :=
  pk <- self_pk ;;
  messages <- getattr _logged_messages ;;
  executemany T_ULogMessageLogging ULogMessageLogging_rows with_ULogMessageLogging_rows
    ULogMessageLogging.bound
    (map (fun message =>
            {| ULogMessageLogging.LogLevel := DatabaseMessageLogging.log_level message;
               ULogMessageLogging.Timestamp := DatabaseMessageLogging.timestamp message;
               ULogMessageLogging.Message := DatabaseMessageLogging.message message;
               ULogMessageLogging.ULogId := pk |})
         messages).

Definition save_logged_messages_tagged : M unit :=
  tagged <- getattr _logged_messages_tagged ;;
  for_each tagged (fun '(tag, messages) =>
    pk <- self_pk ;;
    executemany T_ULogMessageLoggingTagged ULogMessageLoggingTagged_rows
      with_ULogMessageLoggingTagged_rows ULogMessageLoggingTagged.bound
      (map (fun message =>
              {| ULogMessageLoggingTagged.LogLevel := DatabaseMessageLoggingTagged.log_level message;
                 ULogMessageLoggingTagged.Timestamp := DatabaseMessageLoggingTagged.timestamp message;
                 ULogMessageLoggingTagged.Tag := tag;
                 ULogMessageLoggingTagged.Message := DatabaseMessageLoggingTagged.message message;
                 ULogMessageLoggingTagged.ULogId := pk |})
           messages)).

(** The body of the loop over the message formats. *)
Definition save_message_format (item : string * DatabaseMessageFormat.t) : M unit :=
  let (name, message_format) := item in
  pk <- self_pk ;;
  format_id <- execute_insert_rowid T_ULogMessageFormat ULogMessageFormat_rows
    with_ULogMessageFormat_rows ULogMessageFormat.Id ULogMessageFormat.bound
    (fun s =>
       negb (existsb (fun r => (ULogMessageFormat.ULogId r =? pk)
                               && String.eqb (ULogMessageFormat.Name r) name)
                     (ULogMessageFormat_rows s)))
    (fun id =>
       {| ULogMessageFormat.Id := id;
          ULogMessageFormat.Name := name;
          ULogMessageFormat.ULogId := pk |}) ;;
  executemany T_ULogMessageFormatField ULogMessageFormatField_rows
    with_ULogMessageFormatField_rows ULogMessageFormatField.bound
    (map (fun '(field_type, array_size, field_name) =>
            {| ULogMessageFormatField.FieldType := field_type;
               ULogMessageFormatField.ArraySize := array_size;
               ULogMessageFormatField.Name := field_name;
               ULogMessageFormatField.MessageId := format_id |})
         (DatabaseMessageFormat.fields message_format)).

Definition save_message_formats : M unit :=
  formats <- getattr _message_formats ;;
  for_each formats save_message_format.

Definition save_msg_info_dict : M unit :=
  pk <- self_pk ;;
  h <- getattr (fun h => h) ;;
  rows <- lift (comprehension (fun '(key, value) =>
            match subscript (_msg_info_dict_types h) key with
            | inl e => inl e
            | inr typename =>
                inr {| ULogMessageInfo.Key := key;
                       ULogMessageInfo.Value := value;
                       ULogMessageInfo.Typename := typename;
                       ULogMessageInfo.ULogId := pk |}
            end) (_msg_info_dict h)) ;;
  executemany T_ULogMessageInfo ULogMessageInfo_rows with_ULogMessageInfo_rows
    ULogMessageInfo.bound rows.

(** The body of the loop over the lists of one key. *)
Definition save_msg_info_list (message_id : Z) (item : Z * list pyvalue) : M unit :=
  let (list_index, message_list) := item in
  list_id <- execute_insert_rowid T_ULogMessageInfoMultipleList
    ULogMessageInfoMultipleList_rows with_ULogMessageInfoMultipleList_rows
    ULogMessageInfoMultipleList.Id ULogMessageInfoMultipleList.bound (fun _ => true)
    (fun id =>
       {| ULogMessageInfoMultipleList.Id := id;
          ULogMessageInfoMultipleList.SeriesIndex := list_index;
          ULogMessageInfoMultipleList.MessageId := message_id |}) ;;
  executemany T_ULogMessageInfoMultipleListElement
    ULogMessageInfoMultipleListElement_rows with_ULogMessageInfoMultipleListElement_rows
    ULogMessageInfoMultipleListElement.bound
    (map (fun '(series_index, value) =>
            {| ULogMessageInfoMultipleListElement.SeriesIndex := series_index;
               ULogMessageInfoMultipleListElement.Value := value;
               ULogMessageInfoMultipleListElement.ListId := list_id |})
         (enumerate message_list)).

(** The body of the loop over the multi-valued info entries. *)
Definition save_msg_info_multiple (types : dict string string)
    (item : string * list (list pyvalue)) : M unit :=
  let (key, lists) := item in
  typename <- lift (subscript types key) ;;
  pk <- self_pk ;;
  message_id <- execute_insert_rowid T_ULogMessageInfoMultiple
    ULogMessageInfoMultiple_rows with_ULogMessageInfoMultiple_rows
    ULogMessageInfoMultiple.Id ULogMessageInfoMultiple.bound (fun _ => true)
    (fun id =>
       {| ULogMessageInfoMultiple.Id := id;
          ULogMessageInfoMultiple.Key := key;
          ULogMessageInfoMultiple.Typename := typename;
          ULogMessageInfoMultiple.ULogId := pk |}) ;;
  for_each (enumerate lists) (save_msg_info_list message_id).

Definition save_msg_info_multiple_dict : M unit :=
  h <- getattr (fun h => h) ;;
  for_each (_msg_info_multiple_dict h)
    (save_msg_info_multiple (_msg_info_multiple_dict_types h)).

Definition save_initial_parameters : M unit :=
  pk <- self_pk ;;
  parameters <- getattr _initial_parameters ;;
  executemany T_ULogInitialParameter ULogInitialParameter_rows with_ULogInitialParameter_rows
    ULogInitialParameter.bound
    (map (fun '(key, value) =>
            {| ULogInitialParameter.Key := key;
               ULogInitialParameter.Value := value;
               ULogInitialParameter.ULogId := pk |})
         parameters).

Definition save_default_parameters : M unit :=
  defaults <- getattr _default_parameters ;;
  for_each defaults (fun '(default_type, parameters) =>
    pk <- self_pk ;;
    executemany T_ULogDefaultParameter ULogDefaultParameter_rows with_ULogDefaultParameter_rows
      ULogDefaultParameter.bound
      (map (fun '(key, value) =>
              {| ULogDefaultParameter.DefaultType := default_type;
                 ULogDefaultParameter.Key := key;
                 ULogDefaultParameter.Value := value;
                 ULogDefaultParameter.ULogId := pk |})
           parameters)).

Definition save_changed_parameters : M unit :=
  pk <- self_pk ;;
  changed <- getattr _changed_parameters ;;
  executemany T_ULogChangedParameter ULogChangedParameter_rows with_ULogChangedParameter_rows
    ULogChangedParameter.bound
    (map (fun '(timestamp, key, value) =>
            {| ULogChangedParameter.Timestamp := timestamp;
               ULogChangedParameter.Key := key;
               ULogChangedParameter.Value := value;
               ULogChangedParameter.ULogId := pk |})
         changed).

(** The body of the [with] block of [save]. *)
Definition save_rows (append_json : bool) : M unit :=
  save_metadata ;;
  save_appended_offsets ;;
  save_data_list append_json ;;
  save_dropouts ;;
  save_logged_messages ;;
  save_logged_messages_tagged ;;
  save_message_formats ;;
  save_msg_info_dict ;;
  save_msg_info_multiple_dict ;;
  save_initial_parameters ;;
  save_default_parameters ;;
  save_changed_parameters.

Definition save (append_json : bool) : M unit :=
  pk <- getattr _pk ;;
  match pk with
  | Some _ => raise (KeyError AlreadyInDatabase)
  | None =>
      sha <- getattr _sha256sum ;;
      pk_from_hash <- primary_key_from_sha256sum sha ;;
      match pk_from_hash with
      | Some id =>
          setattr (set_pk (Some id)) ;;
          raise (KeyError (HashAlreadyInDatabase sha id))
      | None => transaction (save_rows append_json)
      end
  end.

(** *** delete *)

Definition mem (x : Z) (l : list Z) : bool := existsb (Z.eqb x) l.

(** Modelled from the spec: the cascade of [DELETE FROM ULog WHERE Id = ?]
    (the migration files that declare the foreign keys are not part of the
    source).  Every table is foreign-keyed to its parent with a cascading
    delete: the rows of the deleted log go, then the rows that hang from
    those. *)
Definition delete_from_ULog (pk : Z) (s : Store) : Store :=
  let logs := map ULog.Id (filter (fun r => ULog.Id r =? pk) (ULog_rows s)) in
  let datasets :=
    map ULogDataset.Id (filter (fun r => mem (ULogDataset.ULogId r) logs) (ULogDataset_rows s)) in
  let formats :=
    map ULogMessageFormat.Id
      (filter (fun r => mem (ULogMessageFormat.ULogId r) logs) (ULogMessageFormat_rows s)) in
  let multiples :=
    map ULogMessageInfoMultiple.Id
      (filter (fun r => mem (ULogMessageInfoMultiple.ULogId r) logs)
              (ULogMessageInfoMultiple_rows s)) in
  let lists :=
    map ULogMessageInfoMultipleList.Id
      (filter (fun r => mem (ULogMessageInfoMultipleList.MessageId r) multiples)
              (ULogMessageInfoMultipleList_rows s)) in
  let keep {R} (key : R -> Z) (gone : list Z) (rows : list R) : list R :=
    filter (fun r => negb (mem (key r) gone)) rows in
  {| user_version := user_version s;
     ULog_rows := keep ULog.Id logs (ULog_rows s);
     ULogAppendedOffsets_rows :=
       keep ULogAppendedOffsets.ULogId logs (ULogAppendedOffsets_rows s);
     ULogDataset_rows := keep ULogDataset.ULogId logs (ULogDataset_rows s);
     ULogField_rows := keep ULogField.DatasetId datasets (ULogField_rows s);
     ULogMessageDropout_rows := keep ULogMessageDropout.ULogId logs (ULogMessageDropout_rows s);
     ULogMessageLogging_rows := keep ULogMessageLogging.ULogId logs (ULogMessageLogging_rows s);
     ULogMessageLoggingTagged_rows :=
       keep ULogMessageLoggingTagged.ULogId logs (ULogMessageLoggingTagged_rows s);
     ULogMessageFormat_rows := keep ULogMessageFormat.ULogId logs (ULogMessageFormat_rows s);
     ULogMessageFormatField_rows :=
       keep ULogMessageFormatField.MessageId formats (ULogMessageFormatField_rows s);
     ULogMessageInfo_rows := keep ULogMessageInfo.ULogId logs (ULogMessageInfo_rows s);
     ULogMessageInfoMultiple_rows :=
       keep ULogMessageInfoMultiple.ULogId logs (ULogMessageInfoMultiple_rows s);
     ULogMessageInfoMultipleList_rows :=
       keep ULogMessageInfoMultipleList.MessageId multiples (ULogMessageInfoMultipleList_rows s);
     ULogMessageInfoMultipleListElement_rows :=
       keep ULogMessageInfoMultipleListElement.ListId lists
            (ULogMessageInfoMultipleListElement_rows s);
     ULogInitialParameter_rows :=
       keep ULogInitialParameter.ULogId logs (ULogInitialParameter_rows s);
     ULogDefaultParameter_rows :=
       keep ULogDefaultParameter.ULogId logs (ULogDefaultParameter_rows s);
     ULogChangedParameter_rows :=
       keep ULogChangedParameter.ULogId logs (ULogChangedParameter_rows s) |}.

Definition delete : M unit :=
  pk <- getattr _pk ;;
  match pk with
  | None => raise (KeyError NotInDatabase)
  | Some id =>
      transaction (execute_update (DELETE T_ULog) (delete_from_ULog id)) ;;
      setattr (set_pk None)
  end.

(** *** The constructor *)

(** The result is the new object or the exception raised, with the content
    of the database and the statements executed; the outer [None] stands for
    the digest loop running out of fuel. *)
Definition __init__ (fs : FileSystem) (primary_key : option Z)
    (log_file : option log_file_t) (lazy : bool) (s : Store)
  : option (Exn + DatabaseULog) * Store * list Statement :=
  let db_version := user_version s in
  let pragma := [PRAGMA_user_version] in
  if db_version <? SCHEMA_VERSION
  then (Some (inl (ValueError (MigrationNeeded db_version SCHEMA_VERSION))), s, pragma)
  else
    match log_file, primary_key with
    | Some _, Some _ => (Some (inl (ValueError BothPrimaryKeyAndLogFile)), s, pragma)
    | None, None => (Some (inl (ValueError NeitherPrimaryKeyNorLogFile)), s, pragma)
    | _, _ =>
        match calc_sha256sum fs log_file with
        | (None, _) => (None, s, pragma)
        | (Some (inl e), _) => (Some (inl e), s, pragma)
        | (Some (inr sha256sum), log_file') =>
            match ULog__init__ fs log_file' with
            | inl e => (Some (inl e), s, pragma)
            | inr parent =>
                let this :=
                  set_pk primary_key
                    (set_lazy_loaded lazy
                       (match sha256sum with
                        | Some sha => set_sha256sum sha parent
                        | None => parent
                        end)) in
                match primary_key with
                | None => (Some (inr this), s, pragma)
                | Some _ =>
                    let o := load lazy this s in
                    (Some (match result o with
                           | inl e => inl e
                           | inr _ => inr (handle o)
                           end),
                     stored o, pragma ++ executed o)
                end
            end
        end
    end.

End DatabaseULog_methods.

(** ** Statements about calls *)

(** [wp E m h s Q]: run from handle [h] and content [s], the call [m]
    returns a value that satisfies [Q] together with the handle and the
    content it leaves, or raises an exception that satisfies [E]. *)
Definition wp {A} (E : Exn -> DatabaseULog -> Store -> Prop) (m : M A)
    (h : DatabaseULog) (s : Store) (Q : A -> DatabaseULog -> Store -> Prop) : Prop :=
  match result (m h s) with
  | inr a => Q a (handle (m h s)) (stored (m h s))
  | inl e => E e (handle (m h s)) (stored (m h s))
  end.

(** No exception is accepted / every exception is. *)
Definition never : Exn -> DatabaseULog -> Store -> Prop := fun _ _ _ => False.
Definition anyhow : Exn -> DatabaseULog -> Store -> Prop := fun _ _ _ => True.

(** A field of a record (a table of the database, an attribute of the
    handle) with the function that replaces it. *)
Record lens {S V} (get : S -> V) (put : V -> S -> S) : Prop := {
  get_put : forall v s, get (put v s) = v;
  put_put : forall v v' s, put v' (put v s) = put v' s;
  put_get : forall s, put (get s) s = s
}.

(** ** One real fetch of a dataset, as a function of the content

    What the statements of [get_dataset] compute when they are executed:
    the dataset row of (name, multi-instance, log) and, unless lazy, the
    field rows of that dataset decoded in turn. *)

Section fetch.

Variable _UNPACK_TYPES : dict string (string * nat * dtype).

Definition decode_field (acc : list _FieldData * dict string ndarray) (r : ULogField.row)
  : Exn + (list _FieldData * dict string ndarray) :=
  match subscript _UNPACK_TYPES (ULogField.DataType r) with
  | inl e => inl e
  | inr unpack =>
      match frombuffer (ULogField.ValueArray r) (snd unpack) with
      | inl e => inl e
      | inr values =>
          inr (fst acc ++ [{| field_name := ULogField.TopicName r;
                              type_str := ULogField.DataType r |}],
               dict_set (ULogField.TopicName r) values (snd acc))
      end
  end.

Fixpoint decode_fields (rows : list ULogField.row)
    (acc : list _FieldData * dict string ndarray)
  : Exn + (list _FieldData * dict string ndarray) :=
  match rows with
  | [] => inr acc
  | r :: rows' =>
      match decode_field acc r with
      | inl e => inl e
      | inr acc' => decode_fields rows' acc'
      end
  end.

Definition fetch_dataset (name : string) (multi_instance : Z) (lazy : bool)
    (pk : option Z) (s : Store) : Exn + DatabaseData.t :=
  match select_dataset name multi_instance pk s with
  | None => inl (KeyError (DatasetNotFound name multi_instance))
  | Some row =>
      match (if lazy then inr ([], [])
             else decode_fields (select_fields (ULogDataset.Id row) s) ([], [])) with
      | inl e => inl e
      | inr (fields, data) =>
          inr {| DatabaseData.name := name;
                 DatabaseData.multi_id := multi_instance;
                 DatabaseData.msg_id := ULogDataset.MessageId row;
                 DatabaseData.timestamp_idx := ULogDataset.TimestampIndex row;
                 DatabaseData.field_data := fields;
                 DatabaseData.data := data |}
      end
  end.

(** The statements one real fetch executes. *)
Definition fetch_statements (name : string) (multi_instance : Z) (lazy : bool)
    (pk : option Z) (s : Store) : list Statement :=
  SELECT [T_ULogDataset] ::
  match select_dataset name multi_instance pk s with
  | Some _ => if lazy then [] else [SELECT [T_ULogField]]
  | None => []
  end.

(** All the datasets of a log, as [load] collects them. *)
Definition dataset_keys (pk : option Z) (s : Store) : list (string * Z) :=
  order_by name_multi_le
    (map (fun r => (ULogDataset.DatasetName r, ULogDataset.MultiId r))
         (filter (fun r => sql_eq (ULogDataset.ULogId r) pk) (ULogDataset_rows s))).

End fetch.

(** An outcome reached after some more statements were executed first. *)
Definition after {A} (stmts : list Statement) (o : Outcome A) : Outcome A :=
  {| result := result o; handle := handle o; stored := stored o;
     executed := stmts ++ executed o |}.

(** ** The rows of a log

    What the statements of [save] insert, as functions of the handle, of the
    primary key its row received and of the next free rowid of the tables
    that have one: the rows as the tables receive them, with what the
    column keeps of each value. *)

Section rows_of_a_log.

Variable json_column : ndarray -> ndarray -> option string.

Definition ulog_row (h : DatabaseULog) (id : Z) (compat incompat : list Z) : ULog.row :=
  {| ULog.Id := id;
     ULog.FileVersion := _file_version h;
     ULog.StartTimestamp := _start_timestamp h;
     ULog.LastTimestamp := _last_timestamp h;
     ULog.CompatFlags := compat;
     ULog.IncompatFlags := incompat;
     ULog.SyncCount := _sync_seq_cnt h;
     ULog.HasSync := _has_sync h;
     ULog.SHA256Sum := _sha256sum h |}.

Definition offset_rows (pk : Z) (offsets : list Z) : list ULogAppendedOffsets.row :=
  map (fun '(list_index, offset) =>
         {| ULogAppendedOffsets.SeriesIndex := list_index;
            ULogAppendedOffsets.Offset := offset;
            ULogAppendedOffsets.ULogId := pk |})
      (enumerate offsets).

Definition dataset_row (pk id : Z) (dataset : DatabaseData.t) : ULogDataset.row :=
  {| ULogDataset.Id := id;
     ULogDataset.DatasetName := DatabaseData.name dataset;
     ULogDataset.MultiId := DatabaseData.multi_id dataset;
     ULogDataset.MessageId := DatabaseData.msg_id dataset;
     ULogDataset.TimestampIndex := DatabaseData.timestamp_idx dataset;
     ULogDataset.ULogId := pk |}.

Fixpoint dataset_rows (pk next : Z) (l : list DatabaseData.t) : list ULogDataset.row :=
  match l with
  | [] => []
  | dataset :: l' => dataset_row pk next dataset :: dataset_rows pk (next + 1) l'
  end.

Fixpoint field_rows (append_json : bool) (next : Z) (l : list DatabaseData.t)
  : Exn + list ULogField.row :=
  match l with
  | [] => inr []
  | dataset :: l' =>
      match comprehension (field_row json_column append_json dataset next)
                          (DatabaseData.field_data dataset) with
      | inl e => inl e
      | inr rows =>
          match field_rows append_json (next + 1) l' with
          | inl e => inl e
          | inr rows' => inr (rows ++ rows')
          end
      end
  end.

Definition dropout_rows (pk : Z) (l : list DatabaseMessageDropout.t) :=
  map (fun dropout =>
         {| ULogMessageDropout.Timestamp := DatabaseMessageDropout.timestamp dropout;
            ULogMessageDropout.Duration := DatabaseMessageDropout.duration dropout;
            ULogMessageDropout.ULogId := pk |}) l.

Definition logging_rows (pk : Z) (l : list DatabaseMessageLogging.t) :=
  map (fun message =>
         {| ULogMessageLogging.LogLevel := DatabaseMessageLogging.log_level message;
            ULogMessageLogging.Timestamp := DatabaseMessageLogging.timestamp message;
            ULogMessageLogging.Message := DatabaseMessageLogging.message message;
            ULogMessageLogging.ULogId := pk |}) l.

Definition tagged_rows_of (pk tag : Z) (l : list DatabaseMessageLoggingTagged.t) :=
  map (fun message =>
         {| ULogMessageLoggingTagged.LogLevel := DatabaseMessageLoggingTagged.log_level message;
            ULogMessageLoggingTagged.Timestamp := DatabaseMessageLoggingTagged.timestamp message;
            ULogMessageLoggingTagged.Tag := tag;
            ULogMessageLoggingTagged.Message := DatabaseMessageLoggingTagged.message message;
            ULogMessageLoggingTagged.ULogId := pk |}) l.

Definition tagged_rows (pk : Z) (d : dict Z (list DatabaseMessageLoggingTagged.t)) :=
  flat_map (fun '(tag, messages) => tagged_rows_of pk tag messages) d.

Definition format_row (pk id : Z) (name : string) : ULogMessageFormat.row :=
  {| ULogMessageFormat.Id := id; ULogMessageFormat.Name := name;
     ULogMessageFormat.ULogId := pk |}.

Definition format_field_rows_of (format_id : Z) (f : DatabaseMessageFormat.t) :=
  map (fun '(field_type, array_size, field_name) =>
         {| ULogMessageFormatField.FieldType := field_type;
            ULogMessageFormatField.ArraySize := array_size;
            ULogMessageFormatField.Name := field_name;
            ULogMessageFormatField.MessageId := format_id |})
      (DatabaseMessageFormat.fields f).

Fixpoint format_rows (pk next : Z) (d : dict string DatabaseMessageFormat.t) :=
  match d with
  | [] => []
  | (name, _) :: d' => format_row pk next name :: format_rows pk (next + 1) d'
  end.

Fixpoint format_field_rows (next : Z) (d : dict string DatabaseMessageFormat.t) :=
  match d with
  | [] => []
  | (_, f) :: d' => format_field_rows_of next f ++ format_field_rows (next + 1) d'
  end.

Definition info_row (types : dict string string) (pk : Z) (item : string * pyvalue)
  : Exn + ULogMessageInfo.row :=
  let (key, value) := item in
  match subscript types key with
  | inl e => inl e
  | inr typename =>
      inr {| ULogMessageInfo.Key := key;
             ULogMessageInfo.Value := value;
             ULogMessageInfo.Typename := typename;
             ULogMessageInfo.ULogId := pk |}
  end.

Definition info_rows (h : DatabaseULog) (pk : Z) : Exn + list ULogMessageInfo.row :=
  comprehension (info_row (_msg_info_dict_types h) pk) (_msg_info_dict h).

Fixpoint multiple_rows (types : dict string string) (pk next : Z)
    (d : dict string (list (list pyvalue))) : Exn + list ULogMessageInfoMultiple.row :=
  match d with
  | [] => inr []
  | (key, _) :: d' =>
      match subscript types key with
      | inl e => inl e
      | inr typename =>
          match multiple_rows types pk (next + 1) d' with
          | inl e => inl e
          | inr rows =>
              inr ({| ULogMessageInfoMultiple.Id := next;
                      ULogMessageInfoMultiple.Key := key;
                      ULogMessageInfoMultiple.Typename := typename;
                      ULogMessageInfoMultiple.ULogId := pk |} :: rows)
          end
      end
  end.

(** The list rows of one key, from its enumerated lists. *)
Fixpoint list_rows_of (message_id next : Z) (lists : list (Z * list pyvalue)) :=
  match lists with
  | [] => []
  | (list_index, _) :: lists' =>
      {| ULogMessageInfoMultipleList.Id := next;
         ULogMessageInfoMultipleList.SeriesIndex := list_index;
         ULogMessageInfoMultipleList.MessageId := message_id |}
      :: list_rows_of message_id (next + 1) lists'
  end.

Definition element_rows_of (list_id : Z) (l : list pyvalue) :=
  map (fun '(series_index, value) =>
         {| ULogMessageInfoMultipleListElement.SeriesIndex := series_index;
            ULogMessageInfoMultipleListElement.Value := kept value;
            ULogMessageInfoMultipleListElement.ListId := list_id |})
      (enumerate l).

Fixpoint element_rows_of_lists (next : Z) (lists : list (Z * list pyvalue)) :=
  match lists with
  | [] => []
  | (_, l) :: lists' => element_rows_of next l ++ element_rows_of_lists (next + 1) lists'
  end.

Fixpoint list_rows (next_message next_list : Z) (d : dict string (list (list pyvalue))) :=
  match d with
  | [] => []
  | (_, lists) :: d' =>
      list_rows_of next_message next_list (enumerate lists)
      ++ list_rows (next_message + 1) (next_list + Z.of_nat (length lists)) d'
  end.

Fixpoint element_rows (next_list : Z) (d : dict string (list (list pyvalue))) :=
  match d with
  | [] => []
  | (_, lists) :: d' =>
      element_rows_of_lists next_list (enumerate lists)
      ++ element_rows (next_list + Z.of_nat (length lists)) d'
  end.

Definition initial_rows (pk : Z) (d : dict string pyvalue) :=
  map (fun '(key, value) =>
         {| ULogInitialParameter.Key := key;
            ULogInitialParameter.Value := kept value;
            ULogInitialParameter.ULogId := pk |}) d.

Definition default_rows_of (pk default_type : Z) (d : dict string pyvalue) :=
  map (fun '(key, value) =>
         {| ULogDefaultParameter.DefaultType := default_type;
            ULogDefaultParameter.Key := key;
            ULogDefaultParameter.Value := kept value;
            ULogDefaultParameter.ULogId := pk |}) d.

Definition default_rows (pk : Z) (d : dict Z (dict string pyvalue)) :=
  flat_map (fun '(default_type, parameters) => default_rows_of pk default_type parameters) d.

Definition changed_rows (pk : Z) (l : list (Z * string * pyvalue)) :=
  map (fun '(timestamp, key, value) =>
         {| ULogChangedParameter.Timestamp := timestamp;
            ULogChangedParameter.Key := key;
            ULogChangedParameter.Value := kept value;
            ULogChangedParameter.ULogId := pk |}) l.

(** The rows of a log whose computation may raise, once computed; those of
    the info entries are the parameters of their INSERTs. *)
Record computed_rows := {
  compat_text : list Z;
  incompat_text : list Z;
  the_field_rows : list ULogField.row;
  the_info_rows : list ULogMessageInfo.row;
  the_multiple_rows : list ULogMessageInfoMultiple.row
}.

Definition rows_computed (append_json : bool) (h : DatabaseULog) (s : Store)
    (c : computed_rows) : Prop :=
  let pk := next_rowid (map ULog.Id (ULog_rows s)) in
  comprehension chr (_compat_flags h) = inr (compat_text c)
  /\ comprehension chr (_incompat_flags h) = inr (incompat_text c)
  /\ field_rows append_json (next_rowid (map ULogDataset.Id (ULogDataset_rows s)))
                (_data_list h) = inr (the_field_rows c)
  /\ info_rows h pk = inr (the_info_rows c)
  /\ multiple_rows (_msg_info_multiple_dict_types h) pk
       (next_rowid (map ULogMessageInfoMultiple.Id (ULogMessageInfoMultiple_rows s)))
       (_msg_info_multiple_dict h) = inr (the_multiple_rows c).

(** The content of the database once every row of the log is in. *)
Definition with_rows_of (h : DatabaseULog) (c : computed_rows) (s : Store) : Store :=
  let pk := next_rowid (map ULog.Id (ULog_rows s)) in
  {| user_version := user_version s;
     ULog_rows := ULog_rows s ++ [ulog_row h pk (compat_text c) (incompat_text c)];
     ULogAppendedOffsets_rows :=
       ULogAppendedOffsets_rows s ++ offset_rows pk (_appended_offsets h);
     ULogDataset_rows :=
       ULogDataset_rows s
       ++ dataset_rows pk (next_rowid (map ULogDataset.Id (ULogDataset_rows s))) (_data_list h);
     ULogField_rows := ULogField_rows s ++ the_field_rows c;
     ULogMessageDropout_rows := ULogMessageDropout_rows s ++ dropout_rows pk (_dropouts h);
     ULogMessageLogging_rows :=
       ULogMessageLogging_rows s ++ logging_rows pk (_logged_messages h);
     ULogMessageLoggingTagged_rows :=
       ULogMessageLoggingTagged_rows s ++ tagged_rows pk (_logged_messages_tagged h);
     ULogMessageFormat_rows :=
       ULogMessageFormat_rows s
       ++ format_rows pk (next_rowid (map ULogMessageFormat.Id (ULogMessageFormat_rows s)))
            (_message_formats h);
     ULogMessageFormatField_rows :=
       ULogMessageFormatField_rows s
       ++ format_field_rows (next_rowid (map ULogMessageFormat.Id (ULogMessageFormat_rows s)))
            (_message_formats h);
     ULogMessageInfo_rows :=
       ULogMessageInfo_rows s ++ map ULogMessageInfo.as_kept (the_info_rows c);
     ULogMessageInfoMultiple_rows := ULogMessageInfoMultiple_rows s ++ the_multiple_rows c;
     ULogMessageInfoMultipleList_rows :=
       ULogMessageInfoMultipleList_rows s
       ++ list_rows
            (next_rowid (map ULogMessageInfoMultiple.Id (ULogMessageInfoMultiple_rows s)))
            (next_rowid (map ULogMessageInfoMultipleList.Id (ULogMessageInfoMultipleList_rows s)))
            (_msg_info_multiple_dict h);
     ULogMessageInfoMultipleListElement_rows :=
       ULogMessageInfoMultipleListElement_rows s
       ++ element_rows
            (next_rowid (map ULogMessageInfoMultipleList.Id (ULogMessageInfoMultipleList_rows s)))
            (_msg_info_multiple_dict h);
     ULogInitialParameter_rows :=
       ULogInitialParameter_rows s ++ initial_rows pk (_initial_parameters h);
     ULogDefaultParameter_rows :=
       ULogDefaultParameter_rows s ++ default_rows pk (_default_parameters h);
     ULogChangedParameter_rows :=
       ULogChangedParameter_rows s ++ changed_rows pk (_changed_parameters h) |}.

(** The exceptions that writing the rows may raise: a flag that is no code
    point, a missing dict key, JSON text that sqlite refuses, a broken
    constraint, an int that is too large for [chr] or for an INTEGER of
    sqlite, a text with a surrogate. *)
Definition write_error (e : Exn) : Prop :=
  match e with
  | ValueError (ChrOutOfRange _) => True
  | KeyError (MissingKey _) => True
  | OperationalError => True
  | IntegrityError => True
  | OverflowError => True
  | UnicodeEncodeError => True
  | _ => False
  end.

(** The ints and the values that [save] binds to its INSERTs, all of them
    passing a test: the timestamps, counts, levels, tags, sizes and indices
    of the log pass [int_ok], the values of its info entries and parameters
    pass [value_ok]. *)
Record values_pass (int_ok : Z -> bool) (value_ok : pyvalue -> bool) (h : DatabaseULog)
  : Prop := {
  pass_metadata :
    forallb int_ok
            [_file_version h; _start_timestamp h; _last_timestamp h; _sync_seq_cnt h] = true;
  pass_offsets : forallb int_ok (_appended_offsets h) = true;
  pass_datasets :
    forallb (fun d => forallb int_ok
                        [DatabaseData.multi_id d; DatabaseData.msg_id d;
                         DatabaseData.timestamp_idx d])
            (_data_list h) = true;
  pass_dropouts :
    forallb (fun d => forallb int_ok
                        [DatabaseMessageDropout.timestamp d;
                         DatabaseMessageDropout.duration d])
            (_dropouts h) = true;
  pass_messages :
    forallb (fun m => forallb int_ok
                        [DatabaseMessageLogging.log_level m;
                         DatabaseMessageLogging.timestamp m])
            (_logged_messages h) = true;
  pass_tagged :
    forallb (fun item =>
               forallb (fun m => forallb int_ok
                                   [DatabaseMessageLoggingTagged.log_level m;
                                    DatabaseMessageLoggingTagged.timestamp m;
                                    fst item])
                       (snd item))
            (_logged_messages_tagged h) = true;
  pass_formats :
    forallb (fun item =>
               forallb (fun field => int_ok (snd (fst field)))
                       (DatabaseMessageFormat.fields (snd item)))
            (_message_formats h) = true;
  pass_info : forallb (fun item => value_ok (snd item)) (_msg_info_dict h) = true;
  pass_multiple :
    forallb (fun item => forallb (forallb value_ok) (snd item))
            (_msg_info_multiple_dict h) = true;
  pass_initial : forallb (fun item => value_ok (snd item)) (_initial_parameters h) = true;
  pass_default :
    forallb (fun item =>
               forallb (fun parameter => int_ok (fst item) && value_ok (snd parameter))
                       (snd item))
            (_default_parameters h) = true;
  pass_changed :
    forallb (fun change => int_ok (fst (fst change)) && value_ok (snd change))
            (_changed_parameters h) = true
}.

(** Every parameter of the INSERTs of [save] can be bound: the ints of the
    log fit 64 bits and its flags are no surrogates. *)
Definition binds (h : DatabaseULog) : Prop :=
  values_pass sqlite_integer storable h
  /\ existsb surrogate (_compat_flags h ++ _incompat_flags h) = false.

Definition dataset_key (d : DatabaseData.t) : string * Z :=
  (DatabaseData.name d, DatabaseData.multi_id d).

(** What makes the writes of [save] go through: the rows can be computed
    and their parameters bound, the digest is new, no dataset or format row
    already carries the primary key the log will get, and the log names
    each dataset and each format once. *)
Definition save_ok (append_json : bool) (h : DatabaseULog) (s : Store) : Prop :=
  let pk := next_rowid (map ULog.Id (ULog_rows s)) in
  (exists c, rows_computed append_json h s c)
  /\ binds h
  /\ (forall r, In r (ULog_rows s) -> ULog.SHA256Sum r <> _sha256sum h)
  /\ (forall r, In r (ULogDataset_rows s) -> ULogDataset.ULogId r <> pk)
  /\ NoDup (map dataset_key (_data_list h))
  /\ (forall r, In r (ULogMessageFormat_rows s) -> ULogMessageFormat.ULogId r <> pk)
  /\ NoDup (keys (_message_formats h)).

(** Every write error is among the accepted exceptions. *)
Definition forgiving (E : Exn -> DatabaseULog -> Store -> Prop) : Prop :=
  forall e h s, write_error e -> E e h s.

End rows_of_a_log.

(** ** What a log owns

    No row of [s'] belongs to the log [id], where the rows of [s] tell
    which datasets, formats, multi-valued entries and lists were its own. *)
Definition owned_rows_gone (id : Z) (s s' : Store) : Prop :=
  (forall r, In r (ULog_rows s') -> ULog.Id r <> id)
  /\ (forall r, In r (ULogAppendedOffsets_rows s') -> ULogAppendedOffsets.ULogId r <> id)
  /\ (forall r, In r (ULogDataset_rows s') -> ULogDataset.ULogId r <> id)
  /\ (forall r, In r (ULogMessageDropout_rows s') -> ULogMessageDropout.ULogId r <> id)
  /\ (forall r, In r (ULogMessageLogging_rows s') -> ULogMessageLogging.ULogId r <> id)
  /\ (forall r, In r (ULogMessageLoggingTagged_rows s') ->
                ULogMessageLoggingTagged.ULogId r <> id)
  /\ (forall r, In r (ULogMessageFormat_rows s') -> ULogMessageFormat.ULogId r <> id)
  /\ (forall r, In r (ULogMessageInfo_rows s') -> ULogMessageInfo.ULogId r <> id)
  /\ (forall r, In r (ULogMessageInfoMultiple_rows s') -> ULogMessageInfoMultiple.ULogId r <> id)
  /\ (forall r, In r (ULogInitialParameter_rows s') -> ULogInitialParameter.ULogId r <> id)
  /\ (forall r, In r (ULogDefaultParameter_rows s') -> ULogDefaultParameter.ULogId r <> id)
  /\ (forall r, In r (ULogChangedParameter_rows s') -> ULogChangedParameter.ULogId r <> id)
  /\ (forall f d, In f (ULogField_rows s') -> In d (ULogDataset_rows s) ->
                  ULogDataset.ULogId d = id -> ULogField.DatasetId f <> ULogDataset.Id d)
  /\ (forall f m, In f (ULogMessageFormatField_rows s') -> In m (ULogMessageFormat_rows s) ->
                  ULogMessageFormat.ULogId m = id ->
                  ULogMessageFormatField.MessageId f <> ULogMessageFormat.Id m)
  /\ (forall l m, In l (ULogMessageInfoMultipleList_rows s') ->
                  In m (ULogMessageInfoMultiple_rows s) ->
                  ULogMessageInfoMultiple.ULogId m = id ->
                  ULogMessageInfoMultipleList.MessageId l <> ULogMessageInfoMultiple.Id m)
  /\ (forall e l m, In e (ULogMessageInfoMultipleListElement_rows s') ->
                    In l (ULogMessageInfoMultipleList_rows s) ->
                    In m (ULogMessageInfoMultiple_rows s) ->
                    ULogMessageInfoMultiple.ULogId m = id ->
                    ULogMessageInfoMultipleList.MessageId l = ULogMessageInfoMultiple.Id m ->
                    ULogMessageInfoMultipleListElement.ListId e
                    <> ULogMessageInfoMultipleList.Id l).

(** ** What load reads

    The result of each SELECT of [load] as an object of the handle, and the
    handle [load] leaves as a function of the handle it starts from and of
    the content of the database. *)

Section what_load_reads.

Variable _UNPACK_TYPES : dict string (string * nat * dtype).

Definition select_record (pk : option Z) (s : Store) : option ULog.row :=
  find (fun r => sql_eq (ULog.Id r) pk) (ULog_rows s).

Definition stored_offsets (pk : option Z) (s : Store) : list Z :=
  map ULogAppendedOffsets.Offset
    (order_by (fun a b => ULogAppendedOffsets.SeriesIndex a <=? ULogAppendedOffsets.SeriesIndex b)
       (filter (fun r => sql_eq (ULogAppendedOffsets.ULogId r) pk)
               (ULogAppendedOffsets_rows s))).

Definition stored_datasets (lazy : bool) (pk : option Z) (s : Store)
  : Exn + list DatabaseData.t :=
  comprehension (fun '(name, multi) => fetch_dataset _UNPACK_TYPES name multi lazy pk s)
                (dataset_keys pk s).

Definition dropout_of (r : ULogMessageDropout.row) : DatabaseMessageDropout.t :=
  {| DatabaseMessageDropout.timestamp := ULogMessageDropout.Timestamp r;
     DatabaseMessageDropout.duration := ULogMessageDropout.Duration r |}.

Definition stored_dropouts (pk : option Z) (s : Store) : list DatabaseMessageDropout.t :=
  map dropout_of
    (filter (fun r => sql_eq (ULogMessageDropout.ULogId r) pk) (ULogMessageDropout_rows s)).

Definition message_of (r : ULogMessageLogging.row) : DatabaseMessageLogging.t :=
  {| DatabaseMessageLogging.log_level := ULogMessageLogging.LogLevel r;
     DatabaseMessageLogging.timestamp := ULogMessageLogging.Timestamp r;
     DatabaseMessageLogging.message := ULogMessageLogging.Message r |}.

Definition stored_messages (pk : option Z) (s : Store) : list DatabaseMessageLogging.t :=
  map message_of
    (filter (fun r => sql_eq (ULogMessageLogging.ULogId r) pk) (ULogMessageLogging_rows s)).

Definition tagged_of (r : ULogMessageLoggingTagged.row) : DatabaseMessageLoggingTagged.t :=
  {| DatabaseMessageLoggingTagged.log_level := ULogMessageLoggingTagged.LogLevel r;
     DatabaseMessageLoggingTagged.tag := ULogMessageLoggingTagged.Tag r;
     DatabaseMessageLoggingTagged.timestamp := ULogMessageLoggingTagged.Timestamp r;
     DatabaseMessageLoggingTagged.message := ULogMessageLoggingTagged.Message r |}.

Definition stored_tagged (pk : option Z) (s : Store) : list DatabaseMessageLoggingTagged.t :=
  map tagged_of
    (filter (fun r => sql_eq (ULogMessageLoggingTagged.ULogId r) pk)
            (ULogMessageLoggingTagged_rows s)).

Definition stored_info (pk : option Z) (s : Store) : list ULogMessageInfo.row :=
  filter (fun r => sql_eq (ULogMessageInfo.ULogId r) pk) (ULogMessageInfo_rows s).

(** A multi-valued entry: its key, its type and its lists of values. *)
Definition stored_multiple (pk : option Z) (s : Store)
  : list (string * string * list (list pyvalue)) :=
  map (fun r => (ULogMessageInfoMultiple.Key r, ULogMessageInfoMultiple.Typename r,
                 map (fun list_id => select_list_elements list_id s)
                     (select_lists (ULogMessageInfoMultiple.Id r) s)))
      (filter (fun r => sql_eq (ULogMessageInfoMultiple.ULogId r) pk)
              (ULogMessageInfoMultiple_rows s)).

Definition stored_initial (pk : option Z) (s : Store) : list ULogInitialParameter.row :=
  filter (fun r => sql_eq (ULogInitialParameter.ULogId r) pk) (ULogInitialParameter_rows s).

Definition stored_default (pk : option Z) (s : Store) : list ULogDefaultParameter.row :=
  filter (fun r => sql_eq (ULogDefaultParameter.ULogId r) pk) (ULogDefaultParameter_rows s).

Definition stored_changed (pk : option Z) (s : Store) : list (Z * string * pyvalue) :=
  map (fun r => (ULogChangedParameter.Timestamp r, ULogChangedParameter.Key r,
                 ULogChangedParameter.Value r))
      (filter (fun r => sql_eq (ULogChangedParameter.ULogId r) pk)
              (ULogChangedParameter_rows s)).

(** The handle after a [load] that found the record [r] and fetched the
    datasets [datasets]. *)
Definition loaded (lazy : bool) (r : ULog.row) (datasets : list DatabaseData.t)
    (h : DatabaseULog) (s : Store) : DatabaseULog :=
  let pk := _pk h in
  {| _pk := pk;
     _sha256sum := ULog.SHA256Sum r;
     _lazy_loaded := lazy;
     _file_version := ULog.FileVersion r;
     _start_timestamp := ULog.StartTimestamp r;
     _last_timestamp := ULog.LastTimestamp r;
     _compat_flags := map ord (ULog.CompatFlags r);
     _incompat_flags := map ord (ULog.IncompatFlags r);
     _sync_seq_cnt := ULog.SyncCount r;
     _has_sync := ULog.HasSync r;
     _appended_offsets := _appended_offsets h ++ stored_offsets pk s;
     _data_list := datasets;
     _dropouts := _dropouts h ++ stored_dropouts pk s;
     _logged_messages := _logged_messages h ++ stored_messages pk s;
     _logged_messages_tagged :=
       fold_left (fun d m => append_tagged m d) (stored_tagged pk s)
                 (_logged_messages_tagged h);
     _message_formats :=
       fold_left (fun d row => add_format_field row d) (select_format_fields pk s)
                 (_message_formats h);
     _msg_info_dict :=
       fold_left (fun d r => dict_set (ULogMessageInfo.Key r) (ULogMessageInfo.Value r) d)
                 (stored_info pk s) (_msg_info_dict h);
     _msg_info_dict_types :=
       fold_left (fun d r => dict_set (ULogMessageInfo.Key r) (ULogMessageInfo.Typename r) d)
                 (stored_info pk s) (_msg_info_dict_types h);
     _msg_info_multiple_dict :=
       fold_left (fun d '(key, _, lists) => dict_set key lists d)
                 (stored_multiple pk s) (_msg_info_multiple_dict h);
     _msg_info_multiple_dict_types :=
       fold_left (fun d '(key, typename, _) => dict_set key typename d)
                 (stored_multiple pk s) (_msg_info_multiple_dict_types h);
     _initial_parameters :=
       fold_left (fun d r => dict_set (ULogInitialParameter.Key r)
                                      (ULogInitialParameter.Value r) d)
                 (stored_initial pk s) (_initial_parameters h);
     _default_parameters :=
       fold_left (fun d r => set_default (ULogDefaultParameter.DefaultType r)
                                         (ULogDefaultParameter.Key r)
                                         (ULogDefaultParameter.Value r) d)
                 (stored_default pk s) (_default_parameters h);
     _changed_parameters := _changed_parameters h ++ stored_changed pk s |}.

(** The entry of the dataset list for one stored pair after a lazy fetch:
    what the dataset row holds, and neither fields nor data. *)
Definition lazy_entry (pk : option Z) (s : Store) (key : string * Z)
  : option DatabaseData.t :=
  match select_dataset (fst key) (snd key) pk s with
  | Some row =>
      Some {| DatabaseData.name := fst key;
              DatabaseData.multi_id := snd key;
              DatabaseData.msg_id := ULogDataset.MessageId row;
              DatabaseData.timestamp_idx := ULogDataset.TimestampIndex row;
              DatabaseData.field_data := [];
              DatabaseData.data := [] |}
  | None => None
  end.

(** The test of [exists_in_db]: exactly one row has the primary key. *)
Definition persisted_test (pk : option Z) (s : Store) : bool :=
  (length (filter (fun r => sql_eq (ULog.Id r) pk) (ULog_rows s)) =? 1)%nat.

(** The items a tag, or any key, maps to; none for an unknown key. *)
Definition items_at {K V} `{Key K} (k : K) (d : dict K (list V)) : list V :=
  match dict_get k d with Some l => l | None => [] end.

End what_load_reads.

(** ** Contents that differ in the JSON column only *)

Definition erase_json (r : ULogField.row) : ULogField.row :=
  {| ULogField.TopicName := ULogField.TopicName r;
     ULogField.DataType := ULogField.DataType r;
     ULogField.ValueArray := ULogField.ValueArray r;
     ULogField.ValueJson := None;
     ULogField.DatasetId := ULogField.DatasetId r |}.

Definition without_json (s : Store) : Store :=
  with_ULogField_rows (map erase_json (ULogField_rows s)) s.

Definition same_but_json (s1 s2 : Store) : Prop := without_json s1 = without_json s2.

(** A call that cannot tell two such contents apart: same result, same
    handle, same statements, and contents that still differ in the JSON
    column only. *)
Definition json_blind {A} (m : M A) : Prop :=
  forall h s1 s2, same_but_json s1 s2 ->
    result (m h s1) = result (m h s2)
    /\ handle (m h s1) = handle (m h s2)
    /\ executed (m h s1) = executed (m h s2)
    /\ same_but_json (stored (m h s1)) (stored (m h s2)).

(** ** Datasets made of the packed columns

    A dataset that was read from the packed columns of the content [s] for
    the log [pk]: [row] is the first row of ULogDataset with its name, its
    instance and the log, and the rows of ULogField that belong to [row],
    in the order of the table, each gave one field declaration and, under
    its name, the array over its bytes of ValueArray with the numpy type of
    its DataType. *)
Definition decoded_from_ValueArray (_UNPACK_TYPES : dict string (string * nat * dtype))
    (s : Store) (pk : option Z) (d : DatabaseData.t) : Prop :=
  exists row,
    find (fun r => String.eqb (ULogDataset.DatasetName r) (DatabaseData.name d)
                   && (ULogDataset.MultiId r =? DatabaseData.multi_id d)
                   && sql_eq (ULogDataset.ULogId r) pk)
         (ULogDataset_rows s) = Some row
    /\ DatabaseData.msg_id d = ULogDataset.MessageId row
    /\ DatabaseData.timestamp_idx d = ULogDataset.TimestampIndex row
    /\ let rows := filter (fun r => ULogField.DatasetId r =? ULogDataset.Id row)
                          (ULogField_rows s) in
       DatabaseData.field_data d
       = map (fun r => {| field_name := ULogField.TopicName r;
                          type_str := ULogField.DataType r |}) rows
       /\ exists arrays,
            Forall2 (fun r a =>
                       exists unpack,
                         dict_get (ULogField.DataType r) _UNPACK_TYPES = Some unpack
                         /\ (length (ULogField.ValueArray r) mod itemsize (snd unpack) = 0)%nat
                         /\ a = {| arr_dtype := snd unpack;
                                   arr_buffer := ULogField.ValueArray r |})
                    rows arrays
            /\ DatabaseData.data d
               = fold_left (fun data ra => dict_set (ULogField.TopicName (fst ra)) (snd ra) data)
                           (combine rows arrays) [].

(** ** The logs and databases of the round trip *)


Section round_trip_conditions.

Variable _UNPACK_TYPES : dict string (string * nat * dtype).
Variable json_column : ndarray -> ndarray -> option string.

(** A dataset as the decoder builds it: its data holds one array per
    declared field, in the order of the declarations, each of the numpy
    type of the declared element type; the fields have distinct names. *)
Definition column_of_field (f : _FieldData) (column : string * ndarray) : Prop :=
  fst column = field_name f
  /\ (exists letter size,
        dict_get (type_str f) _UNPACK_TYPES = Some (letter, size, arr_dtype (snd column)))
  /\ (length (arr_buffer (snd column)) mod itemsize (arr_dtype (snd column)) = 0)%nat.

Definition decoded_dataset (d : DatabaseData.t) : Prop :=
  Forall2 column_of_field (DatabaseData.field_data d) (DatabaseData.data d)
  /\ NoDup (map field_name (DatabaseData.field_data d)).

(** A log as the decoder builds it, with what the tables can hold: flags
    that are code points; datasets, tags, formats, info keys and parameter
    keys that are named once; under each tag at least one message, which
    carries that tag; each format under its own name with at least one
    field; a type for each info key, in the order of the keys; under each
    kind of default at least one parameter. *)
Record decoded_log (h : DatabaseULog) : Prop := {
  compat_code_points : Forall (fun n => 0 <= n < 0x110000) (_compat_flags h);
  incompat_code_points : Forall (fun n => 0 <= n < 0x110000) (_incompat_flags h);
  datasets_decoded : Forall decoded_dataset (_data_list h);
  datasets_once : NoDup (map dataset_key (_data_list h));
  tags_once : NoDup (keys (_logged_messages_tagged h));
  tags_used :
    Forall (fun item => snd item <> []
                        /\ Forall (fun m => DatabaseMessageLoggingTagged.tag m = fst item)
                                  (snd item))
           (_logged_messages_tagged h);
  formats_once : NoDup (keys (_message_formats h));
  formats_named :
    Forall (fun item => DatabaseMessageFormat.name (snd item) = fst item
                        /\ DatabaseMessageFormat.fields (snd item) <> [])
           (_message_formats h);
  info_once : NoDup (keys (_msg_info_dict h));
  info_typed : keys (_msg_info_dict_types h) = keys (_msg_info_dict h);
  multiple_once : NoDup (keys (_msg_info_multiple_dict h));
  multiple_typed : keys (_msg_info_multiple_dict_types h) = keys (_msg_info_multiple_dict h);
  initial_once : NoDup (keys (_initial_parameters h));
  default_once : NoDup (keys (_default_parameters h));
  default_used :
    Forall (fun item => snd item <> [] /\ NoDup (keys (snd item))) (_default_parameters h)
}.

(** Numbers that a column of sqlite gives back equal to what was bound,
    whether the schema declares it INTEGER or REAL (the migration files are
    not part of the source): an int that a REAL holds exactly, up to 2^53
    either way, and a float that is no NaN.  Equal is the [==] of Python,
    for which an int and the float of the same value are one number.
    Texts, bytes and [None] are bound and read back as they are. *)
Definition exact_integer (z : Z) : bool := (- 2 ^ 53 <=? z) && (z <=? 2 ^ 53).

Definition exact_value (v : pyvalue) : bool :=
  match v with
  | PyInt z => exact_integer z
  | PyFloat bits => negb (isnan bits)
  | PyStr _ | PyBytes _ | PyNone => true
  end.

(** A log whose numbers are all of that kind and whose flags are no
    surrogate code points. *)
Definition kept_exactly (h : DatabaseULog) : Prop :=
  values_pass exact_integer exact_value h
  /\ existsb surrogate (_compat_flags h ++ _incompat_flags h) = false.

(** With [append_json], the JSON text of every column can be written: the
    dataset has a column of timestamps and sqlite accepts each text. *)
Definition json_written (append_json : bool) (h : DatabaseULog) : Prop :=
  append_json = true ->
  Forall (fun d => exists timestamps,
            dict_get "timestamp"%string (DatabaseData.data d) = Some timestamps
            /\ Forall (fun column => json_column timestamps (snd column) <> None)
                      (DatabaseData.data d))
         (_data_list h).

(** A database whose foreign keys all name a row of the parent table, as
    sqlite keeps it with [PRAGMA foreign_keys=on]. *)
Record store_intact (s : Store) : Prop := {
  fk_offsets : forall r, In r (ULogAppendedOffsets_rows s) ->
      In (ULogAppendedOffsets.ULogId r) (map ULog.Id (ULog_rows s));
  fk_datasets : forall r, In r (ULogDataset_rows s) ->
      In (ULogDataset.ULogId r) (map ULog.Id (ULog_rows s));
  fk_fields : forall r, In r (ULogField_rows s) ->
      In (ULogField.DatasetId r) (map ULogDataset.Id (ULogDataset_rows s));
  fk_dropouts : forall r, In r (ULogMessageDropout_rows s) ->
      In (ULogMessageDropout.ULogId r) (map ULog.Id (ULog_rows s));
  fk_messages : forall r, In r (ULogMessageLogging_rows s) ->
      In (ULogMessageLogging.ULogId r) (map ULog.Id (ULog_rows s));
  fk_tagged : forall r, In r (ULogMessageLoggingTagged_rows s) ->
      In (ULogMessageLoggingTagged.ULogId r) (map ULog.Id (ULog_rows s));
  fk_formats : forall r, In r (ULogMessageFormat_rows s) ->
      In (ULogMessageFormat.ULogId r) (map ULog.Id (ULog_rows s));
  fk_format_fields : forall r, In r (ULogMessageFormatField_rows s) ->
      In (ULogMessageFormatField.MessageId r)
         (map ULogMessageFormat.Id (ULogMessageFormat_rows s));
  fk_info : forall r, In r (ULogMessageInfo_rows s) ->
      In (ULogMessageInfo.ULogId r) (map ULog.Id (ULog_rows s));
  fk_multiple : forall r, In r (ULogMessageInfoMultiple_rows s) ->
      In (ULogMessageInfoMultiple.ULogId r) (map ULog.Id (ULog_rows s));
  fk_lists : forall r, In r (ULogMessageInfoMultipleList_rows s) ->
      In (ULogMessageInfoMultipleList.MessageId r)
         (map ULogMessageInfoMultiple.Id (ULogMessageInfoMultiple_rows s));
  fk_elements : forall r, In r (ULogMessageInfoMultipleListElement_rows s) ->
      In (ULogMessageInfoMultipleListElement.ListId r)
         (map ULogMessageInfoMultipleList.Id (ULogMessageInfoMultipleList_rows s));
  fk_initial : forall r, In r (ULogInitialParameter_rows s) ->
      In (ULogInitialParameter.ULogId r) (map ULog.Id (ULog_rows s));
  fk_default : forall r, In r (ULogDefaultParameter_rows s) ->
      In (ULogDefaultParameter.ULogId r) (map ULog.Id (ULog_rows s));
  fk_changed : forall r, In r (ULogChangedParameter_rows s) ->
      In (ULogChangedParameter.ULogId r) (map ULog.Id (ULog_rows s))
}.

(** A handle as the constructor has it before [load]: the parent class
    made its lists and dicts empty. *)
Record new_handle (h : DatabaseULog) : Prop := {
  no_offsets : _appended_offsets h = [];
  no_dropouts : _dropouts h = [];
  no_messages : _logged_messages h = [];
  no_tagged : _logged_messages_tagged h = [];
  no_formats : _message_formats h = [];
  no_info : _msg_info_dict h = [];
  no_info_types : _msg_info_dict_types h = [];
  no_multiple : _msg_info_multiple_dict h = [];
  no_multiple_types : _msg_info_multiple_dict_types h = [];
  no_initial : _initial_parameters h = [];
  no_default : _default_parameters h = [];
  no_changed : _changed_parameters h = []
}.


End round_trip_conditions.

(** ** Concrete objects used in the examples *)

Module Examples.

Open Scope string_scope.

(** A file of one byte, the letter a. *)
Definition one_byte_fs : FileSystem :=
  fun path => if String.eqb path "log.ulg" then Some [x61]%byte else None.

(** A stream on it, at a position, open or closed. *)
Definition stream_at (p : nat) (is_closed : bool) : BufferedReader :=
  {| name := "log.ulg"; closed := is_closed; pos := p; content := [x61]%byte |}.

(** Element types of a log and their numpy types. *)
Definition unpack_types : dict string (string * nat * dtype) :=
  [ ("int8_t", ("b", 1%nat, int8)); ("uint8_t", ("B", 1%nat, uint8));
    ("int16_t", ("h", 2%nat, int16)); ("uint16_t", ("H", 2%nat, uint16));
    ("int32_t", ("i", 4%nat, int32)); ("uint32_t", ("I", 4%nat, uint32));
    ("int64_t", ("q", 8%nat, int64)); ("uint64_t", ("Q", 8%nat, uint64));
    ("float", ("f", 4%nat, float32)); ("double", ("d", 8%nat, float64));
    ("bool", ("?", 1%nat, int8)); ("char", ("c", 1%nat, int8)) ].

(** A JSON column that records nothing of the values. *)
Definition json_column (timestamps values : ndarray) : option string := Some "{}".

(** A database at the schema version of the class, without rows. *)
Definition empty_store : Store :=
  {| user_version := 5;
     ULog_rows := []; ULogAppendedOffsets_rows := []; ULogDataset_rows := [];
     ULogField_rows := []; ULogMessageDropout_rows := []; ULogMessageLogging_rows := [];
     ULogMessageLoggingTagged_rows := []; ULogMessageFormat_rows := [];
     ULogMessageFormatField_rows := []; ULogMessageInfo_rows := [];
     ULogMessageInfoMultiple_rows := []; ULogMessageInfoMultipleList_rows := [];
     ULogMessageInfoMultipleListElement_rows := []; ULogInitialParameter_rows := [];
     ULogDefaultParameter_rows := []; ULogChangedParameter_rows := [] |}.

(** The same, not migrated yet. *)
Definition old_store : Store := with_user_version 4 empty_store.

(** An object as the parent constructor leaves it without a log file. *)
Definition empty_log : DatabaseULog :=
  {| _pk := None; _sha256sum := ""; _lazy_loaded := true; _file_version := 0;
     _start_timestamp := 0; _last_timestamp := 0;
     _compat_flags := [0; 0; 0; 0; 0; 0; 0; 0];
     _incompat_flags := [0; 0; 0; 0; 0; 0; 0; 0];
     _sync_seq_cnt := 0; _has_sync := true;
     _appended_offsets := []; _data_list := []; _dropouts := []; _logged_messages := [];
     _logged_messages_tagged := []; _message_formats := []; _msg_info_dict := [];
     _msg_info_dict_types := []; _msg_info_multiple_dict := [];
     _msg_info_multiple_dict_types := []; _initial_parameters := [];
     _default_parameters := []; _changed_parameters := [] |}.

(** One instance of a topic with a timestamp and a value of one row. *)
Definition imu (multi : Z) (v : byte) : DatabaseData.t :=
  {| DatabaseData.name := "imu"; DatabaseData.multi_id := multi;
     DatabaseData.msg_id := multi; DatabaseData.timestamp_idx := 0;
     DatabaseData.field_data :=
       [ {| field_name := "timestamp"; type_str := "uint64_t" |};
         {| field_name := "value"; type_str := "uint8_t" |} ];
     DatabaseData.data :=
       [ ("timestamp",
          {| arr_dtype := uint64;
             arr_buffer := [x01; x00; x00; x00; x00; x00; x00; x00]%byte |});
         ("value", {| arr_dtype := uint8; arr_buffer := [v] |}) ] |}.

(** The same entry as a lazy load leaves it: no fields, no data. *)
Definition lazy_imu (multi : Z) : DatabaseData.t :=
  {| DatabaseData.name := "imu"; DatabaseData.multi_id := multi;
     DatabaseData.msg_id := multi; DatabaseData.timestamp_idx := 0;
     DatabaseData.field_data := []; DatabaseData.data := [] |}.

(** A decoded log: two instances of one topic, a dropout, messages, one
    format, info entries and parameters. *)
Definition sample_log : DatabaseULog :=
  {| _pk := None;
     _sha256sum := "ca978112ca1bbdcafac231b39a23dc4da786eff8147c4e72b9807785afee48bb";
     _lazy_loaded := false; _file_version := 1;
     _start_timestamp := 10; _last_timestamp := 20;
     _compat_flags := [1; 0; 0; 0; 0; 0; 0; 0];
     _incompat_flags := [0; 0; 0; 0; 0; 0; 0; 0];
     _sync_seq_cnt := 0; _has_sync := false;
     _appended_offsets := [100; 200];
     _data_list := [imu 0 x07%byte; imu 1 x09%byte];
     _dropouts := [ {| DatabaseMessageDropout.timestamp := 5;
                       DatabaseMessageDropout.duration := 2 |} ];
     _logged_messages :=
       [ {| DatabaseMessageLogging.log_level := 6; DatabaseMessageLogging.timestamp := 11;
            DatabaseMessageLogging.message := "armed" |} ];
     _logged_messages_tagged :=
       [ (1, [ {| DatabaseMessageLoggingTagged.log_level := 3;
                  DatabaseMessageLoggingTagged.tag := 1;
                  DatabaseMessageLoggingTagged.timestamp := 12;
                  DatabaseMessageLoggingTagged.message := "hi" |} ]) ];
     _message_formats :=
       [ ("imu", {| DatabaseMessageFormat.name := "imu";
                    DatabaseMessageFormat.fields :=
                      [("uint64_t", 0, "timestamp"); ("uint8_t", 0, "value")] |}) ];
     _msg_info_dict := [("sys_name", PyStr "PX4")];
     _msg_info_dict_types := [("sys_name", "char[3]")];
     _msg_info_multiple_dict := [("perf", [[PyStr "a"; PyStr "b"]; [PyStr "c"]])];
     _msg_info_multiple_dict_types := [("perf", "char[1]")];
     _initial_parameters := [("P", PyInt 1)];
     _default_parameters := [(1, [("P", PyInt 0)])];
     _changed_parameters := [(15, "P", PyInt 2)] |}.

(** The same log with the types of its info entries lost: writing its rows
    stops at the info entries, after the rows of the log, of its offsets
    and of its datasets went in. *)
Definition broken_log : DatabaseULog := set_msg_info_dict_types [] sample_log.

(** The same log with one more format, which declares no field. *)
Definition fieldless_log : DatabaseULog :=
  set_message_formats
    (_message_formats sample_log
     ++ [("event", {| DatabaseMessageFormat.name := "event";
                      DatabaseMessageFormat.fields := [] |})])%list
    sample_log.

(** Another log: other content, and its datasets in another order. *)
Definition second_log : DatabaseULog :=
  set_sha256sum "e3b0c44298fc1c149afbf4c8996fb92427ae41e4649b934ca495991b7852b855"
    (set_data_list [imu 1 x09%byte; imu 0 x08%byte] sample_log).

(** The database after that log was saved into the empty one. *)
Definition saved_store : Store := stored (save json_column false sample_log empty_store).

(** Its row in the table ULog. *)
Definition saved_row : ULog.row :=
  {| ULog.Id := 1; ULog.FileVersion := 1; ULog.StartTimestamp := 10;
     ULog.LastTimestamp := 20;
     ULog.CompatFlags := [1; 0; 0; 0; 0; 0; 0; 0];
     ULog.IncompatFlags := [0; 0; 0; 0; 0; 0; 0; 0];
     ULog.SyncCount := 0; ULog.HasSync := false;
     ULog.SHA256Sum := "ca978112ca1bbdcafac231b39a23dc4da786eff8147c4e72b9807785afee48bb" |}.

(** A new object that names a stored log, before [load] fills it. *)
Definition named (pk : Z) : DatabaseULog := set_pk (Some pk) empty_log.

(** The parent constructor for these: an empty log without a file; it
    decodes no file. *)
Definition parent_init (fs : FileSystem) (log_file : option log_file_t)
  : Exn + DatabaseULog :=
  match log_file with
  | None => inr empty_log
  | Some _ => inl ParseError
  end.

End Examples.

(** ** write_ulog

    The guard of [DatabaseULog.write_ulog]; the writer of the parent class
    is outside this module and taken as given. *)

Section write_ulog.

Variable ULog_write_ulog : DatabaseULog -> log_file_t -> FileSystem -> Exn + FileSystem.

Definition write_ulog (h : DatabaseULog) (log_file : log_file_t) (fs : FileSystem)
  : Exn + FileSystem :=
  if _lazy_loaded h then inl (ValueError WriteAfterLazyLoad)
  else ULog_write_ulog h log_file fs.

End write_ulog.

(** * pyulog.utils: was the vehicle armed?

    A shallow embedding of [pyulog/utils.py], which searches a log file for
    the arming state without decoding it.  The file is read through a
    memory map: its bytes and a position. *)

Module Utils.

(** The exceptions raised: [ValueError] with the message of the module or
    of [mmap.seek], [IndexError] from indexing a bytes object, and what
    [ULog.get_field_size] raises that [find_field_offset] does not catch. *)
Inductive Error :=
| SeekOutOfRange                               (* ValueError: seek out of range *)
| SubscriptionNotFound (msg_name : string)     (* ValueError: Could not find subscription *)
| UnknownDataType (data_type target : string)  (* ValueError: Unknown data type *)
| FieldNotFound (target : string)              (* ValueError: Field not found *)
| NoVehicleStatus                              (* ValueError: No vehicle_status messages *)
| IndexError                                   (* index out of range *)
| Uncaught (exc : Exn).                        (* no ValueError: it propagates *)

Definition ULOG_MESSAGE_HEADER_SIZE : Z := 3.
Definition MAX_SEARCH_LENGTH : Z := 200000.

(** *** mmap.mmap, opened for reading *)

Record mmap := { data : list byte; position : Z }.

Definition size (m_file : mmap) : Z := Z.of_nat (length (data m_file)).

Definition tell (m_file : mmap) : Z := position m_file.

(** [m_file.seek(pos)]: a position outside of the map is refused. *)
Definition seek (pos : Z) (m_file : mmap) : Error + mmap :=
  if (pos <? 0) || (size m_file <? pos) then inl SeekOutOfRange
  else inr {| data := data m_file; position := pos |}.

(** [m_file.seek(dist, io.SEEK_CUR)]. *)
Definition seek_cur (dist : Z) (m_file : mmap) : Error + mmap :=
  seek (position m_file + dist) m_file.

(** [m_file.read(n)]: [n] bytes, or what remains when [n] is negative or
    more than what remains. *)
Definition read (n : Z) (m_file : mmap) : list byte * mmap :=
  let remaining := if position m_file <? size m_file
                   then size m_file - position m_file else 0 in
  let num_bytes := if (n <? 0) || (remaining <? n) then remaining else n in
  (firstn (Z.to_nat num_bytes) (skipn (Z.to_nat (position m_file)) (data m_file)),
   {| data := data m_file; position := position m_file + num_bytes |}).

Definition bytes_eqb (a b : list byte) : bool :=
  (length a =? length b)%nat && forallb (fun p => Byte.eqb (fst p) (snd p)) (combine a b).

(** [sub] stands at index [i]. *)
Definition found_at (sub d : list byte) (i : nat) : bool :=
  bytes_eqb (firstn (length sub) (skipn i d)) sub.

(** The highest index below [n] where [sub] stands, or -1. *)
Fixpoint rfind_below (sub d : list byte) (n : nat) : Z :=
  match n with
  | O => -1
  | S i => if found_at sub d i then Z.of_nat i else rfind_below sub d i
  end.

(** [m_file.rfind(sub, 0, stop)]: the highest index where [sub] stands
    within the first [stop] bytes, or -1; a negative [stop] counts from the
    end. *)
Definition rfind (sub : list byte) (stop : Z) (m_file : mmap) : Z :=
  let stop := if stop <? 0 then stop + size m_file else stop in
  let stop := if stop <? 0 then 0 else if size m_file <? stop then size m_file else stop in
  let last := stop - Z.of_nat (length sub) in
  if last <? 0 then -1 else rfind_below sub (data m_file) (S (Z.to_nat last)).

(** *** struct.unpack and bytes *)

Definition u8 (b : byte) : Z := Z.of_N (Byte.to_N b).

(** A little-endian unsigned short. *)
Definition u16 (lo hi : byte) : Z := u8 lo + 256 * u8 hi.

Definition byte_at (i : nat) (b : list byte) : byte := nth i b x00%byte.

(** [b[i]] on a bytes object: a negative index counts from the end. *)
Definition getitem (b : list byte) (i : Z) : Error + Z :=
  let len := Z.of_nat (length b) in
  let i := if i <? 0 then i + len else i in
  if (i <? 0) || (len <=? i) then inl IndexError else inr (u8 (byte_at (Z.to_nat i) b)).

(** [str.encode()]: a string is kept as its UTF-8 bytes. *)
Definition encode (s : string) : list byte := list_byte_of_string s.

Definition ord_A : Z := 65.
Definition ord_D : Z := 68.

Section utils.

(** Parts of [ULog] outside this module, taken as given: the size of the
    file header, the bytes of a sync message, and [get_field_size], which
    returns the size of an element type or raises an exception. *)
Variable HEADER_SIZE : Z.
Variable SYNC_BYTES : list byte.
Variable get_field_size : string -> Exn + Z.

(** *** find_field_offset *)

(** The loop over the fields, from the offset reached so far.  The [try]
    catches [ValueError] only and raises the ValueError of an unknown type
    in its place; any other exception of [get_field_size] leaves the
    function as it is. *)
Fixpoint find_field_offset_from (offset : Z) (fields : list (string * Z * string))
    (target_field : string) : Error + Z :=
  match fields with
  | [] => inl (FieldNotFound target_field)
  | (data_type, array_length, field_name) :: fields' =>
      if String.eqb field_name "" then find_field_offset_from offset fields' target_field
      else if String.eqb field_name target_field then inr offset
      else
        let array_length := if array_length =? 0 then 1 else array_length in
        match get_field_size data_type with
        | inl (ValueError _) => inl (UnknownDataType data_type target_field)
        | inl exc => inl (Uncaught exc)
        | inr field_size =>
            find_field_offset_from (offset + field_size * array_length) fields' target_field
        end
  end.

Definition find_field_offset (message_format : DatabaseMessageFormat.t)
    (target_field : string) : Error + Z :=
  find_field_offset_from 0 (DatabaseMessageFormat.fields message_format) target_field.

(** *** get_subscription_id *)

(** The [while] loop; [None] when the fuel runs out. *)
Fixpoint find_subscription (fuel : nat) (msg_name : string) (max_search_len : Z)
    (m_file : mmap) : option ((Error + Z) * mmap) :=
  match fuel with
  | O => None
  | S fuel' =>
      if tell m_file <? max_search_len then
        let (header_and_id, m1) := read ULOG_MESSAGE_HEADER_SIZE m_file in
        if Z.of_nat (length header_and_id) <? ULOG_MESSAGE_HEADER_SIZE
        then Some (inl (SubscriptionNotFound msg_name), m1)
        else
          let msg_size := u16 (byte_at 0 header_and_id) (byte_at 1 header_and_id) in
          let msg_type := u8 (byte_at 2 header_and_id) in
          if negb (msg_type =? ord_A) then
            match seek_cur msg_size m1 with
            | inl e => Some (inl e, m1)
            | inr m2 => find_subscription fuel' msg_name max_search_len m2
            end
          else
            let (msg_bytes, m2) := read msg_size m1 in
            if (Z.of_nat (length msg_bytes) <? msg_size) || (Z.of_nat (length msg_bytes) <? 3)
            then Some (inl (SubscriptionNotFound msg_name), m2)
            else
              let msg_id := u16 (byte_at 1 msg_bytes) (byte_at 2 msg_bytes) in
              if negb (bytes_eqb (skipn 3 msg_bytes) (encode msg_name))
              then find_subscription fuel' msg_name max_search_len m2
              else Some (inr msg_id, m2)
      else Some (inl (SubscriptionNotFound msg_name), m_file)
  end.

(** The result, and the map as the call leaves it. *)
Definition get_subscription_id (m_file : mmap) (msg_name : string) (max_search_len : Z)
  : option ((Error + Z) * mmap) :=
  match seek HEADER_SIZE m_file with
  | inl e => Some (inl e, m_file)
  | inr m0 => find_subscription (S (length (data m_file))) msg_name max_search_len m0
  end.

(** *** reverse_search_for_arm *)

(** How the inner loop ends: the function returns, an exception goes up,
    or the messages up to [searched_to] were scanned. *)
Inductive scan :=
| Returned (armed : bool)
| Raised (e : Error)
| Scanned (armed : option bool) (m_file : mmap).

Fixpoint scan_messages (fuel : nat) (vehicle_status_id arm_reason_offset searched_to : Z)
    (armed : option bool) (m_file : mmap) : option scan :=
  match fuel with
  | O => None
  | S fuel' =>
      if tell m_file <? searched_to then
        let (header_and_id, m1) := read (ULOG_MESSAGE_HEADER_SIZE + 2) m_file in
        if Z.of_nat (length header_and_id) <? ULOG_MESSAGE_HEADER_SIZE + 2
        then Some (Scanned armed m1)
        else
          let msg_size := u16 (byte_at 0 header_and_id) (byte_at 1 header_and_id) in
          let msg_type := u8 (byte_at 2 header_and_id) in
          let msg_id := u16 (byte_at 3 header_and_id) (byte_at 4 header_and_id) in
          if negb (msg_type =? ord_D) || negb (msg_id =? vehicle_status_id) then
            match seek_cur (msg_size - 2) m1 with
            | inl e => Some (Raised e)
            | inr m2 =>
                scan_messages fuel' vehicle_status_id arm_reason_offset searched_to armed m2
            end
          else
            let (message_bytes, m2) := read (msg_size - 2) m1 in
            if Z.of_nat (length message_bytes) <? msg_size - 2
            then Some (Scanned armed m2)
            else
              match getitem message_bytes arm_reason_offset with
              | inl e => Some (Raised e)
              | inr reason =>
                  if negb (reason =? 0) then Some (Returned true)
                  else scan_messages fuel' vehicle_status_id arm_reason_offset searched_to
                                     (Some false) m2
              end
      else Some (Scanned armed m_file)
  end.

(** The outer loop, from one sync message back to the one before. *)
Fixpoint search_back (fuel : nat) (vehicle_status_id arm_reason_offset : Z)
    (offset searched_to : Z) (armed : option bool) (m_file : mmap)
  : option (Error + bool) :=
  match fuel with
  | O => None
  | S fuel' =>
      if HEADER_SIZE <=? offset then
        let found := rfind SYNC_BYTES offset m_file in
        let offset := if found =? -1 then HEADER_SIZE else found in
        match seek (if found =? -1 then offset else offset + Z.of_nat (length SYNC_BYTES))
                   m_file with
        | inl e => Some (inl e)
        | inr m1 =>
            match scan_messages (S (length (data m_file))) vehicle_status_id
                                arm_reason_offset searched_to armed m1 with
            | None => None
            | Some (Returned b) => Some (inr b)
            | Some (Raised e) => Some (inl e)
            | Some (Scanned (Some b) _) => Some (inr b)
            | Some (Scanned None m2) =>
                search_back fuel' vehicle_status_id arm_reason_offset (offset - 1) offset
                            None m2
            end
        end
      else
        match armed with
        | None => Some (inl NoVehicleStatus)
        | Some b => Some (inr b)
        end
  end.

Definition reverse_search_for_arm (m_file : mmap) (vehicle_status_id arm_reason_offset : Z)
  : option (Error + bool) :=
  search_back (S (S (length (data m_file)))) vehicle_status_id arm_reason_offset
              (size m_file) (size m_file) None m_file.

(** *** check_if_log_was_armed *)

(** What the function raises: an exception of the decoder or of [open],
    the ValueError of a log without format for the topic, the ValueError of
    [mmap] for an empty file, or an exception of the searches. *)
Inductive CheckError :=
| Propagated (e : Exn)
| FormatNotFound (message_name : string)
| EmptyFile
| Failed (e : Error).

(** [ULog(ulog_path, parse_header_only=True).message_formats], taken as
    given. *)
Variable ULog_message_formats :
  FileSystem -> string -> Exn + dict string DatabaseMessageFormat.t.

Definition check_if_log_was_armed (fs : FileSystem) (ulog_path : string)
    (max_search_len : option Z) : option (CheckError + bool) :=
  let message_name := "vehicle_status"%string in
  let field_name := "latest_arming_reason"%string in
  match ULog_message_formats fs ulog_path with
  | inl e => Some (inl (Propagated e))
  | inr message_formats =>
      match dict_get message_name message_formats with
      | None => Some (inl (FormatNotFound message_name))
      | Some message_format =>
          match fs ulog_path with
          | None => Some (inl (Propagated (FileNotFoundError ulog_path)))
          | Some [] => Some (inl EmptyFile)
          | Some bytes =>
              let f_mem := {| data := bytes; position := 0 |} in
              let max_search_len :=
                match max_search_len with
                | None => size f_mem
                | Some n => Z.min (size f_mem) n
                end in
              match get_subscription_id f_mem message_name max_search_len with
              | None => None
              | Some (inl e, _) => Some (inl (Failed e))
              | Some (inr vehicle_status_id, f_mem') =>
                  match find_field_offset message_format field_name with
                  | inl e => Some (inl (Failed e))
                  | inr arm_reason_offset =>
                      match reverse_search_for_arm f_mem' vehicle_status_id
                                                   arm_reason_offset with
                      | None => None
                      | Some (inl e) => Some (inl (Failed e))
                      | Some (inr armed) => Some (inr armed)
                      end
                  end
              end
          end
      end
  end.

End utils.

(** *** Properties of files *)

(** A data message of the topic [vehicle_status_id] stands at [p]: its
    size and type, then the id of the topic and the payload. *)
Definition data_message_at (d : list byte) (vehicle_status_id : Z) (p : nat) : Prop :=
  (p + 5 <= length d)%nat
  /\ u8 (byte_at (p + 2) d) = ord_D
  /\ u16 (byte_at (p + 3) d) (byte_at (p + 4) d) = vehicle_status_id.

(** The byte of its payload at [arm_reason_offset]. *)
Definition reason_at (d : list byte) (arm_reason_offset : Z) (p : nat) : option Z :=
  let i := (p + 5 + Z.to_nat arm_reason_offset)%nat in
  if (i <? length d)%nat then Some (u8 (byte_at i d)) else None.

(** A subscription message of the topic [msg_name] with id [msg_id] stands
    at [p]: the size of its payload, the letter A, then the payload: the
    multi-instance byte, the id and the name. *)
Definition subscription_at (d : list byte) (msg_name : string) (msg_id : Z) (p : nat) : Prop :=
  exists lo hi letter payload rest,
    skipn p d = lo :: hi :: letter :: payload ++ rest
    /\ u16 lo hi = Z.of_nat (length payload)
    /\ u8 letter = ord_A
    /\ (3 <= length payload)%nat
    /\ u16 (byte_at 1 payload) (byte_at 2 payload) = msg_id
    /\ skipn 3 payload = encode msg_name.

(** The bytes of a message: the two bytes of its size, its type and its
    payload, whose length the size is. *)
Definition frame (msg : byte * byte * byte * list byte) : list byte :=
  let '(lo, hi, letter, payload) := msg in lo :: hi :: letter :: payload.

Definition framed (msg : byte * byte * byte * list byte) : Prop :=
  let '(lo, hi, letter, payload) := msg in u16 lo hi = Z.of_nat (length payload).

(** A message that [get_subscription_id] passes over when it looks for
    [msg_name]: not a subscription, or the subscription of another topic. *)
Definition other_than (msg_name : string) (msg : byte * byte * byte * list byte) : Prop :=
  let '(lo, hi, letter, payload) := msg in
  u8 letter <> ord_A
  \/ ((3 <= length payload)%nat /\ skipn 3 payload <> encode msg_name).

End Utils.

(** ** Concrete files used in the examples *)

Module UtilsExamples.

Import Utils.

Open Scope string_scope.

(** [get_field_size] as a subscript of the table [Examples.unpack_types]:
    the size of a type of the table, and the KeyError of the subscript for
    any other type. *)
Definition field_size (type_str : string) : Exn + Z :=
  match subscript Examples.unpack_types type_str with
  | inr (_, size, _) => inr (Z.of_nat size)
  | inl exc => inl exc
  end.


(** A format with a padding field before the arming reason. *)
Definition vehicle_status : DatabaseMessageFormat.t :=
  {| DatabaseMessageFormat.name := "vehicle_status";
     DatabaseMessageFormat.fields :=
       [ ("uint64_t", 0, "timestamp");
         ("uint16_t", 2, "counts");
         ("uint8_t", 3, "");
         ("uint8_t", 0, "latest_arming_reason");
         ("matrix", 0, "later") ] |}.

(** A header of four bytes and a sync message of two. *)
Definition header_size : Z := 4.
Definition sync_bytes : list byte := [x2f; x73]%byte.
Definition header : list byte := [x55; x4c; x6f; x67]%byte.

(** The payload of the subscription of "vs" under id 7. *)
Definition subscription : list byte := [x00; x07; x00; x76; x73]%byte.

(** An info message, the subscription, a sync message, and two data
    messages of the topic 7: the first armed (reason 1), the last not. *)
Definition armed_then_disarmed : list byte :=
  (header
   ++ [x02; x00; x49; xaa; xbb]
   ++ [x05; x00; x41] ++ subscription
   ++ [x02; x00; x53] ++ sync_bytes
   ++ [x05; x00; x44; x07; x00; x10; x20; x01]
   ++ [x05; x00; x44; x07; x00; x10; x20; x00])%list%byte.

(** The same file cut before the sync message. *)
Definition only_subscribed : list byte :=
  (header ++ [x02; x00; x49; xaa; xbb] ++ [x05; x00; x41] ++ subscription)%list%byte.

(** A file shorter than its header. *)
Definition truncated : list byte := [x55; x4c]%byte.

Definition opened (bytes : list byte) : mmap := {| data := bytes; position := 0 |}.

(** The payload of the subscription of "vehicle_status" under id 7, and a
    log with it and two data messages of the topic, whose payload is the
    id, a timestamp of eight bytes, two counts of two bytes and the arming
    reason: the first armed, the last not. *)
Definition vehicle_status_subscription : list byte :=
  ([x00; x07; x00] ++ list_byte_of_string "vehicle_status")%list%byte.

Definition flight : list byte :=
  (header
   ++ [x11; x00; x41] ++ vehicle_status_subscription
   ++ [x02; x00; x53] ++ sync_bytes
   ++ [x0f; x00; x44; x07; x00;
       x01; x00; x00; x00; x00; x00; x00; x00; x00; x00; x00; x00; x02]
   ++ [x0f; x00; x44; x07; x00;
       x02; x00; x00; x00; x00; x00; x00; x00; x00; x00; x00; x00; x00])%list%byte.

Definition flight_fs : FileSystem :=
  fun path => if String.eqb path "flight.ulg" then Some flight else None.

(** A decoder of headers that finds the format of the topic in every file. *)
Definition formats_of (fs : FileSystem) (path : string)
  : Exn + dict string DatabaseMessageFormat.t :=
  inr [("vehicle_status",
        {| DatabaseMessageFormat.name := "vehicle_status";
           DatabaseMessageFormat.fields :=
             [ ("uint64_t", 0, "timestamp");
               ("uint16_t", 2, "counts");
               ("uint8_t", 0, "latest_arming_reason") ] |})].

End UtilsExamples.

(** * Properties

    ** The digest *)

(** hashlib test vectors (FIPS 180-4, appendix B). *)
Example sha256_empty :
  SHA256.hexdigest_of [] =
  "e3b0c44298fc1c149afbf4c8996fb92427ae41e4649b934ca495991b7852b855"%string.
Proof. vm_compute. reflexivity. Qed.

Example sha256_abc :
  SHA256.hexdigest_of [x61; x62; x63]%byte =
  "ba7816bf8f01cfea414140de5dae2223b00361a396177a9cb410ff61f20015ad"%string.
Proof. vm_compute. reflexivity. Qed.


Lemma firstn_then_rest {A} (n : nat) (l : list A) :
  firstn n l ++ skipn (length (firstn n l)) l = l.
Proof.
  rewrite length_firstn.
  destruct (Nat.min_spec n (length l)) as [[Hlt ->]|[Hge ->]].
  - apply firstn_skipn.
  - rewrite firstn_all2, skipn_all2 by lia. apply app_nil_r.
Qed.

(** The reading loop is given enough fuel: it ends on the empty block, after
    feeding the hash everything between the position of the stream and the
    end of the file. *)
Lemma read_blocks_reads_rest (fuel : nat) :
  forall (f : BufferedReader) (h : sha256_obj),
    (remaining f < fuel)%nat ->
    read_blocks fuel f h =
    Some (h ++ skipn (pos f) (content f),
          {| name := name f; closed := closed f;
             pos := (pos f + remaining f)%nat; content := content f |}).
Proof.
  induction fuel as [|fuel IH]; intros f h Hfuel; [lia|].
  cbn [read_blocks read].
  assert (Hlen : length (skipn (pos f) (content f)) = remaining f)
    by (unfold remaining; apply length_skipn).
  pose proof (firstn_then_rest 4096 (skipn (pos f) (content f))) as Hsplit.
  destruct (firstn 4096 (skipn (pos f) (content f))) as [|b block] eqn:Hblock.
  - clear Hsplit.
    destruct (skipn (pos f) (content f)); [|discriminate Hblock].
    rewrite <- Hlen. unfold sha256_update. reflexivity.
  - assert (Hle : (length (b :: block) <= remaining f)%nat).
    { rewrite <- Hblock, length_firstn, Hlen. lia. }
    rewrite IH; unfold remaining in *; cbn [pos content name closed] in *.
    + unfold sha256_update. rewrite <- app_assoc.
      apply f_equal, f_equal2.
      * rewrite Nat.add_comm, <- skipn_skipn, Hsplit. reflexivity.
      * f_equal. cbn [length] in *. lia.
    + cbn [length] in *. lia.
Qed.

(** From a path, and from a stream that was closed, the digest is that of
    the whole file; from a stream that is open it is the digest of what
    lies after its position. *)
Lemma calc_sha256sum_by_source (fs : FileSystem) (path : string) (bytes : list byte)
    (f : BufferedReader) :
  fs path = Some bytes -> name f = path -> content f = bytes ->
  fst (calc_sha256sum fs (Some (PathStr path))) = Some (inr (Some (SHA256.hexdigest_of bytes)))
  /\ (closed f = true ->
      fst (calc_sha256sum fs (Some (FileObject f))) = Some (inr (Some (SHA256.hexdigest_of bytes))))
  /\ (closed f = false ->
      fst (calc_sha256sum fs (Some (FileObject f)))
      = Some (inr (Some (SHA256.hexdigest_of (skipn (pos f) bytes))))).
Proof.
  intros Hfs Hname Hcontent.
  assert (Hopen : forall p, fs p = Some bytes ->
            match open_rb fs p with
            | inr g => read_blocks (S (remaining g)) g sha256_new
                       = Some (bytes, {| name := p; closed := false;
                                         pos := length bytes; content := bytes |})
            | inl _ => False
            end).
  { intros p Hp. unfold open_rb. rewrite Hp.
    rewrite read_blocks_reads_rest by lia.
    unfold remaining. cbn [pos content name closed skipn sha256_new app].
    rewrite Nat.sub_0_r. reflexivity. }
  repeat split.
  - unfold calc_sha256sum. specialize (Hopen path Hfs).
    destruct (open_rb fs path); [contradiction|].
    cbn [context_stream]. rewrite Hopen. reflexivity.
  - intros Hclosed. unfold calc_sha256sum. rewrite Hclosed, Hname.
    specialize (Hopen path Hfs).
    destruct (open_rb fs path); [contradiction|].
    cbn [context_stream]. rewrite Hopen. reflexivity.
  - intros Hclosed. unfold calc_sha256sum. rewrite Hclosed.
    cbn [context_stream]. rewrite read_blocks_reads_rest by lia.
    cbn [fst sha256_new app]. rewrite Hcontent. reflexivity.
Qed.

(** C5, at a stream that was read before the call.  The file holds the one
    byte a.  From its path, and from a closed stream on it, the
    digest is that of the file; from an open stream standing after that
    byte the method hashes nothing and returns the digest of the empty
    string: it reads on from where the stream stands and never rewinds. *)
Theorem calc_sha256sum_open_stream_not_rewound :
  let fs := Examples.one_byte_fs in
  let full := "ca978112ca1bbdcafac231b39a23dc4da786eff8147c4e72b9807785afee48bb"%string in
  let nothing := "e3b0c44298fc1c149afbf4c8996fb92427ae41e4649b934ca495991b7852b855"%string in
  SHA256.hexdigest_of [x61]%byte = full
  /\ fst (calc_sha256sum fs (Some (PathStr "log.ulg"))) = Some (inr (Some full))
  /\ fst (calc_sha256sum fs (Some (FileObject (Examples.stream_at 1 true)))) = Some (inr (Some full))
  /\ fst (calc_sha256sum fs (Some (FileObject (Examples.stream_at 0 false)))) = Some (inr (Some full))
  /\ fst (calc_sha256sum fs (Some (FileObject (Examples.stream_at 1 false)))) = Some (inr (Some nothing))
  /\ nothing <> full.
Proof.
  cbv zeta. repeat split; try (vm_compute; reflexivity).
  intros H. discriminate H.
Qed.

(** ** Lists, filters and sorting *)

Lemma filter_none {A} (p : A -> bool) (l : list A) :
  (forall x, In x l -> p x = false) -> filter p l = [].
Proof.
  induction l as [|a l IH]; intros H; [reflexivity|].
  cbn [filter]. rewrite (H a) by (left; reflexivity).
  apply IH. intros x Hx. apply H. right. exact Hx.
Qed.

Lemma filter_all {A} (p : A -> bool) (l : list A) :
  (forall x, In x l -> p x = true) -> filter p l = l.
Proof.
  induction l as [|a l IH]; intros H; [reflexivity|].
  cbn [filter]. rewrite (H a) by (left; reflexivity).
  f_equal. apply IH. intros x Hx. apply H. right. exact Hx.
Qed.

(** ** Dictionaries *)

Section dict_facts.

Context {K V : Type} `{Key K}.

Lemma key_eqb_refl (k : K) : key_eqb k k = true.
Proof. apply key_eqb_eq. reflexivity. Qed.

Lemma key_eqb_neq (k k' : K) : k <> k' -> key_eqb k k' = false.
Proof.
  intros Hne. destruct (key_eqb k k') eqn:Heq; [|reflexivity].
  apply key_eqb_eq in Heq. contradiction.
Qed.

Lemma dict_get_set_eq (k : K) (v : V) (d : dict K V) : dict_get k (dict_set k v d) = Some v.
Proof.
  induction d as [|[k' v'] d IH]; cbn [dict_set dict_get].
  - rewrite key_eqb_refl. reflexivity.
  - destruct (key_eqb k k') eqn:Heq; cbn [dict_get]; rewrite Heq; [reflexivity|exact IH].
Qed.

Lemma dict_get_set_neq (k k' : K) (v : V) (d : dict K V) :
  k <> k' -> dict_get k (dict_set k' v d) = dict_get k d.
Proof.
  intros Hne. induction d as [|[k'' v''] d IH]; cbn [dict_set dict_get].
  - rewrite key_eqb_neq by exact Hne. reflexivity.
  - destruct (key_eqb k' k'') eqn:Heq; cbn [dict_get].
    + apply key_eqb_eq in Heq. subst k''. rewrite key_eqb_neq by exact Hne. reflexivity.
    + rewrite IH. reflexivity.
Qed.

Lemma dict_set_set (k : K) (v v' : V) (d : dict K V) :
  dict_set k v' (dict_set k v d) = dict_set k v' d.
Proof.
  induction d as [|[k' w] d IH]; cbn [dict_set].
  - rewrite key_eqb_refl. reflexivity.
  - destruct (key_eqb k k') eqn:Heq; cbn [dict_set]; rewrite Heq; [reflexivity|].
    rewrite IH. reflexivity.
Qed.

Lemma dict_set_same (k : K) (v : V) (d : dict K V) :
  dict_get k d = Some v -> dict_set k v d = d.
Proof.
  induction d as [|[k' w] d IH]; cbn [dict_set dict_get]; [discriminate|].
  destruct (key_eqb k k') eqn:Heq.
  - intros [= ->]. reflexivity.
  - intros Hget. rewrite IH by exact Hget. reflexivity.
Qed.

Lemma dict_get_not_in (k : K) (d : dict K V) : ~ In k (keys d) -> dict_get k d = None.
Proof.
  induction d as [|[k' w] d IH]; cbn [keys map fst dict_get]; [reflexivity|].
  intros Hnotin. rewrite key_eqb_neq.
  - apply IH. intros Hin. apply Hnotin. right. exact Hin.
  - intros ->. apply Hnotin. left. reflexivity.
Qed.

(** A new key goes to the end. *)
Lemma dict_set_new (k : K) (v : V) (d : dict K V) :
  ~ In k (keys d) -> dict_set k v d = d ++ [(k, v)].
Proof.
  induction d as [|[k' w] d IH]; cbn [keys map fst dict_set app]; [reflexivity|].
  intros Hnotin. rewrite key_eqb_neq.
  - rewrite IH; [reflexivity|]. intros Hin. apply Hnotin. right. exact Hin.
  - intros ->. apply Hnotin. left. reflexivity.
Qed.

End dict_facts.

(** ** ORDER BY *)

Lemma in_insert_sorted {A} (le : A -> A -> bool) (x y : A) (l : list A) :
  In y (insert_sorted le x l) <-> y = x \/ In y l.
Proof.
  induction l as [|a l IH]; cbn [insert_sorted].
  - cbn. intuition.
  - destruct (le x a); cbn [In]; [intuition|]. rewrite IH. intuition.
Qed.

Lemma in_order_by {A} (le : A -> A -> bool) (y : A) (l : list A) :
  In y (order_by le l) <-> In y l.
Proof.
  unfold order_by. induction l as [|a l IH]; cbn [fold_right]; [reflexivity|].
  rewrite in_insert_sorted, IH. cbn. intuition.
Qed.

Lemma find_some_of_in {A} (p : A -> bool) (l : list A) x :
  In x l -> p x = true -> exists y, find p l = Some y.
Proof.
  induction l as [|a l IH]; intros Hin Hp; [contradiction|].
  cbn [find]. destruct (p a) eqn:Hpa; [eauto|].
  destruct Hin as [->|Hin]; [congruence|]. apply IH; assumption.
Qed.

(** ** List comprehensions *)


Lemma comprehension_returns {A B} (f : A -> Exn + B) (l : list A) :
  (forall x, In x l -> exists y, f x = inr y) -> exists ys, comprehension f l = inr ys.
Proof.
  induction l as [|x l IH]; intros Hf; cbn [comprehension]; [eauto|].
  destruct (Hf x (or_introl eq_refl)) as [y ->].
  destruct IH as [ys ->]; [|eauto]. intros z Hz. apply Hf. right. exact Hz.
Qed.

Lemma comprehension_each {A B} (f : A -> Exn + B) (l : list A) :
  forall ys, comprehension f l = inr ys -> Forall2 (fun x y => f x = inr y) l ys.
Proof.
  induction l as [|x l IH]; intros ys; cbn [comprehension].
  - intros [= <-]. constructor.
  - destruct (f x) as [e|y] eqn:Hx; [discriminate|].
    destruct (comprehension f l) as [e|ys']; [discriminate|].
    intros [= <-]. constructor; [exact Hx|apply IH; reflexivity].
Qed.

(** ** Tests over the rows of a statement *)

Lemma forallb_over_map {A B} (p : B -> bool) (f : A -> B) (l : list A) :
  forallb p (map f l) = forallb (fun x => p (f x)) l.
Proof. induction l as [|x l IH]; cbn [map forallb]; [reflexivity|]. rewrite IH. reflexivity. Qed.

Lemma forallb_pointwise {A} (p q : A -> bool) (l : list A) :
  (forall x, p x = q x) -> forallb p l = forallb q l.
Proof.
  intros Hpq. induction l as [|x l IH]; cbn [forallb]; [reflexivity|].
  rewrite Hpq, IH. reflexivity.
Qed.

Lemma forallb_flat_map {A B} (p : B -> bool) (f : A -> list B) (l : list A) :
  forallb p (flat_map f l) = forallb (fun x => forallb p (f x)) l.
Proof.
  induction l as [|x l IH]; cbn [flat_map forallb]; [reflexivity|].
  rewrite forallb_app, IH. reflexivity.
Qed.

Lemma forallb_combine_snd {A B} (p : B -> bool) (l : list B) :
  forall indices : list A,
    length indices = length l ->
    forallb (fun item => p (snd item)) (combine indices l) = forallb p l.
Proof.
  induction l as [|x l IH]; intros [|i indices] Hlen; cbn [combine forallb];
    try reflexivity; try discriminate.
  cbn [snd]. rewrite IH; [reflexivity|]. cbn [length] in Hlen. congruence.
Qed.

(** ** Equations of the primitive calls *)

Lemma after_nil {A} (o : Outcome A) : after [] o = o.
Proof. destruct o; reflexivity. Qed.

Lemma after_after {A} t1 t2 (o : Outcome A) : after t1 (after t2 o) = after (t1 ++ t2) o.
Proof. unfold after. cbn. rewrite app_assoc. reflexivity. Qed.

Lemma bind_ok {A B} (m : M A) (k : A -> M B) h s a :
  result (m h s) = inr a ->
  bind m k h s = after (executed (m h s)) (k a (handle (m h s)) (stored (m h s))).
Proof. intros H. unfold bind. rewrite H. reflexivity. Qed.

Lemma bind_err {A B} (m : M A) (k : A -> M B) h s e :
  result (m h s) = inl e ->
  bind m k h s = {| result := inl e; handle := handle (m h s); stored := stored (m h s);
                    executed := executed (m h s) |}.
Proof. intros H. unfold bind. rewrite H. reflexivity. Qed.

Lemma bind_ret {A B} (a : A) (k : A -> M B) h s : bind (ret a) k h s = k a h s.
Proof. rewrite (bind_ok _ _ _ _ (a := a)) by reflexivity. apply after_nil. Qed.

Lemma bind_raise {A B} (e : Exn) (k : A -> M B) h s : bind (raise e) k h s = raise e h s.
Proof. reflexivity. Qed.

Lemma bind_getattr {A B} (f : DatabaseULog -> A) (k : A -> M B) h s :
  bind (getattr f) k h s = k (f h) h s.
Proof. rewrite (bind_ok _ _ _ _ (a := f h)) by reflexivity. apply after_nil. Qed.

Lemma bind_setattr {B} upd (k : unit -> M B) h s :
  bind (setattr upd) k h s = k tt (upd h) s.
Proof. rewrite (bind_ok _ _ _ _ (a := tt)) by reflexivity. apply after_nil. Qed.

Lemma bind_select {A B} tables (q : Store -> A) (k : A -> M B) h s :
  bind (execute_select tables q) k h s = after [SELECT tables] (k (q s) h s).
Proof. rewrite (bind_ok _ _ _ _ (a := q s)) by reflexivity. reflexivity. Qed.

Lemma bind_update {B} stmt u (k : unit -> M B) h s :
  bind (execute_update stmt u) k h s = after [stmt] (k tt h (u s)).
Proof. rewrite (bind_ok _ _ _ _ (a := tt)) by reflexivity. reflexivity. Qed.

Lemma bind_lift_ok {A B} (a : A) (k : A -> M B) h s : bind (lift (inr a)) k h s = k a h s.
Proof. apply bind_ret. Qed.

Lemma bind_lift_err {A B} (e : Exn) (k : A -> M B) h s :
  bind (lift (inl e)) k h s = raise e h s.
Proof. reflexivity. Qed.

Lemma bind_assoc {A B C} (m : M A) (k : A -> M B) (k' : B -> M C) h s :
  bind (bind m k) k' h s = bind m (fun a => bind (k a) k') h s.
Proof.
  unfold bind. destruct (result (m h s)) as [e|a]; cbn; [reflexivity|].
  destruct (result (k a _ _)) as [e|b]; cbn; [reflexivity|].
  rewrite app_assoc. reflexivity.
Qed.

(** A transaction around statements that leave the content alone. *)
Lemma transaction_read_only {A} (body : M A) h s :
  stored (body h s) = s -> transaction body h s = body h s.
Proof.
  intros Hs. unfold transaction. destruct (body h s) as [r h' s' t]. cbn in *. subst s'.
  destruct r; reflexivity.
Qed.

(** ** Rules for reasoning about calls *)

Implicit Types (E : Exn -> DatabaseULog -> Store -> Prop) (h : DatabaseULog) (s : Store).

Section wp_rules.

Context {A B : Type}.

Lemma wp_ret E (a : A) h s Q : Q a h s -> wp E (ret a) h s Q.
Proof. exact (fun H => H). Qed.

Lemma wp_raise E (e : Exn) h s (Q : A -> _) : E e h s -> wp E (raise e) h s Q.
Proof. exact (fun H => H). Qed.

Lemma wp_bind E (m : M A) (k : A -> M B) h s Q :
  wp E m h s (fun a h' s' => wp E (k a) h' s' Q) -> wp E (bind m k) h s Q.
Proof.
  unfold wp, bind. destruct (result (m h s)) as [e|a]; cbn; [exact (fun H => H)|].
  destruct (result (k a _ _)); exact (fun H => H).
Qed.

Lemma wp_conseq E E' (m : M A) h s (Q Q' : A -> _) :
  wp E m h s Q ->
  (forall a h' s', Q a h' s' -> Q' a h' s') ->
  (forall e h' s', E e h' s' -> E' e h' s') ->
  wp E' m h s Q'.
Proof.
  unfold wp. intros H HQ HE. destruct (result (m h s)); auto.
Qed.

Lemma wp_lift E (r : Exn + A) h s Q :
  match r with inr a => Q a h s | inl e => E e h s end -> wp E (lift r) h s Q.
Proof. destruct r; exact (fun H => H). Qed.

Lemma wp_getattr E (f : DatabaseULog -> A) h s Q : Q (f h) h s -> wp E (getattr f) h s Q.
Proof. exact (fun H => H). Qed.

Lemma wp_select E tables (q : Store -> A) h s Q : Q (q s) h s -> wp E (execute_select tables q) h s Q.
Proof. exact (fun H => H). Qed.

Lemma wp_transaction E (body : M A) h s Q :
  wp (fun e h' _ => E e h' s) body h s Q -> wp E (transaction body) h s Q.
Proof.
  unfold wp, transaction. destruct (result (body h s)) eqn:Hr; cbn; rewrite ?Hr; exact (fun H => H).
Qed.

End wp_rules.

Lemma wp_setattr E upd h s (Q : unit -> _) : Q tt (upd h) s -> wp E (setattr upd) h s Q.
Proof. exact (fun H => H). Qed.

Lemma wp_update E stmt u h s (Q : unit -> _) : Q tt h (u s) -> wp E (execute_update stmt u) h s Q.
Proof. exact (fun H => H). Qed.

Lemma wp_check_unique E (ok : Store -> bool) h s (Q : unit -> _) :
  (if ok s then Q tt h s else E IntegrityError h s) -> wp E (check_unique ok) h s Q.
Proof. unfold wp, check_unique. destruct (ok s); exact (fun H => H). Qed.

Lemma wp_insert_rowid {R} E table (rows : Store -> list R) put (rowid : R -> Z)
    (bound : R -> Exn + R) (unique : Store -> bool) (parameters : Z -> R) h s (Q : Z -> _) :
  (let id := next_rowid (map rowid (rows s)) in
   match bound (parameters id) with
   | inl e => E e h s
   | inr r => if unique s then Q id h (put (rows s ++ [r]) s) else E IntegrityError h s
   end) ->
  wp E (execute_insert_rowid table rows put rowid bound unique parameters) h s Q.
Proof.
  unfold wp, execute_insert_rowid. cbv zeta.
  destruct (bound _) as [e|r]; [exact (fun H => H)|].
  rewrite bind_lift_ok. unfold bind, check_unique.
  destruct (unique s); exact (fun H => H).
Qed.

Lemma wp_self_pk E h s (Q : Z -> _) :
  match _pk h with Some id => Q id h s | None => E IntegrityError h s end ->
  wp E self_pk h s Q.
Proof. unfold wp, self_pk, bind, getattr. cbn. destruct (_pk h); exact (fun H => H). Qed.

(** A loop, with an invariant indexed by what is left to visit. *)
Lemma wp_for_each {A} E (body : A -> M unit)
    (I : list A -> DatabaseULog -> Store -> Prop) :
  (forall x rest h s, I (x :: rest) h s ->
     wp E (body x) h s (fun _ h' s' => I rest h' s')) ->
  forall l h s, I l h s -> wp E (for_each l body) h s (fun _ h' s' => I [] h' s').
Proof.
  intros Hbody. induction l as [|x l IH]; intros h s HI.
  - exact HI.
  - cbn [for_each]. apply wp_bind.
    eapply wp_conseq; [apply Hbody, HI | | auto].
    intros u h' s' HI'. apply IH, HI'.
Qed.

Lemma wp_for_fold {A B} E (body : B -> A -> M B)
    (I : list A -> B -> DatabaseULog -> Store -> Prop) :
  (forall x rest acc h s, I (x :: rest) acc h s ->
     wp E (body acc x) h s (fun acc' h' s' => I rest acc' h' s')) ->
  forall l acc h s, I l acc h s ->
    wp E (for_fold l acc body) h s (fun acc' h' s' => I [] acc' h' s').
Proof.
  intros Hbody. induction l as [|x l IH]; intros acc h s HI.
  - exact HI.
  - cbn [for_fold]. apply wp_bind.
    eapply wp_conseq; [apply Hbody, HI | | auto].
    intros acc' h' s' HI'. apply IH, HI'.
Qed.

(** [executemany] appends its rows to the table, in order, as they are
    kept; a row that cannot be bound stops it with [OverflowError]. *)
Lemma wp_executemany {R} E table (rows : Store -> list R) put bound (bindable : R -> bool)
    (as_kept : R -> R) (l : list R) h s (Q : unit -> _) :
  lens rows put ->
  (forall r, bound r = if bindable r then inr (as_kept r) else inl OverflowError) ->
  forgiving E \/ forallb bindable l = true ->
  Q tt h (put (rows s ++ map as_kept l) s) ->
  wp E (executemany table rows put bound l) h s Q.
Proof.
  intros [Hrp Hpp Hpr] Hbound. unfold executemany. revert s.
  induction l as [|x l IH]; intros s Hok HQ; cbn [for_each map] in *.
  - rewrite app_nil_r, Hpr in HQ. exact HQ.
  - unfold insert_into at 1. apply wp_bind, wp_bind, wp_lift. rewrite Hbound.
    destruct (bindable x) eqn:Hx.
    + apply wp_update, IH.
      * destruct Hok as [Hf|Hall]; [left; exact Hf|right].
        cbn [forallb] in Hall. rewrite Hx in Hall. exact Hall.
      * rewrite Hrp, Hpp, <- app_assoc. exact HQ.
    + destruct Hok as [Hf|Hall]; [apply Hf; exact I|].
      cbn [forallb] in Hall. rewrite Hx in Hall. discriminate.
Qed.

(** The same for a table that keeps every parameter as it was bound. *)
Lemma wp_executemany_same {R} E table (rows : Store -> list R) put bound
    (bindable : R -> bool) (l : list R) h s (Q : unit -> _) :
  lens rows put ->
  (forall r, bound r = if bindable r then inr r else inl OverflowError) ->
  forgiving E \/ forallb bindable l = true ->
  Q tt h (put (rows s ++ l) s) ->
  wp E (executemany table rows put bound l) h s Q.
Proof.
  intros Hlens Hbound Hok HQ.
  apply wp_executemany with (bindable := bindable) (as_kept := fun r => r);
    [exact Hlens|exact Hbound|exact Hok|].
  rewrite map_id. exact HQ.
Qed.

(** The sixteen tables. *)
Ltac lens :=
  split; intros;
  try match goal with
      | s : Store |- _ => destruct s
      | h : DatabaseULog |- _ => destruct h
      end;
  reflexivity.

Lemma lens_ULog : lens ULog_rows with_ULog_rows. Proof. lens. Qed.
Lemma lens_ULogAppendedOffsets :
  lens ULogAppendedOffsets_rows with_ULogAppendedOffsets_rows. Proof. lens. Qed.
Lemma lens_ULogDataset : lens ULogDataset_rows with_ULogDataset_rows. Proof. lens. Qed.
Lemma lens_ULogField : lens ULogField_rows with_ULogField_rows. Proof. lens. Qed.
Lemma lens_ULogMessageDropout :
  lens ULogMessageDropout_rows with_ULogMessageDropout_rows. Proof. lens. Qed.
Lemma lens_ULogMessageLogging :
  lens ULogMessageLogging_rows with_ULogMessageLogging_rows. Proof. lens. Qed.
Lemma lens_ULogMessageLoggingTagged :
  lens ULogMessageLoggingTagged_rows with_ULogMessageLoggingTagged_rows. Proof. lens. Qed.
Lemma lens_ULogMessageFormat :
  lens ULogMessageFormat_rows with_ULogMessageFormat_rows. Proof. lens. Qed.
Lemma lens_ULogMessageFormatField :
  lens ULogMessageFormatField_rows with_ULogMessageFormatField_rows. Proof. lens. Qed.
Lemma lens_ULogMessageInfo : lens ULogMessageInfo_rows with_ULogMessageInfo_rows.
Proof. lens. Qed.
Lemma lens_ULogMessageInfoMultiple :
  lens ULogMessageInfoMultiple_rows with_ULogMessageInfoMultiple_rows. Proof. lens. Qed.
Lemma lens_ULogMessageInfoMultipleList :
  lens ULogMessageInfoMultipleList_rows with_ULogMessageInfoMultipleList_rows.
Proof. lens. Qed.
Lemma lens_ULogMessageInfoMultipleListElement :
  lens ULogMessageInfoMultipleListElement_rows
             with_ULogMessageInfoMultipleListElement_rows.
Proof. lens. Qed.
Lemma lens_ULogInitialParameter :
  lens ULogInitialParameter_rows with_ULogInitialParameter_rows. Proof. lens. Qed.
Lemma lens_ULogDefaultParameter :
  lens ULogDefaultParameter_rows with_ULogDefaultParameter_rows. Proof. lens. Qed.
Lemma lens_ULogChangedParameter :
  lens ULogChangedParameter_rows with_ULogChangedParameter_rows. Proof. lens. Qed.

Create HintDb lens.

#[local] Hint Resolve lens_ULog lens_ULogAppendedOffsets lens_ULogDataset lens_ULogField
  lens_ULogMessageDropout lens_ULogMessageLogging lens_ULogMessageLoggingTagged
  lens_ULogMessageFormat lens_ULogMessageFormatField lens_ULogMessageInfo
  lens_ULogMessageInfoMultiple lens_ULogMessageInfoMultipleList
  lens_ULogMessageInfoMultipleListElement lens_ULogInitialParameter
  lens_ULogDefaultParameter lens_ULogChangedParameter : lens.

(** ** get_dataset *)

Section get_dataset_facts.

Variable _UNPACK_TYPES : dict string (string * nat * dtype).

Lemma for_fold_read_field rows :
  forall acc h s,
    for_fold rows acc (read_field _UNPACK_TYPES) h s
    = {| result := decode_fields _UNPACK_TYPES rows acc;
         handle := h; stored := s; executed := [] |}.
Proof.
  induction rows as [|r rows IH]; intros [fields data] h s; [reflexivity|].
  cbn [for_fold decode_fields]. unfold bind at 1.
  unfold read_field, decode_field. cbn [fst snd].
  destruct (subscript _UNPACK_TYPES (ULogField.DataType r)) as [e|unpack]; [reflexivity|].
  unfold bind, lift, ret. cbn.
  destruct (frombuffer (ULogField.ValueArray r) (snd unpack)) as [e|values]; [reflexivity|].
  cbn. rewrite IH. reflexivity.
Qed.

(** The statements of [get_dataset], followed by what the method does with
    their result. *)
Lemma get_dataset_statements {A} (name : string) (multi_instance : Z) (lazy db_cursor : bool)
    (k : Z * Z * list _FieldData * dict string ndarray -> M A) h s :
  bind (db_context db_cursor (
      pk <- getattr _pk ;;
      dataset_result <- execute_select [T_ULogDataset] (select_dataset name multi_instance pk) ;;
      match dataset_result with
      | None => raise (KeyError (DatasetNotFound name multi_instance))
      | Some row =>
          '(fields, data) <-
            (if lazy then ret ([], [])
             else
               field_results <- execute_select [T_ULogField] (select_fields (ULogDataset.Id row)) ;;
               for_fold field_results ([], []) (read_field _UNPACK_TYPES)) ;;
          ret (ULogDataset.MessageId row, ULogDataset.TimestampIndex row, fields, data)
      end)) k h s
  = match select_dataset name multi_instance (_pk h) s with
    | None => {| result := inl (KeyError (DatasetNotFound name multi_instance));
                 handle := h; stored := s; executed := [SELECT [T_ULogDataset]] |}
    | Some row =>
        match (if lazy then inr ([], [])
               else decode_fields _UNPACK_TYPES (select_fields (ULogDataset.Id row) s) ([], [])) with
        | inl e => {| result := inl e; handle := h; stored := s;
                      executed := fetch_statements name multi_instance lazy (_pk h) s |}
        | inr (fields, data) =>
            after (fetch_statements name multi_instance lazy (_pk h) s)
              (k (ULogDataset.MessageId row, ULogDataset.TimestampIndex row, fields, data) h s)
        end
    end.
Proof.
  unfold fetch_statements.
  set (body := bind (getattr _pk) _).
  assert (Hrun : body h s
    = match select_dataset name multi_instance (_pk h) s with
      | None => {| result := inl (KeyError (DatasetNotFound name multi_instance));
                   handle := h; stored := s; executed := [SELECT [T_ULogDataset]] |}
      | Some row =>
          match (if lazy then inr ([], [])
                 else decode_fields _UNPACK_TYPES (select_fields (ULogDataset.Id row) s) ([], [])) with
          | inl e => {| result := inl e; handle := h; stored := s;
                        executed := SELECT [T_ULogDataset] :: (if lazy then [] else [SELECT [T_ULogField]]) |}
          | inr (fields, data) =>
              {| result := inr (ULogDataset.MessageId row, ULogDataset.TimestampIndex row, fields, data);
                 handle := h; stored := s;
                 executed := SELECT [T_ULogDataset] :: (if lazy then [] else [SELECT [T_ULogField]]) |}
          end
      end).
  { subst body. rewrite bind_getattr, bind_select.
    destruct (select_dataset name multi_instance (_pk h) s) as [row|]; [|reflexivity].
    destruct lazy.
    - rewrite bind_ret. reflexivity.
    - rewrite bind_assoc, bind_select.
      unfold bind. rewrite for_fold_read_field. cbn [result handle stored executed].
      destruct (decode_fields _ _ _) as [e|[fields data]]; reflexivity. }
  assert (Hctx : db_context db_cursor body h s = body h s).
  { unfold db_context. destruct db_cursor; [reflexivity|].
    apply transaction_read_only. rewrite Hrun.
    destruct (select_dataset _ _ _ _); [|reflexivity].
    destruct (if lazy then _ else _) as [e|[fields data]]; reflexivity. }
  unfold bind at 1. rewrite Hctx, Hrun.
  destruct (select_dataset _ _ _ _) as [row|]; [|reflexivity].
  destruct (if lazy then _ else _) as [e|[fields data]]; reflexivity.
Qed.

(** Without a usable cache entry, a call is one real fetch: it leaves the
    handle and the content alone and returns what the statements give. *)
Lemma get_dataset_real_fetch name multi_instance lazy db_cursor caching h s :
  caching = false
  \/ find_index (same_dataset name multi_instance) (_data_list h) = None ->
  get_dataset _UNPACK_TYPES name multi_instance lazy db_cursor caching h s
  = {| result := fetch_dataset _UNPACK_TYPES name multi_instance lazy (_pk h) s;
       handle := h; stored := s;
       executed := fetch_statements name multi_instance lazy (_pk h) s |}.
Proof.
  intros Hmiss.
  unfold get_dataset, fetch_dataset.
  rewrite bind_getattr.
  destruct caching, (find_index (same_dataset name multi_instance) (_data_list h))
    as [[i existing]|] eqn:Hfind;
    try (destruct Hmiss; discriminate).
  all: rewrite get_dataset_statements; unfold fetch_statements;
    destruct (select_dataset name multi_instance (_pk h) s) as [row|]; [|reflexivity];
    destruct (if lazy then _ else _) as [e|[fields data]]; [reflexivity|];
    unfold after, ret; cbn [result handle stored executed]; rewrite app_nil_r; reflexivity.
Qed.

Lemma find_index_found {A} (p : A -> bool) (l : list A) i x :
  find_index p l = Some (i, x) -> p x = true /\ nth_error l i = Some x.
Proof.
  revert i. induction l as [|a l IH]; intros i; cbn [find_index]; [discriminate|].
  destruct (p a) eqn:Hpa.
  - intros [= <- <-]. split; [exact Hpa|reflexivity].
  - destruct (find_index p l) as [[j y]|]; [|discriminate].
    intros [= <- <-]. destruct (IH j eq_refl) as [Hp Hn]. split; [exact Hp|exact Hn].
Qed.

(** With a cache entry: it is returned as it is when the caller is lazy or
    the entry holds data; otherwise one real fetch replaces the entry where
    it stands. *)
Lemma get_dataset_cached name multi_instance lazy db_cursor h s i existing :
  find_index (same_dataset name multi_instance) (_data_list h) = Some (i, existing) ->
  get_dataset _UNPACK_TYPES name multi_instance lazy db_cursor true h s
  = if lazy || truthy (DatabaseData.data existing)
    then {| result := inr existing; handle := h; stored := s; executed := [] |}
    else match fetch_dataset _UNPACK_TYPES name multi_instance lazy (_pk h) s with
         | inl e => {| result := inl e; handle := h; stored := s;
                       executed := fetch_statements name multi_instance lazy (_pk h) s |}
         | inr d => {| result := inr d;
                       handle := set_data_list (list_set i d (_data_list h)) h;
                       stored := s;
                       executed := fetch_statements name multi_instance lazy (_pk h) s |}
         end.
Proof.
  intros Hfind. destruct (find_index_found _ _ Hfind) as [Hsame _].
  unfold same_dataset in Hsame. apply andb_true_iff in Hsame. destruct Hsame as [Hn Hm].
  apply String.eqb_eq in Hn. apply Z.eqb_eq in Hm.
  unfold get_dataset, fetch_dataset. rewrite bind_getattr, Hfind.
  destruct (lazy || truthy (DatabaseData.data existing)); [reflexivity|].
  rewrite get_dataset_statements. unfold fetch_statements.
  destruct (select_dataset name multi_instance (_pk h) s) as [row|]; [|reflexivity].
  destruct (if lazy then _ else _) as [e|[fields data]]; [reflexivity|].
  rewrite bind_setattr, Hn, Hm.
  unfold after, ret; cbn [result handle stored executed]; rewrite app_nil_r; reflexivity.
Qed.

(** C4.  With [caching] on, a call for a (name, multi-instance) pair that
    the dataset list of the handle does not hold executes the statements of
    a real fetch and returns their result (the dataset, or the KeyError when
    the database has no such dataset), and leaves the handle, hence its
    dataset list, exactly as it was: the same call on the handle it leaves
    executes the same statements again.  For a pair that the list holds at
    index [i] without data, a call that is not lazy executes the fetch too
    and, when it returns a dataset, the list afterwards is the former list
    with that dataset at index [i]. *)
Theorem get_dataset_cache_asymmetry name multi_instance lazy db_cursor h s :
  let o := get_dataset _UNPACK_TYPES name multi_instance lazy db_cursor true h s in
  (find_index (same_dataset name multi_instance) (_data_list h) = None ->
     result o = fetch_dataset _UNPACK_TYPES name multi_instance lazy (_pk h) s
     /\ (exists more, executed o = SELECT [T_ULogDataset] :: more)
     /\ handle o = h
     /\ _data_list (handle o) = _data_list h
     /\ get_dataset _UNPACK_TYPES name multi_instance lazy db_cursor true
          (handle o) (stored o) = o)
  /\ (forall i existing,
        find_index (same_dataset name multi_instance) (_data_list h) = Some (i, existing) ->
        lazy = false -> truthy (DatabaseData.data existing) = false ->
        result o = fetch_dataset _UNPACK_TYPES name multi_instance lazy (_pk h) s
        /\ (exists more, executed o = SELECT [T_ULogDataset] :: more)
        /\ (forall d, result o = inr d ->
               _data_list (handle o) = list_set i d (_data_list h))).
Proof.
  intros o. split.
  - intros Hmiss. subst o.
    rewrite get_dataset_real_fetch by (right; exact Hmiss).
    cbn [result handle stored executed].
    repeat split; try reflexivity.
    + unfold fetch_statements. eauto.
    + apply get_dataset_real_fetch. right. exact Hmiss.
  - intros i existing Hfind -> Hempty. subst o.
    rewrite (get_dataset_cached _ _ _ _ _ _ Hfind), Hempty. cbn [orb].
    destruct (fetch_dataset _ _ _ _ _ _) as [e|d]; cbn [result handle stored executed].
    + repeat split; [unfold fetch_statements; eauto|discriminate].
    + repeat split; [unfold fetch_statements; eauto|].
      intros d' [= <-]. reflexivity.
Qed.

End get_dataset_facts.

Lemma get_dataset_cache_asymmetry_witness :
  let h := Examples.named 1 in
  let o := get_dataset Examples.unpack_types "imu" 1 false false true h Examples.saved_store in
  let cached := set_data_list [Examples.imu 0 x07%byte; Examples.lazy_imu 1] h in
  let o' := get_dataset Examples.unpack_types "imu" 1 false false true cached
              Examples.saved_store in
  (result o = inr (Examples.imu 1 x09%byte)
   /\ executed o = [SELECT [T_ULogDataset]; SELECT [T_ULogField]]
   /\ _data_list (handle o) = []
   /\ executed (get_dataset Examples.unpack_types "imu" 1 false false true
                  (handle o) (stored o))
      = [SELECT [T_ULogDataset]; SELECT [T_ULogField]])
  /\ (result o' = inr (Examples.imu 1 x09%byte)
      /\ _data_list (handle o') = [Examples.imu 0 x07%byte; Examples.imu 1 x09%byte]).
Proof.
  cbv zeta.
  destruct (get_dataset_cache_asymmetry Examples.unpack_types "imu" 1 false false
              (Examples.named 1) Examples.saved_store) as [Hmiss _].
  destruct (Hmiss eq_refl) as (Hres & _ & Hh & Hlist & Hagain).
  destruct (get_dataset_cache_asymmetry Examples.unpack_types "imu" 1 false false
              (set_data_list [Examples.imu 0 x07%byte; Examples.lazy_imu 1] (Examples.named 1))
              Examples.saved_store) as [_ Hhit].
  destruct (Hhit 1%nat (Examples.lazy_imu 1) eq_refl eq_refl eq_refl) as (Hres' & _ & Hset).
  split.
  - split; [rewrite Hres; vm_compute; reflexivity|].
    split; [vm_compute; reflexivity|].
    split; [rewrite Hlist; reflexivity|].
    rewrite Hagain. vm_compute. reflexivity.
  - split; [rewrite Hres'; vm_compute; reflexivity|].
    rewrite (Hset (Examples.imu 1 x09%byte)); [reflexivity|].
    rewrite Hres'. vm_compute. reflexivity.
Defined.

(** ** The static methods *)

Lemma exists_in_db_run primary_key h s :
  exists_in_db primary_key h s
  = {| result := inr ((length (filter (fun r => sql_eq (ULog.Id r) primary_key) (ULog_rows s))
                       =? 1)%nat);
       handle := h; stored := s; executed := [SELECT [T_ULog]] |}.
Proof.
  unfold exists_in_db. rewrite transaction_read_only; rewrite bind_select; reflexivity.
Qed.

Lemma primary_key_from_sha256sum_run sha256sum h s :
  primary_key_from_sha256sum sha256sum h s
  = {| result := inr (match find (fun r => String.eqb (ULog.SHA256Sum r) sha256sum) (ULog_rows s) with
                      | Some r => Some (ULog.Id r)
                      | None => None
                      end);
       handle := h; stored := s; executed := [SELECT [T_ULog]] |}.
Proof.
  unfold primary_key_from_sha256sum.
  rewrite transaction_read_only; rewrite bind_select; reflexivity.
Qed.

(** Where digests are unique, a digest names its row. *)
Lemma unique_digest_row rows r :
  NoDup (map ULog.SHA256Sum rows) -> In r rows ->
  find (fun x => String.eqb (ULog.SHA256Sum x) (ULog.SHA256Sum r)) rows = Some r
  /\ filter (fun x => String.eqb (ULog.SHA256Sum x) (ULog.SHA256Sum r)) rows = [r].
Proof.
  induction rows as [|a rows IH]; intros Hnd Hin; [contradiction|].
  cbn [map] in Hnd. inversion Hnd as [|? ? Hnotin Hnd']; subst.
  cbn [find filter]. destruct Hin as [->|Hin].
  - rewrite String.eqb_refl. split; [reflexivity|]. f_equal.
    apply filter_none. intros x Hx.
    apply String.eqb_neq. intros Heq.
    apply Hnotin. rewrite <- Heq. apply in_map, Hx.
  - destruct (String.eqb (ULog.SHA256Sum a) (ULog.SHA256Sum r)) eqn:Heq.
    + apply String.eqb_eq in Heq. exfalso. apply Hnotin. rewrite Heq. apply in_map, Hin.
    + apply IH; assumption.
Qed.

(** ** The constructor *)

(** C6.  Against a database whose [user_version] is below [SCHEMA_VERSION],
    the constructor raises the migration error whatever primary key, log
    file and laziness it is given; the only statement it has executed is the
    PRAGMA that reads the version, so no table was read or written, and the
    content is as before. *)
Theorem schema_gate_rejects_old_store
    (_UNPACK_TYPES : dict string (string * nat * dtype))
    (ULog__init__ : FileSystem -> option log_file_t -> Exn + DatabaseULog)
    (fs : FileSystem) (primary_key : option Z) (log_file : option log_file_t)
    (lazy : bool) (s : Store) :
  user_version s < SCHEMA_VERSION ->
  __init__ _UNPACK_TYPES ULog__init__ fs primary_key log_file lazy s
  = (Some (inl (ValueError (MigrationNeeded (user_version s) SCHEMA_VERSION))),
     s, [PRAGMA_user_version]).
Proof.
  intros Hold. unfold __init__.
  apply Z.ltb_lt in Hold. rewrite Hold. reflexivity.
Qed.

Lemma schema_gate_rejects_old_store_witness :
  user_version Examples.old_store < SCHEMA_VERSION
  /\ __init__ Examples.unpack_types Examples.parent_init Examples.one_byte_fs
       (Some 1) None true Examples.old_store
     = (Some (inl (ValueError (MigrationNeeded 4 5))), Examples.old_store,
        [PRAGMA_user_version]).
Proof.
  split; [reflexivity|].
  apply (schema_gate_rejects_old_store Examples.unpack_types Examples.parent_init
           Examples.one_byte_fs (Some 1) None true Examples.old_store).
  reflexivity.
Defined.

(** ** save: the two refusals *)

Section save_refusals.

Variable json_column : ndarray -> ndarray -> option string.

Lemma save_already_persisted append_json h s id :
  _pk h = Some id ->
  save json_column append_json h s
  = {| result := inl (KeyError AlreadyInDatabase); handle := h; stored := s; executed := [] |}.
Proof.
  intros Hpk. unfold save. rewrite bind_getattr, Hpk. reflexivity.
Qed.

Lemma save_known_digest append_json h s r :
  _pk h = None ->
  find (fun x => String.eqb (ULog.SHA256Sum x) (_sha256sum h)) (ULog_rows s) = Some r ->
  save json_column append_json h s
  = {| result := inl (KeyError (HashAlreadyInDatabase (_sha256sum h) (ULog.Id r)));
       handle := set_pk (Some (ULog.Id r)) h; stored := s;
       executed := [SELECT [T_ULog]] |}.
Proof.
  intros Hpk Hfind. unfold save. rewrite bind_getattr, Hpk, bind_getattr.
  rewrite (bind_ok _ _ _ _ (a := Some (ULog.Id r)))
    by (rewrite primary_key_from_sha256sum_run; cbn; rewrite Hfind; reflexivity).
  rewrite primary_key_from_sha256sum_run. cbn [handle stored executed].
  rewrite bind_setattr. reflexivity.
Qed.

(** C2.  A handle without primary key is saved into a database that holds
    its digest in the row of primary key [id] (digests being unique among
    the rows, as the schema has it).  Then [save] raises the KeyError that
    names the digest and [id], the handle has taken [id] as its primary key,
    the content of the database is what it was, and exactly one row of ULog
    carries the digest. *)
Theorem save_duplicate_content append_json h s r :
  _pk h = None ->
  NoDup (map ULog.SHA256Sum (ULog_rows s)) ->
  In r (ULog_rows s) ->
  ULog.SHA256Sum r = _sha256sum h ->
  let o := save json_column append_json h s in
  result o = inl (KeyError (HashAlreadyInDatabase (_sha256sum h) (ULog.Id r)))
  /\ _pk (handle o) = Some (ULog.Id r)
  /\ stored o = s
  /\ length (filter (fun x => String.eqb (ULog.SHA256Sum x) (_sha256sum h))
                    (ULog_rows (stored o))) = 1%nat.
Proof.
  intros Hpk Hnd Hin Hsha o.
  destruct (unique_digest_row _ _ Hnd Hin) as [Hfind Hfilter].
  rewrite Hsha in Hfind, Hfilter.
  subst o. rewrite (save_known_digest append_json _ _ Hpk Hfind).
  cbn [result handle stored _pk set_pk]. rewrite Hfilter. repeat split.
Qed.

End save_refusals.

Lemma save_duplicate_content_witness :
  let o := save Examples.json_column false Examples.sample_log Examples.saved_store in
  result o = inl (KeyError (HashAlreadyInDatabase (_sha256sum Examples.sample_log) 1))
  /\ _pk (handle o) = Some 1
  /\ stored o = Examples.saved_store
  /\ length (filter (fun x => String.eqb (ULog.SHA256Sum x) (_sha256sum Examples.sample_log))
                    (ULog_rows (stored o))) = 1%nat.
Proof.
  apply (save_duplicate_content Examples.json_column false Examples.sample_log
           Examples.saved_store Examples.saved_row).
  - reflexivity.
  - vm_compute. constructor; [intros []|constructor].
  - vm_compute. left. reflexivity.
  - reflexivity.
Defined.

(** ** save, block by block *)

Lemma next_rowid_snoc (ids : list Z) :
  next_rowid (ids ++ [next_rowid ids]) = next_rowid ids + 1.
Proof.
  unfold next_rowid.
  assert (H : forall l m, 0 <= m -> fold_right Z.max 0 (l ++ [m]) = Z.max (fold_right Z.max 0 l) m).
  { induction l as [|a l IH]; intros m Hm; cbn [app fold_right].
    - lia.
    - rewrite IH by exact Hm. lia. }
  assert (Hpos : forall l, 0 <= fold_right Z.max 0 l).
  { induction l as [|a l IH]; cbn [fold_right]; lia. }
  rewrite H by (specialize (Hpos ids); lia).
  specialize (Hpos ids). lia.
Qed.

Lemma next_rowid_fresh (ids : list Z) : forall x, In x ids -> x < next_rowid ids.
Proof.
  unfold next_rowid. induction ids as [|a ids IH]; intros x Hx; [contradiction|].
  cbn [fold_right]. destruct Hx as [->|Hx]; [lia|]. specialize (IH x Hx). lia.
Qed.

Lemma next_rowid_pos (ids : list Z) : 1 <= next_rowid ids.
Proof.
  unfold next_rowid. induction ids as [|a ids IH]; cbn [fold_right]; lia.
Qed.

Section save_blocks.

Variable json_column : ndarray -> ndarray -> option string.

Implicit Types (Q : unit -> DatabaseULog -> Store -> Prop).

Lemma comprehension_chr_error flags e :
  comprehension chr flags = inl e -> write_error e.
Proof.
  induction flags as [|n flags IH]; cbn [comprehension]; [discriminate|].
  unfold chr at 1. destruct ((n <? - 2 ^ 31) || (2 ^ 31 <=? n)); [intros [= <-]; exact I|].
  destruct ((0 <=? n) && (n <? 1114112)).
  - destruct (comprehension chr flags); [|discriminate].
    intros [= <-]. apply IH. reflexivity.
  - intros [= <-]. exact I.
Qed.

(** The text of flags that are code points is made of the flags. *)
Lemma comprehension_chr_same flags text :
  comprehension chr flags = inr text -> text = flags.
Proof.
  revert text. induction flags as [|n flags IH]; intros text; cbn [comprehension].
  - intros [= <-]. reflexivity.
  - unfold chr at 1. destruct ((n <? - 2 ^ 31) || (2 ^ 31 <=? n)); [discriminate|].
    destruct ((0 <=? n) && (n <? 1114112)); [|discriminate].
    destruct (comprehension chr flags) as [e|text']; [discriminate|].
    intros [= <-]. rewrite (IH text' eq_refl). reflexivity.
Qed.

(** Binding the parameters of the row of ULog: the exception is a write
    error, and the row is kept as it is. *)
Lemma ULog_bound_error r e : ULog.bound r = inl e -> write_error e.
Proof.
  unfold ULog.bound.
  destruct (negb _); [intros [= <-]; exact I|].
  destruct (existsb _ _); [intros [= <-]; exact I|].
  destruct (sqlite_integer _); [discriminate|intros [= <-]; exact I].
Qed.

Lemma ULog_bound_same r r' : ULog.bound r = inr r' -> r' = r.
Proof.
  unfold ULog.bound.
  destruct (negb _); [discriminate|].
  destruct (existsb _ _); [discriminate|].
  destruct (sqlite_integer _); [intros [= <-]; reflexivity|discriminate].
Qed.

Lemma ULog_bound_ok h id :
  forallb sqlite_integer
          [_file_version h; _start_timestamp h; _last_timestamp h; _sync_seq_cnt h] = true ->
  existsb surrogate (_compat_flags h ++ _incompat_flags h) = false ->
  ULog.bound (ulog_row h id (_compat_flags h) (_incompat_flags h))
  = inr (ulog_row h id (_compat_flags h) (_incompat_flags h)).
Proof.
  intros Hints Hflags. unfold ULog.bound, ulog_row.
  cbn [ULog.FileVersion ULog.StartTimestamp ULog.LastTimestamp ULog.SyncCount
       ULog.CompatFlags ULog.IncompatFlags].
  rewrite Hflags. cbn [forallb] in *.
  repeat (apply andb_true_iff in Hints; destruct Hints as [? Hints]).
  repeat match goal with H : sqlite_integer _ = true |- _ => rewrite H; clear H end.
  reflexivity.
Qed.

Lemma wp_save_metadata E h s Q :
  forgiving E
  \/ (exists compat incompat,
        comprehension chr (_compat_flags h) = inr compat
        /\ comprehension chr (_incompat_flags h) = inr incompat)
     /\ forallb sqlite_integer
                [_file_version h; _start_timestamp h; _last_timestamp h; _sync_seq_cnt h]
        = true
     /\ existsb surrogate (_compat_flags h ++ _incompat_flags h) = false
     /\ (forall r, In r (ULog_rows s) -> ULog.SHA256Sum r <> _sha256sum h) ->
  (forall compat incompat,
     comprehension chr (_compat_flags h) = inr compat ->
     comprehension chr (_incompat_flags h) = inr incompat ->
     let id := next_rowid (map ULog.Id (ULog_rows s)) in
     Q tt (set_pk (Some id) h)
          (with_ULog_rows (ULog_rows s ++ [ulog_row h id compat incompat]) s)) ->
  wp E save_metadata h s Q.
Proof.
  intros Hok HQ. unfold save_metadata.
  apply wp_bind, wp_getattr, wp_bind, wp_lift.
  destruct (comprehension chr (_compat_flags h)) as [e|compat] eqn:Hc.
  { destruct Hok as [Hforgive|[(? & ? & [=] & _) _]].
    apply Hforgive. eapply comprehension_chr_error, Hc. }
  apply wp_bind, wp_lift.
  destruct (comprehension chr (_incompat_flags h)) as [e|incompat] eqn:Hi.
  { destruct Hok as [Hforgive|[(? & ? & _ & [=]) _]].
    apply Hforgive. eapply comprehension_chr_error, Hi. }
  apply wp_bind, wp_insert_rowid. cbv zeta.
  fold (ulog_row h (next_rowid (map ULog.Id (ULog_rows s))) compat incompat).
  destruct (ULog.bound _) as [e|r] eqn:Hbound.
  { destruct Hok as [Hforgive|(_ & Hints & Hflags & _)];
      [apply Hforgive; eapply ULog_bound_error, Hbound|].
    apply comprehension_chr_same in Hc, Hi. subst compat incompat.
    rewrite ULog_bound_ok in Hbound by assumption. discriminate. }
  apply ULog_bound_same in Hbound. subst r.
  destruct (negb _) eqn:Hu.
  - apply wp_setattr. apply HQ; reflexivity.
  - destruct Hok as [Hforgive|(_ & _ & _ & Hfresh)]; [apply Hforgive; exact I|].
    apply negb_false_iff, existsb_exists in Hu. destruct Hu as (r & Hr & Heq).
    apply String.eqb_eq in Heq. exfalso. exact (Hfresh r Hr Heq).
Qed.

Lemma wp_save_appended_offsets E h s pk Q :
  _pk h = Some pk ->
  forgiving E \/ forallb sqlite_integer (_appended_offsets h) = true ->
  Q tt h (with_ULogAppendedOffsets_rows
            (ULogAppendedOffsets_rows s ++ offset_rows pk (_appended_offsets h)) s) ->
  wp E save_appended_offsets h s Q.
Proof.
  intros Hpk Hok HQ. unfold save_appended_offsets.
  apply wp_bind, wp_self_pk. rewrite Hpk.
  apply wp_bind, wp_getattr.
  apply wp_executemany_same with (bindable := ULogAppendedOffsets.bindable);
    [auto with lens|reflexivity| |exact HQ].
  destruct Hok as [Hf|Hall]; [left; exact Hf|right].
  rewrite forallb_over_map. unfold enumerate.
  rewrite <- Hall.
  rewrite <- (forallb_combine_snd sqlite_integer (_appended_offsets h)
                (map Z.of_nat (seq 0 (length (_appended_offsets h)))))
    by (rewrite length_map, length_seq; reflexivity).
  apply forallb_pointwise. intros [i offset]. reflexivity.
Qed.

Lemma wp_save_dropouts E h s pk Q :
  _pk h = Some pk ->
  forgiving E
  \/ forallb (fun d => forallb sqlite_integer
                         [DatabaseMessageDropout.timestamp d;
                          DatabaseMessageDropout.duration d])
             (_dropouts h) = true ->
  Q tt h (with_ULogMessageDropout_rows
            (ULogMessageDropout_rows s ++ dropout_rows pk (_dropouts h)) s) ->
  wp E save_dropouts h s Q.
Proof.
  intros Hpk Hok HQ. unfold save_dropouts.
  apply wp_bind, wp_self_pk. rewrite Hpk.
  apply wp_bind, wp_getattr.
  apply wp_executemany_same with (bindable := ULogMessageDropout.bindable);
    [auto with lens|reflexivity| |exact HQ].
  destruct Hok as [Hf|Hall]; [left; exact Hf|right].
  rewrite forallb_over_map. exact Hall.
Qed.

Lemma wp_save_logged_messages E h s pk Q :
  _pk h = Some pk ->
  forgiving E
  \/ forallb (fun m => forallb sqlite_integer
                         [DatabaseMessageLogging.log_level m;
                          DatabaseMessageLogging.timestamp m])
             (_logged_messages h) = true ->
  Q tt h (with_ULogMessageLogging_rows
            (ULogMessageLogging_rows s ++ logging_rows pk (_logged_messages h)) s) ->
  wp E save_logged_messages h s Q.
Proof.
  intros Hpk Hok HQ. unfold save_logged_messages.
  apply wp_bind, wp_self_pk. rewrite Hpk.
  apply wp_bind, wp_getattr.
  apply wp_executemany_same with (bindable := ULogMessageLogging.bindable);
    [auto with lens|reflexivity| |exact HQ].
  destruct Hok as [Hf|Hall]; [left; exact Hf|right].
  rewrite forallb_over_map. exact Hall.
Qed.

Lemma wp_save_initial_parameters E h s pk Q :
  _pk h = Some pk ->
  forgiving E \/ forallb (fun item => storable (snd item)) (_initial_parameters h) = true ->
  Q tt h (with_ULogInitialParameter_rows
            (ULogInitialParameter_rows s ++ initial_rows pk (_initial_parameters h)) s) ->
  wp E save_initial_parameters h s Q.
Proof.
  intros Hpk Hok HQ. unfold save_initial_parameters.
  apply wp_bind, wp_self_pk. rewrite Hpk.
  apply wp_bind, wp_getattr.
  apply wp_executemany with (bindable := ULogInitialParameter.bindable)
                            (as_kept := ULogInitialParameter.as_kept);
    [auto with lens|reflexivity| |].
  - destruct Hok as [Hf|Hall]; [left; exact Hf|right].
    rewrite forallb_over_map, <- Hall. apply forallb_pointwise. intros [key value]. reflexivity.
  - rewrite map_map.
    replace (map _ (_initial_parameters h)) with (initial_rows pk (_initial_parameters h));
      [exact HQ|].
    apply map_ext. intros [key value]. reflexivity.
Qed.

Lemma wp_save_changed_parameters E h s pk Q :
  _pk h = Some pk ->
  forgiving E
  \/ forallb (fun change => sqlite_integer (fst (fst change)) && storable (snd change))
             (_changed_parameters h) = true ->
  Q tt h (with_ULogChangedParameter_rows
            (ULogChangedParameter_rows s ++ changed_rows pk (_changed_parameters h)) s) ->
  wp E save_changed_parameters h s Q.
Proof.
  intros Hpk Hok HQ. unfold save_changed_parameters.
  apply wp_bind, wp_self_pk. rewrite Hpk.
  apply wp_bind, wp_getattr.
  apply wp_executemany with (bindable := ULogChangedParameter.bindable)
                            (as_kept := ULogChangedParameter.as_kept);
    [auto with lens|reflexivity| |].
  - destruct Hok as [Hf|Hall]; [left; exact Hf|right].
    rewrite forallb_over_map, <- Hall. apply forallb_pointwise.
    intros [[timestamp key] value]. reflexivity.
  - rewrite map_map.
    replace (map _ (_changed_parameters h)) with (changed_rows pk (_changed_parameters h));
      [exact HQ|].
    apply map_ext. intros [[timestamp key] value]. reflexivity.
Qed.

(** A loop whose body appends rows to one table, when the parameters of
    each item can be bound. *)
Lemma wp_for_each_append {A R} E (body : A -> M unit) (rows : Store -> list R) put
    (f : A -> list R) (ok : A -> bool) (h : DatabaseULog) :
  lens rows put ->
  (forall x s Q, forgiving E \/ ok x = true ->
                 Q tt h (put (rows s ++ f x) s) -> wp E (body x) h s Q) ->
  forall l s Q, forgiving E \/ forallb ok l = true ->
                Q tt h (put (rows s ++ flat_map f l) s) -> wp E (for_each l body) h s Q.
Proof.
  intros [Hrp Hpp Hpr] Hbody. induction l as [|x l IH]; intros s Q Hok HQ.
  - cbn [flat_map] in HQ. rewrite app_nil_r, Hpr in HQ. exact HQ.
  - cbn [for_each]. apply wp_bind, Hbody.
    + destruct Hok as [Hf|Hall]; [left; exact Hf|right].
      cbn [forallb] in Hall. apply andb_true_iff in Hall. apply Hall.
    + apply IH.
      * destruct Hok as [Hf|Hall]; [left; exact Hf|right].
        cbn [forallb] in Hall. apply andb_true_iff in Hall. apply Hall.
      * rewrite Hrp, Hpp, <- app_assoc. exact HQ.
Qed.

Lemma wp_save_logged_messages_tagged E h s pk Q :
  _pk h = Some pk ->
  forgiving E
  \/ forallb (fun item =>
                forallb (fun m => forallb sqlite_integer
                                    [DatabaseMessageLoggingTagged.log_level m;
                                     DatabaseMessageLoggingTagged.timestamp m;
                                     fst item])
                        (snd item))
             (_logged_messages_tagged h) = true ->
  Q tt h (with_ULogMessageLoggingTagged_rows
            (ULogMessageLoggingTagged_rows s ++ tagged_rows pk (_logged_messages_tagged h)) s) ->
  wp E save_logged_messages_tagged h s Q.
Proof.
  intros Hpk Hok HQ. unfold save_logged_messages_tagged.
  apply wp_bind, wp_getattr.
  apply wp_for_each_append
    with (rows := ULogMessageLoggingTagged_rows) (put := with_ULogMessageLoggingTagged_rows)
         (f := fun '(tag, messages) => tagged_rows_of pk tag messages)
         (ok := fun item =>
                  forallb (fun m => forallb sqlite_integer
                                      [DatabaseMessageLoggingTagged.log_level m;
                                       DatabaseMessageLoggingTagged.timestamp m;
                                       fst item])
                          (snd item));
    [auto with lens| |exact Hok|exact HQ].
  intros [tag messages] s' Q' Hok' HQ'.
  apply wp_bind, wp_self_pk. rewrite Hpk.
  apply wp_executemany_same with (bindable := ULogMessageLoggingTagged.bindable);
    [auto with lens|reflexivity| |exact HQ'].
  destruct Hok' as [Hf|Hall]; [left; exact Hf|right].
  rewrite forallb_over_map. exact Hall.
Qed.

Lemma wp_save_default_parameters E h s pk Q :
  _pk h = Some pk ->
  forgiving E
  \/ forallb (fun item =>
                forallb (fun parameter =>
                           sqlite_integer (fst item) && storable (snd parameter))
                        (snd item))
             (_default_parameters h) = true ->
  Q tt h (with_ULogDefaultParameter_rows
            (ULogDefaultParameter_rows s ++ default_rows pk (_default_parameters h)) s) ->
  wp E save_default_parameters h s Q.
Proof.
  intros Hpk Hok HQ. unfold save_default_parameters.
  apply wp_bind, wp_getattr.
  apply wp_for_each_append
    with (rows := ULogDefaultParameter_rows) (put := with_ULogDefaultParameter_rows)
         (f := fun '(default_type, parameters) => default_rows_of pk default_type parameters)
         (ok := fun item =>
                  forallb (fun parameter =>
                             sqlite_integer (fst item) && storable (snd parameter))
                          (snd item));
    [auto with lens| |exact Hok|exact HQ].
  intros [default_type parameters] s' Q' Hok' HQ'.
  apply wp_bind, wp_self_pk. rewrite Hpk.
  apply wp_executemany with (bindable := ULogDefaultParameter.bindable)
                            (as_kept := ULogDefaultParameter.as_kept);
    [auto with lens|reflexivity| |].
  - destruct Hok' as [Hf|Hall]; [left; exact Hf|right].
    rewrite forallb_over_map, <- Hall. apply forallb_pointwise. intros [key value]. reflexivity.
  - rewrite map_map.
    replace (map _ parameters) with (default_rows_of pk default_type parameters);
      [exact HQ'|].
    apply map_ext. intros [key value]. reflexivity.
Qed.

Lemma comprehension_info_error types pk items e :
  comprehension (info_row types pk) items = inl e -> write_error e.
Proof.
  induction items as [|[key value] items IH]; cbn [comprehension]; [discriminate|].
  unfold info_row at 1, subscript. destruct (dict_get key types).
  - destruct (comprehension _ items); [|discriminate]. intros [= <-]. apply IH. reflexivity.
  - intros [= <-]. exact I.
Qed.

(** The rows of the info entries carry the values of the entries. *)
Lemma info_rows_bindable types pk items rows :
  comprehension (info_row types pk) items = inr rows ->
  forallb ULogMessageInfo.bindable rows = forallb (fun item => storable (snd item)) items.
Proof.
  revert rows. induction items as [|[key value] items IH]; intros rows; cbn [comprehension].
  - intros [= <-]. reflexivity.
  - unfold info_row at 1. destruct (subscript types key) as [e|typename]; [discriminate|].
    destruct (comprehension _ items) as [e|rows']; [discriminate|].
    intros [= <-]. cbn [forallb snd]. rewrite (IH rows' eq_refl). reflexivity.
Qed.

Lemma wp_save_msg_info_dict E h s pk Q :
  _pk h = Some pk ->
  forgiving E
  \/ ((exists rows, info_rows h pk = inr rows)
      /\ forallb (fun item => storable (snd item)) (_msg_info_dict h) = true) ->
  (forall rows, info_rows h pk = inr rows ->
     Q tt h (with_ULogMessageInfo_rows
               (ULogMessageInfo_rows s ++ map ULogMessageInfo.as_kept rows) s)) ->
  wp E save_msg_info_dict h s Q.
Proof.
  intros Hpk Hok HQ. unfold save_msg_info_dict.
  apply wp_bind, wp_self_pk. rewrite Hpk.
  apply wp_bind, wp_getattr, wp_bind, wp_lift.
  change (comprehension _ (_msg_info_dict h)) with (info_rows h pk).
  destruct (info_rows h pk) as [e|rows] eqn:Hrows.
  - destruct Hok as [Hforgive|[[? [=]] _]].
    apply Hforgive. eapply comprehension_info_error, Hrows.
  - apply wp_executemany with (bindable := ULogMessageInfo.bindable)
                              (as_kept := ULogMessageInfo.as_kept);
      [auto with lens|reflexivity| |apply HQ; reflexivity].
    destruct Hok as [Hf|[_ Hall]]; [left; exact Hf|right].
    rewrite (info_rows_bindable _ _ _ Hrows). exact Hall.
Qed.

Lemma field_row_error append_json dataset id field e :
  field_row json_column append_json dataset id field = inl e -> write_error e.
Proof.
  unfold field_row, subscript.
  destruct (dict_get (field_name field) (DatabaseData.data dataset)); [|intros [= <-]; exact I].
  destruct append_json; [|discriminate].
  destruct (dict_get "timestamp"%string (DatabaseData.data dataset)); [|intros [= <-]; exact I].
  destruct (json_column _ _); [discriminate|]. intros [= <-]. exact I.
Qed.

Lemma wp_save_fields E append_json dataset id :
  forall fields h s Q,
    forgiving E
    \/ (exists rows, comprehension (field_row json_column append_json dataset id) fields = inr rows) ->
    (forall rows,
       comprehension (field_row json_column append_json dataset id) fields = inr rows ->
       Q tt h (with_ULogField_rows (ULogField_rows s ++ rows) s)) ->
    wp E (for_each fields (save_field json_column append_json dataset id)) h s Q.
Proof.
  induction fields as [|f fields IH]; intros h s Q Hok HQ.
  - specialize (HQ [] eq_refl). rewrite app_nil_r in HQ.
    rewrite (put_get lens_ULogField) in HQ. exact HQ.
  - cbn [for_each comprehension] in *. unfold save_field at 1.
    apply wp_bind, wp_bind, wp_lift.
    destruct (field_row json_column append_json dataset id f) as [e|row] eqn:Hrow.
    { destruct Hok as [Hforgive|[? [=]]]. apply Hforgive. eapply field_row_error, Hrow. }
    unfold insert_into. apply wp_bind, wp_lift. unfold ULogField.bound.
    apply wp_update, IH.
    + destruct Hok as [Hforgive|[rows Hrows]]; [left; exact Hforgive|right].
      destruct (comprehension _ fields) as [|rows']; [discriminate|]. eauto.
    + intros rows Hrows. rewrite Hrows in HQ. specialize (HQ _ eq_refl).
      rewrite (get_put lens_ULogField), (put_put lens_ULogField), <- app_assoc. exact HQ.
Qed.

Lemma field_rows_error append_json next l e :
  field_rows json_column append_json next l = inl e -> write_error e.
Proof.
  revert next. induction l as [|d l IH]; intros next; cbn [field_rows]; [discriminate|].
  destruct (comprehension _ _) as [e'|rows] eqn:Hc.
  - intros [= <-]. clear IH. revert e' Hc.
    induction (DatabaseData.field_data d) as [|f fs IHf]; cbn [comprehension]; [discriminate|].
    intros e'. destruct (field_row _ _ _ _ f) eqn:Hf.
    + intros [= <-]. eapply field_row_error, Hf.
    + destruct (comprehension _ fs); [|discriminate]. intros [= <-]. apply IHf. reflexivity.
  - destruct (field_rows _ _ (next + 1) l) eqn:Hr; [|discriminate].
    intros [= <-]. eapply IH, Hr.
Qed.

Lemma wp_save_datasets E append_json pk :
  forall l h s Q,
    _pk h = Some pk ->
    let next := next_rowid (map ULogDataset.Id (ULogDataset_rows s)) in
    forgiving E
    \/ ((exists rows, field_rows json_column append_json next l = inr rows)
        /\ (forall r, In r (ULogDataset_rows s) -> ULogDataset.ULogId r = pk ->
                     ~ In (ULogDataset.DatasetName r, ULogDataset.MultiId r) (map dataset_key l))
        /\ NoDup (map dataset_key l)
        /\ forallb (fun d => forallb sqlite_integer
                               [DatabaseData.multi_id d; DatabaseData.msg_id d;
                                DatabaseData.timestamp_idx d]) l = true) ->
    (forall rows, field_rows json_column append_json next l = inr rows ->
       Q tt h (with_ULogField_rows (ULogField_rows s ++ rows)
                 (with_ULogDataset_rows (ULogDataset_rows s ++ dataset_rows pk next l) s))) ->
    wp E (for_each l (save_dataset json_column append_json)) h s Q.
Proof.
  induction l as [|d l IH]; intros h s Q Hpk next Hok HQ.
  - specialize (HQ [] eq_refl). cbn [dataset_rows] in HQ. rewrite !app_nil_r in HQ.
    destruct s; exact HQ.
  - cbn [for_each]. unfold save_dataset at 1.
    apply wp_bind, wp_bind, wp_self_pk. rewrite Hpk.
    apply wp_bind, wp_insert_rowid. cbv zeta. fold next.
    unfold ULogDataset.bound, ULogDataset.bindable.
    cbn [ULogDataset.MultiId ULogDataset.MessageId ULogDataset.TimestampIndex].
    destruct (forallb sqlite_integer _) eqn:Hbinds.
    2:{ destruct Hok as [Hforgive|(_ & _ & _ & Hall)]; [apply Hforgive; exact I|].
        cbn [forallb] in Hall, Hbinds. apply andb_true_iff in Hall. destruct Hall as [Hd _].
        rewrite Hd in Hbinds. discriminate. }
    destruct (negb _) eqn:Hu.
    2:{ destruct Hok as [Hforgive|(_ & Hfresh & _)]; [apply Hforgive; exact I|].
        apply negb_false_iff, existsb_exists in Hu. destruct Hu as (r & Hr & Heq).
        apply andb_true_iff in Heq. destruct Heq as [Heq Hm].
        apply andb_true_iff in Heq. destruct Heq as [Hid Hn].
        apply Z.eqb_eq in Hid, Hm. apply String.eqb_eq in Hn.
        exfalso. apply (Hfresh r Hr Hid). left. unfold dataset_key. congruence. }
    cbn [field_rows] in Hok, HQ.
    apply wp_save_fields.
    { destruct Hok as [Hforgive|((rows & Hrows) & _)]; [left; exact Hforgive|right].
      destruct (comprehension _ (DatabaseData.field_data d)); [discriminate|]. eauto. }
    intros rows Hrows. rewrite Hrows in Hok, HQ.
    apply IH; [exact Hpk| |].
    + cbn [ULogDataset_rows with_ULogField_rows with_ULogDataset_rows].
      rewrite map_app. cbn [map ULogDataset.Id]. rewrite next_rowid_snoc. fold next.
      destruct Hok as [Hforgive|((rows' & Hrows') & Hfresh & Hnd & Hall)];
        [left; exact Hforgive|right].
      cbn [map] in Hnd, Hfresh. inversion Hnd as [|? ? Hnotin Hnd']; subst.
      cbn [forallb] in Hall. apply andb_true_iff in Hall. destruct Hall as [_ Hall].
      split; [|split; [|split; [exact Hnd'|exact Hall]]].
      * destruct (field_rows _ _ (next + 1) l); [discriminate|]. eauto.
      * intros r Hr Hid Hin. apply in_app_or in Hr. destruct Hr as [Hr|[<-|[]]].
        -- apply (Hfresh r Hr Hid). right. exact Hin.
        -- apply Hnotin. exact Hin.
    + cbn [ULogDataset_rows ULogField_rows with_ULogField_rows with_ULogDataset_rows].
      rewrite map_app. cbn [map ULogDataset.Id]. rewrite next_rowid_snoc. fold next.
      intros rows' Hrows'. rewrite Hrows' in HQ. specialize (HQ _ eq_refl).
      cbn [dataset_rows] in HQ. rewrite <- !app_assoc. cbn [app].
      destruct s; exact HQ.
Qed.

Lemma wp_save_data_list E append_json h s pk Q :
  _pk h = Some pk ->
  let next := next_rowid (map ULogDataset.Id (ULogDataset_rows s)) in
  forgiving E
  \/ ((exists rows, field_rows json_column append_json next (_data_list h) = inr rows)
      /\ (forall r, In r (ULogDataset_rows s) -> ULogDataset.ULogId r <> pk)
      /\ NoDup (map dataset_key (_data_list h))
      /\ forallb (fun d => forallb sqlite_integer
                             [DatabaseData.multi_id d; DatabaseData.msg_id d;
                              DatabaseData.timestamp_idx d]) (_data_list h) = true) ->
  (forall rows, field_rows json_column append_json next (_data_list h) = inr rows ->
     Q tt h (with_ULogField_rows (ULogField_rows s ++ rows)
               (with_ULogDataset_rows
                  (ULogDataset_rows s ++ dataset_rows pk next (_data_list h)) s))) ->
  wp E (save_data_list json_column append_json) h s Q.
Proof.
  intros Hpk next Hok HQ. unfold save_data_list.
  apply wp_bind, wp_getattr. apply wp_save_datasets with (pk := pk); [exact Hpk| |exact HQ].
  destruct Hok as [Hforgive|(Hrows & Hfresh & Hnd & Hall)]; [left; exact Hforgive|right].
  split; [exact Hrows|]. split; [|split; [exact Hnd|exact Hall]].
  intros r Hr Hid _. exact (Hfresh r Hr Hid).
Qed.

Lemma wp_save_formats E pk :
  forall d h s Q,
    _pk h = Some pk ->
    let next := next_rowid (map ULogMessageFormat.Id (ULogMessageFormat_rows s)) in
    forgiving E
    \/ ((forall r, In r (ULogMessageFormat_rows s) -> ULogMessageFormat.ULogId r = pk ->
                  ~ In (ULogMessageFormat.Name r) (keys d))
        /\ NoDup (keys d)
        /\ forallb (fun item =>
                      forallb (fun field => sqlite_integer (snd (fst field)))
                              (DatabaseMessageFormat.fields (snd item))) d = true) ->
    Q tt h (with_ULogMessageFormatField_rows
              (ULogMessageFormatField_rows s ++ format_field_rows next d)
              (with_ULogMessageFormat_rows
                 (ULogMessageFormat_rows s ++ format_rows pk next d) s)) ->
    wp E (for_each d save_message_format) h s Q.
Proof.
  induction d as [|[name f] d IH]; intros h s Q Hpk next Hok HQ.
  - cbn [format_rows format_field_rows] in HQ. rewrite !app_nil_r in HQ.
    destruct s; exact HQ.
  - cbn [for_each]. unfold save_message_format at 1.
    apply wp_bind, wp_bind, wp_self_pk. rewrite Hpk.
    apply wp_bind, wp_insert_rowid. cbv zeta. fold next.
    unfold ULogMessageFormat.bound.
    destruct (negb _) eqn:Hu.
    2:{ destruct Hok as [Hforgive|(Hfresh & _)]; [apply Hforgive; exact I|].
        apply negb_false_iff, existsb_exists in Hu. destruct Hu as (r & Hr & Heq).
        apply andb_true_iff in Heq. destruct Heq as [Hid Hn].
        apply Z.eqb_eq in Hid. apply String.eqb_eq in Hn.
        exfalso. apply (Hfresh r Hr Hid). left. symmetry. exact Hn. }
    apply wp_executemany_same with (bindable := ULogMessageFormatField.bindable);
      [auto with lens|reflexivity| |].
    { destruct Hok as [Hforgive|(_ & _ & Hall)]; [left; exact Hforgive|right].
      cbn [forallb snd] in Hall. apply andb_true_iff in Hall. destruct Hall as [Hfields _].
      rewrite forallb_over_map, <- Hfields. apply forallb_pointwise.
      intros [[field_type array_size] field_name]. reflexivity. }
    apply IH; [exact Hpk| |].
    + cbn [ULogMessageFormat_rows with_ULogMessageFormatField_rows with_ULogMessageFormat_rows].
      destruct Hok as [Hforgive|(Hfresh & Hnd & Hall)]; [left; exact Hforgive|right].
      cbn [keys map fst] in Hnd, Hfresh. inversion Hnd as [|? ? Hnotin Hnd']; subst.
      cbn [forallb] in Hall. apply andb_true_iff in Hall. destruct Hall as [_ Hall].
      split; [|split; [exact Hnd'|exact Hall]].
      intros r Hr Hid Hin. apply in_app_or in Hr. destruct Hr as [Hr|[<-|[]]].
      * apply (Hfresh r Hr Hid). right. exact Hin.
      * apply Hnotin. exact Hin.
    + cbn [ULogMessageFormat_rows ULogMessageFormatField_rows
           with_ULogMessageFormatField_rows with_ULogMessageFormat_rows].
      rewrite map_app. cbn [map ULogMessageFormat.Id]. rewrite next_rowid_snoc. fold next.
      cbn [format_rows format_field_rows] in HQ. rewrite <- !app_assoc. cbn [app].
      destruct s; exact HQ.
Qed.

Lemma wp_save_message_formats E h s pk Q :
  _pk h = Some pk ->
  let next := next_rowid (map ULogMessageFormat.Id (ULogMessageFormat_rows s)) in
  forgiving E
  \/ ((forall r, In r (ULogMessageFormat_rows s) -> ULogMessageFormat.ULogId r <> pk)
      /\ NoDup (keys (_message_formats h))
      /\ forallb (fun item =>
                    forallb (fun field => sqlite_integer (snd (fst field)))
                            (DatabaseMessageFormat.fields (snd item)))
                 (_message_formats h) = true) ->
  Q tt h (with_ULogMessageFormatField_rows
            (ULogMessageFormatField_rows s ++ format_field_rows next (_message_formats h))
            (with_ULogMessageFormat_rows
               (ULogMessageFormat_rows s ++ format_rows pk next (_message_formats h)) s)) ->
  wp E save_message_formats h s Q.
Proof.
  intros Hpk next Hok HQ. unfold save_message_formats.
  apply wp_bind, wp_getattr. apply wp_save_formats with (pk := pk); [exact Hpk| |exact HQ].
  destruct Hok as [Hforgive|(Hfresh & Hnd & Hall)]; [left; exact Hforgive|right].
  split; [|split; [exact Hnd|exact Hall]]. intros r Hr Hid _. exact (Hfresh r Hr Hid).
Qed.

Lemma wp_save_msg_info_lists E message_id :
  forall lists h s Q,
    let next := next_rowid (map ULogMessageInfoMultipleList.Id
                              (ULogMessageInfoMultipleList_rows s)) in
    forgiving E \/ forallb (fun item => forallb storable (snd item)) lists = true ->
    Q tt h (with_ULogMessageInfoMultipleListElement_rows
              (ULogMessageInfoMultipleListElement_rows s ++ element_rows_of_lists next lists)
              (with_ULogMessageInfoMultipleList_rows
                 (ULogMessageInfoMultipleList_rows s ++ list_rows_of message_id next lists) s)) ->
    wp E (for_each lists (save_msg_info_list message_id)) h s Q.
Proof.
  induction lists as [|[list_index l] lists IH]; intros h s Q next Hok HQ.
  - cbn [list_rows_of element_rows_of_lists] in HQ. rewrite !app_nil_r in HQ.
    destruct s; exact HQ.
  - cbn [for_each]. unfold save_msg_info_list at 1.
    apply wp_bind, wp_bind, wp_insert_rowid. cbv zeta. fold next.
    unfold ULogMessageInfoMultipleList.bound. cbv beta iota.
    apply wp_executemany with (bindable := ULogMessageInfoMultipleListElement.bindable)
                              (as_kept := ULogMessageInfoMultipleListElement.as_kept);
      [auto with lens|reflexivity| |].
    { destruct Hok as [Hforgive|Hall]; [left; exact Hforgive|right].
      cbn [forallb snd] in Hall. apply andb_true_iff in Hall. destruct Hall as [Hl _].
      rewrite forallb_over_map. unfold enumerate. rewrite <- Hl.
      rewrite <- (forallb_combine_snd storable l (map Z.of_nat (seq 0 (length l))))
        by (rewrite length_map, length_seq; reflexivity).
      apply forallb_pointwise. intros [series_index value]. reflexivity. }
    rewrite map_map.
    replace (map _ (enumerate l)) with (element_rows_of next l)
      by (apply map_ext; intros [series_index value]; reflexivity).
    apply IH.
    { destruct Hok as [Hforgive|Hall]; [left; exact Hforgive|right].
      cbn [forallb] in Hall. apply andb_true_iff in Hall. apply Hall. }
    cbn [ULogMessageInfoMultipleList_rows ULogMessageInfoMultipleListElement_rows
         with_ULogMessageInfoMultipleList_rows with_ULogMessageInfoMultipleListElement_rows].
    rewrite map_app. cbn [map ULogMessageInfoMultipleList.Id].
    rewrite next_rowid_snoc. fold next.
    cbn [list_rows_of element_rows_of_lists] in HQ. rewrite <- !app_assoc. cbn [app].
    destruct s; exact HQ.
Qed.

Lemma next_rowid_list_rows message_id lists :
  forall ids,
    next_rowid (ids ++ map ULogMessageInfoMultipleList.Id
                         (list_rows_of message_id (next_rowid ids) lists))
    = next_rowid ids + Z.of_nat (length lists).
Proof.
  induction lists as [|[i l] lists IH]; intros ids.
  - cbn [list_rows_of map length]. rewrite app_nil_r. cbn. lia.
  - cbn [list_rows_of map ULogMessageInfoMultipleList.Id length].
    change (ids ++ next_rowid ids :: ?t) with (ids ++ [next_rowid ids] ++ t).
    rewrite app_assoc, <- (next_rowid_snoc ids), IH, next_rowid_snoc. cbn [length]. lia.
Qed.

Lemma length_enumerate {A} (l : list A) : length (enumerate l) = length l.
Proof.
  unfold enumerate. rewrite length_combine, length_map, length_seq. lia.
Qed.

Lemma multiple_rows_error types pk next d e :
  multiple_rows types pk next d = inl e -> write_error e.
Proof.
  revert next. induction d as [|[key lists] d IH]; intros next; cbn [multiple_rows]; [discriminate|].
  unfold subscript. destruct (dict_get key types); [|intros [= <-]; exact I].
  destruct (multiple_rows types pk (next + 1) d) eqn:Hr; [|discriminate].
  intros [= <-]. eapply IH, Hr.
Qed.

Lemma wp_save_msg_info_multiples E types pk :
  forall d h s Q,
    _pk h = Some pk ->
    let next_message := next_rowid (map ULogMessageInfoMultiple.Id
                                      (ULogMessageInfoMultiple_rows s)) in
    let next_list := next_rowid (map ULogMessageInfoMultipleList.Id
                                   (ULogMessageInfoMultipleList_rows s)) in
    forgiving E
    \/ ((exists rows, multiple_rows types pk next_message d = inr rows)
        /\ forallb (fun item => forallb (forallb storable) (snd item)) d = true) ->
    (forall rows, multiple_rows types pk next_message d = inr rows ->
       Q tt h (with_ULogMessageInfoMultipleListElement_rows
                 (ULogMessageInfoMultipleListElement_rows s ++ element_rows next_list d)
                 (with_ULogMessageInfoMultipleList_rows
                    (ULogMessageInfoMultipleList_rows s ++ list_rows next_message next_list d)
                    (with_ULogMessageInfoMultiple_rows
                       (ULogMessageInfoMultiple_rows s ++ rows) s)))) ->
    wp E (for_each d (save_msg_info_multiple types)) h s Q.
Proof.
  induction d as [|[key lists] d IH]; intros h s Q Hpk next_message next_list Hok HQ.
  - specialize (HQ [] eq_refl). cbn [list_rows element_rows] in HQ.
    rewrite !app_nil_r in HQ. destruct s; exact HQ.
  - cbn [for_each]. unfold save_msg_info_multiple at 1.
    cbn [multiple_rows] in Hok, HQ.
    apply wp_bind, wp_bind, wp_lift.
    destruct (subscript types key) as [e|typename] eqn:Hty.
    { destruct Hok as [Hforgive|[[? [=]] _]]. apply Hforgive.
      unfold subscript in Hty. destruct (dict_get key types); [discriminate|].
      injection Hty as <-. exact I. }
    apply wp_bind, wp_self_pk. rewrite Hpk.
    apply wp_bind, wp_insert_rowid. cbv zeta. fold next_message.
    unfold ULogMessageInfoMultiple.bound. cbv beta iota.
    apply wp_save_msg_info_lists.
    { destruct Hok as [Hforgive|[_ Hall]]; [left; exact Hforgive|right].
      cbn [forallb snd] in Hall. apply andb_true_iff in Hall. destruct Hall as [Hlists _].
      unfold enumerate. rewrite <- Hlists.
      apply (forallb_combine_snd (forallb storable) lists
               (map Z.of_nat (seq 0 (length lists)))).
      rewrite length_map, length_seq. reflexivity. }
    cbn [ULogMessageInfoMultipleList_rows ULogMessageInfoMultipleListElement_rows
         with_ULogMessageInfoMultiple_rows].
    fold next_list.
    apply IH; [exact Hpk| |].
    + cbn [ULogMessageInfoMultiple_rows with_ULogMessageInfoMultiple_rows
           with_ULogMessageInfoMultipleList_rows with_ULogMessageInfoMultipleListElement_rows].
      rewrite map_app. cbn [map ULogMessageInfoMultiple.Id]. rewrite next_rowid_snoc.
      fold next_message.
      destruct Hok as [Hforgive|[[rows Hrows] Hall]]; [left; exact Hforgive|right].
      cbn [forallb] in Hall. apply andb_true_iff in Hall. destruct Hall as [_ Hall].
      split; [|exact Hall].
      destruct (multiple_rows types pk (next_message + 1) d); [discriminate|]. eauto.
    + subst next_message next_list.
      cbn [ULogMessageInfoMultiple_rows ULogMessageInfoMultipleList_rows
           ULogMessageInfoMultipleListElement_rows with_ULogMessageInfoMultiple_rows
           with_ULogMessageInfoMultipleList_rows with_ULogMessageInfoMultipleListElement_rows].
      rewrite !map_app. cbn [map ULogMessageInfoMultiple.Id].
      rewrite !next_rowid_snoc, !next_rowid_list_rows, !length_enumerate.
      intros rows Hrows. rewrite Hrows in HQ. specialize (HQ _ eq_refl).
      cbn [list_rows element_rows] in HQ. rewrite <- !app_assoc. cbn [app].
      destruct s; exact HQ.
Qed.

Lemma wp_save_msg_info_multiple_dict E h s pk Q :
  _pk h = Some pk ->
  let next_message := next_rowid (map ULogMessageInfoMultiple.Id
                                    (ULogMessageInfoMultiple_rows s)) in
  let next_list := next_rowid (map ULogMessageInfoMultipleList.Id
                                 (ULogMessageInfoMultipleList_rows s)) in
  forgiving E
  \/ ((exists rows, multiple_rows (_msg_info_multiple_dict_types h) pk next_message
                      (_msg_info_multiple_dict h) = inr rows)
      /\ forallb (fun item => forallb (forallb storable) (snd item))
                 (_msg_info_multiple_dict h) = true) ->
  (forall rows, multiple_rows (_msg_info_multiple_dict_types h) pk next_message
                  (_msg_info_multiple_dict h) = inr rows ->
     Q tt h (with_ULogMessageInfoMultipleListElement_rows
               (ULogMessageInfoMultipleListElement_rows s
                ++ element_rows next_list (_msg_info_multiple_dict h))
               (with_ULogMessageInfoMultipleList_rows
                  (ULogMessageInfoMultipleList_rows s
                   ++ list_rows next_message next_list (_msg_info_multiple_dict h))
                  (with_ULogMessageInfoMultiple_rows
                     (ULogMessageInfoMultiple_rows s ++ rows) s)))) ->
  wp E save_msg_info_multiple_dict h s Q.
Proof.
  intros Hpk next_message next_list Hok HQ. unfold save_msg_info_multiple_dict.
  apply wp_bind, wp_getattr.
  apply wp_save_msg_info_multiples with (pk := pk); assumption.
Qed.

End save_blocks.

(** ** save as a whole *)

Section save_whole.

Variable json_column : ndarray -> ndarray -> option string.

Lemma wp_save_rows E append_json h s (Q : unit -> DatabaseULog -> Store -> Prop) :
  forgiving E \/ save_ok json_column append_json h s ->
  (forall c, rows_computed json_column append_json h s c ->
     Q tt (set_pk (Some (next_rowid (map ULog.Id (ULog_rows s)))) h) (with_rows_of h c s)) ->
  wp E (save_rows json_column append_json) h s Q.
Proof.
  intros Hok HQ. unfold save_rows.
  set (pk := next_rowid (map ULog.Id (ULog_rows s))) in *.
  assert (Hbinds : forgiving E \/ binds h).
  { destruct Hok as [Hf|(_ & Hb & _)]; [left; exact Hf|right; exact Hb]. }
  apply wp_bind, wp_save_metadata.
  { destruct Hok as [Hf|([c (Hc & Hi & _)] & Hb & Hsha & _)]; [left; exact Hf|right].
    split; [eauto|]. split; [apply (pass_metadata (proj1 Hb))|].
    split; [apply (proj2 Hb)|exact Hsha]. }
  intros compat incompat Hcompat Hincompat id. subst id. fold pk.
  set (h1 := set_pk (Some pk) h).
  assert (Hpk : _pk h1 = Some pk) by reflexivity.
  apply wp_bind; apply wp_save_appended_offsets with (pk := pk); [exact Hpk| |].
  { destruct Hbinds as [Hf|Hb]; [left; exact Hf|right; apply (pass_offsets (proj1 Hb))]. }
  apply wp_bind; apply wp_save_data_list with (pk := pk); [exact Hpk| |].
  { destruct Hok as [Hf|([c (_ & _ & Hfr & _)] & Hb & _ & Hds & Hnd & _)];
      [left; exact Hf|right].
    cbn. split; [eauto|]. split; [exact Hds|]. split; [exact Hnd|apply (pass_datasets (proj1 Hb))]. }
  cbn [_data_list h1 set_pk ULogDataset_rows ULogField_rows with_ULogAppendedOffsets_rows
       with_ULog_rows].
  intros frows Hfrows.
  apply wp_bind; apply wp_save_dropouts with (pk := pk); [exact Hpk| |].
  { destruct Hbinds as [Hf|Hb]; [left; exact Hf|right; apply (pass_dropouts (proj1 Hb))]. }
  apply wp_bind; apply wp_save_logged_messages with (pk := pk); [exact Hpk| |].
  { destruct Hbinds as [Hf|Hb]; [left; exact Hf|right; apply (pass_messages (proj1 Hb))]. }
  apply wp_bind; apply wp_save_logged_messages_tagged with (pk := pk); [exact Hpk| |].
  { destruct Hbinds as [Hf|Hb]; [left; exact Hf|right; apply (pass_tagged (proj1 Hb))]. }
  apply wp_bind; apply wp_save_message_formats with (pk := pk); [exact Hpk| |].
  { destruct Hok as [Hf|(_ & Hb & _ & _ & _ & Hmf & Hnd)]; [left; exact Hf|right].
    cbn. split; [exact Hmf|]. split; [exact Hnd|apply (pass_formats (proj1 Hb))]. }
  apply wp_bind; apply wp_save_msg_info_dict with (pk := pk); [exact Hpk| |].
  { destruct Hok as [Hf|([c (_ & _ & _ & Hinfo & _)] & Hb & _)]; [left; exact Hf|right].
    cbn. split; [eauto|apply (pass_info (proj1 Hb))]. }
  intros irows Hirows.
  apply wp_bind; apply wp_save_msg_info_multiple_dict with (pk := pk); [exact Hpk| |].
  { destruct Hok as [Hf|([c (_ & _ & _ & _ & Hm)] & Hb & _)]; [left; exact Hf|right].
    cbn. split; [eauto|apply (pass_multiple (proj1 Hb))]. }
  intros mrows Hmrows.
  apply wp_bind; apply wp_save_initial_parameters with (pk := pk); [exact Hpk| |].
  { destruct Hbinds as [Hf|Hb]; [left; exact Hf|right; apply (pass_initial (proj1 Hb))]. }
  apply wp_bind; apply wp_save_default_parameters with (pk := pk); [exact Hpk| |].
  { destruct Hbinds as [Hf|Hb]; [left; exact Hf|right; apply (pass_default (proj1 Hb))]. }
  apply wp_save_changed_parameters with (pk := pk); [exact Hpk| |].
  { destruct Hbinds as [Hf|Hb]; [left; exact Hf|right; apply (pass_changed (proj1 Hb))]. }
  specialize (HQ {| compat_text := compat; incompat_text := incompat;
                    the_field_rows := frows; the_info_rows := irows;
                    the_multiple_rows := mrows |}).
  unfold with_rows_of in HQ. fold pk in HQ.
  destruct s; cbn in *. apply HQ.
  repeat split; assumption.
Qed.

Lemma wp_primary_key_from_sha256sum E sha256sum h s (Q : option Z -> _) :
  Q (match find (fun r => String.eqb (ULog.SHA256Sum r) sha256sum) (ULog_rows s) with
     | Some r => Some (ULog.Id r)
     | None => None
     end) h s ->
  wp E (primary_key_from_sha256sum sha256sum) h s Q.
Proof. unfold wp. rewrite primary_key_from_sha256sum_run. exact (fun H => H). Qed.

(** Every way [save] can end. *)
Lemma wp_save E append_json h s (Q : unit -> DatabaseULog -> Store -> Prop) :
  (forall id, _pk h = Some id -> E (KeyError AlreadyInDatabase) h s) ->
  (forall r, _pk h = None ->
     find (fun r => String.eqb (ULog.SHA256Sum r) (_sha256sum h)) (ULog_rows s) = Some r ->
     E (KeyError (HashAlreadyInDatabase (_sha256sum h) (ULog.Id r)))
       (set_pk (Some (ULog.Id r)) h) s) ->
  (_pk h = None ->
   find (fun r => String.eqb (ULog.SHA256Sum r) (_sha256sum h)) (ULog_rows s) = None ->
   (forall e h', write_error e -> E e h' s) \/ save_ok json_column append_json h s) ->
  (forall c, rows_computed json_column append_json h s c ->
     Q tt (set_pk (Some (next_rowid (map ULog.Id (ULog_rows s)))) h) (with_rows_of h c s)) ->
  wp E (save json_column append_json) h s Q.
Proof.
  intros Hpersisted Hknown Hwrite HQ. unfold save.
  apply wp_bind, wp_getattr.
  destruct (_pk h) as [id|] eqn:Hpk.
  { apply wp_raise. eapply Hpersisted. reflexivity. }
  apply wp_bind, wp_getattr, wp_bind, wp_primary_key_from_sha256sum.
  destruct (find _ (ULog_rows s)) as [r|] eqn:Hfind.
  { apply wp_bind, wp_setattr, wp_raise. apply Hknown; reflexivity. }
  apply wp_transaction, wp_save_rows; [|exact HQ].
  destruct (Hwrite eq_refl eq_refl) as [Hf|Hok]; [left|right; exact Hok].
  intros e h' s' He. apply Hf, He.
Qed.

(** C3.  However [save] ends, the content of the database afterwards is
    one of two: when it raises (the handle already has a primary key, the
    digest is already stored, or writing a row failed: a flag that is no
    code point, a missing dict key, JSON text that sqlite refuses, a broken
    constraint, an int or a text that cannot be bound to a statement) the
    content is exactly what it was before the call; when it
    returns, every table holds its former rows followed by the rows of the
    log (the record, the offsets, the datasets and their fields, the
    dropouts, the plain and tagged messages, the formats and their fields,
    the info entries with their lists and elements, the initial, default
    and changed parameters), and the handle has the primary key of the new
    record. *)
Theorem save_all_or_nothing append_json h s :
  let o := save json_column append_json h s in
  (forall e, result o = inl e ->
     stored o = s
     /\ (e = KeyError AlreadyInDatabase
         \/ (exists id, e = KeyError (HashAlreadyInDatabase (_sha256sum h) id))
         \/ write_error e))
  /\ (result o = inr tt ->
      exists c, rows_computed json_column append_json h s c
                /\ stored o = with_rows_of h c s
                /\ handle o = set_pk (Some (next_rowid (map ULog.Id (ULog_rows s)))) h).
Proof.
  intros o.
  assert (H : wp (fun e _ s' =>
                    s' = s
                    /\ (e = KeyError AlreadyInDatabase
                        \/ (exists id, e = KeyError (HashAlreadyInDatabase (_sha256sum h) id))
                        \/ write_error e))
                 (save json_column append_json) h s
                 (fun _ h' s' =>
                    exists c, rows_computed json_column append_json h s c
                              /\ s' = with_rows_of h c s
                              /\ h' = set_pk (Some (next_rowid (map ULog.Id (ULog_rows s)))) h)).
  { apply wp_save.
    - intros id _. split; [reflexivity|left; reflexivity].
    - intros r _ _. split; [reflexivity|right; left; eauto].
    - intros _ _. left. intros e h' He. split; [reflexivity|right; right; exact He].
    - intros c Hc. exists c. split; [exact Hc|split; reflexivity]. }
  unfold wp in H. fold o in H. split.
  - intros e He. rewrite He in H. exact H.
  - intros Hr. rewrite Hr in H. exact H.
Qed.

End save_whole.

Lemma save_all_or_nothing_witness :
  let failed := save Examples.json_column false Examples.broken_log Examples.empty_store in
  let done := save Examples.json_column false Examples.sample_log Examples.empty_store in
  (result failed = inl (KeyError (MissingKey "sys_name"))
   /\ stored failed = Examples.empty_store)
  /\ (result done = inr tt
      /\ exists c, stored done = with_rows_of Examples.sample_log c Examples.empty_store).
Proof.
  cbv zeta. split.
  - split; [vm_compute; reflexivity|].
    apply (proj1 (save_all_or_nothing Examples.json_column false Examples.broken_log
                    Examples.empty_store) (KeyError (MissingKey "sys_name"))).
    vm_compute. reflexivity.
  - split; [vm_compute; reflexivity|].
    destruct (proj2 (save_all_or_nothing Examples.json_column false Examples.sample_log
                       Examples.empty_store)) as (c & _ & Hc & _).
    + vm_compute. reflexivity.
    + exists c. exact Hc.
Defined.

(** What [save] leaves when it returns. *)
Lemma save_returns json_column append_json h s :
  result (save json_column append_json h s) = inr tt ->
  exists c, rows_computed json_column append_json h s c
            /\ stored (save json_column append_json h s) = with_rows_of h c s
            /\ handle (save json_column append_json h s)
               = set_pk (Some (next_rowid (map ULog.Id (ULog_rows s)))) h.
Proof.
  intros Hres.
  assert (H : wp anyhow (save json_column append_json) h s
                 (fun _ h' s' =>
                    exists c, rows_computed json_column append_json h s c
                              /\ s' = with_rows_of h c s
                              /\ h' = set_pk (Some (next_rowid (map ULog.Id (ULog_rows s)))) h)).
  { apply wp_save; try (intros; exact I).
    - intros _ _. left. intros; exact I.
    - intros c Hc. exists c. split; [exact Hc|split; reflexivity]. }
  unfold wp in H. rewrite Hres in H. exact H.
Qed.

(** ** delete *)

Lemma delete_run h s :
  delete h s
  = match _pk h with
    | None => {| result := inl (KeyError NotInDatabase); handle := h; stored := s;
                 executed := [] |}
    | Some id => {| result := inr tt; handle := set_pk None h;
                    stored := delete_from_ULog id s; executed := [DELETE T_ULog] |}
    end.
Proof.
  unfold delete. rewrite bind_getattr. destruct (_pk h) as [id|]; reflexivity.
Qed.

Lemma mem_In x l : mem x l = true <-> In x l.
Proof.
  unfold mem. rewrite existsb_exists. split.
  - intros (y & Hy & Heq). apply Z.eqb_eq in Heq. subst. exact Hy.
  - intros H. exists x. split; [exact H|apply Z.eqb_refl].
Qed.

(** A row that is kept hangs from no deleted parent. *)
Lemma kept_row {R} (key : R -> Z) (gone : list Z) (rows : list R) r :
  In r (filter (fun r => negb (mem (key r) gone)) rows) -> ~ In (key r) gone.
Proof.
  intros Hin Hgone. apply filter_In in Hin. destruct Hin as [_ Hkeep].
  apply mem_In in Hgone. rewrite Hgone in Hkeep. discriminate.
Qed.

Lemma parent_gone {R} (key id : R -> Z) (gone : list Z) (rows : list R) r :
  In r rows -> In (key r) gone ->
  In (id r) (map id (filter (fun r => mem (key r) gone) rows)).
Proof.
  intros Hr Hgone. apply in_map, filter_In. split; [exact Hr|]. apply mem_In, Hgone.
Qed.

Lemma delete_removes_owned_rows id s :
  In id (map ULog.Id (ULog_rows s)) ->
  owned_rows_gone id s (delete_from_ULog id s).
Proof.
  intros Hid.
  assert (Hlogs : In id (map ULog.Id (filter (fun r => ULog.Id r =? id) (ULog_rows s)))).
  { apply in_map_iff in Hid. destruct Hid as (r & <- & Hr).
    apply in_map, filter_In. split; [exact Hr|apply Z.eqb_refl]. }
  unfold owned_rows_gone, delete_from_ULog.
  cbn [ULog_rows ULogAppendedOffsets_rows ULogDataset_rows ULogField_rows
       ULogMessageDropout_rows ULogMessageLogging_rows ULogMessageLoggingTagged_rows
       ULogMessageFormat_rows ULogMessageFormatField_rows ULogMessageInfo_rows
       ULogMessageInfoMultiple_rows ULogMessageInfoMultipleList_rows
       ULogMessageInfoMultipleListElement_rows ULogInitialParameter_rows
       ULogDefaultParameter_rows ULogChangedParameter_rows].
  set (logs := map ULog.Id (filter (fun r => ULog.Id r =? id) (ULog_rows s))) in *.
  repeat split;
    try (intros r Hr Heq; apply kept_row in Hr; apply Hr; rewrite Heq; exact Hlogs).
  - intros f d Hf Hd Hown Heq. apply kept_row in Hf. apply Hf. rewrite Heq.
    apply (parent_gone ULogDataset.ULogId ULogDataset.Id logs _ _ Hd).
    rewrite Hown. exact Hlogs.
  - intros f m Hf Hm Hown Heq. apply kept_row in Hf. apply Hf. rewrite Heq.
    apply (parent_gone ULogMessageFormat.ULogId ULogMessageFormat.Id logs _ _ Hm).
    rewrite Hown. exact Hlogs.
  - intros l m Hl Hm Hown Heq. apply kept_row in Hl. apply Hl. rewrite Heq.
    apply (parent_gone ULogMessageInfoMultiple.ULogId ULogMessageInfoMultiple.Id logs _ _ Hm).
    rewrite Hown. exact Hlogs.
  - intros e l m He Hl Hm Hown Hparent Heq. apply kept_row in He. apply He. rewrite Heq.
    apply (parent_gone ULogMessageInfoMultipleList.MessageId ULogMessageInfoMultipleList.Id
             _ _ _ Hl).
    rewrite Hparent.
    apply (parent_gone ULogMessageInfoMultiple.ULogId ULogMessageInfoMultiple.Id logs _ _ Hm).
    rewrite Hown. exact Hlogs.
Qed.

Lemma delete_removes_record id s :
  forall r, In r (ULog_rows (delete_from_ULog id s)) -> ULog.Id r <> id.
Proof.
  intros r Hr Heq. unfold delete_from_ULog in Hr. cbn [ULog_rows] in Hr.
  pose proof Hr as Hkept. apply kept_row in Hkept. apply Hkept.
  apply filter_In in Hr. destruct Hr as [Hr _].
  apply in_map, filter_In. split; [exact Hr|]. apply Z.eqb_eq, Heq.
Qed.

Lemma filter_mem_nil {R} (key : R -> Z) rows :
  filter (fun r => mem (key r) []) rows = [].
Proof. apply filter_none. reflexivity. Qed.

Lemma filter_keep_nil {R} (key : R -> Z) rows :
  filter (fun r => negb (mem (key r) [])) rows = rows.
Proof. apply filter_all. reflexivity. Qed.

(** With a primary key that names no row, the statement deletes nothing. *)
Lemma delete_unknown_id id s :
  ~ In id (map ULog.Id (ULog_rows s)) -> delete_from_ULog id s = s.
Proof.
  intros Hid. unfold delete_from_ULog.
  rewrite (filter_none (fun r => ULog.Id r =? id) (ULog_rows s)).
  2:{ intros r Hr. apply Z.eqb_neq. intros Heq. apply Hid. rewrite <- Heq. apply in_map, Hr. }
  cbv zeta. cbn [map].
  repeat (rewrite filter_mem_nil; cbn [map]).
  rewrite !filter_keep_nil.
  destruct s; reflexivity.
Qed.

Section delete_contract.

Variable _UNPACK_TYPES : dict string (string * nat * dtype).
Variable json_column : ndarray -> ndarray -> option string.

Lemma load_not_found lazy h s id :
  _pk h = Some id ->
  (forall r, In r (ULog_rows s) -> ULog.Id r <> id) ->
  load _UNPACK_TYPES lazy h s
  = {| result := inl (KeyError (NoULogWithId (Some id))); handle := h; stored := s;
       executed := [SELECT [T_ULog]] |}.
Proof.
  intros Hpk Habsent. unfold load. rewrite bind_getattr, Hpk.
  rewrite (bind_ok _ _ _ _ (a := false)).
  - rewrite exists_in_db_run. reflexivity.
  - rewrite exists_in_db_run. cbn [result]. rewrite filter_none; [reflexivity|].
    intros r Hr. cbn [sql_eq]. apply Z.eqb_neq, Habsent, Hr.
Qed.

(** [save] refuses a handle as already stored only when it has a primary
    key. *)
Lemma save_legal_without_pk append_json h s :
  _pk h = None ->
  result (save json_column append_json h s) <> inl (KeyError AlreadyInDatabase).
Proof.
  intros Hpk Hres.
  assert (H : wp (fun e _ _ => e <> KeyError AlreadyInDatabase)
                 (save json_column append_json) h s (fun _ _ _ => True)).
  { apply wp_save.
    - intros id Hid. congruence.
    - intros; discriminate.
    - intros _ _. left. intros e h' He Heq. subst e. exact He.
    - trivial. }
  unfold wp in H. rewrite Hres in H. apply H. reflexivity.
Qed.

(** C7 (as amended).  [delete] on a handle without primary key raises the KeyError of a
    log that is not in the database and changes nothing.  On a handle with
    primary key [id] it returns, whether a row of ULog has [id] or not, and
    the handle is the former one without primary key.  When no row of ULog
    has [id], nothing is removed: the content of the database is exactly
    what it was.  When the record was there, no row of any other table
    belongs to it any more, directly or through a dataset, a format, a
    multi-valued entry or a list of the log.  In both cases no row of ULog
    has [id] afterwards; the handle has no primary key, so that [save] does
    not refuse it as already stored; and [load] on any handle that names
    [id] raises the KeyError of an unknown log. *)
Theorem delete_contract h s :
  let o := delete h s in
  (_pk h = None ->
     result o = inl (KeyError NotInDatabase) /\ handle o = h /\ stored o = s)
  /\ (forall id, _pk h = Some id ->
        result o = inr tt
        /\ handle o = set_pk None h
        /\ _pk (handle o) = None
        /\ (~ In id (map ULog.Id (ULog_rows s)) -> stored o = s)
        /\ (forall r, In r (ULog_rows (stored o)) -> ULog.Id r <> id)
        /\ (In id (map ULog.Id (ULog_rows s)) -> owned_rows_gone id s (stored o))
        /\ (forall append_json,
              result (save json_column append_json (handle o) (stored o))
              <> inl (KeyError AlreadyInDatabase))
        /\ (forall lazy h', _pk h' = Some id ->
              result (load _UNPACK_TYPES lazy h' (stored o))
              = inl (KeyError (NoULogWithId (Some id))))).
Proof.
  intros o. subst o. rewrite delete_run. split.
  - intros ->. repeat split.
  - intros id ->. cbn [result handle stored].
    split; [reflexivity|]. split; [reflexivity|]. split; [reflexivity|].
    split; [apply delete_unknown_id|].
    split; [apply delete_removes_record|].
    split; [apply delete_removes_owned_rows|].
    split.
    + intros append_json. apply save_legal_without_pk. reflexivity.
    + intros lazy h' Hpk.
      rewrite load_not_found with (id := id);
        [reflexivity|exact Hpk|apply delete_removes_record].
Qed.

End delete_contract.

Lemma delete_contract_witness :
  let h := set_pk (Some 1) Examples.sample_log in
  let o := delete h Examples.saved_store in
  let stale := set_pk (Some 2) Examples.sample_log in
  let o' := delete stale Examples.saved_store in
  (result o = inr tt
   /\ _pk (handle o) = None
   /\ stored o = Examples.empty_store
   /\ owned_rows_gone 1 Examples.saved_store (stored o)
   /\ result (save Examples.json_column false (handle o) (stored o)) = inr tt
   /\ result (load Examples.unpack_types false (Examples.named 1) (stored o))
      = inl (KeyError (NoULogWithId (Some 1)))
   /\ result (delete (handle o) (stored o)) = inl (KeyError NotInDatabase))
  /\ (result o' = inr tt
      /\ handle o' = Examples.sample_log
      /\ stored o' = Examples.saved_store).
Proof.
  cbv zeta.
  pose proof (delete_contract Examples.unpack_types Examples.json_column
                (set_pk (Some 1) Examples.sample_log) Examples.saved_store) as [_ Hsome].
  destruct (Hsome 1 eq_refl) as (Hres & _ & Hpk & _ & _ & Hgone & _ & Hload).
  pose proof (delete_contract Examples.unpack_types Examples.json_column
                (handle (delete (set_pk (Some 1) Examples.sample_log) Examples.saved_store))
                (stored (delete (set_pk (Some 1) Examples.sample_log) Examples.saved_store)))
    as [Hnone _].
  pose proof (delete_contract Examples.unpack_types Examples.json_column
                (set_pk (Some 2) Examples.sample_log) Examples.saved_store) as [_ Hstale].
  destruct (Hstale 2 eq_refl) as (Hres' & Hhandle' & _ & Hkept & _).
  split.
  - split; [exact Hres|]. split; [exact Hpk|].
    split; [vm_compute; reflexivity|].
    split; [apply Hgone; vm_compute; left; reflexivity|].
    split; [vm_compute; reflexivity|].
    split; [apply Hload; reflexivity|].
    apply Hnone. exact Hpk.
  - split; [exact Hres'|]. split; [exact Hhandle'|].
    apply Hkept. vm_compute. intros [H|[]]. discriminate H.
Defined.

(** C7, as stated, at a primary key that is absent from the database.  A
    [save] that failed while writing its rows leaves the primary key of the
    rolled-back record on the handle; the table ULog is empty, and [delete]
    on that handle returns without raising and deletes nothing: it raises
    only for a handle that has no primary key at all. *)
Lemma delete_absent_identity_not_refused :
  let failed := save Examples.json_column false Examples.broken_log Examples.empty_store in
  let o := delete (handle failed) (stored failed) in
  _pk (handle failed) = Some 1
  /\ ULog_rows (stored failed) = []
  /\ result o = inr tt
  /\ stored o = stored failed.
Proof.
  cbv zeta. repeat split; vm_compute; reflexivity.
Qed.

(** ** load, block by block *)

(** The attributes of the handle. *)

Lemma lens_pk : lens _pk set_pk. Proof. lens. Qed.
Lemma lens_sha256sum : lens _sha256sum set_sha256sum. Proof. lens. Qed.
Lemma lens_lazy_loaded : lens _lazy_loaded set_lazy_loaded. Proof. lens. Qed.
Lemma lens_file_version : lens _file_version set_file_version. Proof. lens. Qed.
Lemma lens_start_timestamp : lens _start_timestamp set_start_timestamp. Proof. lens. Qed.
Lemma lens_last_timestamp : lens _last_timestamp set_last_timestamp. Proof. lens. Qed.
Lemma lens_compat_flags : lens _compat_flags set_compat_flags. Proof. lens. Qed.
Lemma lens_incompat_flags : lens _incompat_flags set_incompat_flags. Proof. lens. Qed.
Lemma lens_sync_seq_cnt : lens _sync_seq_cnt set_sync_seq_cnt. Proof. lens. Qed.
Lemma lens_has_sync : lens _has_sync set_has_sync. Proof. lens. Qed.
Lemma lens_appended_offsets : lens _appended_offsets set_appended_offsets. Proof. lens. Qed.
Lemma lens_data_list : lens _data_list set_data_list. Proof. lens. Qed.
Lemma lens_dropouts : lens _dropouts set_dropouts. Proof. lens. Qed.
Lemma lens_logged_messages : lens _logged_messages set_logged_messages. Proof. lens. Qed.
Lemma lens_logged_messages_tagged : lens _logged_messages_tagged set_logged_messages_tagged. Proof. lens. Qed.
Lemma lens_message_formats : lens _message_formats set_message_formats. Proof. lens. Qed.
Lemma lens_msg_info_dict : lens _msg_info_dict set_msg_info_dict. Proof. lens. Qed.
Lemma lens_msg_info_dict_types : lens _msg_info_dict_types set_msg_info_dict_types. Proof. lens. Qed.
Lemma lens_msg_info_multiple_dict : lens _msg_info_multiple_dict set_msg_info_multiple_dict. Proof. lens. Qed.
Lemma lens_msg_info_multiple_dict_types : lens _msg_info_multiple_dict_types set_msg_info_multiple_dict_types. Proof. lens. Qed.
Lemma lens_initial_parameters : lens _initial_parameters set_initial_parameters. Proof. lens. Qed.
Lemma lens_default_parameters : lens _default_parameters set_default_parameters. Proof. lens. Qed.
Lemma lens_changed_parameters : lens _changed_parameters set_changed_parameters. Proof. lens. Qed.

#[local] Hint Resolve lens_pk lens_sha256sum lens_lazy_loaded lens_file_version lens_start_timestamp lens_last_timestamp lens_compat_flags lens_incompat_flags lens_sync_seq_cnt lens_has_sync lens_appended_offsets lens_data_list lens_dropouts lens_logged_messages lens_logged_messages_tagged lens_message_formats lens_msg_info_dict lens_msg_info_dict_types lens_msg_info_multiple_dict lens_msg_info_multiple_dict_types lens_initial_parameters lens_default_parameters lens_changed_parameters : lens.


Lemma fold_left_append {A} (l : list A) :
  forall v, fold_left (fun v x => append x v) l v = v ++ l.
Proof.
  induction l as [|x l IH]; intros v; cbn [fold_left].
  - symmetry. apply app_nil_r.
  - rewrite IH. unfold append. rewrite <- app_assoc. reflexivity.
Qed.

Lemma fold_left_append_map {A B} (f : A -> B) (l : list A) :
  forall v, fold_left (fun v x => append (f x) v) l v = v ++ map f l.
Proof.
  induction l as [|x l IH]; intros v; cbn [fold_left map].
  - symmetry. apply app_nil_r.
  - rewrite IH. unfold append. rewrite <- app_assoc. reflexivity.
Qed.

(** A loop whose body updates one attribute from its former value. *)
Lemma wp_for_each_setattr {A V} E (get : DatabaseULog -> V) (put : V -> DatabaseULog -> DatabaseULog)
    (g : A -> V -> V) :
  lens get put ->
  forall l h s (Q : unit -> DatabaseULog -> Store -> Prop),
    Q tt (put (fold_left (fun v x => g x v) l (get h)) h) s ->
    wp E (for_each l (fun x => setattr (fun h => put (g x (get h)) h))) h s Q.
Proof.
  intros [Hgp Hpp Hpg]. induction l as [|x l IH]; intros h s Q HQ.
  - cbn [fold_left] in HQ. rewrite Hpg in HQ. exact HQ.
  - cbn [for_each]. apply wp_bind, wp_setattr, IH.
    rewrite Hgp, Hpp. exact HQ.
Qed.

Section load_blocks.

Variable _UNPACK_TYPES : dict string (string * nat * dtype).

Implicit Types (Q : unit -> DatabaseULog -> Store -> Prop).

Lemma wp_load_metadata E h s Q :
  match select_record (_pk h) s with
  | Some r =>
      Q tt (set_sha256sum (ULog.SHA256Sum r)
             (set_has_sync (ULog.HasSync r)
               (set_sync_seq_cnt (ULog.SyncCount r)
                 (set_incompat_flags (map ord (ULog.IncompatFlags r))
                   (set_compat_flags (map ord (ULog.CompatFlags r))
                     (set_last_timestamp (ULog.LastTimestamp r)
                       (set_start_timestamp (ULog.StartTimestamp r)
                         (set_file_version (ULog.FileVersion r) h)))))))) s
  | None => E TypeError h s
  end ->
  wp E load_metadata h s Q.
Proof.
  intros H. unfold load_metadata. apply wp_bind, wp_getattr, wp_bind, wp_select.
  fold (select_record (_pk h) s).
  destruct (select_record (_pk h) s) as [r|]; [|exact H].
  repeat (apply wp_bind, wp_setattr). apply wp_setattr. exact H.
Qed.

Lemma wp_load_appended_offsets E h s Q :
  Q tt (set_appended_offsets (_appended_offsets h ++ stored_offsets (_pk h) s) h) s ->
  wp E load_appended_offsets h s Q.
Proof.
  intros H. unfold load_appended_offsets. apply wp_bind, wp_getattr, wp_bind, wp_select.
  apply (wp_for_each_setattr E (fun offset v => append offset v) lens_appended_offsets).
  rewrite fold_left_append. exact H.
Qed.

Lemma wp_load_dropouts E h s Q :
  Q tt (set_dropouts (_dropouts h ++ stored_dropouts (_pk h) s) h) s ->
  wp E load_dropouts h s Q.
Proof.
  intros H. unfold load_dropouts. apply wp_bind, wp_getattr, wp_bind, wp_select.
  apply (wp_for_each_setattr E (fun r v => append (dropout_of r) v) lens_dropouts).
  rewrite fold_left_append_map. exact H.
Qed.

Lemma wp_load_logged_messages E h s Q :
  Q tt (set_logged_messages (_logged_messages h ++ stored_messages (_pk h) s) h) s ->
  wp E load_logged_messages h s Q.
Proof.
  intros H. unfold load_logged_messages. apply wp_bind, wp_getattr, wp_bind, wp_select.
  apply (wp_for_each_setattr E (fun r v => append (message_of r) v) lens_logged_messages).
  rewrite fold_left_append_map. exact H.
Qed.

Lemma fold_left_map {A B C} (f : A -> B) (g : C -> B -> C) (l : list A) :
  forall c, fold_left (fun c x => g c (f x)) l c = fold_left g (map f l) c.
Proof.
  induction l as [|x l IH]; intros c; cbn [fold_left map]; [reflexivity|apply IH].
Qed.

Lemma wp_load_logged_messages_tagged E h s Q :
  Q tt (set_logged_messages_tagged
          (fold_left (fun d m => append_tagged m d) (stored_tagged (_pk h) s)
                     (_logged_messages_tagged h)) h) s ->
  wp E load_logged_messages_tagged h s Q.
Proof.
  intros H. unfold load_logged_messages_tagged.
  apply wp_bind, wp_getattr, wp_bind, wp_select.
  apply (wp_for_each_setattr E (fun r d => append_tagged (tagged_of r) d)
           lens_logged_messages_tagged).
  unfold stored_tagged in H. rewrite <- fold_left_map in H. exact H.
Qed.

Lemma wp_load_message_formats E h s Q :
  Q tt (set_message_formats
          (fold_left (fun d row => add_format_field row d) (select_format_fields (_pk h) s)
                     (_message_formats h)) h) s ->
  wp E load_message_formats h s Q.
Proof.
  intros H. unfold load_message_formats.
  apply wp_bind, wp_getattr, wp_bind, wp_select.
  apply (wp_for_each_setattr E (fun row d => add_format_field row d) lens_message_formats).
  exact H.
Qed.

Lemma wp_load_initial_parameters E h s Q :
  Q tt (set_initial_parameters
          (fold_left (fun d r => dict_set (ULogInitialParameter.Key r)
                                          (ULogInitialParameter.Value r) d)
                     (stored_initial (_pk h) s) (_initial_parameters h)) h) s ->
  wp E load_initial_parameters h s Q.
Proof.
  intros H. unfold load_initial_parameters.
  apply wp_bind, wp_getattr, wp_bind, wp_select.
  apply (wp_for_each_setattr E
           (fun r d => dict_set (ULogInitialParameter.Key r) (ULogInitialParameter.Value r) d)
           lens_initial_parameters).
  exact H.
Qed.

Lemma wp_load_default_parameters E h s Q :
  Q tt (set_default_parameters
          (fold_left (fun d r => set_default (ULogDefaultParameter.DefaultType r)
                                             (ULogDefaultParameter.Key r)
                                             (ULogDefaultParameter.Value r) d)
                     (stored_default (_pk h) s) (_default_parameters h)) h) s ->
  wp E load_default_parameters h s Q.
Proof.
  intros H. unfold load_default_parameters.
  apply wp_bind, wp_getattr, wp_bind, wp_select.
  apply (wp_for_each_setattr E
           (fun r d => set_default (ULogDefaultParameter.DefaultType r)
                                   (ULogDefaultParameter.Key r)
                                   (ULogDefaultParameter.Value r) d)
           lens_default_parameters).
  exact H.
Qed.

Lemma wp_load_changed_parameters E h s Q :
  Q tt (set_changed_parameters (_changed_parameters h ++ stored_changed (_pk h) s) h) s ->
  wp E load_changed_parameters h s Q.
Proof.
  intros H. unfold load_changed_parameters.
  apply wp_bind, wp_getattr, wp_bind, wp_select.
  apply (wp_for_each_setattr E
           (fun r v => append (ULogChangedParameter.Timestamp r, ULogChangedParameter.Key r,
                               ULogChangedParameter.Value r) v)
           lens_changed_parameters).
  unfold stored_changed in H. rewrite fold_left_append_map. exact H.
Qed.

Lemma wp_load_msg_info_dict E h s Q :
  Q tt (set_msg_info_dict_types
          (fold_left (fun d r => dict_set (ULogMessageInfo.Key r) (ULogMessageInfo.Typename r) d)
                     (stored_info (_pk h) s) (_msg_info_dict_types h))
          (set_msg_info_dict
             (fold_left (fun d r => dict_set (ULogMessageInfo.Key r) (ULogMessageInfo.Value r) d)
                        (stored_info (_pk h) s) (_msg_info_dict h)) h)) s ->
  wp E load_msg_info_dict h s Q.
Proof.
  intros H. unfold load_msg_info_dict.
  apply wp_bind, wp_getattr, wp_bind, wp_select. fold (stored_info (_pk h) s).
  generalize dependent (stored_info (_pk h) s). intros rows. revert h.
  induction rows as [|r rows IH]; intros h H.
  - cbn [fold_left] in H. destruct h; exact H.
  - cbn [for_each]. apply wp_bind, wp_bind, wp_setattr, wp_setattr, IH.
    cbn [fold_left] in H. destruct h; exact H.
Qed.

(** The loop over the lists of one multi-valued entry. *)
Lemma wp_load_lists E key :
  forall list_ids h s Q l0,
    dict_get key (_msg_info_multiple_dict h) = Some l0 ->
    Q tt (set_msg_info_multiple_dict
            (dict_set key (l0 ++ map (fun list_id => select_list_elements list_id s) list_ids)
                      (_msg_info_multiple_dict h)) h) s ->
    wp E (for_each list_ids (fun list_id =>
            values <- execute_select [T_ULogMessageInfoMultipleListElement]
                        (select_list_elements list_id) ;;
            d <- getattr _msg_info_multiple_dict ;;
            d' <- lift (append_at key values d) ;;
            setattr (set_msg_info_multiple_dict d'))) h s Q.
Proof.
  induction list_ids as [|list_id list_ids IH]; intros h s Q l0 Hget HQ.
  - cbn [map] in HQ. rewrite app_nil_r, (dict_set_same _ _ Hget) in HQ.
    destruct h; exact HQ.
  - cbn [for_each]. apply wp_bind, wp_bind, wp_select, wp_bind, wp_getattr, wp_bind, wp_lift.
    unfold append_at, subscript. rewrite Hget.
    apply wp_setattr.
    apply IH with (l0 := append (select_list_elements list_id s) l0).
    + cbn [_msg_info_multiple_dict set_msg_info_multiple_dict]. apply dict_get_set_eq.
    + cbn [_msg_info_multiple_dict set_msg_info_multiple_dict].
      rewrite dict_set_set. unfold append. rewrite <- app_assoc.
      cbn [map app] in HQ |- *. destruct h; exact HQ.
Qed.

Lemma wp_load_msg_info_multiple_dict E h s Q :
  Q tt (set_msg_info_multiple_dict_types
          (fold_left (fun d '(key, typename, _) => dict_set key typename d)
                     (stored_multiple (_pk h) s) (_msg_info_multiple_dict_types h))
          (set_msg_info_multiple_dict
             (fold_left (fun d '(key, _, lists) => dict_set key lists d)
                        (stored_multiple (_pk h) s) (_msg_info_multiple_dict h)) h)) s ->
  wp E load_msg_info_multiple_dict h s Q.
Proof.
  intros H. unfold load_msg_info_multiple_dict.
  apply wp_bind, wp_getattr, wp_bind, wp_select.
  unfold stored_multiple in H.
  generalize dependent (filter (fun r => sql_eq (ULogMessageInfoMultiple.ULogId r) (_pk h))
                               (ULogMessageInfoMultiple_rows s)).
  intros rows. revert h.
  induction rows as [|r rows IH]; intros h' H.
  - cbn [map fold_left] in H. destruct h'; exact H.
  - cbn [for_each]. apply wp_bind, wp_bind, wp_setattr, wp_bind, wp_setattr, wp_bind, wp_select.
    apply wp_load_lists with (l0 := []).
    + cbn [_msg_info_multiple_dict set_msg_info_multiple_dict
           set_msg_info_multiple_dict_types]. apply dict_get_set_eq.
    + apply IH.
      cbn [map fold_left] in H.
      cbn [_msg_info_multiple_dict _msg_info_multiple_dict_types set_msg_info_multiple_dict
           set_msg_info_multiple_dict_types app].
      rewrite dict_set_set. destruct h'; exact H.
Qed.

Lemma wp_get_dataset_uncached E name multi_instance lazy h s (Q : DatabaseData.t -> _) :
  match fetch_dataset _UNPACK_TYPES name multi_instance lazy (_pk h) s with
  | inr d => Q d h s
  | inl e => E e h s
  end ->
  wp E (get_dataset _UNPACK_TYPES name multi_instance lazy true false) h s Q.
Proof.
  unfold wp. rewrite get_dataset_real_fetch by (left; reflexivity). exact (fun H => H).
Qed.

Lemma wp_load_datasets E lazy :
  forall pairs h s Q,
    match comprehension (fun '(name, multi) =>
                           fetch_dataset _UNPACK_TYPES name multi lazy (_pk h) s) pairs with
    | inr l => Q tt (set_data_list (_data_list h ++ l) h) s
    | inl e => forall h', E e h' s
    end ->
    wp E (for_each pairs (fun '(dataset_name, multi_id) =>
            dataset <- get_dataset _UNPACK_TYPES dataset_name multi_id lazy true false ;;
            setattr (fun h => set_data_list (append dataset (_data_list h)) h))) h s Q.
Proof.
  induction pairs as [|[name multi] pairs IH]; intros h s Q H.
  - cbn [comprehension] in H. rewrite app_nil_r in H. destruct h; exact H.
  - cbn [for_each comprehension] in *.
    apply wp_bind, wp_bind, wp_get_dataset_uncached.
    destruct (fetch_dataset _UNPACK_TYPES name multi lazy (_pk h) s) as [e|d]; [apply H|].
    apply wp_setattr, IH.
    cbn [_pk _data_list set_data_list].
    destruct (comprehension _ pairs) as [e|l]; [exact H|].
    unfold append. rewrite <- app_assoc. destruct h; exact H.
Qed.

Lemma wp_load_data_list E lazy h s Q :
  match stored_datasets _UNPACK_TYPES lazy (_pk h) s with
  | inr l => Q tt (set_data_list l h) s
  | inl e => forall h', E e h' s
  end ->
  wp E (load_data_list _UNPACK_TYPES lazy) h s Q.
Proof.
  intros H. unfold load_data_list.
  apply wp_bind, wp_setattr, wp_bind, wp_getattr, wp_bind, wp_select.
  apply wp_load_datasets. cbn [_pk _data_list set_data_list app].
  unfold stored_datasets, dataset_keys in H.
  destruct (comprehension _ _) as [e|l]; [exact H|]. destruct h; exact H.
Qed.

End load_blocks.

(** ** load as a whole *)

Section load_whole.

Variable _UNPACK_TYPES : dict string (string * nat * dtype).

Lemma wp_exists_in_db E primary_key h s (Q : bool -> _) :
  Q ((length (filter (fun r => sql_eq (ULog.Id r) primary_key) (ULog_rows s)) =? 1)%nat) h s ->
  wp E (exists_in_db primary_key) h s Q.
Proof. unfold wp. rewrite exists_in_db_run. exact (fun H => H). Qed.

(** Every way [load] can end: the record is unknown; a dataset cannot be
    fetched or decoded; or the handle is [loaded]. *)
Lemma wp_load E lazy h s (Q : unit -> DatabaseULog -> Store -> Prop) :
  (if (length (filter (fun r => sql_eq (ULog.Id r) (_pk h)) (ULog_rows s)) =? 1)%nat
   then match select_record (_pk h) s with
        | None => E TypeError h s
        | Some r =>
            match stored_datasets _UNPACK_TYPES lazy (_pk h) s with
            | inl e => forall h', E e h' s
            | inr l => Q tt (loaded lazy r l h s) s
            end
        end
   else E (KeyError (NoULogWithId (_pk h))) h s) ->
  wp E (load _UNPACK_TYPES lazy) h s Q.
Proof.
  intros H. unfold load.
  apply wp_bind, wp_getattr, wp_bind, wp_exists_in_db.
  destruct (_ =? 1)%nat; cbn [negb]; [|apply wp_raise, H].
  apply wp_bind, wp_transaction. unfold load_rows.
  apply wp_bind, wp_load_metadata.
  destruct (select_record (_pk h) s) as [r|]; [|exact H].
  apply wp_bind, wp_load_appended_offsets.
  apply wp_bind, wp_load_data_list.
  cbn [_pk set_appended_offsets set_sha256sum set_has_sync set_sync_seq_cnt set_incompat_flags
       set_compat_flags set_last_timestamp set_start_timestamp set_file_version].
  destruct (stored_datasets _UNPACK_TYPES lazy (_pk h) s) as [e|l]; [intros h'; apply H|].
  apply wp_bind, wp_load_dropouts.
  apply wp_bind, wp_load_logged_messages.
  apply wp_bind, wp_load_logged_messages_tagged.
  apply wp_bind, wp_load_message_formats.
  apply wp_bind, wp_load_msg_info_dict.
  apply wp_bind, wp_load_msg_info_multiple_dict.
  apply wp_bind, wp_load_initial_parameters.
  apply wp_bind, wp_load_default_parameters.
  apply wp_load_changed_parameters.
  apply wp_setattr.
  unfold loaded in H. destruct h; exact H.
Qed.

End load_whole.

Section load_facts.

Variable _UNPACK_TYPES : dict string (string * nat * dtype).

Lemma load_spec lazy h s :
  let o := load _UNPACK_TYPES lazy h s in
  let readable :=
    persisted_test (_pk h) s = true
    /\ exists r l, select_record (_pk h) s = Some r
                   /\ stored_datasets _UNPACK_TYPES lazy (_pk h) s = inr l
                   /\ handle o = loaded lazy r l h s in
  stored o = s
  /\ match result o with
     | inr _ => readable
     | inl _ => ~ (persisted_test (_pk h) s = true
                   /\ exists r l, select_record (_pk h) s = Some r
                                  /\ stored_datasets _UNPACK_TYPES lazy (_pk h) s = inr l)
     end.
Proof.
  intros o readable.
  assert (H : wp (fun e _ s' =>
                    s' = s
                    /\ ~ (persisted_test (_pk h) s = true
                          /\ exists r l, select_record (_pk h) s = Some r
                               /\ stored_datasets _UNPACK_TYPES lazy (_pk h) s = inr l))
                 (load _UNPACK_TYPES lazy) h s
                 (fun _ h' s' =>
                    s' = s
                    /\ persisted_test (_pk h) s = true
                    /\ exists r l, select_record (_pk h) s = Some r
                         /\ stored_datasets _UNPACK_TYPES lazy (_pk h) s = inr l
                         /\ h' = loaded lazy r l h s)).
  { apply wp_load. unfold persisted_test.
    destruct (_ =? 1)%nat.
    - destruct (select_record (_pk h) s) as [r|].
      + destruct (stored_datasets _UNPACK_TYPES lazy (_pk h) s) as [e|l].
        * intros h'. split; [reflexivity|]. intros (_ & r' & l' & _ & [=]).
        * split; [reflexivity|]. split; [reflexivity|]. exists r, l. repeat split.
      + split; [reflexivity|]. intros (_ & r' & l' & [=] & _).
    - split; [reflexivity|]. intros ([=] & _). }
  unfold wp in H. fold o in H. subst readable.
  destruct (result o); destruct H as [Hs H]; (split; [exact Hs|exact H]).
Qed.

Lemma items_at_append_tagged (m : DatabaseMessageLoggingTagged.t) d tag :
  items_at tag (append_tagged m d)
  = items_at tag d ++ (if DatabaseMessageLoggingTagged.tag m =? tag then [m] else []).
Proof.
  unfold append_tagged, items_at, dict_contains.
  destruct (DatabaseMessageLoggingTagged.tag m =? tag) eqn:Htag.
  - apply Z.eqb_eq in Htag. subst tag.
    destruct (dict_get (DatabaseMessageLoggingTagged.tag m) d) as [l|] eqn:Hget.
    + rewrite Hget, dict_get_set_eq. reflexivity.
    + rewrite dict_get_set_eq, dict_set_set, dict_get_set_eq. reflexivity.
  - apply Z.eqb_neq in Htag.
    assert (Hne : tag <> DatabaseMessageLoggingTagged.tag m) by congruence.
    destruct (dict_get (DatabaseMessageLoggingTagged.tag m) d) as [l|] eqn:Hget.
    + rewrite Hget, dict_get_set_neq by exact Hne. rewrite app_nil_r. reflexivity.
    + rewrite dict_get_set_eq, dict_get_set_neq by exact Hne.
      rewrite dict_get_set_neq by exact Hne. rewrite app_nil_r. reflexivity.
Qed.

Lemma items_at_fold_append_tagged ms :
  forall d tag,
    items_at tag (fold_left (fun d m => append_tagged m d) ms d)
    = items_at tag d ++ filter (fun m => DatabaseMessageLoggingTagged.tag m =? tag) ms.
Proof.
  induction ms as [|m ms IH]; intros d tag; cbn [fold_left filter].
  - symmetry. apply app_nil_r.
  - rewrite IH, items_at_append_tagged, <- app_assoc.
    destruct (DatabaseMessageLoggingTagged.tag m =? tag); reflexivity.
Qed.

(** C10.  When [load] has returned on a handle, a second [load] on the
    handle it left returns too, and then the appended offsets, the dropouts,
    the logged messages and the changed parameters of the handle are what
    they were before the first call followed by the stored rows twice, and
    under every tag the tagged messages are the former ones followed by the
    stored messages of that tag twice; the dataset list is the one the first
    call built, not a doubled one. *)
Theorem load_twice_appends_twice lazy h s :
  let o1 := load _UNPACK_TYPES lazy h s in
  let o2 := load _UNPACK_TYPES lazy (handle o1) (stored o1) in
  let pk := _pk h in
  result o1 = inr tt ->
  result o2 = inr tt
  /\ _appended_offsets (handle o2)
     = _appended_offsets h ++ stored_offsets pk s ++ stored_offsets pk s
  /\ _dropouts (handle o2) = _dropouts h ++ stored_dropouts pk s ++ stored_dropouts pk s
  /\ _logged_messages (handle o2)
     = _logged_messages h ++ stored_messages pk s ++ stored_messages pk s
  /\ (forall tag,
        let stored_of_tag :=
          filter (fun m => DatabaseMessageLoggingTagged.tag m =? tag) (stored_tagged pk s) in
        items_at tag (_logged_messages_tagged (handle o2))
        = items_at tag (_logged_messages_tagged h) ++ stored_of_tag ++ stored_of_tag)
  /\ _changed_parameters (handle o2)
     = _changed_parameters h ++ stored_changed pk s ++ stored_changed pk s
  /\ _data_list (handle o2) = _data_list (handle o1).
Proof.
  intros o1 o2 pk Hres1.
  destruct (load_spec lazy h s) as [Hs1 H1]. fold o1 in Hs1, H1. rewrite Hres1 in H1.
  destruct H1 as (Hp & r & l & Hr & Hl & Hh1).
  assert (Hpk1 : _pk (handle o1) = _pk h) by (rewrite Hh1; reflexivity).
  destruct (load_spec lazy (handle o1) (stored o1)) as [Hs2 H2]. fold o2 in Hs2, H2.
  rewrite Hs1, Hpk1 in H2.
  destruct (result o2) as [e|[]].
  { exfalso. apply H2. split; [exact Hp|]. exists r, l. split; assumption. }
  destruct H2 as (_ & r' & l' & Hr' & Hl' & Hh2).
  rewrite Hr in Hr'. injection Hr' as <-. rewrite Hl in Hl'. injection Hl' as <-.
  rewrite Hh2. unfold loaded at 1 2 3 4 5 6. cbn [_appended_offsets _dropouts _logged_messages
    _logged_messages_tagged _changed_parameters _data_list].
  rewrite Hpk1, Hh1. unfold loaded. cbn [_appended_offsets _dropouts _logged_messages
    _logged_messages_tagged _changed_parameters _data_list]. fold pk.
  rewrite <- !app_assoc.
  split; [reflexivity|]. split; [reflexivity|]. split; [reflexivity|].
  split; [reflexivity|]. split; [|split; reflexivity].
  intros tag. rewrite !items_at_fold_append_tagged, <- app_assoc. reflexivity.
Qed.

End load_facts.

Lemma load_twice_appends_twice_witness :
  let o1 := load Examples.unpack_types true (Examples.named 1) Examples.saved_store in
  let o2 := load Examples.unpack_types true (handle o1) (stored o1) in
  result o1 = inr tt
  /\ result o2 = inr tt
  /\ _appended_offsets (handle o1) = [100; 200]
  /\ _appended_offsets (handle o2) = [100; 200; 100; 200]
  /\ length (_dropouts (handle o2)) = 2%nat
  /\ length (_logged_messages (handle o2)) = 2%nat
  /\ length (items_at 1 (_logged_messages_tagged (handle o2))) = 2%nat
  /\ _changed_parameters (handle o2) = [(15, "P"%string, PyInt 2); (15, "P"%string, PyInt 2)]
  /\ _data_list (handle o2) = [Examples.lazy_imu 0; Examples.lazy_imu 1].
Proof.
  cbv zeta.
  assert (Hres : result (load Examples.unpack_types true (Examples.named 1) Examples.saved_store)
                 = inr tt) by (vm_compute; reflexivity).
  destruct (load_twice_appends_twice Examples.unpack_types true (Examples.named 1)
              Examples.saved_store Hres) as (H2 & Hoff & Hdrop & Hmsg & Htag & Hchg & Hdata).
  split; [exact Hres|]. split; [exact H2|].
  split; [vm_compute; reflexivity|].
  split; [rewrite Hoff; vm_compute; reflexivity|].
  split; [rewrite Hdrop; vm_compute; reflexivity|].
  split; [rewrite Hmsg; vm_compute; reflexivity|].
  split; [rewrite (Htag 1); vm_compute; reflexivity|].
  split; [rewrite Hchg; vm_compute; reflexivity|].
  rewrite Hdata. vm_compute. reflexivity.
Defined.

(** ** A lazy load *)

Section lazy_load.

Variable _UNPACK_TYPES : dict string (string * nat * dtype).

Lemma persisted_record pk s :
  persisted_test pk s = true -> exists r, select_record pk s = Some r.
Proof.
  unfold persisted_test, select_record. intros Hone.
  destruct (filter (fun r => sql_eq (ULog.Id r) pk) (ULog_rows s)) as [|r rest] eqn:Hf;
    [discriminate|].
  assert (Hin : In r (filter (fun r => sql_eq (ULog.Id r) pk) (ULog_rows s)))
    by (rewrite Hf; left; reflexivity).
  apply filter_In in Hin. destruct Hin as [Hin Hp].
  exact (find_some_of_in _ _ _ Hin Hp).
Qed.

(** Every dataset that [load] lists has its row. *)
Lemma dataset_key_has_row pk s name multi :
  In (name, multi) (dataset_keys pk s) ->
  exists row, select_dataset name multi pk s = Some row.
Proof.
  unfold dataset_keys. rewrite in_order_by, in_map_iff.
  intros (r & [= <- <-] & Hr). apply filter_In in Hr. destruct Hr as [Hr Hpk].
  unfold select_dataset. apply (find_some_of_in _ _ r Hr).
  rewrite String.eqb_refl, Z.eqb_refl, Hpk. reflexivity.
Qed.

Lemma fetch_dataset_lazy name multi pk s :
  fetch_dataset _UNPACK_TYPES name multi true pk s
  = match lazy_entry pk s (name, multi) with
    | Some d => inr d
    | None => inl (KeyError (DatasetNotFound name multi))
    end.
Proof.
  unfold fetch_dataset, lazy_entry. cbn [fst snd].
  destruct (select_dataset name multi pk s); reflexivity.
Qed.

Lemma stored_datasets_lazy pk s :
  exists l, stored_datasets _UNPACK_TYPES true pk s = inr l
            /\ map Some l = map (lazy_entry pk s) (dataset_keys pk s).
Proof.
  unfold stored_datasets.
  assert (H : forall pairs, (forall key, In key pairs -> In key (dataset_keys pk s)) ->
            exists l,
              comprehension (fun '(name, multi) =>
                               fetch_dataset _UNPACK_TYPES name multi true pk s) pairs = inr l
              /\ map Some l = map (lazy_entry pk s) pairs).
  { induction pairs as [|[name multi] pairs IH]; intros Hin.
    - exists []. split; reflexivity.
    - destruct IH as (l & Hl & Hmap); [intros key Hkey; apply Hin; right; exact Hkey|].
      destruct (dataset_key_has_row pk s name multi) as [row Hrow];
        [apply Hin; left; reflexivity|].
      cbn [comprehension map]. rewrite fetch_dataset_lazy, Hl, <- Hmap.
      destruct (lazy_entry pk s (name, multi)) as [d|] eqn:Hd.
      * exists (d :: l). split; reflexivity.
      * unfold lazy_entry in Hd. cbn [fst snd] in Hd. rewrite Hrow in Hd. discriminate. }
  apply H. auto.
Qed.

(** An entry that a lazy load made is found again by its key, and holds no
    data. *)
Lemma find_lazy_entry pk s name multi :
  forall pairs l,
    map Some l = map (lazy_entry pk s) pairs ->
    In (name, multi) pairs ->
    exists i existing,
      find_index (same_dataset name multi) l = Some (i, existing)
      /\ DatabaseData.data existing = [].
Proof.
  induction pairs as [|key pairs IH]; intros l Hmap Hin; [contradiction|].
  destruct l as [|d l]; [discriminate|]. cbn [map] in Hmap.
  injection Hmap as Hd Hmap.
  unfold lazy_entry in Hd.
  destruct (select_dataset (fst key) (snd key) pk s) as [row|]; [|discriminate].
  injection Hd as ->. cbn [find_index].
  destruct (same_dataset name multi _) eqn:Hsame.
  - eexists _, _. split; reflexivity.
  - destruct Hin as [->|Hin].
    + unfold same_dataset in Hsame. cbn in Hsame.
      rewrite String.eqb_refl, Z.eqb_refl in Hsame. discriminate.
    + destruct (IH l Hmap Hin) as (i & existing & Hfind & Hdata).
      rewrite Hfind. eauto.
Qed.

(** C9 (as amended).  For a primary key whose record is stored, [load] with
    [lazy] on returns and its dataset list holds, for each stored (dataset
    name, multi-instance) pair in name order, an entry with that name, that
    index, and the message id and timestamp index of the dataset row, with
    no field declaration and no data.  The declarations come with the data:
    on that handle a [get_dataset] that is not lazy executes the fetch and
    returns what the field rows decode to. *)
Theorem lazy_load_defers_fields_and_data h s :
  persisted_test (_pk h) s = true ->
  let o := load _UNPACK_TYPES true h s in
  result o = inr tt
  /\ map Some (_data_list (handle o)) = map (lazy_entry (_pk h) s) (dataset_keys (_pk h) s)
  /\ (forall name multi db_cursor,
        In (name, multi) (dataset_keys (_pk h) s) ->
        let g := get_dataset _UNPACK_TYPES name multi false db_cursor true
                   (handle o) (stored o) in
        result g = fetch_dataset _UNPACK_TYPES name multi false (_pk h) s
        /\ executed g = fetch_statements name multi false (_pk h) s).
Proof.
  intros Hp o.
  destruct (persisted_record _ _ Hp) as [r Hr].
  destruct (stored_datasets_lazy (_pk h) s) as (l & Hl & Hmap).
  destruct (load_spec _UNPACK_TYPES true h s) as [Hs H]. fold o in Hs, H.
  destruct (result o) as [e|[]].
  { exfalso. apply H. split; [exact Hp|]. exists r, l. split; assumption. }
  destruct H as (_ & r' & l' & Hr' & Hl' & Hh).
  rewrite Hl in Hl'. injection Hl' as <-.
  assert (Hlist : _data_list (handle o) = l) by (rewrite Hh; reflexivity).
  assert (Hpk : _pk (handle o) = _pk h) by (rewrite Hh; reflexivity).
  split; [reflexivity|]. split; [rewrite Hlist; exact Hmap|].
  intros name multi db_cursor Hin g.
  destruct (find_lazy_entry _ _ _ _ _ _ Hmap Hin) as (i & existing & Hfind & Hdata).
  subst g. rewrite get_dataset_cached with (i := i) (existing := existing)
    by (rewrite Hlist; exact Hfind).
  rewrite Hdata, Hs, Hpk. cbn [orb truthy].
  destruct (fetch_dataset _ _ _ _ _ _); split; reflexivity.
Qed.

End lazy_load.

Lemma lazy_load_defers_fields_and_data_witness :
  let o := load Examples.unpack_types true (Examples.named 1) Examples.saved_store in
  persisted_test (Some 1) Examples.saved_store = true
  /\ result o = inr tt
  /\ map Some (_data_list (handle o)) = [Some (Examples.lazy_imu 0); Some (Examples.lazy_imu 1)]
  /\ result (get_dataset Examples.unpack_types "imu" 1 false false true (handle o) (stored o))
     = inr (Examples.imu 1 x09%byte).
Proof.
  cbv zeta.
  destruct (lazy_load_defers_fields_and_data Examples.unpack_types (Examples.named 1)
              Examples.saved_store eq_refl) as (Hres & Hlist & Hget).
  split; [reflexivity|]. split; [exact Hres|].
  split; [rewrite Hlist; vm_compute; reflexivity|].
  destruct (Hget "imu"%string 1 false) as [Hg _].
  - vm_compute. right. left. reflexivity.
  - rewrite Hg. vm_compute. reflexivity.
Defined.

(** C9, as stated, on the database that holds the sample log: its two
    datasets each have a timestamp and a value field row, and after a lazy
    [load] the two entries of the dataset list declare no field. *)
Lemma lazy_load_leaves_field_declarations_out :
  let o := load Examples.unpack_types true (Examples.named 1) Examples.saved_store in
  result o = inr tt
  /\ map (fun r => (ULogField.TopicName r, ULogField.DataType r))
         (select_fields 1 Examples.saved_store)
     = [("timestamp", "uint64_t"); ("value", "uint8_t")]%string
  /\ map DatabaseData.field_data (_data_list (handle o)) = [[]; []].
Proof.
  cbv zeta. repeat split; vm_compute; reflexivity.
Qed.

(** ** Reads and the JSON column *)

Section json_blind_rules.

Context {A B : Type}.

Lemma json_blind_ret (a : A) : json_blind (ret a).
Proof. intros h s1 s2 Hs. repeat split. exact Hs. Qed.

Lemma json_blind_raise (e : Exn) : json_blind (@raise A e).
Proof. intros h s1 s2 Hs. repeat split. exact Hs. Qed.

Lemma json_blind_lift (r : Exn + A) : json_blind (lift r).
Proof. destruct r; [apply json_blind_raise|apply json_blind_ret]. Qed.

Lemma json_blind_getattr (f : DatabaseULog -> A) : json_blind (getattr f).
Proof. intros h s1 s2 Hs. repeat split. exact Hs. Qed.

Lemma json_blind_bind (m : M A) (k : A -> M B) :
  json_blind m -> (forall a, json_blind (k a)) -> json_blind (bind m k).
Proof.
  intros Hm Hk h s1 s2 Hs. destruct (Hm h s1 s2 Hs) as (Hr & Hh & Hx & Hs').
  unfold bind. rewrite <- Hr, <- Hh, <- Hx.
  destruct (result (m h s1)) as [e|a]; cbn [result handle stored executed].
  - repeat split. exact Hs'.
  - destruct (Hk a (handle (m h s1)) _ _ Hs') as (Hr2 & Hh2 & Hx2 & Hs2).
    rewrite Hr2, Hh2, Hx2. repeat split. exact Hs2.
Qed.

Lemma json_blind_select tables (q : Store -> A) :
  (forall s1 s2, same_but_json s1 s2 -> q s1 = q s2) ->
  json_blind (execute_select tables q).
Proof.
  intros Hq h s1 s2 Hs. cbn. rewrite (Hq s1 s2 Hs). repeat split. exact Hs.
Qed.

Lemma json_blind_transaction (body : M A) : json_blind body -> json_blind (transaction body).
Proof.
  intros Hb h s1 s2 Hs. destruct (Hb h s1 s2 Hs) as (Hr & Hh & Hx & Hs').
  unfold transaction. rewrite <- Hr.
  destruct (result (body h s1)) as [e|a] eqn:Hres; cbn [result handle stored executed].
  - repeat split; assumption.
  - rewrite Hres. repeat split; assumption.
Qed.

End json_blind_rules.

Lemma json_blind_setattr upd : json_blind (setattr upd).
Proof. intros h s1 s2 Hs. repeat split. exact Hs. Qed.

Lemma json_blind_for_each {A} (body : A -> M unit) (l : list A) :
  (forall x, json_blind (body x)) -> json_blind (for_each l body).
Proof.
  intros Hbody. induction l as [|x l IH]; cbn [for_each].
  - apply json_blind_ret.
  - apply json_blind_bind; [apply Hbody|intros _; exact IH].
Qed.

(** The tables other than ULogField are the same in two such contents. *)
Lemma same_but_json_tables s1 s2 :
  same_but_json s1 s2 ->
  user_version s1 = user_version s2
  /\ ULog_rows s1 = ULog_rows s2
  /\ ULogAppendedOffsets_rows s1 = ULogAppendedOffsets_rows s2
  /\ ULogDataset_rows s1 = ULogDataset_rows s2
  /\ map erase_json (ULogField_rows s1) = map erase_json (ULogField_rows s2)
  /\ ULogMessageDropout_rows s1 = ULogMessageDropout_rows s2
  /\ ULogMessageLogging_rows s1 = ULogMessageLogging_rows s2
  /\ ULogMessageLoggingTagged_rows s1 = ULogMessageLoggingTagged_rows s2
  /\ ULogMessageFormat_rows s1 = ULogMessageFormat_rows s2
  /\ ULogMessageFormatField_rows s1 = ULogMessageFormatField_rows s2
  /\ ULogMessageInfo_rows s1 = ULogMessageInfo_rows s2
  /\ ULogMessageInfoMultiple_rows s1 = ULogMessageInfoMultiple_rows s2
  /\ ULogMessageInfoMultipleList_rows s1 = ULogMessageInfoMultipleList_rows s2
  /\ ULogMessageInfoMultipleListElement_rows s1 = ULogMessageInfoMultipleListElement_rows s2
  /\ ULogInitialParameter_rows s1 = ULogInitialParameter_rows s2
  /\ ULogDefaultParameter_rows s1 = ULogDefaultParameter_rows s2
  /\ ULogChangedParameter_rows s1 = ULogChangedParameter_rows s2.
Proof.
  unfold same_but_json, without_json. destruct s1, s2. cbn. intros [=]. subst.
  repeat split. assumption.
Qed.

Ltac same_tables :=
  let s1 := fresh "s1" in
  let s2 := fresh "s2" in
  let Hs := fresh "Hs" in
  intros s1 s2 Hs;
  destruct (same_but_json_tables Hs)
    as (? & ? & ? & ? & ? & ? & ? & ? & ? & ? & ? & ? & ? & ? & ? & ? & ?);
  cbv beta;
  repeat match goal with
         | H : ?rows s1 = ?rows s2 |- _ => rewrite ?H; clear H
         end;
  reflexivity.

Section reads_json_blind.

Variable _UNPACK_TYPES : dict string (string * nat * dtype).

Lemma decode_fields_erase_json rows :
  forall acc,
    decode_fields _UNPACK_TYPES (map erase_json rows) acc
    = decode_fields _UNPACK_TYPES rows acc.
Proof.
  induction rows as [|r rows IH]; intros acc; cbn [map decode_fields]; [reflexivity|].
  change (decode_field _UNPACK_TYPES acc (erase_json r))
    with (decode_field _UNPACK_TYPES acc r).
  destruct (decode_field _UNPACK_TYPES acc r); [reflexivity|apply IH].
Qed.

Lemma select_fields_erase_json dataset_id s :
  map erase_json (select_fields dataset_id s)
  = filter (fun r => ULogField.DatasetId r =? dataset_id) (map erase_json (ULogField_rows s)).
Proof.
  unfold select_fields. induction (ULogField_rows s) as [|r rows IH]; [reflexivity|].
  cbn [filter map erase_json ULogField.DatasetId].
  destruct (ULogField.DatasetId r =? dataset_id); cbn [map]; rewrite IH; reflexivity.
Qed.

(** The field rows are read through their name, type and packed values. *)
Lemma json_blind_fetch_fields dataset_id :
  json_blind (
    field_results <- execute_select [T_ULogField] (select_fields dataset_id) ;;
    for_fold field_results ([], []) (read_field _UNPACK_TYPES)).
Proof.
  intros h s1 s2 Hs. rewrite !bind_select, !for_fold_read_field.
  cbn [after result handle stored executed].
  destruct (same_but_json_tables Hs)
    as (_ & _ & _ & _ & Hf & _).
  rewrite <- (decode_fields_erase_json (select_fields dataset_id s1)),
          <- (decode_fields_erase_json (select_fields dataset_id s2)),
          !select_fields_erase_json, Hf.
  repeat split. exact Hs.
Qed.

Lemma json_blind_get_dataset name multi_instance lazy db_cursor caching :
  json_blind (get_dataset _UNPACK_TYPES name multi_instance lazy db_cursor caching).
Proof.
  unfold get_dataset.
  apply json_blind_bind; [apply json_blind_getattr|intros existing].
  assert (Hfetch : forall k : _ -> M DatabaseData.t, (forall x, json_blind (k x)) ->
    json_blind (bind (db_context db_cursor (
      pk <- getattr _pk ;;
      dataset_result <- execute_select [T_ULogDataset] (select_dataset name multi_instance pk) ;;
      match dataset_result with
      | None => raise (KeyError (DatasetNotFound name multi_instance))
      | Some row =>
          '(fields, data) <-
            (if lazy then ret ([], [])
             else
               field_results <- execute_select [T_ULogField] (select_fields (ULogDataset.Id row)) ;;
               for_fold field_results ([], []) (read_field _UNPACK_TYPES)) ;;
          ret (ULogDataset.MessageId row, ULogDataset.TimestampIndex row, fields, data)
      end)) k)).
  { intros k Hk. apply json_blind_bind; [|exact Hk].
    assert (Hbody : json_blind (
      pk <- getattr _pk ;;
      dataset_result <- execute_select [T_ULogDataset] (select_dataset name multi_instance pk) ;;
      match dataset_result with
      | None => raise (KeyError (DatasetNotFound name multi_instance))
      | Some row =>
          '(fields, data) <-
            (if lazy then ret ([], [])
             else
               field_results <- execute_select [T_ULogField] (select_fields (ULogDataset.Id row)) ;;
               for_fold field_results ([], []) (read_field _UNPACK_TYPES)) ;;
          ret (ULogDataset.MessageId row, ULogDataset.TimestampIndex row, fields, data)
      end)).
    { apply json_blind_bind; [apply json_blind_getattr|intros pk].
      apply json_blind_bind; [apply json_blind_select; unfold select_dataset; same_tables|].
      intros [row|]; [|apply json_blind_raise].
      apply json_blind_bind.
      - destruct lazy; [apply json_blind_ret|apply json_blind_fetch_fields].
      - intros [fields data]. apply json_blind_ret. }
    unfold db_context. destruct db_cursor; [exact Hbody|apply json_blind_transaction, Hbody]. }
  destruct caching, existing as [[i existing]|];
    try destruct (lazy || truthy (DatabaseData.data existing));
    try apply json_blind_ret;
    apply Hfetch; intros [[[m t] f] d];
    try apply json_blind_ret.
  apply json_blind_bind; [apply json_blind_setattr|intros _; apply json_blind_ret].
Qed.

Lemma json_blind_load_metadata : json_blind load_metadata.
Proof.
  unfold load_metadata.
  apply json_blind_bind; [apply json_blind_getattr|intros pk'].
  apply json_blind_bind; [apply json_blind_select; same_tables|intros [r|]];
    [|apply json_blind_raise].
  repeat (apply json_blind_bind; [apply json_blind_setattr|intros _]).
  apply json_blind_setattr.
Qed.

Lemma json_blind_load_appended_offsets : json_blind load_appended_offsets.
Proof.
  unfold load_appended_offsets.
  apply json_blind_bind; [apply json_blind_getattr|intros pk'].
  apply json_blind_bind; [apply json_blind_select; same_tables|intros rows].
  apply json_blind_for_each. intros x. apply json_blind_setattr.
Qed.

Lemma json_blind_load_dropouts : json_blind load_dropouts.
Proof.
  unfold load_dropouts.
  apply json_blind_bind; [apply json_blind_getattr|intros pk'].
  apply json_blind_bind; [apply json_blind_select; same_tables|intros rows].
  apply json_blind_for_each. intros x. apply json_blind_setattr.
Qed.

Lemma json_blind_load_logged_messages : json_blind load_logged_messages.
Proof.
  unfold load_logged_messages.
  apply json_blind_bind; [apply json_blind_getattr|intros pk'].
  apply json_blind_bind; [apply json_blind_select; same_tables|intros rows].
  apply json_blind_for_each. intros x. apply json_blind_setattr.
Qed.

Lemma json_blind_load_logged_messages_tagged : json_blind load_logged_messages_tagged.
Proof.
  unfold load_logged_messages_tagged.
  apply json_blind_bind; [apply json_blind_getattr|intros pk'].
  apply json_blind_bind; [apply json_blind_select; same_tables|intros rows].
  apply json_blind_for_each. intros x. apply json_blind_setattr.
Qed.

Lemma json_blind_load_message_formats : json_blind load_message_formats.
Proof.
  unfold load_message_formats.
  apply json_blind_bind; [apply json_blind_getattr|intros pk'].
  apply json_blind_bind;
    [apply json_blind_select; unfold select_format_fields; same_tables|intros rows].
  apply json_blind_for_each. intros x. apply json_blind_setattr.
Qed.

Lemma json_blind_load_msg_info_dict : json_blind load_msg_info_dict.
Proof.
  unfold load_msg_info_dict.
  apply json_blind_bind; [apply json_blind_getattr|intros pk'].
  apply json_blind_bind; [apply json_blind_select; same_tables|intros rows].
  apply json_blind_for_each. intros x.
  apply json_blind_bind; [apply json_blind_setattr|intros _; apply json_blind_setattr].
Qed.

Lemma json_blind_load_msg_info_multiple_dict : json_blind load_msg_info_multiple_dict.
Proof.
  unfold load_msg_info_multiple_dict.
  apply json_blind_bind; [apply json_blind_getattr|intros pk'].
  apply json_blind_bind; [apply json_blind_select; same_tables|intros rows].
  apply json_blind_for_each. intros x.
  apply json_blind_bind; [apply json_blind_setattr|intros _].
  apply json_blind_bind; [apply json_blind_setattr|intros _].
  apply json_blind_bind; [apply json_blind_select; unfold select_lists; same_tables|].
  intros ids. apply json_blind_for_each. intros list_id.
  apply json_blind_bind;
    [apply json_blind_select; unfold select_list_elements; same_tables|intros values].
  apply json_blind_bind; [apply json_blind_getattr|intros d].
  apply json_blind_bind; [apply json_blind_lift|intros d'; apply json_blind_setattr].
Qed.

Lemma json_blind_load_initial_parameters : json_blind load_initial_parameters.
Proof.
  unfold load_initial_parameters.
  apply json_blind_bind; [apply json_blind_getattr|intros pk'].
  apply json_blind_bind; [apply json_blind_select; same_tables|intros rows].
  apply json_blind_for_each. intros x. apply json_blind_setattr.
Qed.

Lemma json_blind_load_default_parameters : json_blind load_default_parameters.
Proof.
  unfold load_default_parameters.
  apply json_blind_bind; [apply json_blind_getattr|intros pk'].
  apply json_blind_bind; [apply json_blind_select; same_tables|intros rows].
  apply json_blind_for_each. intros x. apply json_blind_setattr.
Qed.

Lemma json_blind_load_changed_parameters : json_blind load_changed_parameters.
Proof.
  unfold load_changed_parameters.
  apply json_blind_bind; [apply json_blind_getattr|intros pk'].
  apply json_blind_bind; [apply json_blind_select; same_tables|intros rows].
  apply json_blind_for_each. intros x. apply json_blind_setattr.
Qed.

Lemma json_blind_load_data_list lazy : json_blind (load_data_list _UNPACK_TYPES lazy).
Proof.
  unfold load_data_list.
  apply json_blind_bind; [apply json_blind_setattr|intros _].
  apply json_blind_bind; [apply json_blind_getattr|intros pk'].
  apply json_blind_bind; [apply json_blind_select; same_tables|intros rows].
  apply json_blind_for_each. intros [name multi].
  apply json_blind_bind; [apply json_blind_get_dataset|intros d; apply json_blind_setattr].
Qed.

Lemma json_blind_load lazy : json_blind (load _UNPACK_TYPES lazy).
Proof.
  unfold load.
  apply json_blind_bind; [apply json_blind_getattr|intros pk].
  apply json_blind_bind.
  { unfold exists_in_db. apply json_blind_transaction, json_blind_bind;
      [apply json_blind_select; same_tables|intros count; apply json_blind_ret]. }
  intros found. destruct (negb found); [apply json_blind_raise|].
  apply json_blind_bind; [|intros _; apply json_blind_setattr].
  apply json_blind_transaction. unfold load_rows.
  apply json_blind_bind; [apply json_blind_load_metadata|intros _].
  apply json_blind_bind; [apply json_blind_load_appended_offsets|intros _].
  apply json_blind_bind; [apply json_blind_load_data_list|intros _].
  apply json_blind_bind; [apply json_blind_load_dropouts|intros _].
  apply json_blind_bind; [apply json_blind_load_logged_messages|intros _].
  apply json_blind_bind; [apply json_blind_load_logged_messages_tagged|intros _].
  apply json_blind_bind; [apply json_blind_load_message_formats|intros _].
  apply json_blind_bind; [apply json_blind_load_msg_info_dict|intros _].
  apply json_blind_bind; [apply json_blind_load_msg_info_multiple_dict|intros _].
  apply json_blind_bind; [apply json_blind_load_initial_parameters|intros _].
  apply json_blind_bind; [apply json_blind_load_default_parameters|intros _].
  apply json_blind_load_changed_parameters.
Qed.

End reads_json_blind.

Section saves_and_json.

Variable _UNPACK_TYPES : dict string (string * nat * dtype).
Variable json_column : ndarray -> ndarray -> option string.

Lemma field_row_but_json dataset id field r1 r2 :
  field_row json_column true dataset id field = inr r1 ->
  field_row json_column false dataset id field = inr r2 ->
  erase_json r1 = erase_json r2.
Proof.
  unfold field_row.
  destruct (subscript (DatabaseData.data dataset) (field_name field)) as [e|values];
    [discriminate|].
  destruct (subscript (DatabaseData.data dataset) "timestamp"%string) as [e|timestamps];
    [discriminate|].
  destruct (json_column timestamps values); [|discriminate].
  intros [= <-] [= <-]. reflexivity.
Qed.

Lemma field_rows_but_json l :
  forall next r1 r2,
    field_rows json_column true next l = inr r1 ->
    field_rows json_column false next l = inr r2 ->
    map erase_json r1 = map erase_json r2.
Proof.
  induction l as [|d l IH]; intros next r1 r2; cbn [field_rows].
  - intros [= <-] [= <-]. reflexivity.
  - destruct (comprehension (field_row json_column true d next) _) as [e|rows1] eqn:H1;
      [discriminate|].
    destruct (comprehension (field_row json_column false d next) _) as [e|rows2] eqn:H2;
      [discriminate|].
    destruct (field_rows json_column true (next + 1) l) as [e|rest1] eqn:Hr1; [discriminate|].
    destruct (field_rows json_column false (next + 1) l) as [e|rest2] eqn:Hr2; [discriminate|].
    intros [= <-] [= <-]. rewrite !map_app. f_equal; [|eapply IH; eassumption].
    clear -H1 H2. revert rows1 rows2 H1 H2.
    induction (DatabaseData.field_data d) as [|f fs IHf]; intros rows1 rows2;
      cbn [comprehension].
    + intros [= <-] [= <-]. reflexivity.
    + destruct (field_row json_column true d next f) as [e|row1] eqn:Hf1; [discriminate|].
      destruct (field_row json_column false d next f) as [e|row2] eqn:Hf2; [discriminate|].
      destruct (comprehension (field_row json_column true d next) fs) as [e|t1]; [discriminate|].
      destruct (comprehension (field_row json_column false d next) fs) as [e|t2]; [discriminate|].
      intros [= <-] [= <-]. cbn [map]. f_equal.
      * eapply field_row_but_json; eassumption.
      * apply IHf; reflexivity.
Qed.

Lemma saves_same_but_json h s :
  result (save json_column true h s) = inr tt ->
  result (save json_column false h s) = inr tt ->
  same_but_json (stored (save json_column true h s)) (stored (save json_column false h s))
  /\ handle (save json_column true h s) = handle (save json_column false h s).
Proof.
  intros H1 H2.
  destruct (save_returns _ _ _ _ H1) as (c1 & Hc1 & -> & ->).
  destruct (save_returns _ _ _ _ H2) as (c2 & Hc2 & -> & ->).
  split; [|reflexivity].
  destruct Hc1 as (Hcompat1 & Hincompat1 & Hfields1 & Hinfo1 & Hmulti1).
  destruct Hc2 as (Hcompat2 & Hincompat2 & Hfields2 & Hinfo2 & Hmulti2).
  rewrite Hcompat1 in Hcompat2. injection Hcompat2 as Hcompat.
  rewrite Hincompat1 in Hincompat2. injection Hincompat2 as Hincompat.
  rewrite Hinfo1 in Hinfo2. injection Hinfo2 as Hinfo.
  rewrite Hmulti1 in Hmulti2. injection Hmulti2 as Hmulti.
  pose proof (field_rows_but_json _ _ Hfields1 Hfields2) as Hfields.
  unfold same_but_json, without_json, with_rows_of.
  cbn [ULogField_rows with_ULogField_rows user_version ULog_rows ULogAppendedOffsets_rows
       ULogDataset_rows ULogMessageDropout_rows ULogMessageLogging_rows
       ULogMessageLoggingTagged_rows ULogMessageFormat_rows ULogMessageFormatField_rows
       ULogMessageInfo_rows ULogMessageInfoMultiple_rows ULogMessageInfoMultipleList_rows
       ULogMessageInfoMultipleListElement_rows ULogInitialParameter_rows
       ULogDefaultParameter_rows ULogChangedParameter_rows].
  rewrite !map_app, Hfields, Hcompat, Hincompat, Hinfo, Hmulti. reflexivity.
Qed.

(** What the loop over the field rows leaves: one declaration per row and,
    assigned under the name of each row in turn, the array over its bytes
    of ValueArray. *)
Lemma decode_fields_packed rows :
  forall acc fields data,
    decode_fields _UNPACK_TYPES rows acc = inr (fields, data) ->
    fields = fst acc ++ map (fun r => {| field_name := ULogField.TopicName r;
                                         type_str := ULogField.DataType r |}) rows
    /\ exists arrays,
         Forall2 (fun r a =>
                    exists unpack,
                      dict_get (ULogField.DataType r) _UNPACK_TYPES = Some unpack
                      /\ (length (ULogField.ValueArray r) mod itemsize (snd unpack) = 0)%nat
                      /\ a = {| arr_dtype := snd unpack;
                                arr_buffer := ULogField.ValueArray r |})
                 rows arrays
         /\ data = fold_left (fun data ra => dict_set (ULogField.TopicName (fst ra)) (snd ra) data)
                             (combine rows arrays) (snd acc).
Proof.
  induction rows as [|r rows IH]; intros acc fields data; cbn [decode_fields].
  - intros [= ->]. cbn [fst snd map]. rewrite app_nil_r. split; [reflexivity|].
    exists []. split; [constructor|reflexivity].
  - unfold decode_field, subscript, frombuffer.
    destruct (dict_get (ULogField.DataType r) _UNPACK_TYPES) as [unpack|] eqn:Hunpack;
      [|discriminate].
    destruct (length (ULogField.ValueArray r) mod itemsize (snd unpack) =? 0)%nat eqn:Hlen;
      [|discriminate].
    intros Hrest. apply IH in Hrest. cbn [fst snd] in Hrest.
    destruct Hrest as (-> & arrays & Hall & ->).
    split; [cbn [map]; rewrite <- app_assoc; reflexivity|].
    exists ({| arr_dtype := snd unpack; arr_buffer := ULogField.ValueArray r |} :: arrays).
    split; [|reflexivity].
    constructor; [|exact Hall].
    exists unpack. split; [exact Hunpack|]. split; [apply Nat.eqb_eq, Hlen|reflexivity].
Qed.

(** A real fetch that is not lazy gives a dataset of the packed columns. *)
Lemma fetch_dataset_packed name multi pk s d :
  fetch_dataset _UNPACK_TYPES name multi false pk s = inr d ->
  decoded_from_ValueArray _UNPACK_TYPES s pk d.
Proof.
  unfold fetch_dataset, select_dataset, select_fields.
  destruct (find _ (ULogDataset_rows s)) as [row|] eqn:Hrow; [|discriminate].
  destruct (decode_fields _ _ _) as [e|[fields data]] eqn:Hdecode; [discriminate|].
  intros [= <-]. apply decode_fields_packed in Hdecode.
  cbn [fst snd app] in Hdecode. destruct Hdecode as (-> & arrays & Hall & ->).
  exists row.
  cbn [DatabaseData.name DatabaseData.multi_id DatabaseData.msg_id
       DatabaseData.timestamp_idx DatabaseData.field_data DatabaseData.data].
  split; [exact Hrow|]. split; [reflexivity|]. split; [reflexivity|].
  split; [reflexivity|]. exists arrays. split; [exact Hall|reflexivity].
Qed.

(** C8.  Reads decode the packed column and never the JSON column.  First,
    [load] and [get_dataset] cannot tell apart two contents of the database
    that differ in the JSON column of ULogField only: they return the same
    result and leave the same handle (with the same dataset list) on both.
    Second, the contents that [save] leaves with and without [append_json]
    differ in that column only, so what is read back is the same whichever
    way the log was saved.  Third, what is read is the packed column:
    whenever a call of [get_dataset] that is not lazy reads the database
    and returns a dataset, and for every dataset of the list a [load] that
    is not lazy leaves, the declarations of the dataset are those of the
    rows of ULogField of its row of ULogDataset, in the order of the table,
    and its data is the dict in which each of these rows assigned, under
    its TopicName, the array of the numpy type of its DataType over exactly
    its bytes of ValueArray. *)
Theorem reads_ignore_json_column :
  (forall s1 s2 h,
     same_but_json s1 s2 ->
     (forall lazy,
        result (load _UNPACK_TYPES lazy h s1) = result (load _UNPACK_TYPES lazy h s2)
        /\ handle (load _UNPACK_TYPES lazy h s1) = handle (load _UNPACK_TYPES lazy h s2))
     /\ (forall name multi lazy db_cursor caching,
           result (get_dataset _UNPACK_TYPES name multi lazy db_cursor caching h s1)
           = result (get_dataset _UNPACK_TYPES name multi lazy db_cursor caching h s2)
           /\ handle (get_dataset _UNPACK_TYPES name multi lazy db_cursor caching h s1)
              = handle (get_dataset _UNPACK_TYPES name multi lazy db_cursor caching h s2)))
  /\ (forall L s,
        result (save json_column true L s) = inr tt ->
        result (save json_column false L s) = inr tt ->
        same_but_json (stored (save json_column true L s))
                      (stored (save json_column false L s))
        /\ handle (save json_column true L s) = handle (save json_column false L s))
  /\ (forall h s name multi db_cursor caching d,
        let o := get_dataset _UNPACK_TYPES name multi false db_cursor caching h s in
        result o = inr d -> executed o <> [] ->
        DatabaseData.name d = name /\ DatabaseData.multi_id d = multi
        /\ decoded_from_ValueArray _UNPACK_TYPES s (_pk h) d)
  /\ (forall h s,
        let o := load _UNPACK_TYPES false h s in
        result o = inr tt ->
        Forall (decoded_from_ValueArray _UNPACK_TYPES s (_pk h)) (_data_list (handle o))).
Proof.
  split; [|split; [|split]].
  - intros s1 s2 h Hs. split.
    + intros lazy. destruct (json_blind_load _UNPACK_TYPES lazy h Hs) as (Hr & Hh & _).
      split; assumption.
    + intros name multi lazy db_cursor caching.
      destruct (json_blind_get_dataset _UNPACK_TYPES name multi lazy db_cursor caching h Hs)
        as (Hr & Hh & _).
      split; assumption.
  - intros L s. apply saves_same_but_json.
  - intros h s name multi db_cursor caching d o. subst o.
    assert (Hfetch : fetch_dataset _UNPACK_TYPES name multi false (_pk h) s = inr d ->
                     DatabaseData.name d = name /\ DatabaseData.multi_id d = multi
                     /\ decoded_from_ValueArray _UNPACK_TYPES s (_pk h) d).
    { intros Hd. split; [|split; [|apply (fetch_dataset_packed _ _ _ _ Hd)]];
        unfold fetch_dataset in Hd;
        destruct (select_dataset name multi (_pk h) s); try discriminate;
        destruct (decode_fields _ _ _) as [e|[fields data]]; try discriminate;
        injection Hd as <-; reflexivity. }
    destruct (find_index (same_dataset name multi) (_data_list h)) as [[i existing]|] eqn:Hfind.
    + destruct caching.
      * rewrite (get_dataset_cached _UNPACK_TYPES _ _ false db_cursor _ s Hfind).
        cbn [orb]. destruct (truthy (DatabaseData.data existing)).
        -- cbn [executed]. intros _ Hread. exfalso. apply Hread. reflexivity.
        -- destruct (fetch_dataset _UNPACK_TYPES name multi false (_pk h) s) as [e|d'] eqn:Hd;
             cbn [result]; [discriminate|].
           intros [= <-] _. apply Hfetch. reflexivity.
      * rewrite get_dataset_real_fetch by (left; reflexivity).
        cbn [result]. intros Hd _. apply Hfetch, Hd.
    + rewrite get_dataset_real_fetch by (right; exact Hfind).
      cbn [result]. intros Hd _. apply Hfetch, Hd.
  - intros h s o Hres. subst o.
    destruct (load_spec _UNPACK_TYPES false h s) as [_ Hload].
    rewrite Hres in Hload. destruct Hload as (_ & r & l & _ & Hl & ->).
    cbn [_data_list loaded]. unfold stored_datasets in Hl.
    apply comprehension_each in Hl.
    induction Hl as [|[name multi] d keys l Hd _ IH]; constructor; [|exact IH].
    apply (fetch_dataset_packed _ _ _ _ Hd).
Qed.

End saves_and_json.

Lemma reads_ignore_json_column_witness :
  let with_json := save Examples.json_column true Examples.sample_log Examples.empty_store in
  let without := save Examples.json_column false Examples.sample_log Examples.empty_store in
  let h := Examples.named 1 in
  let o := get_dataset Examples.unpack_types "imu" 1 false false true h (stored with_json) in
  result with_json = inr tt /\ result without = inr tt
  /\ stored with_json <> stored without
  /\ handle (load Examples.unpack_types false h (stored with_json))
     = handle (load Examples.unpack_types false h (stored without))
  /\ result o
     = result (get_dataset Examples.unpack_types "imu" 1 false false true h (stored without))
  /\ result o = inr (Examples.imu 1 x09%byte)
  /\ decoded_from_ValueArray Examples.unpack_types (stored with_json) (Some 1)
       (Examples.imu 1 x09%byte)
  /\ Forall (decoded_from_ValueArray Examples.unpack_types (stored with_json) (Some 1))
       (_data_list (handle (load Examples.unpack_types false h (stored with_json)))).
Proof.
  cbv zeta.
  assert (H1 : result (save Examples.json_column true Examples.sample_log Examples.empty_store)
               = inr tt) by (vm_compute; reflexivity).
  assert (H2 : result (save Examples.json_column false Examples.sample_log Examples.empty_store)
               = inr tt) by (vm_compute; reflexivity).
  destruct (reads_ignore_json_column Examples.unpack_types Examples.json_column)
    as (Hblind & Hsaves & Hpacked & Hloaded).
  destruct (Hsaves Examples.sample_log Examples.empty_store H1 H2) as [Hsame _].
  destruct (Hblind _ _ (Examples.named 1) Hsame) as [Hload Hget].
  assert (Hres : result (get_dataset Examples.unpack_types "imu" 1 false false true
                           (Examples.named 1)
                           (stored (save Examples.json_column true Examples.sample_log
                                      Examples.empty_store)))
                 = inr (Examples.imu 1 x09%byte)) by (vm_compute; reflexivity).
  split; [exact H1|]. split; [exact H2|].
  split; [vm_compute; discriminate|].
  split; [apply Hload|]. split; [apply Hget|]. split; [exact Hres|].
  split.
  - apply (Hpacked (Examples.named 1) _ "imu"%string 1 false true _ Hres).
    vm_compute. discriminate.
  - apply (Hloaded (Examples.named 1)). vm_compute. reflexivity.
Defined.

(** ** The round trip: save, then load *)

(** *** Rows written last, read first *)

Lemma filter_old_new {A} (p : A -> bool) (old new : list A) :
  (forall x, In x old -> p x = false) -> (forall x, In x new -> p x = true) ->
  filter p (old ++ new) = new.
Proof.
  intros Hold Hnew. rewrite filter_app, (filter_none p old Hold), (filter_all p new Hnew).
  reflexivity.
Qed.

Lemma find_old_new {A} (p : A -> bool) (old new : list A) :
  (forall x, In x old -> p x = false) -> find p (old ++ new) = find p new.
Proof.
  induction old as [|a old IH]; intros Hold; cbn [app find]; [reflexivity|].
  rewrite (Hold a) by (left; reflexivity). apply IH.
  intros x Hx. apply Hold. right. exact Hx.
Qed.


Lemma sql_eq_old (ids : list Z) (x : Z) :
  In x ids -> sql_eq x (Some (next_rowid ids)) = false.
Proof.
  intros Hx. apply next_rowid_fresh in Hx. cbn [sql_eq]. apply Z.eqb_neq. lia.
Qed.

Lemma sql_eq_same (x : Z) : sql_eq x (Some x) = true.
Proof. cbn [sql_eq]. apply Z.eqb_refl. Qed.

(** The rows of a query on the log that was saved last: those it wrote. *)
Lemma select_of_new_log {R} (fk : R -> Z) (ids : list Z) (old new : list R) :
  (forall r, In r old -> In (fk r) ids) ->
  (forall r, In r new -> fk r = next_rowid ids) ->
  filter (fun r => sql_eq (fk r) (Some (next_rowid ids))) (old ++ new) = new.
Proof.
  intros Hold Hnew. apply filter_old_new.
  - intros r Hr. apply sql_eq_old, Hold, Hr.
  - intros r Hr. rewrite (Hnew r Hr). apply sql_eq_same.
Qed.

(** The rows of the children of one parent row that was written last. *)
Lemma select_of_new_parent {R} (fk : R -> Z) (ids : list Z) (old new : list R) (id : Z) :
  (forall r, In r old -> In (fk r) ids) ->
  next_rowid ids <= id ->
  filter (fun r => fk r =? id) (old ++ new) = filter (fun r => fk r =? id) new.
Proof.
  intros Hold Hid. rewrite filter_app, filter_none; [reflexivity|].
  intros r Hr. apply Hold, next_rowid_fresh in Hr. apply Z.eqb_neq. lia.
Qed.

(** *** Enumerations *)



(** *** Flags *)


Lemma chr_code_points (flags : list Z) :
  Forall (fun n => 0 <= n < 0x110000) flags -> comprehension chr flags = inr flags.
Proof.
  induction 1 as [|n flags Hn _ IH]; cbn [comprehension]; [reflexivity|].
  unfold chr at 1.
  replace ((n <? - 2 ^ 31) || (2 ^ 31 <=? n)) with false
    by (symmetry; apply orb_false_iff; split; [apply Z.ltb_ge|apply Z.leb_gt]; lia).
  replace ((0 <=? n) && (n <? 0x110000)) with true.
  - rewrite IH. reflexivity.
  - symmetry. apply andb_true_iff. split; [apply Z.leb_le|apply Z.ltb_lt]; lia.
Qed.

(** *** Dicts filled key by key *)

Section dict_round_trip.

Context {K V : Type} `{Key K}.







Lemma dict_get_item (d : dict K V) (k : K) (v : V) :
  NoDup (keys d) -> In (k, v) d -> dict_get k d = Some v.
Proof.
  induction d as [|[k' w] d IH]; cbn [keys map fst dict_get In]; intros Hnd Hin; [contradiction|].
  apply NoDup_cons_iff in Hnd. destruct Hnd as [Hk Hnd].
  destruct Hin as [[= -> ->]|Hin].
  - rewrite key_eqb_refl. reflexivity.
  - rewrite key_eqb_neq; [apply IH; assumption|].
    intros ->. apply Hk. change k' with (fst (k', v)). apply in_map. exact Hin.
Qed.


Lemma keys_dict_set (k k' : K) (v : V) (d : dict K V) :
  In k' (keys (dict_set k v d)) -> k' = k \/ In k' (keys d).
Proof.
  induction d as [|[k0 w] d IH]; cbn [dict_set keys map fst In].
  - intros [<-|[]]. left. reflexivity.
  - destruct (key_eqb k k0) eqn:Heq; cbn [keys map fst In].
    + intros Hin. right. exact Hin.
    + intros [<-|Hin]; [right; left; reflexivity|].
      destruct (IH Hin) as [->|Hin']; [left; reflexivity|right; right; exact Hin'].
Qed.

End dict_round_trip.

(** *** Dicts of lists, filled item by item *)




Lemma new_keys_after {K V} (k : K) (v : V) (acc d : dict K V) :
  ~ In k (keys d) ->
  (forall k', In k' (k :: keys d) -> ~ In k' (keys acc)) ->
  forall k', In k' (keys d) -> ~ In k' (keys (acc ++ [(k, v)])).
Proof.
  intros Hk Hnew k' Hk'. unfold keys. rewrite map_app. cbn [map fst].
  intros Hin. apply in_app_or in Hin. destruct Hin as [Hin|[Heq|[]]].
  - revert Hin. apply Hnew. right. exact Hk'.
  - cbn [fst] in Heq. subst k'. exact (Hk Hk').
Qed.








(** A value that the column keeps as it is. *)
Lemma exact_value_kept v : exact_value v = true -> kept v = v.
Proof.
  destruct v; cbn [exact_value kept]; try reflexivity.
  intros Hnan. apply negb_true_iff in Hnan. rewrite Hnan. reflexivity.
Qed.

Lemma exact_items_kept {K} (d : list (K * pyvalue)) :
  forallb (fun item => exact_value (snd item)) d = true ->
  Forall (fun item => kept (snd item) = snd item) d.
Proof.
  intros Hall. apply Forall_forall. intros item Hitem.
  apply exact_value_kept. rewrite forallb_forall in Hall. apply (Hall item Hitem).
Qed.



(** *** Rows under a parent row *)

Lemma filter_middle {A} (p : A -> bool) (old new rest : list A) :
  (forall x, In x old -> p x = false) ->
  (forall x, In x new -> p x = true) ->
  (forall x, In x rest -> p x = false) ->
  filter p (old ++ new ++ rest) = new.
Proof.
  intros Hold Hnew Hrest.
  rewrite !filter_app, (filter_none p old Hold), (filter_all p new Hnew),
    (filter_none p rest Hrest).
  apply app_nil_r.
Qed.


Lemma format_field_rows_ids d :
  forall next r, In r (format_field_rows next d) -> next <= ULogMessageFormatField.MessageId r.
Proof.
  induction d as [|[name f] d IH]; intros next r; cbn [format_field_rows]; [intros []|].
  intros Hin. apply in_app_or in Hin. destruct Hin as [Hin|Hin].
  - unfold format_field_rows_of in Hin. apply in_map_iff in Hin.
    destruct Hin as ([[t a] n] & <- & _). cbn. lia.
  - apply IH in Hin. lia.
Qed.

(** The join of the formats written last with their fields. *)
Lemma join_format_fields pk d :
  forall next (old table : list ULogMessageFormatField.row),
    table = old ++ format_field_rows next d ->
    (forall r, In r old -> ULogMessageFormatField.MessageId r < next) ->
    flat_map (fun msg =>
        map (fun field => (ULogMessageFormat.Name msg,
                           (ULogMessageFormatField.FieldType field,
                            ULogMessageFormatField.ArraySize field,
                            ULogMessageFormatField.Name field)))
            (filter (fun field => ULogMessageFormatField.MessageId field
                                  =? ULogMessageFormat.Id msg) table))
      (format_rows pk next d)
    = flat_map (fun item => map (pair (fst item)) (DatabaseMessageFormat.fields (snd item))) d.
Proof.
  induction d as [|[name f] d IH]; intros next old table Htable Hold;
    cbn [format_rows format_field_rows flat_map]; [reflexivity|].
  cbn [format_field_rows] in Htable.
  cbn [format_row ULogMessageFormat.Id ULogMessageFormat.Name fst snd]. f_equal.
  - rewrite Htable, filter_middle.
    + unfold format_field_rows_of. rewrite map_map. apply map_ext.
      intros [[t a] n]. reflexivity.
    + intros r Hr. apply Hold in Hr. apply Z.eqb_neq. lia.
    + intros r Hr. unfold format_field_rows_of in Hr. apply in_map_iff in Hr.
      destruct Hr as ([[t a] n] & <- & _). apply Z.eqb_refl.
    + intros r Hr. apply format_field_rows_ids in Hr. apply Z.eqb_neq. lia.
  - apply IH with (old := old ++ format_field_rows_of next f).
    + rewrite Htable, app_assoc. reflexivity.
    + intros r Hr. apply in_app_or in Hr. destruct Hr as [Hr|Hr].
      * apply Hold in Hr. lia.
      * unfold format_field_rows_of in Hr. apply in_map_iff in Hr.
        destruct Hr as ([[t a] n] & <- & _). cbn. lia.
Qed.









(** *** Datasets and their fields *)



Section dataset_round_trip.

Variable _UNPACK_TYPES : dict string (string * nat * dtype).
Variable json_column : ndarray -> ndarray -> option string.
Variable append_json : bool.

Lemma columns_keys fields data :
  Forall2 (column_of_field _UNPACK_TYPES) fields data -> keys data = map field_name fields.
Proof.
  induction 1 as [|f col fields data (Hname & _) _ IH]; cbn [keys map]; [reflexivity|].
  rewrite Hname. f_equal. exact IH.
Qed.

(** What the row of a field holds. *)
Lemma field_row_holds dataset id field r :
  field_row json_column append_json dataset id field = inr r ->
  exists values,
    dict_get (field_name field) (DatabaseData.data dataset) = Some values
    /\ ULogField.TopicName r = field_name field
    /\ ULogField.DataType r = type_str field
    /\ ULogField.ValueArray r = arr_buffer values
    /\ ULogField.DatasetId r = id.
Proof.
  unfold field_row, subscript.
  destruct (dict_get (field_name field) (DatabaseData.data dataset)) as [values|];
    [|discriminate].
  destruct (if append_json then _ else _) as [e|values_json]; [discriminate|].
  intros [= <-]. exists values. repeat split.
Qed.

(** The row of a field of a decoded dataset can be written. *)
Lemma field_row_written dataset id field :
  decoded_dataset _UNPACK_TYPES dataset ->
  (append_json = true ->
   exists timestamps,
     dict_get "timestamp"%string (DatabaseData.data dataset) = Some timestamps
     /\ Forall (fun column => json_column timestamps (snd column) <> None)
               (DatabaseData.data dataset)) ->
  In field (DatabaseData.field_data dataset) ->
  exists r, field_row json_column append_json dataset id field = inr r.
Proof.
  intros [Hcolumns Hnames] Hjson Hfield.
  assert (Hkeys : NoDup (keys (DatabaseData.data dataset)))
    by (rewrite (columns_keys Hcolumns); exact Hnames).
  assert (Hcol : exists column, In column (DatabaseData.data dataset)
                                /\ fst column = field_name field).
  { clear -Hcolumns Hfield. induction Hcolumns as [|f col fields data (Hname & _) _ IH];
      [contradiction|].
    destruct Hfield as [->|Hfield].
    - exists col. split; [left; reflexivity|exact Hname].
    - destruct (IH Hfield) as (column & Hin & Hc). exists column. split; [right|]; assumption. }
  destruct Hcol as ([k values] & Hin & Hk). cbn [fst] in Hk. subst k.
  unfold field_row, subscript. rewrite (dict_get_item _ _ _ Hkeys Hin).
  destruct append_json; [|eauto].
  destruct (Hjson eq_refl) as (timestamps & -> & Hall).
  rewrite Forall_forall in Hall. specialize (Hall _ Hin). cbn [snd] in Hall.
  destruct (json_column timestamps values); [eauto|contradiction].
Qed.

Lemma field_rows_written l :
  Forall (decoded_dataset _UNPACK_TYPES) l ->
  (append_json = true ->
   Forall (fun d => exists timestamps,
             dict_get "timestamp"%string (DatabaseData.data d) = Some timestamps
             /\ Forall (fun column => json_column timestamps (snd column) <> None)
                       (DatabaseData.data d)) l) ->
  forall next, exists rows, field_rows json_column append_json next l = inr rows.
Proof.
  induction 1 as [|d l Hd _ IH]; intros Hjson next; cbn [field_rows]; [eauto|].
  destruct (@comprehension_returns _ _ (field_row json_column append_json d next)
              (DatabaseData.field_data d)) as [rows ->].
  { intros f Hf. apply field_row_written; [exact Hd| |exact Hf].
    intros Haj. specialize (Hjson Haj). apply Forall_cons_iff in Hjson. apply Hjson. }
  destruct (IH (fun Haj => proj2 (proj1 (Forall_cons_iff _ _ _) (Hjson Haj))) (next + 1))
    as [rows' ->].
  eauto.
Qed.

Lemma field_rows_ids l :
  forall next rows r,
    field_rows json_column append_json next l = inr rows -> In r rows ->
    next <= ULogField.DatasetId r.
Proof.
  induction l as [|d l IH]; intros next rows r; cbn [field_rows].
  - intros [= <-] [].
  - destruct (comprehension _ (DatabaseData.field_data d)) as [e|rows0] eqn:H0; [discriminate|].
    destruct (field_rows json_column append_json (next + 1) l) as [e|rows'] eqn:H';
      [discriminate|].
    intros [= <-] Hin. apply in_app_or in Hin. destruct Hin as [Hin|Hin].
    + apply comprehension_each in H0.
      clear -H0 Hin. induction H0 as [|f r0 fs rs Hf _ IHf]; [contradiction|].
      destruct Hin as [<-|Hin]; [|exact (IHf Hin)].
      apply field_row_holds in Hf. destruct Hf as (_ & _ & _ & _ & _ & ->). lia.
    + specialize (IH _ _ _ H' Hin). lia.
Qed.

(** The field rows of a decoded dataset decode to its fields and its data. *)
Lemma decode_saved_fields dataset id :
  NoDup (keys (DatabaseData.data dataset)) ->
  forall fields columns,
    Forall2 (column_of_field _UNPACK_TYPES) fields columns ->
    forall rows acc,
      Forall2 (fun f r => field_row json_column append_json dataset id f = inr r) fields rows ->
      (forall column, In column columns -> In column (DatabaseData.data dataset)) ->
      NoDup (keys columns) ->
      (forall k, In k (keys columns) -> ~ In k (keys (snd acc))) ->
      decode_fields _UNPACK_TYPES rows acc = inr (fst acc ++ fields, snd acc ++ columns).
Proof.
  intros Hkeys fields columns Hcolumns.
  induction Hcolumns as [|f [k values] fields columns (Hname & (letter & size & Htype) & Hsize) _ IH];
    intros rows [accf accd] Hrows Hin Hnd Hnew; inversion Hrows as [|? r ? rows' Hr Hrows']; subst;
    cbn [decode_fields fst snd].
  - rewrite !app_nil_r. reflexivity.
  - cbn [fst snd] in *. subst k.
    apply field_row_holds in Hr.
    destruct Hr as (values' & Hget & Htopic & Hdatatype & Harray & _).
    rewrite (dict_get_item _ _ _ Hkeys (Hin _ (or_introl eq_refl))) in Hget.
    injection Hget as <-.
    cbn [keys map fst] in Hnd, Hnew. apply NoDup_cons_iff in Hnd. destruct Hnd as [Hk Hnd].
    unfold decode_field, subscript. rewrite Hdatatype, Htype. cbn [snd fst].
    unfold frombuffer. rewrite Harray.
    replace (_ =? 0)%nat with true by (symmetry; apply Nat.eqb_eq; exact Hsize).
    rewrite Htopic, dict_set_new by (apply Hnew; left; reflexivity).
    rewrite (IH rows' _ Hrows'); cbn [fst snd].
    + rewrite <- !app_assoc. destruct f, values. reflexivity.
    + intros column Hc. apply Hin. right. exact Hc.
    + exact Hnd.
    + apply new_keys_after; assumption.
Qed.



(** Each dataset written last is fetched as it was. *)
Lemma fetch_saved_datasets (id : Z) (saved : Store) l :
  forall next oldD oldF rows,
    ULogDataset_rows saved = oldD ++ dataset_rows id next l ->
    ULogField_rows saved = oldF ++ rows ->
    field_rows json_column append_json next l = inr rows ->
    (forall r d, In r oldD -> In d l ->
       (ULogDataset.DatasetName r, ULogDataset.MultiId r) = dataset_key d ->
       ULogDataset.ULogId r <> id) ->
    (forall r, In r oldF -> ULogField.DatasetId r < next) ->
    NoDup (map dataset_key l) ->
    Forall (decoded_dataset _UNPACK_TYPES) l ->
    forall d, In d l ->
      fetch_dataset _UNPACK_TYPES (DatabaseData.name d) (DatabaseData.multi_id d) false
                    (Some id) saved
      = inr d.
Proof.
  induction l as [|d0 l IH]; intros next oldD oldF rows HD HF Hrows HoldD HoldF Hnd Hdec d Hd;
    [contradiction|].
  cbn [dataset_rows field_rows] in HD, Hrows.
  destruct (comprehension _ (DatabaseData.field_data d0)) as [e|rows0] eqn:H0; [discriminate|].
  destruct (field_rows json_column append_json (next + 1) l) as [e|rows'] eqn:H';
    [discriminate|].
  injection Hrows as <-.
  cbn [map] in Hnd. apply NoDup_cons_iff in Hnd. destruct Hnd as [Hkey0 Hnd].
  apply Forall_cons_iff in Hdec. destruct Hdec as [Hdec0 Hdec].
  destruct Hd as [<-|Hd].
  - unfold fetch_dataset, select_dataset, select_fields. rewrite HD, HF.
    rewrite find_old_new.
    + cbn [find dataset_row ULogDataset.DatasetName ULogDataset.MultiId ULogDataset.ULogId
           ULogDataset.Id ULogDataset.MessageId ULogDataset.TimestampIndex].
      rewrite String.eqb_refl, Z.eqb_refl, sql_eq_same.
      cbn [andb dataset_row ULogDataset.Id ULogDataset.MessageId ULogDataset.TimestampIndex].
      rewrite filter_middle.
      * destruct Hdec0 as [Hcolumns Hnames].
        assert (Hkeys : NoDup (keys (DatabaseData.data d0)))
          by (rewrite (columns_keys Hcolumns); exact Hnames).
        rewrite (@decode_saved_fields d0 next Hkeys _ _ Hcolumns rows0 ([], []));
          [destruct d0; reflexivity| |intros column Hc; exact Hc|exact Hkeys|intros k _ []].
        apply comprehension_each. exact H0.
      * intros r Hr. apply HoldF in Hr. apply Z.eqb_neq. lia.
      * intros r Hr. apply comprehension_each in H0.
        clear -H0 Hr. induction H0 as [|f r0 fs rs Hf _ IHf]; [contradiction|].
        destruct Hr as [<-|Hr]; [|exact (IHf Hr)].
        apply field_row_holds in Hf. destruct Hf as (_ & _ & _ & _ & _ & ->).
        apply Z.eqb_refl.
      * intros r Hr. apply (@field_rows_ids _ _ _ _ H') in Hr. apply Z.eqb_neq. lia.
    + intros r Hr.
      destruct (String.eqb (ULogDataset.DatasetName r) (DatabaseData.name d0)) eqn:Hname;
        [|reflexivity].
      destruct (ULogDataset.MultiId r =? DatabaseData.multi_id d0) eqn:Hmulti; [|reflexivity].
      cbn [andb sql_eq]. apply Z.eqb_neq.
      apply (HoldD r d0 Hr (or_introl eq_refl)).
      apply String.eqb_eq in Hname. apply Z.eqb_eq in Hmulti.
      unfold dataset_key. rewrite Hname, Hmulti. reflexivity.
  - apply IH with (next := next + 1) (oldD := oldD ++ [dataset_row id next d0])
                  (oldF := oldF ++ rows0) (rows := rows').
    + rewrite HD, <- app_assoc. reflexivity.
    + rewrite HF, app_assoc. reflexivity.
    + exact H'.
    + intros r d' Hr Hd' Hsame. apply in_app_or in Hr. destruct Hr as [Hr|[<-|[]]].
      * apply (HoldD r d' Hr (or_intror Hd') Hsame).
      * exfalso. apply Hkey0. cbn in Hsame. change (dataset_key d0 = dataset_key d') in Hsame.
        rewrite Hsame. apply in_map. exact Hd'.
    + intros r Hr. apply in_app_or in Hr. destruct Hr as [Hr|Hr].
      * apply HoldF in Hr. lia.
      * apply comprehension_each in H0.
        clear -H0 Hr. induction H0 as [|f r0 fs rs Hf _ IHf]; [contradiction|].
        destruct Hr as [<-|Hr]; [|exact (IHf Hr)].
        apply field_row_holds in Hf. destruct Hf as (_ & _ & _ & _ & _ & ->). lia.
    + exact Hnd.
    + exact Hdec.
    + exact Hd.
Qed.

End dataset_round_trip.

(** *** The tables of a log, one by one *)

Section saved_log.

Variable _UNPACK_TYPES : dict string (string * nat * dtype).
Variable json_column : ndarray -> ndarray -> option string.
Variable append_json : bool.
Variables (h : DatabaseULog) (s : Store) (c : computed_rows).

Hypothesis intact : store_intact s.
Hypothesis decoded : decoded_log _UNPACK_TYPES h.
Hypothesis exact : kept_exactly h.
Hypothesis computed : rows_computed json_column append_json h s c.

Local Abbreviation pk := (next_rowid (map ULog.Id (ULog_rows s))).
Local Abbreviation saved := (with_rows_of h c s).

Lemma saved_record :
  select_record (Some pk) saved = Some (ulog_row h pk (compat_text c) (incompat_text c)).
Proof.
  unfold select_record, with_rows_of. cbn [ULog_rows].
  rewrite find_old_new.
  - cbn [find ulog_row ULog.Id]. rewrite sql_eq_same. reflexivity.
  - intros r Hr. apply sql_eq_old, in_map, Hr.
Qed.

Lemma saved_persisted : persisted_test (Some pk) saved = true.
Proof.
  unfold persisted_test, with_rows_of. cbn [ULog_rows].
  rewrite select_of_new_log with (fk := ULog.Id) (ids := map ULog.Id (ULog_rows s)).
  - reflexivity.
  - intros r Hr. apply in_map, Hr.
  - intros r [<-|[]]. reflexivity.
Qed.








Lemma format_rows_owner (id : Z) d :
  forall next r, In r (format_rows id next d) -> ULogMessageFormat.ULogId r = id.
Proof.
  induction d as [|[name f] d IH]; intros next r; cbn [format_rows]; [intros []|].
  intros [<-|Hr]; [reflexivity|exact (IH _ _ Hr)].
Qed.

Lemma saved_format_rows :
  select_format_fields (Some pk) saved
  = flat_map (fun item => map (pair (fst item)) (DatabaseMessageFormat.fields (snd item)))
             (_message_formats h).
Proof.
  unfold select_format_fields, with_rows_of.
  cbn [ULogMessageFormat_rows ULogMessageFormatField_rows].
  rewrite select_of_new_log
    with (fk := ULogMessageFormat.ULogId) (ids := map ULog.Id (ULog_rows s)).
  - apply join_format_fields with (old := ULogMessageFormatField_rows s).
    + reflexivity.
    + intros r Hr. apply next_rowid_fresh, (fk_format_fields intact), Hr.
  - apply intact.
  - intros r Hr. exact (format_rows_owner _ _ _ _ Hr).
Qed.














End saved_log.

(** *** The rows of a decoded log can be written *)

Lemma dict_get_known {K V} `{Key K} (k : K) (d : dict K V) :
  In k (keys d) -> exists v, dict_get k d = Some v.
Proof.
  induction d as [|[k' v] d IH]; cbn [keys map fst In dict_get]; [intros []|].
  intros Hin. destruct (key_eqb k k') eqn:Heq; [eauto|].
  destruct Hin as [->|Hin]; [rewrite key_eqb_refl in Heq; discriminate|exact (IH Hin)].
Qed.

Lemma multiple_rows_written types (id : Z) d :
  (forall k, In k (keys d) -> exists t, dict_get k types = Some t) ->
  forall next, exists rows, multiple_rows types id next d = inr rows.
Proof.
  induction d as [|[key lists] d IH]; intros Htypes next; cbn [multiple_rows]; [eauto|].
  unfold subscript. destruct (Htypes key (or_introl eq_refl)) as [t ->].
  destruct (IH (fun k Hk => Htypes k (or_intror Hk)) (next + 1)) as [rows ->]. eauto.
Qed.

Section round_trip.

Variable _UNPACK_TYPES : dict string (string * nat * dtype).
Variable json_column : ndarray -> ndarray -> option string.

Lemma rows_of_decoded_log append_json h s :
  decoded_log _UNPACK_TYPES h -> json_written json_column append_json h ->
  exists c, rows_computed json_column append_json h s c.
Proof.
  intros Hdec Hjson.
  destruct (@field_rows_written _UNPACK_TYPES json_column append_json (_data_list h)
              (datasets_decoded Hdec) Hjson
              (next_rowid (map ULogDataset.Id (ULogDataset_rows s)))) as [frows Hfrows].
  destruct (@comprehension_returns _ _
              (info_row (_msg_info_dict_types h) (next_rowid (map ULog.Id (ULog_rows s))))
              (_msg_info_dict h)) as [irows Hirows].
  { intros [key value] Hin. unfold info_row, subscript.
    destruct (@dict_get_known _ _ _ key (_msg_info_dict_types h)) as [t ->]; [|eauto].
    rewrite (info_typed Hdec). change key with (fst (key, value)). apply in_map. exact Hin. }
  destruct (@multiple_rows_written (_msg_info_multiple_dict_types h)
              (next_rowid (map ULog.Id (ULog_rows s))) (_msg_info_multiple_dict h))
    with (next := next_rowid (map ULogMessageInfoMultiple.Id (ULogMessageInfoMultiple_rows s)))
    as [mrows Hmrows].
  { intros k Hk. apply dict_get_known. rewrite (multiple_typed Hdec). exact Hk. }
  exists {| compat_text := _compat_flags h; incompat_text := _incompat_flags h;
            the_field_rows := frows; the_info_rows := irows; the_multiple_rows := mrows |}.
  unfold rows_computed. cbn [compat_text incompat_text the_field_rows the_info_rows
                             the_multiple_rows].
  split; [apply chr_code_points, (compat_code_points Hdec)|].
  split; [apply chr_code_points, (incompat_code_points Hdec)|].
  split; [exact Hfrows|]. split; [exact Hirows|exact Hmrows].
Qed.

Lemma forallb_weaken {A} (p q : A -> bool) (l : list A) :
  (forall x, In x l -> p x = true -> q x = true) ->
  forallb p l = true -> forallb q l = true.
Proof.
  intros Hpq Hp. rewrite forallb_forall in *. intros x Hx. apply (Hpq x Hx), Hp, Hx.
Qed.

Lemma values_pass_weaken (int_ok int_ok' : Z -> bool) (value_ok value_ok' : pyvalue -> bool) h :
  (forall z, int_ok z = true -> int_ok' z = true) ->
  (forall v, value_ok v = true -> value_ok' v = true) ->
  values_pass int_ok value_ok h -> values_pass int_ok' value_ok' h.
Proof.
  intros Hint Hvalue [H1 H2 H3 H4 H5 H6 H7 H8 H9 H10 H11 H12].
  assert (Hboth : forall z v, int_ok z && value_ok v = true -> int_ok' z && value_ok' v = true).
  { intros z v Hzv. apply andb_true_iff in Hzv. apply andb_true_iff.
    split; [apply Hint|apply Hvalue]; apply Hzv. }
  constructor.
  - revert H1. apply forallb_weaken. intros z _. apply Hint.
  - revert H2. apply forallb_weaken. intros z _. apply Hint.
  - revert H3. apply forallb_weaken. intros d _. apply forallb_weaken. intros z _. apply Hint.
  - revert H4. apply forallb_weaken. intros d _. apply forallb_weaken. intros z _. apply Hint.
  - revert H5. apply forallb_weaken. intros m _. apply forallb_weaken. intros z _. apply Hint.
  - revert H6. apply forallb_weaken. intros item _. apply forallb_weaken. intros m _.
    apply forallb_weaken. intros z _. apply Hint.
  - revert H7. apply forallb_weaken. intros item _. apply forallb_weaken. intros field _.
    apply Hint.
  - revert H8. apply forallb_weaken. intros item _. apply Hvalue.
  - revert H9. apply forallb_weaken. intros item _. apply forallb_weaken. intros l _.
    apply forallb_weaken. intros v _. apply Hvalue.
  - revert H10. apply forallb_weaken. intros item _. apply Hvalue.
  - revert H11. apply forallb_weaken. intros item _. apply forallb_weaken. intros parameter _.
    apply Hboth.
  - revert H12. apply forallb_weaken. intros change _. apply Hboth.
Qed.

(** Numbers that every column keeps can be bound. *)
Lemma kept_exactly_binds h : kept_exactly h -> binds h.
Proof.
  intros [Hvalues Hflags]. split; [|exact Hflags].
  apply (@values_pass_weaken exact_integer sqlite_integer exact_value storable h);
    [| |exact Hvalues].
  - intros z Hz. unfold exact_integer in Hz. unfold sqlite_integer.
    apply andb_true_iff in Hz. destruct Hz as [Hlo Hhi].
    apply Z.leb_le in Hlo, Hhi. apply andb_true_iff.
    split; [apply Z.leb_le|apply Z.ltb_lt]; lia.
  - intros [z| | | |]; cbn [exact_value storable]; try reflexivity.
    intros Hz. unfold exact_integer in Hz. unfold sqlite_integer.
    apply andb_true_iff in Hz. destruct Hz as [Hlo Hhi].
    apply Z.leb_le in Hlo, Hhi. apply andb_true_iff.
    split; [apply Z.leb_le|apply Z.ltb_lt]; lia.
Qed.

(** Saving a decoded log whose digest is new and whose numbers every column
    keeps into an intact database returns. *)
Lemma save_decoded_log append_json h s :
  decoded_log _UNPACK_TYPES h -> kept_exactly h ->
  json_written json_column append_json h ->
  store_intact s -> _pk h = None ->
  (forall r, In r (ULog_rows s) -> ULog.SHA256Sum r <> _sha256sum h) ->
  exists c, rows_computed json_column append_json h s c
            /\ result (save json_column append_json h s) = inr tt
            /\ stored (save json_column append_json h s) = with_rows_of h c s
            /\ handle (save json_column append_json h s)
               = set_pk (Some (next_rowid (map ULog.Id (ULog_rows s)))) h.
Proof.
  intros Hdec Hexact Hjson Hintact Hpk Hsha.
  assert (H : wp never (save json_column append_json) h s
                 (fun _ h' s' =>
                    exists c, rows_computed json_column append_json h s c
                              /\ s' = with_rows_of h c s
                              /\ h' = set_pk (Some (next_rowid (map ULog.Id (ULog_rows s)))) h)).
  { apply wp_save.
    - intros id Hid. congruence.
    - intros r _ Hfind. apply find_some in Hfind. destruct Hfind as [Hin Heq].
      apply String.eqb_eq in Heq. exact (Hsha r Hin Heq).
    - intros _ _. right. unfold save_ok.
      split; [eapply rows_of_decoded_log; eassumption|].
      split; [apply kept_exactly_binds, Hexact|].
      split; [exact Hsha|].
      split.
      { intros r Hr. pose proof (next_rowid_fresh _ _ (fk_datasets Hintact r Hr)). lia. }
      split; [apply (datasets_once Hdec)|].
      split; [|apply (formats_once Hdec)].
      intros r Hr. pose proof (next_rowid_fresh _ _ (fk_formats Hintact r Hr)). lia.
    - intros c Hc. exists c. split; [exact Hc|split; reflexivity]. }
  unfold wp in H.
  destruct (result (save json_column append_json h s)) as [e|[]]; [contradiction|].
  destruct H as (c & Hc & Hs & Hh). exists c.
  split; [exact Hc|]. split; [reflexivity|]. split; [exact Hs|exact Hh].
Qed.


End round_trip.

Lemma second_log_decoded : decoded_log Examples.unpack_types Examples.second_log.
Proof.
  constructor; cbn.
  - repeat (apply Forall_cons; [lia|]). apply Forall_nil.
  - repeat (apply Forall_cons; [lia|]). apply Forall_nil.
  - repeat (apply Forall_cons; [|try apply Forall_nil]);
      (split; cbn;
       [ repeat (apply Forall2_cons; [|try apply Forall2_nil]);
           (split; [reflexivity|split; [eexists _, _; reflexivity|reflexivity]])
       | repeat (apply NoDup_cons; [cbn; intuition discriminate|]); apply NoDup_nil ]).
  - repeat (apply NoDup_cons; [cbn; intuition discriminate|]). apply NoDup_nil.
  - repeat (apply NoDup_cons; [cbn; intuition discriminate|]). apply NoDup_nil.
  - repeat (apply Forall_cons; [|try apply Forall_nil]).
    cbn. split; [discriminate|]. repeat (apply Forall_cons; [reflexivity|]). apply Forall_nil.
  - repeat (apply NoDup_cons; [cbn; intuition discriminate|]). apply NoDup_nil.
  - repeat (apply Forall_cons; [|try apply Forall_nil]).
    cbn. split; [reflexivity|discriminate].
  - repeat (apply NoDup_cons; [cbn; intuition discriminate|]). apply NoDup_nil.
  - reflexivity.
  - repeat (apply NoDup_cons; [cbn; intuition discriminate|]). apply NoDup_nil.
  - reflexivity.
  - repeat (apply NoDup_cons; [cbn; intuition discriminate|]). apply NoDup_nil.
  - repeat (apply NoDup_cons; [cbn; intuition discriminate|]). apply NoDup_nil.
  - repeat (apply Forall_cons; [|try apply Forall_nil]).
    cbn. split; [discriminate|].
    repeat (apply NoDup_cons; [cbn; intuition discriminate|]). apply NoDup_nil.
Qed.

Lemma second_log_exact : kept_exactly Examples.second_log.
Proof. split; [constructor; reflexivity|reflexivity]. Qed.

Lemma second_log_json_written :
  json_written Examples.json_column true Examples.second_log.
Proof.
  intros _. cbn.
  repeat (apply Forall_cons; [|try apply Forall_nil]);
    (eexists; split; [reflexivity|]; cbn;
     repeat (apply Forall_cons; [discriminate|]); apply Forall_nil).
Qed.

Lemma saved_store_intact : store_intact Examples.saved_store.
Proof.
  let v := eval vm_compute in Examples.saved_store in
  replace Examples.saved_store with v by (vm_compute; reflexivity).
  constructor; cbn; intros r Hr;
    repeat (destruct Hr as [<-|Hr]; [cbn; auto|]); destruct Hr.
Qed.


(** *** Formats without fields *)

Lemma add_format_field_keys row (d : dict string DatabaseMessageFormat.t) k :
  In k (keys (add_format_field row d)) -> k = fst row \/ In k (keys d).
Proof.
  destruct row as [name field]. unfold add_format_field.
  destruct (dict_get name d); apply keys_dict_set.
Qed.

Lemma fold_add_format_field_keys rows :
  forall (d : dict string DatabaseMessageFormat.t) k,
    In k (keys (fold_left (fun d row => add_format_field row d) rows d)) ->
    In k (map fst rows) \/ In k (keys d).
Proof.
  induction rows as [|row rows IH]; intros d k; cbn [fold_left map In]; [intros H; right; exact H|].
  intros Hin. destruct (IH _ _ Hin) as [Hrows|Hd]; [left; right; exact Hrows|].
  apply add_format_field_keys in Hd. destruct Hd as [->|Hd]; [left; left; reflexivity|].
  right. exact Hd.
Qed.

Section formats_without_fields.

Variable _UNPACK_TYPES : dict string (string * nat * dtype).
Variable json_column : ndarray -> ndarray -> option string.

(** A format that declares no field is written as a row of
    ULogMessageFormat without rows of ULogMessageFormatField; [load] reads
    the formats through the join of the two tables, so the format is not
    read back: the loaded log has no format of that name. *)
Theorem format_without_fields_not_read_back append_json lazy h s h0 name f :
  store_intact s ->
  NoDup (keys (_message_formats h)) ->
  In (name, f) (_message_formats h) ->
  DatabaseMessageFormat.fields f = [] ->
  let o := save json_column append_json h s in
  result o = inr tt ->
  new_handle h0 -> _pk h0 = _pk (handle o) ->
  result (load _UNPACK_TYPES lazy h0 (stored o)) = inr tt ->
  dict_get name (_message_formats (handle (load _UNPACK_TYPES lazy h0 (stored o)))) = None.
Proof.
  intros Hintact Hnd Hin Hfields o Hsave Hnew Hpk Hload. subst o.
  destruct (save_returns _ _ _ _ Hsave) as (c & _ & Hstored & Hhandle).
  rewrite Hhandle in Hpk. cbn [_pk set_pk] in Hpk. rewrite Hstored in Hload |- *.
  destruct (load_spec _UNPACK_TYPES lazy h0 (with_rows_of h c s)) as [_ Hspec].
  rewrite Hload in Hspec. destruct Hspec as (_ & r & l & _ & _ & ->).
  unfold loaded. cbn [_message_formats]. rewrite Hpk, (no_formats Hnew).
  rewrite (saved_format_rows h c Hintact).
  apply dict_get_not_in. intros Hkey.
  apply fold_add_format_field_keys in Hkey. destruct Hkey as [Hkey|[]].
  apply in_map_iff in Hkey. destruct Hkey as ([name' field] & Hname & Hrow).
  cbn [fst] in Hname. subst name'.
  apply in_flat_map in Hrow. destruct Hrow as ([name' f'] & Hitem & Hrow).
  cbn [fst snd] in Hrow. apply in_map_iff in Hrow. destruct Hrow as (field' & [= -> ->] & Hfield).
  assert (Hsame : Some f' = Some f).
  { rewrite <- (dict_get_item _ _ _ Hnd Hitem). apply dict_get_item; assumption. }
  injection Hsame as ->. rewrite Hfields in Hfield. exact Hfield.
Qed.

End formats_without_fields.

Lemma format_without_fields_not_read_back_witness :
  let o := save Examples.json_column false Examples.fieldless_log Examples.empty_store in
  let o' := load Examples.unpack_types false (Examples.named 1) (stored o) in
  result o = inr tt /\ result o' = inr tt
  /\ dict_contains "event"%string (_message_formats Examples.fieldless_log) = true
  /\ dict_get "event"%string (_message_formats (handle o')) = None.
Proof.
  assert (Hintact : store_intact Examples.empty_store) by (constructor; intros r []).
  assert (Hnd : NoDup (keys (_message_formats Examples.fieldless_log))).
  { cbn. repeat (apply NoDup_cons; [cbn; intuition discriminate|]). apply NoDup_nil. }
  assert (Hsave : result (save Examples.json_column false Examples.fieldless_log
                            Examples.empty_store) = inr tt) by (vm_compute; reflexivity).
  assert (Hload : result (load Examples.unpack_types false (Examples.named 1)
                            (stored (save Examples.json_column false Examples.fieldless_log
                                       Examples.empty_store))) = inr tt)
    by (vm_compute; reflexivity).
  cbv zeta. split; [exact Hsave|]. split; [exact Hload|]. split; [vm_compute; reflexivity|].
  apply (@format_without_fields_not_read_back Examples.unpack_types Examples.json_column
           false false Examples.fieldless_log Examples.empty_store (Examples.named 1)
           "event"%string
           {| DatabaseMessageFormat.name := "event"%string;
              DatabaseMessageFormat.fields := [] |}).
  - exact Hintact.
  - exact Hnd.
  - cbn. right. left. reflexivity.
  - reflexivity.
  - exact Hsave.
  - constructor; reflexivity.
  - vm_compute. reflexivity.
  - exact Hload.
Defined.

(** ** More about the methods *)

Section after_save.

Variable _UNPACK_TYPES : dict string (string * nat * dtype).
Variable json_column : ndarray -> ndarray -> option string.
Variable ULog__init__ : FileSystem -> option log_file_t -> Exn + DatabaseULog.

(** A [save] that returns started from a handle without primary key and
    from a database that did not hold the digest. *)
Lemma save_returns_from append_json h s :
  result (save json_column append_json h s) = inr tt ->
  _pk h = None
  /\ find (fun r => String.eqb (ULog.SHA256Sum r) (_sha256sum h)) (ULog_rows s) = None.
Proof.
  intros Hres.
  destruct (_pk h) as [id|] eqn:Hpk.
  { rewrite (save_already_persisted json_column append_json h s Hpk) in Hres. discriminate. }
  split; [reflexivity|].
  destruct (find _ (ULog_rows s)) as [r|] eqn:Hfind; [|reflexivity].
  rewrite (save_known_digest json_column append_json h s Hpk Hfind) in Hres. discriminate.
Qed.

(** The record of the log saved last is the only one with its primary key
    and the first one with its digest. *)
Lemma saved_log_rows append_json h s c :
  result (save json_column append_json h s) = inr tt ->
  let id := next_rowid (map ULog.Id (ULog_rows s)) in
  let row := ulog_row h id (compat_text c) (incompat_text c) in
  filter (fun r => sql_eq (ULog.Id r) (Some id)) (ULog_rows (with_rows_of h c s)) = [row]
  /\ find (fun r => String.eqb (ULog.SHA256Sum r) (_sha256sum h))
          (ULog_rows (with_rows_of h c s)) = Some row.
Proof.
  intros Hres id row. destruct (save_returns_from _ _ _ Hres) as [_ Hfind].
  unfold with_rows_of. cbn [ULog_rows]. fold id. fold row. split.
  - apply filter_old_new.
    + intros r Hr. apply sql_eq_old, in_map, Hr.
    + intros r [<-|[]]. apply sql_eq_same.
  - rewrite find_old_new.
    + cbn [find]. unfold row at 1. cbn [ulog_row ULog.SHA256Sum].
      rewrite String.eqb_refl. reflexivity.
    + intros r Hr. destruct (String.eqb (ULog.SHA256Sum r) (_sha256sum h)) eqn:Heq;
        [|reflexivity].
      pose proof (find_none _ _ Hfind r Hr) as Hnone. cbn beta in Hnone. congruence.
Qed.

(** After a [save] that returned, the log is found: [exists_in_db] holds of
    the primary key the handle received, and
    [primary_key_from_sha256sum] maps the digest of the log to that key. *)
Theorem saved_log_is_found append_json h s h' :
  let o := save json_column append_json h s in
  result o = inr tt ->
  exists id,
    _pk (handle o) = Some id
    /\ _sha256sum (handle o) = _sha256sum h
    /\ result (exists_in_db (Some id) h' (stored o)) = inr true
    /\ result (primary_key_from_sha256sum (_sha256sum h) h' (stored o)) = inr (Some id).
Proof.
  intros o Hres. subst o.
  destruct (save_returns _ _ _ _ Hres) as (c & _ & -> & ->).
  destruct (saved_log_rows _ _ _ c Hres) as [Hfilter Hfind].
  exists (next_rowid (map ULog.Id (ULog_rows s))).
  split; [reflexivity|]. split; [reflexivity|].
  rewrite exists_in_db_run, primary_key_from_sha256sum_run. cbn [result].
  rewrite Hfilter, Hfind. split; reflexivity.
Qed.

(** After a [save] that returned, the log is not saved a second time: the
    handle is refused as already in the database, before any statement; and
    a handle without primary key that carries the same digest is refused
    with the primary key of the first, which it takes; the database stays
    as the first [save] left it. *)
Theorem saved_log_is_not_saved_again append_json append_json' h s :
  let o := save json_column append_json h s in
  result o = inr tt ->
  save json_column append_json' (handle o) (stored o)
  = {| result := inl (KeyError AlreadyInDatabase); handle := handle o; stored := stored o;
       executed := [] |}
  /\ forall h2, _pk h2 = None -> _sha256sum h2 = _sha256sum h ->
       exists id,
         _pk (handle o) = Some id
         /\ result (save json_column append_json' h2 (stored o))
            = inl (KeyError (HashAlreadyInDatabase (_sha256sum h) id))
         /\ _pk (handle (save json_column append_json' h2 (stored o))) = Some id
         /\ stored (save json_column append_json' h2 (stored o)) = stored o.
Proof.
  intros o Hres. subst o.
  destruct (save_returns _ _ _ _ Hres) as (c & _ & -> & ->).
  destruct (saved_log_rows _ _ _ c Hres) as [_ Hfind].
  split.
  - apply save_already_persisted with (id := next_rowid (map ULog.Id (ULog_rows s))).
    reflexivity.
  - intros h2 Hpk Hsha. exists (next_rowid (map ULog.Id (ULog_rows s))).
    split; [reflexivity|]. rewrite <- Hsha in Hfind |- *.
    rewrite (save_known_digest json_column append_json' h2 _ Hpk Hfind).
    cbn [result handle stored _pk set_pk ulog_row ULog.Id]. repeat split.
Qed.

(** [load] on a handle whose primary key is [None] or names no record
    raises the KeyError of an unknown log after the one SELECT on ULog that
    counts the records; the handle and the database stay as they were. *)
Theorem load_unknown_key lazy h s :
  (forall id, _pk h = Some id -> forall r, In r (ULog_rows s) -> ULog.Id r <> id) ->
  load _UNPACK_TYPES lazy h s
  = {| result := inl (KeyError (NoULogWithId (_pk h))); handle := h; stored := s;
       executed := [SELECT [T_ULog]] |}.
Proof.
  intros Habsent. unfold load. rewrite bind_getattr.
  rewrite (bind_ok _ _ _ _ (a := false)).
  - rewrite exists_in_db_run. reflexivity.
  - rewrite exists_in_db_run. cbn [result]. rewrite filter_none; [reflexivity|].
    intros r Hr. destruct (_pk h) as [id|]; [|reflexivity].
    cbn [sql_eq]. apply Z.eqb_neq. exact (Habsent id eq_refl r Hr).
Qed.

(** The constructor leaves [lazy] in the handle, whether it read the log
    from the database or decoded it from a file; so [write_ulog] on a handle
    constructed with [lazy=True], the default, raises ValueError without
    calling the writer of [ULog], and with [lazy=False] it is that writer. *)
Theorem constructed_lazy_refuses_write_ulog
    (ULog_write_ulog : DatabaseULog -> log_file_t -> FileSystem -> Exn + FileSystem)
    fs primary_key log_file lazy s h s' statements target fs' :
  __init__ _UNPACK_TYPES ULog__init__ fs primary_key log_file lazy s
  = (Some (inr h), s', statements) ->
  write_ulog ULog_write_ulog h target fs'
  = if lazy then inl (ValueError WriteAfterLazyLoad) else ULog_write_ulog h target fs'.
Proof.
  intros Hinit.
  assert (Hlazy : _lazy_loaded h = lazy); [|unfold write_ulog; rewrite Hlazy; reflexivity].
  unfold __init__ in Hinit.
  destruct (user_version s <? SCHEMA_VERSION); [discriminate|].
  assert (Hthis : forall sha256sum log_file',
            calc_sha256sum fs log_file = (Some (inr sha256sum), log_file') ->
            match ULog__init__ fs log_file' with
            | inl e => (Some (inl e), s, [PRAGMA_user_version])
            | inr parent =>
                let this :=
                  set_pk primary_key
                    (set_lazy_loaded lazy
                       (match sha256sum with
                        | Some sha => set_sha256sum sha parent
                        | None => parent
                        end)) in
                match primary_key with
                | None => (Some (inr this), s, [PRAGMA_user_version])
                | Some _ =>
                    let o := load _UNPACK_TYPES lazy this s in
                    (Some (match result o with
                           | inl e => inl e
                           | inr _ => inr (handle o)
                           end),
                     stored o, [PRAGMA_user_version] ++ executed o)
                end
            end = (Some (inr h), s', statements) ->
            _lazy_loaded h = lazy).
  { intros sha256sum log_file' _.
    destruct (ULog__init__ fs log_file') as [e|parent]; [discriminate|].
    destruct primary_key as [id|].
    - cbv zeta.
      match goal with
      | |- context [load _UNPACK_TYPES lazy ?this s] =>
          destruct (load_spec _UNPACK_TYPES lazy this s) as [_ Hload];
          destruct (result (load _UNPACK_TYPES lazy this s)) as [e|u]; [discriminate|];
          destruct Hload as (_ & r & l & _ & _ & Hhandle);
          intros Heq;
          assert (Hh : handle (load _UNPACK_TYPES lazy this s) = h) by congruence
      end.
      rewrite <- Hh, Hhandle. reflexivity.
    - intros [= <- _ _]. destruct sha256sum; reflexivity. }
  destruct log_file as [lf|], primary_key as [id|]; try discriminate;
    destruct (calc_sha256sum fs _) as [[[e|sha256sum]|] log_file'] eqn:Hsha;
    try discriminate; exact (Hthis _ _ eq_refl Hinit).
Qed.


End after_save.

(** [calc_sha256sum] on every argument: [None] for no file; the error of
    [open] for a path, or for the name of a closed stream, that is no file;
    else the SHA-256 digest of the whole file, of whatever length, for a
    path and for a closed stream, and of the bytes after its position for
    an open stream.  The loop over the blocks always ends. *)
Theorem calc_sha256sum_of_every_source (fs : FileSystem) (log_file : option log_file_t) :
  fst (calc_sha256sum fs log_file)
  = Some (match log_file with
          | None => inr None
          | Some (PathStr path) =>
              match fs path with
              | Some bytes => inr (Some (SHA256.hexdigest_of bytes))
              | None => inl (FileNotFoundError path)
              end
          | Some (FileObject f) =>
              if closed f then
                match fs (name f) with
                | Some bytes => inr (Some (SHA256.hexdigest_of bytes))
                | None => inl (FileNotFoundError (name f))
                end
              else inr (Some (SHA256.hexdigest_of (skipn (pos f) (content f))))
          end).
Proof.
  assert (Hopen : forall path,
            fst (match open_rb fs path with
                 | inr f =>
                     match read_blocks (S (remaining f)) f sha256_new with
                     | None => (None, log_file)
                     | Some (file_hash, _) =>
                         (Some (inr (Some (sha256_hexdigest file_hash))), log_file)
                     end
                 | inl e => (Some (inl e), log_file)
                 end)
            = Some (match fs path with
                    | Some bytes => inr (Some (SHA256.hexdigest_of bytes))
                    | None => inl (FileNotFoundError path)
                    end)).
  { intros path. unfold open_rb. destruct (fs path) as [bytes|]; [|reflexivity].
    rewrite read_blocks_reads_rest by lia. reflexivity. }
  destruct log_file as [[path|f]|]; [| |reflexivity].
  - unfold calc_sha256sum. specialize (Hopen path).
    destruct (open_rb fs path) as [e|g]; [exact Hopen|].
    cbn [context_stream]. destruct (read_blocks _ g sha256_new) as [[file_hash g']|];
      exact Hopen.
  - unfold calc_sha256sum. destruct (closed f).
    + specialize (Hopen (name f)).
      destruct (open_rb fs (name f)) as [e|g]; [exact Hopen|].
      cbn [context_stream]. destruct (read_blocks _ g sha256_new) as [[file_hash g']|];
        exact Hopen.
    + cbn [context_stream]. rewrite read_blocks_reads_rest by lia. reflexivity.
Qed.

Section get_dataset_cache.

Variable _UNPACK_TYPES : dict string (string * nat * dtype).

Lemma find_index_list_set {A} (p : A -> bool) (l : list A) i x y :
  find_index p l = Some (i, x) -> p y = true ->
  find_index p (list_set i y l) = Some (i, y).
Proof.
  revert i. induction l as [|a l IH]; intros i; cbn [find_index]; [discriminate|].
  destruct (p a) eqn:Hpa.
  - intros [= <- <-] Hy. cbn [list_set find_index]. rewrite Hy. reflexivity.
  - destruct (find_index p l) as [[j z]|] eqn:Hfind; [|discriminate].
    intros [= <- <-] Hy. cbn [list_set find_index]. rewrite Hpa, (IH j eq_refl Hy).
    reflexivity.
Qed.

Lemma fetch_dataset_named name multi_instance lazy pk s d :
  fetch_dataset _UNPACK_TYPES name multi_instance lazy pk s = inr d ->
  same_dataset name multi_instance d = true.
Proof.
  unfold fetch_dataset, same_dataset.
  destruct (select_dataset name multi_instance pk s) as [row|]; [|discriminate].
  destruct (if lazy then _ else _) as [e|[fields data]]; [discriminate|].
  intros [= <-]. cbn. rewrite String.eqb_refl, Z.eqb_refl. reflexivity.
Qed.

(** Once a caching call for a pair that the dataset list holds has
    returned a dataset with data, every later caching call for the pair
    returns that dataset without executing a statement, and leaves the
    handle as it is. *)
Theorem get_dataset_is_cached_after_a_fetch name multi_instance lazy db_cursor
    lazy' db_cursor' h s i existing d :
  find_index (same_dataset name multi_instance) (_data_list h) = Some (i, existing) ->
  let o := get_dataset _UNPACK_TYPES name multi_instance lazy db_cursor true h s in
  result o = inr d ->
  DatabaseData.data d <> [] ->
  get_dataset _UNPACK_TYPES name multi_instance lazy' db_cursor' true (handle o) (stored o)
  = {| result := inr d; handle := handle o; stored := stored o; executed := [] |}.
Proof.
  intros Hfind o Hres Hdata. subst o.
  assert (Htruthy : truthy (DatabaseData.data d) = true)
    by (destruct (DatabaseData.data d); [contradiction|reflexivity]).
  rewrite (get_dataset_cached _UNPACK_TYPES name multi_instance lazy db_cursor h s Hfind)
    in Hres |- *.
  destruct (lazy || truthy (DatabaseData.data existing)).
  - cbn [result handle stored] in Hres |- *. injection Hres as ->.
    rewrite (get_dataset_cached _UNPACK_TYPES name multi_instance lazy' db_cursor' h s Hfind).
    rewrite Htruthy, orb_true_r. reflexivity.
  - destruct (fetch_dataset _UNPACK_TYPES name multi_instance lazy (_pk h) s) as [e|d0] eqn:Hfetch;
      cbn [result handle stored] in Hres |- *; [discriminate|]. injection Hres as ->.
    rewrite (@get_dataset_cached _UNPACK_TYPES name multi_instance lazy' db_cursor'
               (set_data_list (list_set i d (_data_list h)) h) s i d).
    + rewrite Htruthy, orb_true_r. reflexivity.
    + cbn [_data_list set_data_list].
      apply find_index_list_set with (x := existing); [exact Hfind|].
      exact (fetch_dataset_named _ _ _ _ _ Hfetch).
Qed.

End get_dataset_cache.

Lemma saved_log_is_found_witness :
  let o := save Examples.json_column false Examples.sample_log Examples.empty_store in
  result o = inr tt
  /\ exists id,
       _pk (handle o) = Some id
       /\ _sha256sum (handle o) = _sha256sum Examples.sample_log
       /\ result (exists_in_db (Some id) Examples.empty_log (stored o)) = inr true
       /\ result (primary_key_from_sha256sum (_sha256sum Examples.sample_log)
                    Examples.empty_log (stored o)) = inr (Some id).
Proof.
  assert (Hres : result (save Examples.json_column false Examples.sample_log
                           Examples.empty_store) = inr tt) by (vm_compute; reflexivity).
  split; [exact Hres|].
  exact (@saved_log_is_found Examples.json_column false Examples.sample_log
           Examples.empty_store Examples.empty_log Hres).
Defined.

Lemma saved_log_is_not_saved_again_witness :
  let o := save Examples.json_column false Examples.sample_log Examples.empty_store in
  result o = inr tt
  /\ result (save Examples.json_column true (handle o) (stored o))
     = inl (KeyError AlreadyInDatabase)
  /\ exists id,
       _pk (handle o) = Some id
       /\ result (save Examples.json_column true Examples.sample_log (stored o))
          = inl (KeyError (HashAlreadyInDatabase (_sha256sum Examples.sample_log) id)).
Proof.
  assert (Hres : result (save Examples.json_column false Examples.sample_log
                           Examples.empty_store) = inr tt) by (vm_compute; reflexivity).
  destruct (@saved_log_is_not_saved_again Examples.json_column false true
              Examples.sample_log Examples.empty_store Hres) as [Hsame Hother].
  destruct (Hother Examples.sample_log eq_refl eq_refl) as (id & Hid & Hrefused & _).
  cbv zeta. split; [exact Hres|]. split.
  - rewrite Hsame. reflexivity.
  - exists id. split; [exact Hid|exact Hrefused].
Defined.

Lemma load_unknown_key_witness :
  load Examples.unpack_types false (Examples.named 3) Examples.saved_store
  = {| result := inl (KeyError (NoULogWithId (Some 3))); handle := Examples.named 3;
       stored := Examples.saved_store; executed := [SELECT [T_ULog]] |}.
Proof.
  apply (@load_unknown_key Examples.unpack_types false (Examples.named 3)
           Examples.saved_store).
  let v := eval vm_compute in Examples.saved_store in
  replace Examples.saved_store with v by (vm_compute; reflexivity).
  intros id [= <-] r [<-|[]]. cbn. discriminate.
Defined.

Lemma constructed_lazy_refuses_write_ulog_witness :
  let decoder := fun (_ : FileSystem) (_ : option log_file_t) =>
                   @inr Exn DatabaseULog Examples.sample_log in
  let writer := fun (_ : DatabaseULog) (_ : log_file_t) (fs : FileSystem) =>
                  @inr Exn FileSystem fs in
  exists h,
    __init__ Examples.unpack_types decoder Examples.one_byte_fs None
             (Some (PathStr "log.ulg")) true Examples.empty_store
    = (Some (inr h), Examples.empty_store, [PRAGMA_user_version])
    /\ _data_list h = _data_list Examples.sample_log
    /\ write_ulog writer h (PathStr "out.ulg") Examples.one_byte_fs
       = inl (ValueError WriteAfterLazyLoad).
Proof.
  intros decoder writer.
  exists (set_lazy_loaded true Examples.sample_log).
  assert (Hinit : __init__ Examples.unpack_types decoder Examples.one_byte_fs None
                    (Some (PathStr "log.ulg")) true Examples.empty_store
                  = (Some (inr (set_lazy_loaded true Examples.sample_log)),
                     Examples.empty_store, [PRAGMA_user_version]))
    by (vm_compute; reflexivity).
  split; [exact Hinit|]. split; [reflexivity|].
  exact (@constructed_lazy_refuses_write_ulog Examples.unpack_types decoder writer
           Examples.one_byte_fs None (Some (PathStr "log.ulg")) true Examples.empty_store
           _ _ _ (PathStr "out.ulg") Examples.one_byte_fs Hinit).
Defined.


Lemma get_dataset_is_cached_after_a_fetch_witness :
  let h := handle (load Examples.unpack_types true (Examples.named 1) Examples.saved_store) in
  let o := get_dataset Examples.unpack_types "imu" 1 false false true h Examples.saved_store in
  map DatabaseData.data (_data_list h) = [[]; []]
  /\ result o = inr (Examples.imu 1 x09%byte)
  /\ get_dataset Examples.unpack_types "imu" 1 false false true (handle o) (stored o)
     = {| result := inr (Examples.imu 1 x09%byte); handle := handle o; stored := stored o;
          executed := [] |}.
Proof.
  cbv zeta. split; [vm_compute; reflexivity|].
  assert (Hres : result (get_dataset Examples.unpack_types "imu" 1 false false true
                           (handle (load Examples.unpack_types true (Examples.named 1)
                                      Examples.saved_store))
                           Examples.saved_store)
                 = inr (Examples.imu 1 x09%byte)) by (vm_compute; reflexivity).
  split; [exact Hres|].
  apply get_dataset_is_cached_after_a_fetch with (i := 1%nat) (existing := Examples.lazy_imu 1).
  - vm_compute. reflexivity.
  - exact Hres.
  - discriminate.
Defined.

Section lazy_round_trip.

Variable _UNPACK_TYPES : dict string (string * nat * dtype).
Variable json_column : ndarray -> ndarray -> option string.
Variable ULog__init__ : FileSystem -> option log_file_t -> Exn + DatabaseULog.

Lemma lazy_entries (pk : option Z) (s : Store) (l : list DatabaseData.t) :
  map Some l = map (lazy_entry pk s) (dataset_keys pk s) ->
  Forall (fun e => DatabaseData.field_data e = [] /\ DatabaseData.data e = []) l.
Proof.
  generalize (dataset_keys pk s). induction l as [|e l IH]; intros [|key pairs] Hmap;
    try discriminate; [constructor|].
  cbn [map] in Hmap. injection Hmap as Hentry Hmap.
  constructor; [|exact (IH pairs Hmap)].
  unfold lazy_entry in Hentry.
  destruct (select_dataset (fst key) (snd key) pk s); [|discriminate].
  injection Hentry as ->. split; reflexivity.
Qed.

(** The lazy way back.  After a decoded log whose numbers every column
    keeps was saved, [load] with [lazy=True] on a new handle with its
    primary key returns and lists the datasets without fields or data;
    [get_dataset] without [lazy] then returns each dataset of the log as it
    was saved, with or without caching. *)
Theorem saved_dataset_is_fetched_after_lazy_load append_json h s h0 d db_cursor caching :
  decoded_log _UNPACK_TYPES h -> kept_exactly h ->
  json_written json_column append_json h ->
  store_intact s -> _pk h = None ->
  (forall r, In r (ULog_rows s) -> ULog.SHA256Sum r <> _sha256sum h) ->
  let o := save json_column append_json h s in
  new_handle h0 -> _pk h0 = _pk (handle o) -> In d (_data_list h) ->
  let o1 := load _UNPACK_TYPES true h0 (stored o) in
  result o1 = inr tt
  /\ Forall (fun e => DatabaseData.field_data e = [] /\ DatabaseData.data e = [])
            (_data_list (handle o1))
  /\ result (get_dataset _UNPACK_TYPES (DatabaseData.name d) (DatabaseData.multi_id d)
               false db_cursor caching (handle o1) (stored o1))
     = inr d.
Proof.
  intros Hdec Hexact Hjson Hintact Hpk Hsha o Hnew Hpk0 Hd o1. subst o o1.
  destruct (save_decoded_log Hdec Hexact Hjson Hintact Hpk Hsha)
    as (c & Hc & _ & Hstored & Hhandle).
  rewrite Hhandle in Hpk0. cbn [_pk set_pk] in Hpk0. rewrite Hstored.
  set (pk := next_rowid (map ULog.Id (ULog_rows s))) in *.
  set (saved := with_rows_of h c s).
  destruct (load_spec _UNPACK_TYPES true h0 saved) as [Hsame Hload].
  rewrite Hsame. rewrite Hpk0 in Hload.
  destruct (stored_datasets_lazy _UNPACK_TYPES (Some pk) saved) as (l & Hl & Hentries).
  destruct (result (load _UNPACK_TYPES true h0 saved)) as [e|[]].
  { exfalso. apply Hload. split; [apply (saved_persisted h s c)|].
    exists (ulog_row h pk (compat_text c) (incompat_text c)), l.
    split; [apply (saved_record h s c)|exact Hl]. }
  destruct Hload as (_ & r & l' & _ & Hl' & Hloaded).
  rewrite Hl in Hl'. injection Hl' as <-.
  assert (Hlist : _data_list (handle (load _UNPACK_TYPES true h0 saved)) = l)
    by (rewrite Hloaded; reflexivity).
  assert (Hkey : _pk (handle (load _UNPACK_TYPES true h0 saved)) = Some pk)
    by (rewrite Hloaded; exact Hpk0).
  pose proof (lazy_entries _ _ _ Hentries) as Hlazy.
  split; [reflexivity|]. split; [rewrite Hlist; exact Hlazy|].
  assert (Hfetch : fetch_dataset _UNPACK_TYPES (DatabaseData.name d) (DatabaseData.multi_id d)
                     false (Some pk) saved = inr d).
  { destruct Hc as (_ & _ & Hfields & _).
    apply (@fetch_saved_datasets _UNPACK_TYPES json_column append_json pk saved (_data_list h)
             _ (ULogDataset_rows s) (ULogField_rows s) (the_field_rows c)
             eq_refl eq_refl Hfields).
    - intros r0 d' Hr0 _ _ Heq.
      pose proof (next_rowid_fresh _ _ (fk_datasets Hintact r0 Hr0)) as Hfresh.
      fold pk in Hfresh. lia.
    - intros r0 Hr0. apply next_rowid_fresh, (fk_fields Hintact), Hr0.
    - apply (datasets_once Hdec).
    - apply (datasets_decoded Hdec).
    - exact Hd. }
  destruct (find_index (same_dataset (DatabaseData.name d) (DatabaseData.multi_id d))
              (_data_list (handle (load _UNPACK_TYPES true h0 saved))))
    as [[i existing]|] eqn:Hfind.
  - destruct caching.
    + rewrite (get_dataset_cached _UNPACK_TYPES _ _ false db_cursor _ saved Hfind).
      destruct (find_index_found _ _ Hfind) as [_ Hnth]. apply nth_error_In in Hnth.
      rewrite Hlist in Hnth. rewrite Forall_forall in Hlazy.
      destruct (Hlazy existing Hnth) as [_ Hempty]. rewrite Hempty. cbn [orb truthy].
      rewrite Hkey, Hfetch. reflexivity.
    + rewrite get_dataset_real_fetch by (left; reflexivity).
      cbn [result]. rewrite Hkey. exact Hfetch.
  - rewrite get_dataset_real_fetch by (right; exact Hfind).
    cbn [result]. rewrite Hkey. exact Hfetch.
Qed.

(** The constructor on the path of a log file, with a database at the
    schema version: it raises FileNotFoundError before the decoder is
    called when the path is no file; else it returns what the decoder
    built, without primary key, with the SHA-256 digest of the whole file
    and with [lazy] as it was given; the only statement it executes is the
    PRAGMA, and the database is as it was. *)
Theorem constructor_from_path fs path lazy s :
  SCHEMA_VERSION <= user_version s ->
  __init__ _UNPACK_TYPES ULog__init__ fs None (Some (PathStr path)) lazy s
  = (Some (match fs path with
           | None => inl (FileNotFoundError path)
           | Some bytes =>
               match ULog__init__ fs (Some (PathStr path)) with
               | inl e => inl e
               | inr parent =>
                   inr (set_pk None
                          (set_lazy_loaded lazy
                             (set_sha256sum (SHA256.hexdigest_of bytes) parent)))
               end
           end),
     s, [PRAGMA_user_version]).
Proof.
  intros Hversion. unfold __init__.
  replace (user_version s <? SCHEMA_VERSION) with false
    by (symmetry; apply Z.ltb_ge; exact Hversion).
  unfold calc_sha256sum, open_rb.
  destruct (fs path) as [bytes|]; [|reflexivity].
  cbn [context_stream]. rewrite read_blocks_reads_rest by lia.
  cbn [pos content skipn sha256_new app].
  destruct (ULog__init__ fs (Some (PathStr path))) as [e|parent]; reflexivity.
Qed.

End lazy_round_trip.

Lemma saved_dataset_is_fetched_after_lazy_load_witness :
  let o := save Examples.json_column true Examples.second_log Examples.saved_store in
  let o1 := load Examples.unpack_types true (Examples.named 2) (stored o) in
  result o1 = inr tt
  /\ map DatabaseData.data (_data_list (handle o1)) = [[]; []]
  /\ result (get_dataset Examples.unpack_types "imu" 1 false false true (handle o1)
               (stored o1))
     = inr (Examples.imu 1 x09%byte).
Proof.
  pose proof saved_store_intact as Hintact. revert Hintact.
  let v := eval vm_compute in Examples.saved_store in
  replace Examples.saved_store with v by (vm_compute; reflexivity).
  intros Hintact.
  match type of Hintact with
  | store_intact ?v =>
      assert (Hsha : forall r, In r (ULog_rows v) ->
                       ULog.SHA256Sum r <> _sha256sum Examples.second_log)
        by (cbn; intros r [<-|[]]; cbn; discriminate);
      assert (Hnew : new_handle (Examples.named 2)) by (constructor; reflexivity);
      assert (Hpk : _pk (Examples.named 2)
                    = _pk (handle (save Examples.json_column true Examples.second_log v)))
        by (vm_compute; reflexivity);
      destruct (@saved_dataset_is_fetched_after_lazy_load Examples.unpack_types
                  Examples.json_column true Examples.second_log v (Examples.named 2)
                  (Examples.imu 1 x09%byte) false true
                  second_log_decoded second_log_exact second_log_json_written Hintact
                  eq_refl Hsha Hnew Hpk
                  (or_introl eq_refl))
        as (Hload & _ & Hget)
  end.
  cbv zeta. split; [exact Hload|]. split; [vm_compute; reflexivity|exact Hget].
Defined.

Lemma constructor_from_path_witness :
  __init__ Examples.unpack_types (fun _ _ => inr Examples.sample_log) Examples.one_byte_fs
           None (Some (PathStr "log.ulg")) true Examples.empty_store
  = (Some (inr (set_pk None
                  (set_lazy_loaded true
                     (set_sha256sum
                        (SHA256.hexdigest_of
                           (match Examples.one_byte_fs "log.ulg"%string with
                            | Some bytes => bytes
                            | None => []
                            end))
                        Examples.sample_log)))),
     Examples.empty_store, [PRAGMA_user_version])
  /\ __init__ Examples.unpack_types Examples.parent_init Examples.one_byte_fs None
              (Some (PathStr "none.ulg")) true Examples.empty_store
     = (Some (inl (FileNotFoundError "none.ulg")), Examples.empty_store,
        [PRAGMA_user_version]).
Proof.
  assert (Hversion : SCHEMA_VERSION <= user_version Examples.empty_store)
    by (cbn; unfold SCHEMA_VERSION; lia).
  split.
  - rewrite (@constructor_from_path Examples.unpack_types
               (fun _ _ => inr Examples.sample_log)
               Examples.one_byte_fs "log.ulg"%string true Examples.empty_store Hversion).
    reflexivity.
  - rewrite (@constructor_from_path Examples.unpack_types Examples.parent_init
               Examples.one_byte_fs "none.ulg"%string true Examples.empty_store Hversion).
    reflexivity.
Defined.

(** * pyulog.utils *)

Import Utils.

(** ** find_field_offset *)

Section find_field_offset_facts.

Variable get_field_size : string -> Exn + Z.

Lemma find_field_offset_from_found before data_type array_length after target :
  target <> ""%string ->
  (forall t a n, In (t, a, n) before -> n <> target) ->
  (forall t a n, In (t, a, n) before -> n <> ""%string -> exists z, get_field_size t = inr z) ->
  forall offset,
    find_field_offset_from get_field_size offset
      (before ++ (data_type, array_length, target) :: after) target
    = inr (offset
           + fold_right Z.add 0
               (map (fun '(t, a, n) =>
                       match get_field_size t with
                       | inr field_size => field_size * (if a =? 0 then 1 else a)
                       | inl _ => 0
                       end)
                    (filter (fun '(t, a, n) => negb (String.eqb n "")) before))).
Proof.
  intros Htarget. induction before as [|[[t a] n] before IH]; intros Hother Hknown offset;
    cbn [app find_field_offset_from filter map fold_right].
  - apply String.eqb_neq in Htarget.
    rewrite Htarget, String.eqb_refl. f_equal. lia.
  - assert (IH' := IH (fun t' a' n' H => Hother t' a' n' (or_intror H))
                      (fun t' a' n' H => Hknown t' a' n' (or_intror H))).
    destruct (String.eqb n "") eqn:Hpad; cbn [negb]; [apply IH'|].
    replace (String.eqb n target) with false
      by (symmetry; apply String.eqb_neq; exact (Hother t a n (or_introl eq_refl))).
    apply String.eqb_neq in Hpad.
    destruct (Hknown t a n (or_introl eq_refl) Hpad) as [field_size Hfield_size].
    rewrite Hfield_size, IH'. cbn [map fold_right]. rewrite Hfield_size. f_equal. ring.
Qed.

(** The offset of a field: the sizes of the fields before the first field
    of that name, each times the length of its array (1 for a length of 0),
    without the fields whose name is empty; what comes after the field is
    not looked at. *)
Theorem find_field_offset_found name before data_type array_length after target :
  target <> ""%string ->
  (forall t a n, In (t, a, n) before -> n <> target) ->
  (forall t a n, In (t, a, n) before -> n <> ""%string -> exists z, get_field_size t = inr z) ->
  find_field_offset get_field_size
    {| DatabaseMessageFormat.name := name;
       DatabaseMessageFormat.fields := before ++ (data_type, array_length, target) :: after |}
    target
  = inr (fold_right Z.add 0
           (map (fun '(t, a, n) =>
                   match get_field_size t with
                   | inr field_size => field_size * (if a =? 0 then 1 else a)
                   | inl _ => 0
                   end)
                (filter (fun '(t, a, n) => negb (String.eqb n "")) before))).
Proof.
  intros Htarget Hother Hknown. unfold find_field_offset.
  cbn [DatabaseMessageFormat.fields].
  rewrite (@find_field_offset_from_found before data_type array_length after target
             Htarget Hother Hknown 0).
  reflexivity.
Qed.

(** No offset is returned for the empty name, although a field may have
    it, nor for a name that no field has. *)
Theorem find_field_offset_not_found message_format target :
  target = ""%string
  \/ ~ In target (map snd (DatabaseMessageFormat.fields message_format)) ->
  forall offset, find_field_offset get_field_size message_format target <> inr offset.
Proof.
  intros Habsent. unfold find_field_offset.
  generalize 0 at 1. revert Habsent.
  induction (DatabaseMessageFormat.fields message_format) as [|[[t a] n] fields IH];
    intros Habsent start offset; cbn [find_field_offset_from]; [discriminate|].
  assert (Hrest : target = ""%string \/ ~ In target (map snd fields)).
  { destruct Habsent as [Hempty|Hnotin]; [left; exact Hempty|right].
    intros Hin. apply Hnotin. right. exact Hin. }
  destruct (String.eqb n "") eqn:Hpad; [apply IH, Hrest|].
  destruct (String.eqb n target) eqn:Hn.
  - apply String.eqb_eq in Hn. subst n. exfalso.
    destruct Habsent as [Hempty|Hnotin].
    + subst target. rewrite String.eqb_refl in Hpad. discriminate.
    + apply Hnotin. left. reflexivity.
  - destruct (get_field_size t) as [[]|field_size]; try discriminate. apply IH, Hrest.
Qed.


End find_field_offset_facts.

Lemma find_field_offset_found_witness :
  find_field_offset UtilsExamples.field_size UtilsExamples.vehicle_status
                    "latest_arming_reason"
  = inr 12.
Proof.
  apply (@find_field_offset_found UtilsExamples.field_size "vehicle_status"%string
           [ ("uint64_t", 0, "timestamp"); ("uint16_t", 2, "counts"); ("uint8_t", 3, "") ]%string
           "uint8_t"%string 0 [ ("matrix", 0, "later") ]%string
           "latest_arming_reason"%string).
  - discriminate.
  - intros t a n [[= <- <- <-]|[[= <- <- <-]|[[= <- <- <-]|[]]]]; discriminate.
  - intros t a n [[= <- <- <-]|[[= <- <- <-]|[[= <- <- <-]|[]]]] Hn;
      try (eexists; reflexivity); contradiction.
Defined.

Lemma find_field_offset_not_found_witness :
  find_field_offset UtilsExamples.field_size UtilsExamples.vehicle_status "" <> inr 10.
Proof.
  apply (@find_field_offset_not_found UtilsExamples.field_size UtilsExamples.vehicle_status
           ""%string).
  left. reflexivity.
Defined.


(** ** The memory map *)

Lemma bytes_eqb_eq (a b : list byte) : bytes_eqb a b = true <-> a = b.
Proof.
  unfold bytes_eqb. revert b. induction a as [|x a IH]; intros [|y b]; cbn;
    try (split; [discriminate|discriminate]); [split; reflexivity|].
  specialize (IH b). rewrite andb_true_iff in IH |- *. rewrite andb_true_iff.
  rewrite Nat.eqb_eq in IH |- *.
  split.
  - intros (Hlen & Hxy & Hall). apply Byte.byte_dec_bl in Hxy. subst y. f_equal.
    apply IH. split; assumption.
  - intros [= -> ->]. destruct IH as [_ IH]. destruct (IH eq_refl) as [Hlen Hall].
    split; [exact Hlen|]. split; [apply Byte.byte_dec_lb; reflexivity|exact Hall].
Qed.

Lemma byte_at_skipn (d : list byte) (p i : nat) :
  byte_at i (skipn p d) = byte_at (p + i) d.
Proof.
  unfold byte_at. revert d. induction p as [|p IH]; intros d; [reflexivity|].
  destruct d as [|x d]; cbn [skipn Nat.add nth]; [destruct i; reflexivity|apply IH].
Qed.

Lemma byte_at_firstn (d : list byte) (n i : nat) :
  (i < n)%nat -> byte_at i (firstn n d) = byte_at i d.
Proof.
  unfold byte_at. revert d i. induction n as [|n IH]; intros d i Hi; [lia|].
  destruct d as [|x d]; [reflexivity|]. destruct i as [|i]; [reflexivity|].
  cbn [firstn nth]. apply IH. lia.
Qed.

Lemma u8_range (b : byte) : 0 <= u8 b < 256.
Proof.
  unfold u8. pose proof (Byte.to_N_bounded b) as Hb. lia.
Qed.

Lemma u16_nonneg (lo hi : byte) : 0 <= u16 lo hi.
Proof.
  unfold u16. pose proof (u8_range lo). pose proof (u8_range hi). lia.
Qed.

(** What [read] returns and where it leaves the map. *)
Lemma read_spec (n : Z) (m_file : mmap) :
  0 <= position m_file <= size m_file ->
  let remaining := size m_file - position m_file in
  let k := if (n <? 0) || (remaining <? n) then remaining else n in
  read n m_file
  = (firstn (Z.to_nat k) (skipn (Z.to_nat (position m_file)) (data m_file)),
     {| data := data m_file; position := position m_file + k |})
  /\ Z.of_nat (length (firstn (Z.to_nat k)
                         (skipn (Z.to_nat (position m_file)) (data m_file)))) = k
  /\ 0 <= k <= remaining
  /\ (0 <= n -> k <= n).
Proof.
  intros Hpos remaining k. unfold read.
  assert (Hrem : (if position m_file <? size m_file
                  then size m_file - position m_file else 0) = remaining).
  { subst remaining. destruct (position m_file <? size m_file) eqn:Hlt; [reflexivity|].
    apply Z.ltb_ge in Hlt. lia. }
  rewrite Hrem. fold k.
  assert (Hk : 0 <= k <= remaining).
  { subst k remaining. destruct (n <? 0) eqn:Hn; cbn [orb]; [lia|].
    apply Z.ltb_ge in Hn. destruct (_ <? n) eqn:Hr; [lia|]. apply Z.ltb_ge in Hr. lia. }
  split; [reflexivity|]. split; [|split; [exact Hk|]].
  - rewrite length_firstn, length_skipn. unfold size in *. lia.
  - intros Hn. subst k. destruct (n <? 0) eqn:Hneg; cbn [orb]; [apply Z.ltb_lt in Hneg; lia|].
    destruct (remaining <? n) eqn:Hr; [apply Z.ltb_lt in Hr; lia|lia].
Qed.

(** Reading a block that is known to stand at the position. *)
Lemma read_block (m_file : mmap) (block rest : list byte) :
  0 <= position m_file <= size m_file ->
  skipn (Z.to_nat (position m_file)) (data m_file) = block ++ rest ->
  read (Z.of_nat (length block)) m_file
  = (block, {| data := data m_file;
               position := position m_file + Z.of_nat (length block) |})
  /\ skipn (Z.to_nat (position m_file + Z.of_nat (length block))) (data m_file) = rest
  /\ position m_file + Z.of_nat (length block) <= size m_file.
Proof.
  intros Hin Hskip.
  assert (Hlen : (length (block ++ rest) = length (data m_file) - Z.to_nat (position m_file))%nat)
    by (rewrite <- Hskip; apply length_skipn).
  rewrite length_app in Hlen.
  assert (Hsize : position m_file + Z.of_nat (length block) <= size m_file)
    by (unfold size in *; lia).
  destruct (read_spec (Z.of_nat (length block)) m_file Hin) as (Hread & _ & _ & _).
  cbv zeta in Hread.
  replace ((Z.of_nat (length block) <? 0)
           || (size m_file - position m_file <? Z.of_nat (length block))) with false in Hread.
  - rewrite Hread, Hskip, Nat2Z.id, firstn_app, firstn_all, Nat.sub_diag.
    cbn [firstn]. rewrite app_nil_r. split; [reflexivity|]. split; [|exact Hsize].
    rewrite Z2Nat.inj_add, Nat2Z.id by lia.
    rewrite Nat.add_comm, <- skipn_skipn, Hskip, skipn_app, skipn_all, Nat.sub_diag.
    reflexivity.
  - symmetry. apply orb_false_iff. split; [apply Z.ltb_ge|apply Z.ltb_ge]; lia.
Qed.

(** ** get_subscription_id *)

Lemma three_bytes (b : list byte) :
  length b = 3%nat -> b = [byte_at 0 b; byte_at 1 b; byte_at 2 b].
Proof.
  destruct b as [|b0 [|b1 [|b2 [|b3 b]]]]; cbn [length]; intros Hlen; try lia. reflexivity.
Qed.

Section get_subscription_id_facts.

Variable HEADER_SIZE : Z.

(** The loop ends, leaves the bytes alone, and returns no id but the one of
    a subscription of the topic that stands in the file, at or after the
    position the loop starts from and before [max_search_len]. *)
Lemma find_subscription_sound msg_name max_search_len (fuel : nat) :
  forall m_file,
    0 <= position m_file <= size m_file ->
    size m_file - position m_file < Z.of_nat fuel ->
    exists r m',
      find_subscription fuel msg_name max_search_len m_file = Some (r, m')
      /\ data m' = data m_file
      /\ forall msg_id, r = inr msg_id ->
           exists p, position m_file <= Z.of_nat p < max_search_len
                     /\ subscription_at (data m_file) msg_name msg_id p.
Proof.
  induction fuel as [|fuel IH]; intros m_file Hin Hfuel; [lia|].
  cbn [find_subscription]. unfold tell.
  destruct (position m_file <? max_search_len) eqn:Hmax;
    [|eexists _, _; split; [reflexivity|split; [reflexivity|discriminate]]].
  apply Z.ltb_lt in Hmax.
  destruct (read_spec ULOG_MESSAGE_HEADER_SIZE m_file Hin) as (Hread & Hlen & Hk & Hkn).
  cbv zeta in Hread, Hlen, Hk, Hkn. rewrite Hread. clear Hread.
  set (k := if _ || _ then _ else _) in *.
  set (header_and_id := firstn (Z.to_nat k) _) in *.
  destruct (Z.of_nat (length header_and_id) <? ULOG_MESSAGE_HEADER_SIZE) eqn:Hshort;
    [eexists _, _; split; [reflexivity|split; [reflexivity|discriminate]]|].
  apply Z.ltb_ge in Hshort. unfold ULOG_MESSAGE_HEADER_SIZE in *.
  assert (Hk3 : k = 3) by lia.
  set (m1 := {| data := data m_file; position := position m_file + k |}).
  assert (Hin1 : 0 <= position m1 <= size m1) by (unfold size in *; cbn; lia).
  set (msg_size := u16 (byte_at 0 header_and_id) (byte_at 1 header_and_id)).
  assert (Hsize : 0 <= msg_size) by apply u16_nonneg.
  destruct (negb (u8 (byte_at 2 header_and_id) =? ord_A)) eqn:Htype.
  - (* another type of message: skipped *)
    unfold seek_cur, seek.
    destruct ((position m1 + msg_size <? 0) || (size m1 <? position m1 + msg_size)) eqn:Hseek;
      [eexists _, _; split; [reflexivity|split; [reflexivity|discriminate]]|].
    apply orb_false_iff in Hseek. destruct Hseek as [_ Hseek]. apply Z.ltb_ge in Hseek.
    destruct (IH {| data := data m1; position := position m1 + msg_size |})
      as (r & m' & Hrun & Hdata & Hsound).
    + unfold size in *. cbn in *. lia.
    + unfold size in *. cbn in *. lia.
    + exists r, m'. split; [exact Hrun|]. split; [exact Hdata|].
      intros msg_id Hr. destruct (Hsound msg_id Hr) as (p & Hp & Hsub).
      exists p. split; [cbn in Hp; lia|exact Hsub].
  - (* a subscription *)
    apply negb_false_iff, Z.eqb_eq in Htype.
    destruct (read_spec msg_size m1 Hin1) as (Hread & Hlen2 & Hk2 & Hk2n).
    cbv zeta in Hread, Hlen2, Hk2, Hk2n. rewrite Hread. clear Hread.
    set (k2 := if (msg_size <? 0) || _ then _ else _) in *.
    set (msg_bytes := firstn (Z.to_nat k2) _) in *.
    set (m2 := {| data := data m1; position := position m1 + k2 |}).
    destruct ((Z.of_nat (length msg_bytes) <? msg_size) || (Z.of_nat (length msg_bytes) <? 3))
      eqn:Hbad; [eexists _, _; split; [reflexivity|split; [reflexivity|discriminate]]|].
    apply orb_false_iff in Hbad. destruct Hbad as [Hfull Hthree].
    apply Z.ltb_ge in Hfull, Hthree.
    destruct (negb (bytes_eqb (skipn 3 msg_bytes) (encode msg_name))) eqn:Hname.
    + destruct (IH m2) as (r & m' & Hrun & Hdata & Hsound).
      * unfold size in *. cbn in *. lia.
      * unfold size in *. cbn in *. lia.
      * exists r, m'. split; [exact Hrun|]. split; [exact Hdata|].
        intros msg_id Hr. destruct (Hsound msg_id Hr) as (p & Hp & Hsub).
        exists p. split; [cbn in Hp; lia|exact Hsub].
    + apply negb_false_iff, bytes_eqb_eq in Hname.
      eexists _, _. split; [reflexivity|]. split; [reflexivity|].
      intros msg_id [= <-]. exists (Z.to_nat (position m_file)).
      split; [lia|].
      assert (Hk2size : k2 = msg_size) by lia.
      exists (byte_at 0 header_and_id), (byte_at 1 header_and_id), (byte_at 2 header_and_id),
             msg_bytes,
             (skipn (Z.to_nat k2) (skipn (Z.to_nat (position m1)) (data m1))).
      split; [|split; [fold msg_size; lia|split; [exact Htype|split; [lia|split;
               [reflexivity|exact Hname]]]]].
      rewrite <- (firstn_skipn 3 (skipn (Z.to_nat (position m_file)) (data m_file))).
      replace (firstn 3 (skipn (Z.to_nat (position m_file)) (data m_file)))
        with header_and_id by (subst header_and_id; rewrite Hk3; reflexivity).
      rewrite (three_bytes header_and_id) at 1 by lia.
      cbn [app]. do 3 f_equal.
      rewrite skipn_skipn.
      replace (3 + Z.to_nat (position m_file))%nat with (Z.to_nat (position m1))
        by (cbn; lia).
      symmetry. apply firstn_skipn.
Qed.

(** [get_subscription_id] ends on every file.  The id it returns is the
    one of a subscription of the topic that stands in the file after the
    header and starts before [max_search_len]. *)
Theorem get_subscription_id_sound m_file msg_name max_search_len :
  exists r m',
    get_subscription_id HEADER_SIZE m_file msg_name max_search_len = Some (r, m')
    /\ data m' = data m_file
    /\ forall msg_id, r = inr msg_id ->
         exists p, HEADER_SIZE <= Z.of_nat p < max_search_len
                   /\ subscription_at (data m_file) msg_name msg_id p.
Proof.
  unfold get_subscription_id, seek.
  destruct ((HEADER_SIZE <? 0) || (size m_file <? HEADER_SIZE)) eqn:Hseek;
    [eexists _, _; split; [reflexivity|split; [reflexivity|discriminate]]|].
  apply orb_false_iff in Hseek. destruct Hseek as [Hlo Hhi].
  apply Z.ltb_ge in Hlo, Hhi.
  destruct (@find_subscription_sound msg_name max_search_len (S (length (data m_file)))
              {| data := data m_file; position := HEADER_SIZE |})
    as (r & m' & Hrun & Hdata & Hsound).
  - unfold size in *. cbn. lia.
  - unfold size in *. cbn. lia.
  - exists r, m'. split; [exact Hrun|]. split; [exact Hdata|exact Hsound].
Qed.

(** One turn of the loop on a message that stands whole at the position. *)
Lemma find_subscription_step fuel msg_name max_search_len m_file lo hi letter payload rest :
  0 <= position m_file <= size m_file ->
  skipn (Z.to_nat (position m_file)) (data m_file) = lo :: hi :: letter :: payload ++ rest ->
  u16 lo hi = Z.of_nat (length payload) ->
  position m_file < max_search_len ->
  let m2 := {| data := data m_file;
               position := position m_file + 3 + Z.of_nat (length payload) |} in
  find_subscription (S fuel) msg_name max_search_len m_file
  = (if negb (u8 letter =? ord_A) then find_subscription fuel msg_name max_search_len m2
     else if Z.of_nat (length payload) <? 3
          then Some (inl (SubscriptionNotFound msg_name), m2)
          else if negb (bytes_eqb (skipn 3 payload) (encode msg_name))
               then find_subscription fuel msg_name max_search_len m2
               else Some (inr (u16 (byte_at 1 payload) (byte_at 2 payload)), m2))
  /\ skipn (Z.to_nat (position m2)) (data m2) = rest
  /\ 0 <= position m2 <= size m2.
Proof.
  intros Hin Hskip Hframed Hmax m2.
  destruct (@read_block m_file [lo; hi; letter] (payload ++ rest) Hin Hskip)
    as (Hread & Hskip1 & Hsize1).
  set (m1 := {| data := data m_file;
                position := position m_file + Z.of_nat (length [lo; hi; letter]) |}) in *.
  assert (Hin1 : 0 <= position m1 <= size m1) by (unfold size in *; cbn in *; lia).
  destruct (@read_block m1 payload rest Hin1 Hskip1) as (Hread2 & Hskip2 & Hsize2).
  assert (Hm2 : {| data := data m1; position := position m1 + Z.of_nat (length payload) |} = m2)
    by (subst m1 m2; cbn; f_equal; lia).
  rewrite Hm2 in Hread2.
  split; [|split].
  - cbn [find_subscription]. unfold tell.
    replace (position m_file <? max_search_len) with true by (symmetry; apply Z.ltb_lt; lia).
    change ULOG_MESSAGE_HEADER_SIZE with (Z.of_nat (length [lo; hi; letter])) at 1.
    rewrite Hread. cbn [length byte_at nth]. unfold ULOG_MESSAGE_HEADER_SIZE.
    replace (Z.of_nat 3 <? 3) with false by reflexivity.
    rewrite Hframed.
    destruct (negb (u8 letter =? ord_A)).
    + unfold seek_cur, seek.
      replace ((position m1 + Z.of_nat (length payload) <? 0)
               || (size m1 <? position m1 + Z.of_nat (length payload))) with false.
      * replace {| data := data m1; position := position m1 + Z.of_nat (length payload) |}
          with m2 by (symmetry; exact Hm2).
        reflexivity.
      * symmetry. apply orb_false_iff. split; apply Z.ltb_ge; lia.
    + rewrite Hread2, Z.ltb_irrefl. cbn [orb]. reflexivity.
  - rewrite <- Hm2. exact Hskip2.
  - rewrite <- Hm2. unfold size in *. cbn in *. lia.
Qed.

Lemma length_frames before : (length before <= length (flat_map frame before))%nat.
Proof.
  induction before as [|[[[lo hi] letter] payload] before IH]; cbn [flat_map length];
    [lia|].
  rewrite length_app. cbn [frame length]. lia.
Qed.

Lemma find_subscription_first msg_name max_search_len lo hi letter payload rest before :
  framed (lo, hi, letter, payload) ->
  u8 letter = ord_A -> (3 <= length payload)%nat -> skipn 3 payload = encode msg_name ->
  Forall framed before -> Forall (other_than msg_name) before ->
  forall fuel m_file,
    0 <= position m_file <= size m_file ->
    skipn (Z.to_nat (position m_file)) (data m_file)
    = flat_map frame before ++ frame (lo, hi, letter, payload) ++ rest ->
    position m_file + Z.of_nat (length (flat_map frame before)) < max_search_len ->
    (length before < fuel)%nat ->
    exists m',
      find_subscription fuel msg_name max_search_len m_file
      = Some (inr (u16 (byte_at 1 payload) (byte_at 2 payload)), m').
Proof.
  intros Hframed Hletter Hthree Hname.
  induction before as [|[[[lo' hi'] letter'] payload'] before IH];
    intros Hall Hother fuel m_file Hin Hskip Hmax Hfuel;
    (destruct fuel as [|fuel]; [lia|]); cbn [flat_map frame app length] in Hskip, Hmax.
  - destruct (@find_subscription_step fuel msg_name max_search_len m_file lo hi letter
                payload rest Hin Hskip Hframed) as (Hrun & _); [lia|].
    rewrite Hrun, Hletter, Z.eqb_refl. cbn [negb].
    replace (Z.of_nat (length payload) <? 3) with false by (symmetry; apply Z.ltb_ge; lia).
    replace (bytes_eqb (skipn 3 payload) (encode msg_name)) with true
      by (symmetry; apply bytes_eqb_eq; exact Hname).
    cbn [negb]. eauto.
  - apply Forall_cons_iff in Hall, Hother.
    destruct Hall as [Hframed' Hall]. destruct Hother as [Hother' Hother].
    rewrite <- app_assoc in Hskip. cbn [app] in Hskip.
    rewrite length_app in Hmax. cbn [frame length] in Hmax.
    destruct (@find_subscription_step fuel msg_name max_search_len m_file lo' hi' letter'
                payload' (flat_map frame before ++ frame (lo, hi, letter, payload) ++ rest)
                Hin Hskip Hframed') as (Hrun & Hskip2 & Hin2); [lia|].
    set (m2 := {| data := data m_file;
                  position := position m_file + 3 + Z.of_nat (length payload') |}) in *.
    assert (Hnext : exists m',
               find_subscription fuel msg_name max_search_len m2
               = Some (inr (u16 (byte_at 1 payload) (byte_at 2 payload)), m')).
    { apply IH; [exact Hall|exact Hother|exact Hin2|exact Hskip2| |cbn [length] in Hfuel; lia].
      subst m2. cbn [position]. lia. }
    rewrite Hrun. cbn [other_than] in Hother'.
    destruct Hother' as [Hletter'|[Hthree' Hname']].
    + replace (u8 letter' =? ord_A) with false by (symmetry; apply Z.eqb_neq; exact Hletter').
      cbn [negb]. exact Hnext.
    + destruct (negb (u8 letter' =? ord_A)); [exact Hnext|].
      replace (Z.of_nat (length payload') <? 3) with false by (symmetry; apply Z.ltb_ge; lia).
      replace (bytes_eqb (skipn 3 payload') (encode msg_name)) with false.
      * cbn [negb]. exact Hnext.
      * symmetry. destruct (bytes_eqb (skipn 3 payload') (encode msg_name)) eqn:Heq;
          [|reflexivity].
        apply bytes_eqb_eq in Heq. contradiction.
Qed.

(** In a file made of a header and of whole messages, the id of the first
    subscription of the topic is returned, provided it starts before
    [max_search_len] and each subscription before it has its three bytes of
    multi-instance and id: messages of other types are skipped by their
    size, subscriptions of other topics are read and passed over. *)
Theorem get_subscription_id_finds_first m_file msg_name max_search_len
    header before lo hi letter payload rest :
  data m_file = header ++ flat_map frame before ++ frame (lo, hi, letter, payload) ++ rest ->
  Z.of_nat (length header) = HEADER_SIZE ->
  Forall framed before -> Forall (other_than msg_name) before ->
  framed (lo, hi, letter, payload) ->
  u8 letter = ord_A -> (3 <= length payload)%nat -> skipn 3 payload = encode msg_name ->
  HEADER_SIZE + Z.of_nat (length (flat_map frame before)) < max_search_len ->
  exists m',
    get_subscription_id HEADER_SIZE m_file msg_name max_search_len
    = Some (inr (u16 (byte_at 1 payload) (byte_at 2 payload)), m').
Proof.
  intros Hdata Hheader Hall Hother Hframed Hletter Hthree Hname Hmax.
  unfold get_subscription_id, seek.
  assert (Hsize : HEADER_SIZE <= size m_file).
  { unfold size. rewrite Hdata, length_app. lia. }
  replace ((HEADER_SIZE <? 0) || (size m_file <? HEADER_SIZE)) with false
    by (symmetry; apply orb_false_iff; split; apply Z.ltb_ge; lia).
  apply find_subscription_first with (lo := lo) (hi := hi) (letter := letter) (rest := rest)
                                     (before := before); try assumption.
  - cbn [position]. unfold size in *. cbn [data]. lia.
  - cbn [position data]. rewrite Hdata, <- Hheader, Nat2Z.id.
    rewrite skipn_app, skipn_all, Nat.sub_diag. reflexivity.
  - pose proof (length_frames before) as Hlen.
    rewrite Hdata, !length_app. lia.
Qed.

End get_subscription_id_facts.

Lemma get_subscription_id_finds_first_witness :
  exists m',
    get_subscription_id UtilsExamples.header_size
      (UtilsExamples.opened UtilsExamples.armed_then_disarmed) "vs" MAX_SEARCH_LENGTH
    = Some (inr 7, m').
Proof.
  apply (@get_subscription_id_finds_first UtilsExamples.header_size
           (UtilsExamples.opened UtilsExamples.armed_then_disarmed) "vs"%string
           MAX_SEARCH_LENGTH UtilsExamples.header
           [(x02, x00, x49, [xaa; xbb])]%byte
           x05%byte x00%byte x41%byte UtilsExamples.subscription
           ([x02; x00; x53] ++ UtilsExamples.sync_bytes
            ++ [x05; x00; x44; x07; x00; x10; x20; x01]
            ++ [x05; x00; x44; x07; x00; x10; x20; x00])%list%byte).
  - reflexivity.
  - reflexivity.
  - repeat constructor.
  - constructor; [left; discriminate|constructor].
  - reflexivity.
  - reflexivity.
  - cbn. lia.
  - reflexivity.
  - cbn. unfold UtilsExamples.header_size, MAX_SEARCH_LENGTH. lia.
Defined.

(** ** reverse_search_for_arm *)

Lemma rfind_below_range (sub d : list byte) (n : nat) :
  rfind_below sub d n = -1 \/ 0 <= rfind_below sub d n < Z.of_nat n.
Proof.
  induction n as [|n IH]; cbn [rfind_below]; [left; reflexivity|].
  destruct (found_at sub d n); [right; lia|].
  destruct IH as [IH|IH]; [left; exact IH|right; lia].
Qed.

(** Where [rfind] finds the bytes, they stand before [stop] in the map. *)
Lemma rfind_range (sub : list byte) (stop : Z) (m_file : mmap) :
  0 <= stop ->
  rfind sub stop m_file = -1
  \/ (0 <= rfind sub stop m_file
      /\ rfind sub stop m_file + Z.of_nat (length sub) <= stop
      /\ rfind sub stop m_file + Z.of_nat (length sub) <= size m_file).
Proof.
  intros Hstop.
  assert (Hneg : (stop <? 0) = false) by (apply Z.ltb_ge; exact Hstop).
  unfold rfind. cbv zeta. rewrite Hneg. cbv beta iota. rewrite Hneg. cbv beta iota.
  set (stop' := if size m_file <? stop then size m_file else stop).
  assert (Hstop' : stop' <= stop /\ stop' <= size m_file).
  { subst stop'. destruct (size m_file <? stop) eqn:Hc;
      [apply Z.ltb_lt in Hc|apply Z.ltb_ge in Hc]; lia. }
  destruct (stop' - Z.of_nat (length sub) <? 0) eqn:Hlast; [left; reflexivity|].
  apply Z.ltb_ge in Hlast.
  destruct (rfind_below_range sub (data m_file)
              (S (Z.to_nat (stop' - Z.of_nat (length sub))))) as [Hr|Hr];
    [left; exact Hr|right]. lia.
Qed.

Section reverse_search_for_arm_facts.

Variable HEADER_SIZE : Z.
Variable SYNC_BYTES : list byte.

(** What the search has seen when [armed] is set: a data message of the
    topic whose byte at the offset tells as much. *)
Local Abbreviation seen d vehicle_status_id arm_reason_offset b :=
  (exists p v, data_message_at d vehicle_status_id p
               /\ reason_at d arm_reason_offset p = Some v
               /\ b = negb (v =? 0)).

Lemma scan_messages_sound vehicle_status_id arm_reason_offset searched_to (fuel : nat) :
  0 <= arm_reason_offset ->
  forall armed m_file,
    0 <= position m_file <= size m_file ->
    size m_file - position m_file < Z.of_nat fuel ->
    (forall b, armed = Some b -> seen (data m_file) vehicle_status_id arm_reason_offset b) ->
    exists res,
      scan_messages fuel vehicle_status_id arm_reason_offset searched_to armed m_file
      = Some res
      /\ match res with
         | Returned b => seen (data m_file) vehicle_status_id arm_reason_offset b
         | Raised e => True
         | Scanned armed' m' =>
             data m' = data m_file
             /\ forall b, armed' = Some b ->
                  seen (data m_file) vehicle_status_id arm_reason_offset b
         end.
Proof.
  intros Hoffset. induction fuel as [|fuel IH]; intros armed m_file Hin Hfuel Harmed; [lia|].
  cbn [scan_messages]. unfold tell.
  destruct (position m_file <? searched_to);
    [|eexists; split; [reflexivity|split; [reflexivity|exact Harmed]]].
  destruct (read_spec (ULOG_MESSAGE_HEADER_SIZE + 2) m_file Hin) as (Hread & Hlen & Hk & Hkn).
  cbv zeta in Hread, Hlen, Hk, Hkn. rewrite Hread. clear Hread.
  set (k := if (ULOG_MESSAGE_HEADER_SIZE + 2 <? 0) || _ then _ else _) in *.
  set (header_and_id := firstn (Z.to_nat k) _) in *.
  destruct (Z.of_nat (length header_and_id) <? ULOG_MESSAGE_HEADER_SIZE + 2) eqn:Hshort;
    [eexists; split; [reflexivity|split; [reflexivity|exact Harmed]]|].
  apply Z.ltb_ge in Hshort. unfold ULOG_MESSAGE_HEADER_SIZE in *.
  assert (Hk5 : k = 5) by lia.
  set (m1 := {| data := data m_file; position := position m_file + k |}).
  assert (Hin1 : 0 <= position m1 <= size m1) by (unfold size in *; cbn; lia).
  set (msg_size := u16 (byte_at 0 header_and_id) (byte_at 1 header_and_id)).
  assert (Hsize : 0 <= msg_size) by apply u16_nonneg.
  assert (Hbyte : forall i, (i < 5)%nat ->
            byte_at i header_and_id = byte_at (Z.to_nat (position m_file) + i) (data m_file)).
  { intros i Hi. subst header_and_id. rewrite byte_at_firstn by lia. apply byte_at_skipn. }
  destruct (negb (u8 (byte_at 2 header_and_id) =? ord_D)
            || negb (u16 (byte_at 3 header_and_id) (byte_at 4 header_and_id)
                     =? vehicle_status_id)) eqn:Hother.
  - (* a message of another type or topic: skipped *)
    unfold seek_cur, seek.
    destruct ((position m1 + (msg_size - 2) <? 0) || (size m1 <? position m1 + (msg_size - 2)))
      eqn:Hseek; [eexists; split; [reflexivity|exact I]|].
    apply orb_false_iff in Hseek. destruct Hseek as [_ Hseek]. apply Z.ltb_ge in Hseek.
    destruct (IH armed {| data := data m1; position := position m1 + (msg_size - 2) |})
      as (res & Hrun & Hres).
    + unfold size in *. cbn in *. lia.
    + unfold size in *. cbn in *. lia.
    + exact Harmed.
    + exists res. split; [exact Hrun|exact Hres].
  - (* a data message of the topic *)
    apply orb_false_iff in Hother. destruct Hother as [Htype Hid].
    apply negb_false_iff, Z.eqb_eq in Htype. apply negb_false_iff, Z.eqb_eq in Hid.
    rewrite Hbyte in Htype, Hid by lia. rewrite (Hbyte 4%nat) in Hid by lia.
    assert (Hmessage : data_message_at (data m_file) vehicle_status_id
                         (Z.to_nat (position m_file))).
    { split; [|split; [exact Htype|exact Hid]].
      pose proof Hlen as Hlen'. subst header_and_id.
      rewrite length_firstn, length_skipn in Hlen'. lia. }
    destruct (read_spec (msg_size - 2) m1 Hin1) as (Hread & Hlen2 & Hk2 & _).
    cbv zeta in Hread, Hlen2, Hk2. rewrite Hread. clear Hread.
    set (k2 := if (msg_size - 2 <? 0) || _ then _ else _) in *.
    set (message_bytes := firstn (Z.to_nat k2) _) in *.
    set (m2 := {| data := data m1; position := position m1 + k2 |}).
    destruct (Z.of_nat (length message_bytes) <? msg_size - 2);
      [eexists; split; [reflexivity|split; [reflexivity|exact Harmed]]|].
    unfold getitem.
    replace (arm_reason_offset <? 0) with false by (symmetry; apply Z.ltb_ge; exact Hoffset).
    replace (arm_reason_offset <? 0) with false by (symmetry; apply Z.ltb_ge; exact Hoffset).
    cbn [orb].
    destruct (Z.of_nat (length message_bytes) <=? arm_reason_offset) eqn:Hindex;
      [eexists; split; [reflexivity|exact I]|].
    apply Z.leb_gt in Hindex.
    assert (Hreason : reason_at (data m_file) arm_reason_offset (Z.to_nat (position m_file))
                      = Some (u8 (byte_at (Z.to_nat arm_reason_offset) message_bytes))).
    { unfold reason_at.
      replace (_ <? length (data m_file))%nat with true.
      - f_equal. f_equal. subst message_bytes. rewrite byte_at_firstn by lia.
        rewrite byte_at_skipn. f_equal. subst m1. cbn. lia.
      - symmetry. apply Nat.ltb_lt. unfold size in *. cbn in *. lia. }
    destruct (negb (u8 (byte_at (Z.to_nat arm_reason_offset) message_bytes) =? 0)) eqn:Harm.
    + eexists. split; [reflexivity|].
      exists (Z.to_nat (position m_file)), (u8 (byte_at (Z.to_nat arm_reason_offset) message_bytes)).
      split; [exact Hmessage|]. split; [exact Hreason|]. symmetry. exact Harm.
    + destruct (IH (Some false) m2) as (res & Hrun & Hres).
      * unfold size in *. cbn in *. lia.
      * unfold size in *. cbn in *. lia.
      * intros b [= <-].
        exists (Z.to_nat (position m_file)),
               (u8 (byte_at (Z.to_nat arm_reason_offset) message_bytes)).
        split; [exact Hmessage|]. split; [exact Hreason|]. symmetry. exact Harm.
      * exists res. split; [exact Hrun|exact Hres].
Qed.

Lemma search_back_sound vehicle_status_id arm_reason_offset (fuel : nat) :
  0 <= HEADER_SIZE -> 0 <= arm_reason_offset ->
  forall offset searched_to m_file,
    offset <= size m_file ->
    offset - HEADER_SIZE + 1 < Z.of_nat fuel -> (0 < fuel)%nat ->
    exists r,
      search_back HEADER_SIZE SYNC_BYTES fuel vehicle_status_id arm_reason_offset
                  offset searched_to None m_file = Some r
      /\ forall b, r = inr b -> seen (data m_file) vehicle_status_id arm_reason_offset b.
Proof.
  intros Hheader Hoffset.
  induction fuel as [|fuel IH]; intros offset searched_to m_file Hsize Hfuel Hpos; [lia|].
  cbn [search_back].
  destruct (HEADER_SIZE <=? offset) eqn:Hloop;
    [|eexists; split; [reflexivity|discriminate]].
  apply Z.leb_le in Hloop.
  set (found := rfind SYNC_BYTES offset m_file).
  assert (Hfound : found = -1
                   \/ (0 <= found /\ found + Z.of_nat (length SYNC_BYTES) <= offset
                       /\ found + Z.of_nat (length SYNC_BYTES) <= size m_file))
    by (apply rfind_range; lia).
  set (offset' := if found =? -1 then HEADER_SIZE else found).
  set (target := if found =? -1 then offset' else offset' + Z.of_nat (length SYNC_BYTES)).
  assert (Htarget : 0 <= target <= size m_file /\ offset' <= offset).
  { subst target offset'. destruct (found =? -1) eqn:Hminus.
    - lia.
    - apply Z.eqb_neq in Hminus. destruct Hfound as [Hfound|Hfound]; lia. }
  unfold seek.
  replace ((target <? 0) || (size m_file <? target)) with false
    by (symmetry; apply orb_false_iff; split; apply Z.ltb_ge; lia).
  destruct (@scan_messages_sound vehicle_status_id arm_reason_offset searched_to
              (S (length (data m_file))) Hoffset None
              {| data := data m_file; position := target |})
    as (res & Hrun & Hres).
  - unfold size in *. cbn. lia.
  - unfold size in *. cbn. lia.
  - discriminate.
  - rewrite Hrun. destruct res as [b|e|[b|] m2].
    + eexists. split; [reflexivity|]. intros b' [= <-]. exact Hres.
    + eexists. split; [reflexivity|discriminate].
    + eexists. split; [reflexivity|]. intros b' [= <-].
      destruct Hres as [_ Hres]. exact (Hres b eq_refl).
    + destruct Hres as [Hdata _].
      destruct (IH (offset' - 1) offset' m2) as (r & Hback & Hr).
      * unfold size in *. rewrite Hdata. cbn [data]. lia.
      * lia.
      * lia.
      * exists r. split; [exact Hback|]. rewrite Hdata in Hr. exact Hr.
Qed.

(** [reverse_search_for_arm] ends on every file.  It returns True only when
    a data message of the topic stands in the file with a byte that is not
    zero at the offset of the arming reason in its payload, and False only
    when one stands there with a zero byte. *)
Theorem reverse_search_for_arm_sound m_file vehicle_status_id arm_reason_offset :
  0 <= HEADER_SIZE -> 0 <= arm_reason_offset ->
  exists r,
    reverse_search_for_arm HEADER_SIZE SYNC_BYTES m_file vehicle_status_id arm_reason_offset
    = Some r
    /\ forall b, r = inr b ->
         exists p v, data_message_at (data m_file) vehicle_status_id p
                     /\ reason_at (data m_file) arm_reason_offset p = Some v
                     /\ b = negb (v =? 0).
Proof.
  intros Hheader Hoffset. unfold reverse_search_for_arm.
  apply search_back_sound; [exact Hheader|exact Hoffset|lia| |lia].
  unfold size. lia.
Qed.

End reverse_search_for_arm_facts.

Lemma reverse_search_for_arm_sound_witness :
  reverse_search_for_arm UtilsExamples.header_size UtilsExamples.sync_bytes
    (UtilsExamples.opened UtilsExamples.armed_then_disarmed) 7 2
  = Some (inr true)
  /\ exists p v,
       data_message_at UtilsExamples.armed_then_disarmed 7 p
       /\ reason_at UtilsExamples.armed_then_disarmed 2 p = Some v
       /\ true = negb (v =? 0).
Proof.
  assert (Hrun : reverse_search_for_arm UtilsExamples.header_size UtilsExamples.sync_bytes
                   (UtilsExamples.opened UtilsExamples.armed_then_disarmed) 7 2
                 = Some (inr true)) by (vm_compute; reflexivity).
  split; [exact Hrun|].
  destruct (@reverse_search_for_arm_sound UtilsExamples.header_size UtilsExamples.sync_bytes
              (UtilsExamples.opened UtilsExamples.armed_then_disarmed) 7 2)
    as (r & Hr & Hseen).
  - unfold UtilsExamples.header_size. lia.
  - lia.
  - apply Hseen. rewrite Hrun in Hr. injection Hr as <-. reflexivity.
Defined.

(** ** check_if_log_was_armed *)

Section check_if_log_was_armed_facts.

Variable HEADER_SIZE : Z.
Variable SYNC_BYTES : list byte.
Variable get_field_size : string -> Exn + Z.
Variable ULog_message_formats :
  FileSystem -> string -> Exn + dict string DatabaseMessageFormat.t.

(** With sizes and array lengths that are not negative, an offset is not
    negative. *)
Lemma find_field_offset_from_nonneg fields target :
  (forall t z, get_field_size t = inr z -> 0 <= z) ->
  Forall (fun field : string * Z * string => 0 <= snd (fst field)) fields ->
  forall start offset,
    0 <= start ->
    find_field_offset_from get_field_size start fields target = inr offset ->
    0 <= offset.
Proof.
  intros Hsizes Hlengths.
  induction Hlengths as [|[[t a] n] fields Ha _ IH]; intros start offset Hstart;
    cbn [find_field_offset_from]; [discriminate|].
  cbn [fst snd] in Ha.
  destruct (String.eqb n ""); [apply IH, Hstart|].
  destruct (String.eqb n target); [intros [= <-]; exact Hstart|].
  destruct (get_field_size t) as [[]|field_size] eqn:Hsize; try discriminate.
  apply IH. pose proof (Hsizes t field_size Hsize).
  destruct (a =? 0); nia.
Qed.

(** [check_if_log_was_armed] ends on every file.  When it returns, the log
    has the format of vehicle_status with the field latest_arming_reason,
    a subscription of vehicle_status stands in the file, and so does a data
    message of the id of that subscription whose byte at the offset of the
    field is zero or not as the result says. *)
Theorem check_if_log_was_armed_sound fs ulog_path max_search_len :
  0 <= HEADER_SIZE ->
  (forall t z, get_field_size t = inr z -> 0 <= z) ->
  (forall formats format,
     ULog_message_formats fs ulog_path = inr formats ->
     dict_get "vehicle_status"%string formats = Some format ->
     Forall (fun field : string * Z * string => 0 <= snd (fst field))
            (DatabaseMessageFormat.fields format)) ->
  exists r,
    check_if_log_was_armed HEADER_SIZE SYNC_BYTES get_field_size ULog_message_formats
                           fs ulog_path max_search_len = Some r
    /\ forall armed, r = inr armed ->
         exists bytes formats format id offset q p v,
           fs ulog_path = Some bytes
           /\ ULog_message_formats fs ulog_path = inr formats
           /\ dict_get "vehicle_status"%string formats = Some format
           /\ find_field_offset get_field_size format "latest_arming_reason" = inr offset
           /\ subscription_at bytes "vehicle_status" id q
           /\ data_message_at bytes id p
           /\ reason_at bytes offset p = Some v
           /\ armed = negb (v =? 0).
Proof.
  intros Hheader Hsizes Hlengths. unfold check_if_log_was_armed.
  destruct (ULog_message_formats fs ulog_path) as [e|formats] eqn:Hformats;
    [eexists; split; [reflexivity|discriminate]|].
  destruct (dict_get "vehicle_status"%string formats) as [format|] eqn:Hformat;
    [|eexists; split; [reflexivity|discriminate]].
  destruct (fs ulog_path) as [bytes|] eqn:Hfile;
    [|eexists; split; [reflexivity|discriminate]].
  destruct bytes as [|b bytes]; [eexists; split; [reflexivity|discriminate]|].
  set (f_mem := {| data := b :: bytes; position := 0 |}).
  set (limit := match max_search_len with
                | Some n => Z.min (size f_mem) n
                | None => size f_mem
                end).
  assert (Hsub : exists r m',
             get_subscription_id HEADER_SIZE f_mem "vehicle_status" limit = Some (r, m')
             /\ data m' = data f_mem
             /\ forall msg_id, r = inr msg_id ->
                  exists q, subscription_at (data f_mem) "vehicle_status" msg_id q).
  { unfold get_subscription_id, seek.
    destruct ((HEADER_SIZE <? 0) || (size f_mem <? HEADER_SIZE)) eqn:Hseek;
      [eexists _, _; split; [reflexivity|split; [reflexivity|discriminate]]|].
    apply orb_false_iff in Hseek. destruct Hseek as [_ Hhi]. apply Z.ltb_ge in Hhi.
    destruct (@find_subscription_sound "vehicle_status"%string limit
                (S (length (data f_mem))) {| data := data f_mem; position := HEADER_SIZE |})
      as (r & m' & Hrun & Hdata & Hsound).
    - unfold size in *. cbn [data position]. lia.
    - unfold size in *. cbn [data position]. lia.
    - exists r, m'. split; [exact Hrun|]. split; [exact Hdata|].
      intros msg_id Hr. destruct (Hsound msg_id Hr) as (q & _ & Hq). exists q. exact Hq. }
  destruct Hsub as (r & m' & Hrun & Hdata & Hsound). rewrite Hrun.
  destruct r as [e|id]; [eexists; split; [reflexivity|discriminate]|].
  destruct (Hsound id eq_refl) as (q & Hq).
  destruct (find_field_offset get_field_size format "latest_arming_reason")
    as [e|offset] eqn:Hoffset; [eexists; split; [reflexivity|discriminate]|].
  assert (Hnonneg : 0 <= offset).
  { unfold find_field_offset in Hoffset.
    apply (@find_field_offset_from_nonneg (DatabaseMessageFormat.fields format)
             "latest_arming_reason"%string Hsizes (Hlengths formats format eq_refl Hformat)
             0 offset); [lia|exact Hoffset]. }
  destruct (@search_back_sound HEADER_SIZE SYNC_BYTES id offset (S (S (length (data m'))))
              Hheader Hnonneg (size m') (size m') m') as (res & Hback & Hseen).
  - lia.
  - unfold size. lia.
  - lia.
  - unfold reverse_search_for_arm. rewrite Hback.
    destruct res as [e|armed]; [eexists; split; [reflexivity|discriminate]|].
    eexists. split; [reflexivity|]. intros armed' [= <-].
    destruct (Hseen armed eq_refl) as (p & v & Hp & Hv & Harmed).
    rewrite Hdata in Hp, Hv.
    exists (b :: bytes), formats, format, id, offset, q, p, v.
    repeat split; try assumption; try reflexivity; apply Hp.
Qed.

End check_if_log_was_armed_facts.

Lemma check_if_log_was_armed_sound_witness :
  check_if_log_was_armed UtilsExamples.header_size UtilsExamples.sync_bytes
    UtilsExamples.field_size UtilsExamples.formats_of UtilsExamples.flight_fs
    "flight.ulg" (Some MAX_SEARCH_LENGTH)
  = Some (inr true)
  /\ exists id offset q p v,
       subscription_at UtilsExamples.flight "vehicle_status" id q
       /\ data_message_at UtilsExamples.flight id p
       /\ reason_at UtilsExamples.flight offset p = Some v
       /\ true = negb (v =? 0).
Proof.
  assert (Hrun : check_if_log_was_armed UtilsExamples.header_size UtilsExamples.sync_bytes
                   UtilsExamples.field_size UtilsExamples.formats_of UtilsExamples.flight_fs
                   "flight.ulg" (Some MAX_SEARCH_LENGTH)
                 = Some (inr true)) by (vm_compute; reflexivity).
  split; [exact Hrun|].
  destruct (@check_if_log_was_armed_sound UtilsExamples.header_size UtilsExamples.sync_bytes
              UtilsExamples.field_size UtilsExamples.formats_of UtilsExamples.flight_fs
              "flight.ulg"%string (Some MAX_SEARCH_LENGTH))
    as (r & Hr & Hseen).
  - unfold UtilsExamples.header_size. lia.
  - intros t z. unfold UtilsExamples.field_size.
    destruct (subscript Examples.unpack_types t) as [exc|[[letter size] numpy_type]];
      [discriminate|].
    intros [= <-]. lia.
  - intros formats format [= <-] Hformat. cbn in Hformat. injection Hformat as <-.
    cbn. repeat (apply Forall_cons; [cbn; lia|]). apply Forall_nil.
  - rewrite Hrun in Hr. injection Hr as <-.
    destruct (Hseen true eq_refl)
      as (bytes & formats & format & id & offset & q & p & v & Hfile & _ & _ & _
          & Hq & Hp & Hv & Harmed).
    assert (Hbytes : bytes = UtilsExamples.flight).
    { assert (Hfs : UtilsExamples.flight_fs "flight.ulg"%string = Some UtilsExamples.flight)
        by reflexivity.
      congruence. }
    subst bytes. exists id, offset, q, p, v.
    split; [exact Hq|]. split; [exact Hp|]. split; [exact Hv|exact Harmed].
Defined.
